(** * XENIFACE ioctl core: grants, foreign maps, event channels, store watches

    A shallow embedding of [src/xeniface/ioctls.c] and of its later split-off
    copy [src/xeniface/ioctl_gnttab.c] (the grant-table handlers of the two
    files are the same code, statement for statement).

    Conventions of the embedding:
    - a pointer is a [Z], [NULL] is 0;
    - a [ULONG] is a [Z] and every [ULONG] product is written with its
      wrap-around at 2^32 ([ULONG_mul]);
    - an [NTSTATUS] is the signed 32-bit value, [NT_SUCCESS] is [0 <= s];
    - kernel and bus calls are recorded, in program order, as a list of
      [event]s; what the kernel or the bus answers is read from an explicit
      environment record ([KERNEL_ENV]);
    - the [goto failN] ladders are functions [failN] that fall through to
      the next label, as the labels of the C code do;
    - the driver's LIST_ENTRY lists are Rocq lists of context records, each
      carrying its own address ([Self]). *)

From stdpp Require Import base functions list.
From Stdlib Require Import ZArith Lia.

Open Scope Z_scope.

(** ** Machine integers and status codes *)

Definition NULL : Z := 0.

Definition ULONG_MODULUS : Z := 2 ^ 32.

(** Product of two ULONG operands, as C computes it. *)
Definition ULONG_mul (a b : Z) : Z := (a * b) mod ULONG_MODULUS.

Definition PAGE_SIZE : Z := 0x1000.

Definition NTSTATUS := Z.

(** The 32-bit pattern of a status code read as a signed LONG. *)
Definition ntstatus (bits : Z) : NTSTATUS :=
  if bits <? 2 ^ 31 then bits else bits - 2 ^ 32.

Definition STATUS_SUCCESS : NTSTATUS := ntstatus 0x00000000.
Definition STATUS_PENDING : NTSTATUS := ntstatus 0x00000103.
Definition STATUS_UNSUCCESSFUL : NTSTATUS := ntstatus 0xC0000001.
Definition STATUS_INVALID_PARAMETER : NTSTATUS := ntstatus 0xC000000D.
Definition STATUS_NO_MEMORY : NTSTATUS := ntstatus 0xC0000017.
Definition STATUS_CANCELLED : NTSTATUS := ntstatus 0xC0000120.
Definition STATUS_INVALID_BUFFER_SIZE : NTSTATUS := ntstatus 0xC0000206.
Definition STATUS_NOT_FOUND : NTSTATUS := ntstatus 0xC0000225.

Definition NT_SUCCESS (status : NTSTATUS) : bool := 0 <=? status.

(** Flag bits of XENIFACE_GNTTAB_PAGE_FLAGS.  [xeniface_ioctls.h] is not part
    of the sources at hand; the handlers only test single bits, and the
    values below are the ones of the public header. *)
Definition XENIFACE_GNTTAB_READONLY : Z := 1.
Definition XENIFACE_GNTTAB_USE_NOTIFY_OFFSET : Z := 2.
Definition XENIFACE_GNTTAB_USE_NOTIFY_PORT : Z := 4.

Definition flag_set (Flags bit : Z) : bool := negb (Z.land Flags bit =? 0).

(** Sizes of the fixed parts of the ioctl messages and of the context
    structures.  They come from headers that are not part of the sources at
    hand, so the handlers take them as a parameter. *)
Record Layout := {
  sizeof_PVOID : Z;
  sizeof_GRANT_CONTEXT : Z;
  sizeof_MAP_CONTEXT : Z;
  sizeof_PERMIT_FOREIGN_ACCESS_IN : Z;
  sizeof_GET_GRANT_RESULT_IN : Z;
  sizeof_GET_GRANT_RESULT_OUT : Z;
  sizeof_REVOKE_FOREIGN_ACCESS_IN : Z;
  sizeof_MAP_FOREIGN_PAGES_IN : Z;
  sizeof_GET_MAP_RESULT_IN : Z;
  sizeof_GET_MAP_RESULT_OUT : Z;
  sizeof_UNMAP_FOREIGN_PAGES_IN : Z;
  sizeof_STORE_REMOVE_WATCH_IN : Z;
  sizeof_EVTCHN_CLOSE_IN : Z
}.

Definition sizeof_ULONG : Z := 4.

(** Arithmetic that involves a [sizeof] is done in [size_t]. *)
Definition SIZE_T (L : Layout) (z : Z) : Z := z mod 2 ^ (8 * sizeof_PVOID L).

(** ** Contexts *)

Inductive XENIFACE_CONTEXT_TYPE :=
| XENIFACE_CONTEXT_GRANT
| XENIFACE_CONTEXT_MAP.

Record XENIFACE_CONTEXT_ID := {
  Id_Type : XENIFACE_CONTEXT_TYPE;
  Id_Process : Z;
  Id_RequestId : Z
}.

Record XENIFACE_GRANT_CONTEXT := {
  Grant_Self : Z;
  Grant_Process : Z;
  Grant_RequestId : Z;
  Grant_RemoteDomain : Z;
  Grant_NumberPages : Z;
  Grant_Flags : Z;
  Grant_NotifyOffset : Z;
  Grant_NotifyPort : Z;
  Grant_GrantsVa : Z;
  Grant_Grants : list Z;
  Grant_KernelVa : Z;
  Grant_Mdl : Z;
  Grant_UserVa : Z
}.

Record XENIFACE_MAP_CONTEXT := {
  Map_Self : Z;
  Map_Process : Z;
  Map_RequestId : Z;
  Map_RemoteDomain : Z;
  Map_NumberPages : Z;
  Map_Flags : Z;
  Map_NotifyOffset : Z;
  Map_NotifyPort : Z;
  Map_Address : Z;
  Map_KernelVa : Z;
  Map_Mdl : Z;
  Map_UserVa : Z
}.

Record XENIFACE_STORE_CONTEXT := {
  Store_Self : Z;
  Store_FileObject : Z;
  Store_Event : Z;
  Store_Watch : Z
}.

Record XENIFACE_EVTCHN_CONTEXT := {
  Evtchn_Self : Z;
  Evtchn_FileObject : Z;
  Evtchn_Channel : Z;
  Evtchn_LocalPort : Z;
  Evtchn_Event : Z;
  Evtchn_Active : bool
}.

(** What an IRP parked in the queue carries in DriverContext[0]: the Id
    embedded in its grant or map context (CONTAINING_RECORD gives the
    context back).  [Id.Type] is written once, when the context is made, and
    always names the kind of the containing context, so the embedding reads
    it off the constructor. *)
Inductive GNTTAB_CONTEXT :=
| GrantContext (Context : XENIFACE_GRANT_CONTEXT)
| MapContext (Context : XENIFACE_MAP_CONTEXT).

Definition ContextId (c : GNTTAB_CONTEXT) : XENIFACE_CONTEXT_ID :=
  match c with
  | GrantContext g =>
      {| Id_Type := XENIFACE_CONTEXT_GRANT;
         Id_Process := Grant_Process g;
         Id_RequestId := Grant_RequestId g |}
  | MapContext m =>
      {| Id_Type := XENIFACE_CONTEXT_MAP;
         Id_Process := Map_Process m;
         Id_RequestId := Map_RequestId m |}
  end.

Record PENDING_IRP := {
  Irp : Z;
  DriverContext : GNTTAB_CONTEXT
}.

Record XENIFACE_FDO := {
  StoreWatchList : list XENIFACE_STORE_CONTEXT;
  EvtchnList : list XENIFACE_EVTCHN_CONTEXT;
  IrpQueue : list PENDING_IRP
}.

Definition set_IrpQueue (Fdo : XENIFACE_FDO) (q : list PENDING_IRP) : XENIFACE_FDO :=
  {| StoreWatchList := StoreWatchList Fdo; EvtchnList := EvtchnList Fdo; IrpQueue := q |}.

Definition set_StoreWatchList (Fdo : XENIFACE_FDO) (l : list XENIFACE_STORE_CONTEXT) : XENIFACE_FDO :=
  {| StoreWatchList := l; EvtchnList := EvtchnList Fdo; IrpQueue := IrpQueue Fdo |}.

Definition set_EvtchnList (Fdo : XENIFACE_FDO) (l : list XENIFACE_EVTCHN_CONTEXT) : XENIFACE_FDO :=
  {| StoreWatchList := StoreWatchList Fdo; EvtchnList := l; IrpQueue := IrpQueue Fdo |}.

(** ** Events and environment *)

Inductive LOCK := StoreWatchLock | EvtchnLock.

(** What MmMapLockedPagesSpecifyCache does inside the __try block. *)
Inductive MAP_LOCKED :=
| MapReturned (UserVa : Z)
| MapRaised (ExceptionCode : NTSTATUS).

Inductive event :=
| EvAllocatePool (p : Z) (bytes : Z)
| EvFreePool (p : Z)
| EvAllocateMdl (mdl va bytes : Z)
| EvFreeMdl (mdl : Z)
| EvPermitForeignAccess (domain : Z) (page : nat) (readonly : bool)
                        (status : NTSTATUS) (entry : Z)
| EvRevokeForeignAccess (entry : Z)
| EvMapForeignPages (domain pages : Z) (refs : list Z) (readonly : Z)
                    (status : NTSTATUS) (address : Z)
| EvUnmapForeignPages (address : Z)
| EvMapIoSpace (address bytes va : Z)
| EvUnmapIoSpace (va bytes : Z)
| EvMapLockedPages (mdl : Z) (r : MAP_LOCKED)
| EvUnmapLockedPages (uva mdl : Z)
| EvNotifyOffset (kva offset : Z)
| EvEvtchnSend (channel : Z)
| EvCsqInsert (irp : Z) (status : NTSTATUS)
| EvCsqRemove (irp : Z)
| EvCompleteRequest (irp : Z) (status : NTSTATUS)
| EvAcquireLock (l : LOCK)
| EvReleaseLock (l : LOCK)
| EvWatchRemove (watch : Z)
| EvDereferenceObject (object : Z)
| EvSetActive (context : Z) (active : bool)
| EvEvtchnClose (channel : Z)
| EvFlushQueuedDpcs
| EvSetEvent (object : Z)
| EvEvtchnUnmask (channel : Z)
| EvInsertQueueDpc (context : Z)
| EvAttachProcess (process : Z)
| EvDetachProcess
| EvFreeWorkItem.

Record KERNEL_ENV := {
  PsGetCurrentProcess : Z;
  AllocContext : Z;
  AllocGrants : Z;
  AllocKernelVa : Z;
  AllocMdl : Z;
  GnttabPermit : nat -> NTSTATUS * Z;
  GnttabMap : NTSTATUS * Z;
  GnttabGetReference : Z -> Z;
  MapIoSpace : Z;
  MapLockedPages : MAP_LOCKED;
  (** what other requests did to the queue between the first uniqueness
      check and the insertion (the handlers do not hold the queue lock in
      between).  The insertion is the one place where a handler looks at
      the queue again: it is made into [Concurrent env Queue], and that is
      the queue the handler leaves, with its request appended when the
      insertion succeeds and as it is when the insertion is refused.  A
      handler that fails before the insertion has not touched the queue,
      and the FDO it gives back is the one it was given. *)
  Concurrent : list PENDING_IRP -> list PENDING_IRP
}.

(** ** The cancel-safe IRP queue *)

Definition ContextTypeEq (a b : XENIFACE_CONTEXT_TYPE) : bool :=
  match a, b with
  | XENIFACE_CONTEXT_GRANT, XENIFACE_CONTEXT_GRANT => true
  | XENIFACE_CONTEXT_MAP, XENIFACE_CONTEXT_MAP => true
  | _, _ => false
  end.

Definition ContextIdEq (a b : XENIFACE_CONTEXT_ID) : bool :=
  ContextTypeEq (Id_Type a) (Id_Type b)
  && (Id_Process a =? Id_Process b)
  && (Id_RequestId a =? Id_RequestId b).

(** Modelled from the spec: [irp_queue.c] (CsqPeekNextIrp, CsqInsertIrpEx and
    the removal callback behind IoCsqRemoveNextIrp) is not part of the
    sources at hand.  The spec's contract: peek returns the operation
    registered under an id (client, number, kind) without removing it. *)
Fixpoint CsqPeekNextIrp (Queue : list PENDING_IRP) (Id : XENIFACE_CONTEXT_ID)
  : option PENDING_IRP :=
  match Queue with
  | [] => None
  | p :: rest =>
      if ContextIdEq (ContextId (DriverContext p)) Id then Some p
      else CsqPeekNextIrp rest Id
  end.

(** Modelled from the spec: insertion fails if an operation with the same id
    is already registered, and a duplicate id is reported as
    invalid-parameter. *)
Definition CsqInsertIrpEx (Queue : list PENDING_IRP) (p : PENDING_IRP)
  : NTSTATUS * list PENDING_IRP :=
  match CsqPeekNextIrp Queue (ContextId (DriverContext p)) with
  | Some _ => (STATUS_INVALID_PARAMETER, Queue)
  | None => (STATUS_SUCCESS, Queue ++ [p])
  end.

(** Modelled from the spec: remove atomically removes and returns the
    operation registered under the id, or finds nothing. *)
Fixpoint IoCsqRemoveNextIrp (Queue : list PENDING_IRP) (Id : XENIFACE_CONTEXT_ID)
  : option PENDING_IRP * list PENDING_IRP :=
  match Queue with
  | [] => (None, [])
  | p :: rest =>
      if ContextIdEq (ContextId (DriverContext p)) Id then (Some p, rest)
      else let '(r, rest') := IoCsqRemoveNextIrp rest Id in (r, p :: rest')
  end.

Definition FindGnttabIrp (Fdo : XENIFACE_FDO) (Id : XENIFACE_CONTEXT_ID)
  : option PENDING_IRP :=
  CsqPeekNextIrp (IrpQueue Fdo) Id.

(** ** Event channels: lookup and notify *)

(** EvtchnFindChannel: first channel of the list with that local port and,
    when a file object is given, that owner. *)
Fixpoint EvtchnFindChannel (List : list XENIFACE_EVTCHN_CONTEXT)
    (LocalPort FileObject : Z) : option XENIFACE_EVTCHN_CONTEXT :=
  match List with
  | [] => None
  | Context :: Node =>
      if negb (Evtchn_LocalPort Context =? LocalPort) then
        EvtchnFindChannel Node LocalPort FileObject
      else if negb (FileObject =? NULL)
              && negb (Evtchn_FileObject Context =? FileObject) then
        EvtchnFindChannel Node LocalPort FileObject
      else Some Context
  end.

Definition EvtchnNotify (Fdo : XENIFACE_FDO) (LocalPort FileObject : Z)
  : NTSTATUS * list event :=
  match EvtchnFindChannel (EvtchnList Fdo) LocalPort FileObject with
  | None =>
      (STATUS_NOT_FOUND, [EvAcquireLock EvtchnLock; EvReleaseLock EvtchnLock])
  | Some Context =>
      (STATUS_SUCCESS,
       [EvAcquireLock EvtchnLock; EvEvtchnSend (Evtchn_Channel Context);
        EvReleaseLock EvtchnLock])
  end.

(** ** Grants *)

(** [a[i]] for an array held as a list; the arrays are zero-filled when
    they are allocated. *)
Definition array_read (a : list Z) (i : nat) : Z := default NULL (a !! i).

(** The "stop sharing" loop of GnttabFreeGrant:
    [for (Page = 0; Page < NumberPages; Page++) Revoke(Grants[Page])];
    [count] is the number of iterations left. *)
Fixpoint RevokeForward (Grants : list Z) (count Page : nat) : list event :=
  match count with
  | O => []
  | S count' =>
      EvRevokeForeignAccess (array_read Grants Page)
      :: RevokeForward Grants count' (S Page)
  end.

(** Modelled from the spec: the ASSERT macro ([assert.h] is not part of the
    sources at hand).  The two unwinding ladders make their bus call inside
    the macro, [ASSERT(NT_SUCCESS(XENBUS_GNTTAB(...)))]; the spec has the
    call made on these paths and treats its failure as fatal, so ASSERT
    evaluates its argument, and the embedding describes the runs in which
    the asserted condition holds. *)
Definition ASSERT (evaluated : list event) : list event := evaluated.

(** The unwinding loop at label fail8:
    [while (Page > 0) { ASSERT(NT_SUCCESS(Revoke(Grants[Page - 1]))); --Page; }]. *)
Fixpoint RevokeBackward (Grants : list Z) (Page : nat) : list event :=
  match Page with
  | O => []
  | S Page' =>
      ASSERT [EvRevokeForeignAccess (array_read Grants Page')]
      ++ RevokeBackward Grants Page'
  end.

(** The notification step shared by GnttabFreeGrant and GnttabFreeMap. *)
Definition GnttabNotify (Fdo : XENIFACE_FDO)
    (Flags KernelVa NotifyOffset NotifyPort : Z) : list event :=
  (if flag_set Flags XENIFACE_GNTTAB_USE_NOTIFY_OFFSET
   then [EvNotifyOffset KernelVa NotifyOffset] else [])
  ++ (if flag_set Flags XENIFACE_GNTTAB_USE_NOTIFY_PORT
      then snd (EvtchnNotify Fdo NotifyPort NULL) else []).

Definition GnttabFreeGrant (Fdo : XENIFACE_FDO)
    (Context : XENIFACE_GRANT_CONTEXT) : list event :=
  GnttabNotify Fdo (Grant_Flags Context) (Grant_KernelVa Context)
               (Grant_NotifyOffset Context) (Grant_NotifyPort Context)
  ++ [EvUnmapLockedPages (Grant_UserVa Context) (Grant_Mdl Context)]
  ++ RevokeForward (Grant_Grants Context)
                   (Z.to_nat (Grant_NumberPages Context)) 0
  ++ [EvFreeMdl (Grant_Mdl Context);
      EvFreePool (Grant_KernelVa Context);
      EvFreePool (Grant_GrantsVa Context);
      EvFreePool (Grant_Self Context)].

Record XENIFACE_GNTTAB_PERMIT_FOREIGN_ACCESS_IN := {
  Permit_RemoteDomain : Z;
  Permit_NumberPages : Z;
  Permit_Flags : Z;
  Permit_NotifyOffset : Z;
  Permit_NotifyPort : Z;
  Permit_RequestId : Z
}.

(** The range test shared by PermitForeignAccess and MapForeignPages
    ([true] is the branch to fail2).  [NumberPages * PAGE_SIZE] is a ULONG
    product. *)
Definition GnttabBadPages (NumberPages Flags NotifyOffset : Z) : bool :=
  (NumberPages =? 0)
  || (NumberPages >? 1024 * 1024)
  || (flag_set Flags XENIFACE_GNTTAB_USE_NOTIFY_OFFSET
      && (NotifyOffset >=? ULONG_mul NumberPages PAGE_SIZE)).

(** The "perform sharing" loop.  Result: the status that made the loop
    leave through [goto fail8] if any, the value of [Page] at the exit, the
    Grants array and the bus calls made. *)
Fixpoint PermitLoop (env : KERNEL_ENV) (RemoteDomain : Z) (ReadOnly : bool)
    (count Page : nat) (Grants : list Z)
  : option NTSTATUS * nat * list Z * list event :=
  match count with
  | O => (None, Page, Grants, [])
  | S count' =>
      let '(status, entry) := GnttabPermit env Page in
      let Grants' := <[Page := entry]> Grants in
      let ev := EvPermitForeignAccess RemoteDomain Page ReadOnly status entry in
      if NT_SUCCESS status then
        let '(r, Page', Grants'', tr) :=
          PermitLoop env RemoteDomain ReadOnly count' (S Page) Grants' in
        (r, Page', Grants'', ev :: tr)
      else (Some status, Page, Grants', [ev])
  end.

Section PermitUnwind.
Variables (Context GrantsVa KernelVa Mdl : Z).

Definition Permit_fail4 : list event := [EvFreePool Context].
Definition Permit_fail6 : list event := EvFreePool GrantsVa :: Permit_fail4.
Definition Permit_fail7 : list event := EvFreePool KernelVa :: Permit_fail6.
Definition Permit_fail8 (Grants : list Z) (Page : nat) : list event :=
  RevokeBackward Grants Page ++ EvFreeMdl Mdl :: Permit_fail7.
Definition Permit_fail11 (UserVa : Z) (Grants : list Z) (Page : nat)
  : list event :=
  EvUnmapLockedPages UserVa Mdl :: Permit_fail8 Grants Page.
End PermitUnwind.

Definition IoctlGnttabPermitForeignAccess (L : Layout) (env : KERNEL_ENV)
    (Fdo : XENIFACE_FDO) (In : XENIFACE_GNTTAB_PERMIT_FOREIGN_ACCESS_IN)
    (InLen OutLen : Z) (Irp : Z) : NTSTATUS * XENIFACE_FDO * list event :=
  if negb (InLen =? sizeof_PERMIT_FOREIGN_ACCESS_IN L) || negb (OutLen =? 0)
  then (STATUS_INVALID_BUFFER_SIZE, Fdo, [])
  else if GnttabBadPages (Permit_NumberPages In) (Permit_Flags In)
                         (Permit_NotifyOffset In)
  then (STATUS_INVALID_PARAMETER, Fdo, [])
  else
    let Context := AllocContext env in
    let tr3 := [EvAllocatePool Context (sizeof_GRANT_CONTEXT L)] in
    if Context =? NULL then (STATUS_NO_MEMORY, Fdo, tr3)
    else
      let Id := {| Id_Type := XENIFACE_CONTEXT_GRANT;
                   Id_Process := PsGetCurrentProcess env;
                   Id_RequestId := Permit_RequestId In |} in
      let NumberPages := Permit_NumberPages In in
      match FindGnttabIrp Fdo Id with
      | Some _ =>
          (STATUS_INVALID_PARAMETER, Fdo, tr3 ++ Permit_fail4 Context)
      | None =>
          let GrantsVa := AllocGrants env in
          let tr5 := tr3 ++ [EvAllocatePool GrantsVa
                               (SIZE_T L (NumberPages * sizeof_PVOID L))] in
          if GrantsVa =? NULL then
            (STATUS_NO_MEMORY, Fdo, tr5 ++ Permit_fail4 Context)
          else
            let KernelVa := AllocKernelVa env in
            let tr6 := tr5 ++ [EvAllocatePool KernelVa
                                 (ULONG_mul NumberPages PAGE_SIZE)] in
            if KernelVa =? NULL then
              (STATUS_NO_MEMORY, Fdo, tr6 ++ Permit_fail6 Context GrantsVa)
            else
              let Mdl := AllocMdl env in
              let tr7 := tr6 ++ [EvAllocateMdl Mdl KernelVa
                                   (ULONG_mul NumberPages PAGE_SIZE)] in
              if Mdl =? NULL then
                (STATUS_NO_MEMORY, Fdo,
                 tr7 ++ Permit_fail7 Context GrantsVa KernelVa)
              else
                let '(failed, Page, Grants, shared) :=
                  PermitLoop env (Permit_RemoteDomain In)
                    (flag_set (Permit_Flags In) XENIFACE_GNTTAB_READONLY)
                    (Z.to_nat NumberPages) 0
                    (replicate (Z.to_nat NumberPages) NULL) in
                let tr8 := tr7 ++ shared in
                let unwind := Permit_fail8 Context GrantsVa KernelVa Mdl in
                match failed with
                | Some status => (status, Fdo, tr8 ++ unwind Grants Page)
                | None =>
                    let tr9 := tr8 ++ [EvMapLockedPages Mdl (MapLockedPages env)] in
                    match MapLockedPages env with
                    | MapRaised code => (code, Fdo, tr9 ++ unwind Grants Page)
                    | MapReturned UserVa =>
                        if UserVa =? NULL then
                          (STATUS_UNSUCCESSFUL, Fdo, tr9 ++ unwind Grants Page)
                        else
                          let Grant :=
                            {| Grant_Self := Context;
                               Grant_Process := PsGetCurrentProcess env;
                               Grant_RequestId := Permit_RequestId In;
                               Grant_RemoteDomain := Permit_RemoteDomain In;
                               Grant_NumberPages := NumberPages;
                               Grant_Flags := Permit_Flags In;
                               Grant_NotifyOffset := Permit_NotifyOffset In;
                               Grant_NotifyPort := Permit_NotifyPort In;
                               Grant_GrantsVa := GrantsVa;
                               Grant_Grants := Grants;
                               Grant_KernelVa := KernelVa;
                               Grant_Mdl := Mdl;
                               Grant_UserVa := UserVa |} in
                          let '(status, Queue) :=
                            CsqInsertIrpEx (Concurrent env (IrpQueue Fdo))
                              {| Irp := Irp;
                                 DriverContext := GrantContext Grant |} in
                          let tr10 := tr9 ++ [EvCsqInsert Irp status] in
                          if NT_SUCCESS status then
                            (STATUS_PENDING, set_IrpQueue Fdo Queue, tr10)
                          else
                            (status, set_IrpQueue Fdo Queue,
                             tr10 ++ Permit_fail11 Context GrantsVa KernelVa
                                       Mdl UserVa Grants Page)
                    end
                end
      end.

(** The loop of GetGrantResult that fills [Out->References]. *)
Fixpoint ReferenceLoop (env : KERNEL_ENV) (Grants : list Z)
    (count Page : nat) : list Z :=
  match count with
  | O => []
  | S count' =>
      GnttabGetReference env (array_read Grants Page)
      :: ReferenceLoop env Grants count' (S Page)
  end.

Record XENIFACE_GNTTAB_GET_GRANT_RESULT_OUT := {
  Out_Address : Z;
  Out_References : list Z
}.

(** GetGrantResult gives back the status, the FDO (the handler only peeks),
    what it wrote to the output block and [*Info].  The Type of the id that
    was looked up is GRANT, so the context found is a grant context. *)
Definition IoctlGnttabGetGrantResult (L : Layout) (env : KERNEL_ENV)
    (Fdo : XENIFACE_FDO) (RequestId : Z) (InLen OutLen : Z)
  : NTSTATUS * XENIFACE_FDO * option XENIFACE_GNTTAB_GET_GRANT_RESULT_OUT * Z :=
  if negb (InLen =? sizeof_GET_GRANT_RESULT_IN L)
  then (STATUS_INVALID_BUFFER_SIZE, Fdo, None, 0)
  else
    let Id := {| Id_Type := XENIFACE_CONTEXT_GRANT;
                 Id_Process := PsGetCurrentProcess env;
                 Id_RequestId := RequestId |} in
    match CsqPeekNextIrp (IrpQueue Fdo) Id with
    | None => (STATUS_NOT_FOUND, Fdo, None, 0)
    | Some p =>
        match DriverContext p with
        | MapContext _ => (STATUS_NOT_FOUND, Fdo, None, 0)
        | GrantContext Context =>
            if negb (OutLen =? SIZE_T L (sizeof_GET_GRANT_RESULT_OUT L
                               + sizeof_ULONG * Grant_NumberPages Context))
            then (STATUS_INVALID_BUFFER_SIZE, Fdo, None, 0)
            else
              (STATUS_SUCCESS, Fdo,
               Some {| Out_Address := Grant_UserVa Context;
                       Out_References :=
                         ReferenceLoop env (Grant_Grants Context)
                           (Z.to_nat (Grant_NumberPages Context)) 0 |},
               OutLen)
        end
    end.

Definition IoctlGnttabRevokeForeignAccess (L : Layout) (env : KERNEL_ENV)
    (Fdo : XENIFACE_FDO) (RequestId : Z) (InLen OutLen : Z)
  : NTSTATUS * XENIFACE_FDO * list event :=
  if negb (InLen =? sizeof_REVOKE_FOREIGN_ACCESS_IN L)
  then (STATUS_INVALID_BUFFER_SIZE, Fdo, [])
  else
    let Id := {| Id_Type := XENIFACE_CONTEXT_GRANT;
                 Id_Process := PsGetCurrentProcess env;
                 Id_RequestId := RequestId |} in
    match IoCsqRemoveNextIrp (IrpQueue Fdo) Id with
    | (None, _) => (STATUS_NOT_FOUND, Fdo, [])
    | (Some PendingIrp, Queue) =>
        match DriverContext PendingIrp with
        | MapContext _ => (STATUS_NOT_FOUND, Fdo, [])
        | GrantContext Context =>
            (STATUS_SUCCESS, set_IrpQueue Fdo Queue,
             EvCsqRemove (Irp PendingIrp)
             :: GnttabFreeGrant Fdo Context
             ++ [EvCompleteRequest (Irp PendingIrp) STATUS_SUCCESS])
        end
    end.

(** ** Foreign maps *)

Record XENIFACE_GNTTAB_MAP_FOREIGN_PAGES_IN := {
  MapIn_RemoteDomain : Z;
  MapIn_NumberPages : Z;
  MapIn_Flags : Z;
  MapIn_NotifyOffset : Z;
  MapIn_NotifyPort : Z;
  MapIn_RequestId : Z;
  MapIn_References : list Z
}.

Section MapUnwind.
Variables (Context Address KernelVa Mdl : Z) (Bytes : Z).

Definition Map_fail5 : list event := [EvFreePool Context].
Definition Map_fail7 : list event :=
  ASSERT [EvUnmapForeignPages Address] ++ Map_fail5.
Definition Map_fail8 : list event := EvUnmapIoSpace KernelVa Bytes :: Map_fail7.
Definition Map_fail9 : list event := EvFreeMdl Mdl :: Map_fail8.
Definition Map_fail11 (UserVa : Z) : list event :=
  EvUnmapLockedPages UserVa Mdl :: Map_fail9.
End MapUnwind.

Definition IoctlGnttabMapForeignPages (L : Layout) (env : KERNEL_ENV)
    (Fdo : XENIFACE_FDO) (In : XENIFACE_GNTTAB_MAP_FOREIGN_PAGES_IN)
    (InLen OutLen : Z) (Irp : Z) : NTSTATUS * XENIFACE_FDO * list event :=
  if (InLen <? sizeof_MAP_FOREIGN_PAGES_IN L) || negb (OutLen =? 0)
  then (STATUS_INVALID_BUFFER_SIZE, Fdo, [])
  else if GnttabBadPages (MapIn_NumberPages In) (MapIn_Flags In)
                         (MapIn_NotifyOffset In)
  then (STATUS_INVALID_PARAMETER, Fdo, [])
  else if negb (InLen =? SIZE_T L (sizeof_MAP_FOREIGN_PAGES_IN L
                            + sizeof_ULONG * MapIn_NumberPages In))
  then (STATUS_INVALID_BUFFER_SIZE, Fdo, [])
  else
    let Context := AllocContext env in
    let tr4 := [EvAllocatePool Context (sizeof_MAP_CONTEXT L)] in
    if Context =? NULL then (STATUS_NO_MEMORY, Fdo, tr4)
    else
      let Id := {| Id_Type := XENIFACE_CONTEXT_MAP;
                   Id_Process := PsGetCurrentProcess env;
                   Id_RequestId := MapIn_RequestId In |} in
      let NumberPages := MapIn_NumberPages In in
      let Bytes := ULONG_mul NumberPages PAGE_SIZE in
      match FindGnttabIrp Fdo Id with
      | Some _ => (STATUS_INVALID_PARAMETER, Fdo, tr4 ++ Map_fail5 Context)
      | None =>
          let '(status, Address) := GnttabMap env in
          let tr6 := tr4 ++ [EvMapForeignPages (MapIn_RemoteDomain In)
                               NumberPages (MapIn_References In)
                               (Z.land (MapIn_Flags In) XENIFACE_GNTTAB_READONLY)
                               status Address] in
          if negb (NT_SUCCESS status) then
            (status, Fdo, tr6 ++ Map_fail5 Context)
          else
            let KernelVa := MapIoSpace env in
            let tr7 := tr6 ++ [EvMapIoSpace Address Bytes KernelVa] in
            if KernelVa =? NULL then
              (STATUS_NO_MEMORY, Fdo, tr7 ++ Map_fail7 Context Address)
            else
              let Mdl := AllocMdl env in
              let tr8 := tr7 ++ [EvAllocateMdl Mdl KernelVa Bytes] in
              if Mdl =? NULL then
                (STATUS_NO_MEMORY, Fdo,
                 tr8 ++ Map_fail8 Context Address KernelVa Bytes)
              else
                let tr9 := tr8 ++ [EvMapLockedPages Mdl (MapLockedPages env)] in
                let unwind := Map_fail9 Context Address KernelVa Mdl Bytes in
                match MapLockedPages env with
                | MapRaised code => (code, Fdo, tr9 ++ unwind)
                | MapReturned UserVa =>
                    if UserVa =? NULL then
                      (STATUS_UNSUCCESSFUL, Fdo, tr9 ++ unwind)
                    else
                      let Map :=
                        {| Map_Self := Context;
                           Map_Process := PsGetCurrentProcess env;
                           Map_RequestId := MapIn_RequestId In;
                           Map_RemoteDomain := MapIn_RemoteDomain In;
                           Map_NumberPages := NumberPages;
                           Map_Flags := MapIn_Flags In;
                           Map_NotifyOffset := MapIn_NotifyOffset In;
                           Map_NotifyPort := MapIn_NotifyPort In;
                           Map_Address := Address;
                           Map_KernelVa := KernelVa;
                           Map_Mdl := Mdl;
                           Map_UserVa := UserVa |} in
                      let '(status, Queue) :=
                        CsqInsertIrpEx (Concurrent env (IrpQueue Fdo))
                          {| Irp := Irp; DriverContext := MapContext Map |} in
                      let tr10 := tr9 ++ [EvCsqInsert Irp status] in
                      if NT_SUCCESS status then
                        (STATUS_PENDING, set_IrpQueue Fdo Queue, tr10)
                      else
                        (status, set_IrpQueue Fdo Queue,
                         tr10 ++ Map_fail11 Context Address KernelVa Mdl
                                   Bytes UserVa)
                end
      end.

Definition GnttabFreeMap (Fdo : XENIFACE_FDO)
    (Context : XENIFACE_MAP_CONTEXT) : list event :=
  GnttabNotify Fdo (Map_Flags Context) (Map_KernelVa Context)
               (Map_NotifyOffset Context) (Map_NotifyPort Context)
  ++ [EvUnmapLockedPages (Map_UserVa Context) (Map_Mdl Context);
      EvFreeMdl (Map_Mdl Context);
      EvUnmapIoSpace (Map_KernelVa Context)
                     (ULONG_mul (Map_NumberPages Context) PAGE_SIZE);
      EvUnmapForeignPages (Map_Address Context);
      EvFreePool (Map_Self Context)].

(** The size test of UnmapForeignPages is written with [&&] in both source
    files: [InLen != sizeof(...) && OutLen != 0], so a request with no
    output buffer passes it whatever its input length.  [RequestId] is
    [In->RequestId], which the handler reads from the system buffer after
    the test.  The system buffer of a buffered request holds
    [max InLen OutLen] bytes (and is NULL when both are 0): when the message
    does not lie inside it the read is outside the buffer, it has no value,
    and the handler has no result ([None]). *)
Definition IoctlGnttabUnmapForeignPages (L : Layout) (env : KERNEL_ENV)
    (Fdo : XENIFACE_FDO) (RequestId : Z) (InLen OutLen : Z)
  : option (NTSTATUS * XENIFACE_FDO * list event) :=
  if negb (InLen =? sizeof_UNMAP_FOREIGN_PAGES_IN L) && negb (OutLen =? 0)
  then Some (STATUS_INVALID_BUFFER_SIZE, Fdo, [])
  else if Z.max InLen OutLen <? sizeof_UNMAP_FOREIGN_PAGES_IN L then None
  else
    let Id := {| Id_Type := XENIFACE_CONTEXT_MAP;
                 Id_Process := PsGetCurrentProcess env;
                 Id_RequestId := RequestId |} in
    match IoCsqRemoveNextIrp (IrpQueue Fdo) Id with
    | (None, _) => Some (STATUS_NOT_FOUND, Fdo, [])
    | (Some PendingIrp, Queue) =>
        match DriverContext PendingIrp with
        | GrantContext _ => Some (STATUS_NOT_FOUND, Fdo, [])
        | MapContext Context =>
            Some (STATUS_SUCCESS, set_IrpQueue Fdo Queue,
                  EvCsqRemove (Irp PendingIrp)
                  :: GnttabFreeMap Fdo Context
                  ++ [EvCompleteRequest (Irp PendingIrp) STATUS_SUCCESS])
        end
    end.

(** CompleteGnttabIrp: the work item that finishes a cancelled, parked
    request (the queue's cancel path has already taken the IRP out). *)
Definition CompleteGnttabIrp (env : KERNEL_ENV) (Fdo : XENIFACE_FDO)
    (CancelledIrp : PENDING_IRP) : list event :=
  let Id := ContextId (DriverContext CancelledIrp) in
  let ChangeProcess := negb (PsGetCurrentProcess env =? Id_Process Id) in
  (if ChangeProcess then [EvAttachProcess (Id_Process Id)] else [])
  ++ match DriverContext CancelledIrp with
     | GrantContext Context => GnttabFreeGrant Fdo Context
     | MapContext Context => GnttabFreeMap Fdo Context
     end
  ++ (if ChangeProcess then [EvDetachProcess] else [])
  ++ [EvFreeWorkItem; EvCompleteRequest (Irp CancelledIrp) STATUS_CANCELLED].

(** ** Store watches *)

(** RemoveEntryList on a list of context records: the entry at that address
    leaves the list. *)
Definition RemoveStoreEntry (Context : XENIFACE_STORE_CONTEXT)
    (List : list XENIFACE_STORE_CONTEXT) : list XENIFACE_STORE_CONTEXT :=
  filter (fun c => Store_Self c <> Store_Self Context) List.

Definition StoreFreeWatch (Context : XENIFACE_STORE_CONTEXT) : list event :=
  [EvWatchRemove (Store_Watch Context);
   EvDereferenceObject (Store_Event Context);
   EvFreePool (Store_Self Context)].

(** The list walk of IoctlStoreRemoveWatch.  [Node] is what is left to
    visit, [Context] the local variable of that name ([None] for its initial
    NULL): it is assigned at every visited entry, before the test. *)
Fixpoint RemoveWatchWalk (Node : list XENIFACE_STORE_CONTEXT)
    (InContext FileObject : Z) (Context : option XENIFACE_STORE_CONTEXT)
    (List : list XENIFACE_STORE_CONTEXT)
  : option XENIFACE_STORE_CONTEXT * list XENIFACE_STORE_CONTEXT :=
  match Node with
  | [] => (Context, List)
  | c :: Node' =>
      if negb (Store_Self c =? InContext)
         || negb (Store_FileObject c =? FileObject)
      then RemoveWatchWalk Node' InContext FileObject (Some c) List
      else (Some c, RemoveStoreEntry c List)
  end.

Definition IoctlStoreRemoveWatch (L : Layout) (Fdo : XENIFACE_FDO)
    (InContext : Z) (InLen OutLen : Z) (FileObject : Z)
  : NTSTATUS * XENIFACE_FDO * list event :=
  if negb (InLen =? sizeof_STORE_REMOVE_WATCH_IN L) || negb (OutLen =? 0)
  then (STATUS_INVALID_BUFFER_SIZE, Fdo, [])
  else
    let '(Context, List) :=
      RemoveWatchWalk (StoreWatchList Fdo) InContext FileObject None
                      (StoreWatchList Fdo) in
    let Fdo' := set_StoreWatchList Fdo List in
    let locked := [EvAcquireLock StoreWatchLock; EvReleaseLock StoreWatchLock] in
    match Context with
    | None => (STATUS_NOT_FOUND, Fdo', locked)
    | Some c =>
        if negb (Store_Self c =? InContext)
        then (STATUS_NOT_FOUND, Fdo', locked)
        else (STATUS_SUCCESS, Fdo', locked ++ StoreFreeWatch c)
    end.

(** ** Event channels: teardown and the signal path *)

Definition RemoveEvtchnEntry (Context : XENIFACE_EVTCHN_CONTEXT)
    (List : list XENIFACE_EVTCHN_CONTEXT) : list XENIFACE_EVTCHN_CONTEXT :=
  filter (fun c => Evtchn_Self c <> Evtchn_Self Context) List.

Definition EvtchnFree (Context : XENIFACE_EVTCHN_CONTEXT) : list event :=
  [EvSetActive (Evtchn_Self Context) false;
   EvEvtchnClose (Evtchn_Channel Context);
   EvFlushQueuedDpcs;
   EvDereferenceObject (Evtchn_Event Context);
   EvFreePool (Evtchn_Self Context)].

Definition EvtchnNotificationDpc (Context : XENIFACE_EVTCHN_CONTEXT)
  : list event :=
  if Evtchn_Active Context
  then [EvSetEvent (Evtchn_Event Context);
        EvEvtchnUnmask (Evtchn_Channel Context)]
  else [].

Definition EvtchnInterruptHandler (Context : XENIFACE_EVTCHN_CONTEXT)
  : list event :=
  if Evtchn_Active Context then [EvInsertQueueDpc (Evtchn_Self Context)] else [].

Definition IoctlEvtchnClose (L : Layout) (Fdo : XENIFACE_FDO)
    (LocalPort : Z) (InLen OutLen : Z) (FileObject : Z)
  : NTSTATUS * XENIFACE_FDO * list event :=
  if negb (InLen =? sizeof_EVTCHN_CLOSE_IN L) || negb (OutLen =? 0)
  then (STATUS_INVALID_BUFFER_SIZE, Fdo, [])
  else
    let locked := [EvAcquireLock EvtchnLock; EvReleaseLock EvtchnLock] in
    match EvtchnFindChannel (EvtchnList Fdo) LocalPort FileObject with
    | None => (STATUS_NOT_FOUND, Fdo, locked)
    | Some Context =>
        (STATUS_SUCCESS,
         set_EvtchnList Fdo (RemoveEvtchnEntry Context (EvtchnList Fdo)),
         locked ++ EvtchnFree Context)
    end.

(** ** XenIfaceCleanup, called when a file object is closed *)

(** First loop: watches of the file object are unlinked and freed while the
    list is walked.  [Node] is what is left to visit. *)
Fixpoint CleanupWatches (Node : list XENIFACE_STORE_CONTEXT) (FileObject : Z)
    (List : list XENIFACE_STORE_CONTEXT)
  : list XENIFACE_STORE_CONTEXT * list event :=
  match Node with
  | [] => (List, [])
  | StoreContext :: Node' =>
      if negb (Store_FileObject StoreContext =? FileObject)
      then CleanupWatches Node' FileObject List
      else
        let '(List', tr) :=
          CleanupWatches Node' FileObject (RemoveStoreEntry StoreContext List) in
        (List', StoreFreeWatch StoreContext ++ tr)
  end.

(** Second loop: channels of the file object move from the channel list to
    the tail of the local list ToFree. *)
Fixpoint CleanupDetach (Node : list XENIFACE_EVTCHN_CONTEXT) (FileObject : Z)
    (List ToFree : list XENIFACE_EVTCHN_CONTEXT)
  : list XENIFACE_EVTCHN_CONTEXT * list XENIFACE_EVTCHN_CONTEXT :=
  match Node with
  | [] => (List, ToFree)
  | EvtchnContext :: Node' =>
      if negb (Evtchn_FileObject EvtchnContext =? FileObject)
      then CleanupDetach Node' FileObject List ToFree
      else CleanupDetach Node' FileObject
             (RemoveEvtchnEntry EvtchnContext List)
             (ToFree ++ [EvtchnContext])
  end.

(** Third loop: every entry of ToFree is unlinked and freed, the lock being
    released. *)
Fixpoint CleanupFree (Node ToFree : list XENIFACE_EVTCHN_CONTEXT)
  : list XENIFACE_EVTCHN_CONTEXT * list event :=
  match Node with
  | [] => (ToFree, [])
  | EvtchnContext :: Node' =>
      let '(ToFree', tr) :=
        CleanupFree Node' (RemoveEvtchnEntry EvtchnContext ToFree) in
      (ToFree', EvtchnFree EvtchnContext ++ tr)
  end.

Definition XenIfaceCleanup (Fdo : XENIFACE_FDO) (FileObject : Z)
  : XENIFACE_FDO * list event :=
  let '(Watches, freed_watches) :=
    CleanupWatches (StoreWatchList Fdo) FileObject (StoreWatchList Fdo) in
  let '(Channels, ToFree) :=
    CleanupDetach (EvtchnList Fdo) FileObject (EvtchnList Fdo) [] in
  let '(_, freed_channels) := CleanupFree ToFree ToFree in
  ({| StoreWatchList := Watches;
      EvtchnList := Channels;
      IrpQueue := IrpQueue Fdo |},
   [EvAcquireLock StoreWatchLock] ++ freed_watches
   ++ [EvReleaseLock StoreWatchLock; EvAcquireLock EvtchnLock;
       EvReleaseLock EvtchnLock]
   ++ freed_channels).

(** ** Reading a trace *)

(** Grant entries handed out by the successful PermitForeignAccess calls of
    a trace, in the order of the calls. *)
Definition acquired (tr : list event) : list Z :=
  omap (fun e => match e with
                 | EvPermitForeignAccess _ _ _ status entry =>
                     if NT_SUCCESS status then Some entry else None
                 | _ => None
                 end) tr.

(** Grant entries passed to RevokeForeignAccess, in the order of the calls. *)
Definition revoked (tr : list event) : list Z :=
  omap (fun e => match e with
                 | EvRevokeForeignAccess entry => Some entry
                 | _ => None
                 end) tr.

(** Addresses given by the successful MapForeignPages calls of a trace. *)
Definition mapped (tr : list event) : list Z :=
  omap (fun e => match e with
                 | EvMapForeignPages _ _ _ _ status address =>
                     if NT_SUCCESS status then Some address else None
                 | _ => None
                 end) tr.

(** Addresses passed to UnmapForeignPages. *)
Definition unmapped (tr : list event) : list Z :=
  omap (fun e => match e with
                 | EvUnmapForeignPages address => Some address
                 | _ => None
                 end) tr.

(** Pool blocks and MDLs a trace took and gave back. *)
Definition allocated (tr : list event) : list Z :=
  omap (fun e => match e with
                 | EvAllocatePool p _ => if p =? NULL then None else Some p
                 | EvAllocateMdl mdl _ _ => if mdl =? NULL then None else Some mdl
                 | _ => None
                 end) tr.

Definition released (tr : list event) : list Z :=
  omap (fun e => match e with
                 | EvFreePool p => Some p
                 | EvFreeMdl mdl => Some mdl
                 | _ => None
                 end) tr.

(** The bus call the sharing loop makes for page [i]. *)
Definition PermitEvent (env : KERNEL_ENV) (RemoteDomain : Z) (ReadOnly : bool)
    (i : nat) : event :=
  EvPermitForeignAccess RemoteDomain i ReadOnly
    (fst (GnttabPermit env i)) (snd (GnttabPermit env i)).

(** ** The lists as the driver holds them: LIST_ENTRY links in memory

    The handlers above walk Rocq lists.  The driver walks circular, doubly
    linked LIST_ENTRY chains, with the loop

      [Node = Head.Flink;
       while (Node->Flink != Head.Flink) { Entry = Node; Node = Node->Flink; ... }]

    and unlinks entries while it walks.  This part embeds those loops on the
    links themselves, so that the walks over Rocq lists can be checked
    against them.  The memory of the links is split by field; the LIST_ENTRY
    of a context is at the address of the context (CONTAINING_RECORD only
    subtracts the offset of the Entry field). *)

Record LINKS := {
  Flink : Z -> Z;
  Blink : Z -> Z
}.

Definition set_Flink (m : LINKS) (a v : Z) : LINKS :=
  {| Flink := <[a := v]> (Flink m); Blink := Blink m |}.

Definition set_Blink (m : LINKS) (a v : Z) : LINKS :=
  {| Flink := Flink m; Blink := <[a := v]> (Blink m) |}.

Definition InitializeListHead (m : LINKS) (ListHead : Z) : LINKS :=
  set_Blink (set_Flink m ListHead ListHead) ListHead ListHead.

(** [Flink = Entry->Flink; Blink = Entry->Blink;
     Blink->Flink = Flink; Flink->Blink = Blink]. *)
Definition RemoveEntryList (m : LINKS) (Entry : Z) : LINKS :=
  let F := Flink m Entry in
  let B := Blink m Entry in
  set_Blink (set_Flink m B F) F B.

(** [Blink = ListHead->Blink; Entry->Flink = ListHead; Entry->Blink = Blink;
     Blink->Flink = Entry; ListHead->Blink = Entry]. *)
Definition InsertTailList (m : LINKS) (ListHead Entry : Z) : LINKS :=
  let B := Blink m ListHead in
  set_Blink (set_Flink (set_Blink (set_Flink m Entry ListHead) Entry B)
               B Entry)
            ListHead Entry.

(** RtlZeroMemory on a context clears the links it contains. *)
Definition ZeroEntry (m : LINKS) (Entry : Z) : LINKS :=
  set_Blink (set_Flink m Entry NULL) Entry NULL.

(** The links from [a] run through the entries [l], in order, and close at
    [Head]; every back link mirrors its forward link. *)
Fixpoint chain (m : LINKS) (a : Z) (l : list Z) (Head : Z) : Prop :=
  match l with
  | [] => Flink m a = Head /\ Blink m Head = a
  | b :: l' => Flink m a = b /\ Blink m b = a /\ chain m b l' Head
  end.

(** The list headed at [Head] holds exactly the entries [l], in order. *)
Definition dll (m : LINKS) (Head : Z) (l : list Z) : Prop :=
  NoDup (Head :: l) /\ chain m Head l Head.

(** The value of a context pointer: NULL for none. *)
Definition StoreContextPtr (c : option XENIFACE_STORE_CONTEXT) : Z :=
  from_option Store_Self NULL c.

(** The walk of IoctlStoreRemoveWatch on the links.  [fuel] bounds the
    number of iterations; [Context] is the local variable of that name. *)
Fixpoint StoreRemoveWatchLoop (fuel : nat)
    (StoreAt : Z -> XENIFACE_STORE_CONTEXT)
    (Head InContext FileObject : Z) (Node Context : Z) (m : LINKS)
  : option (Z * LINKS) :=
  match fuel with
  | O => None
  | S fuel' =>
      if Flink m Node =? Flink m Head then Some (Context, m)
      else
        let Context := Node in
        let Node := Flink m Node in
        if negb (Context =? InContext)
           || negb (Store_FileObject (StoreAt Context) =? FileObject)
        then StoreRemoveWatchLoop fuel' StoreAt Head InContext FileObject
               Node Context m
        else Some (Context, RemoveEntryList m Context)
  end.

(** IoctlStoreRemoveWatch on the links; [WatchHead] is the address of
    Fdo->StoreWatchList.  StoreFreeWatch ends with RtlZeroMemory on the
    context. *)
Definition IoctlStoreRemoveWatchLinks (fuel : nat) (L : Layout)
    (StoreAt : Z -> XENIFACE_STORE_CONTEXT) (WatchHead : Z) (m : LINKS)
    (InContext : Z) (InLen OutLen : Z) (FileObject : Z)
  : option (NTSTATUS * LINKS * list event) :=
  if negb (InLen =? sizeof_STORE_REMOVE_WATCH_IN L) || negb (OutLen =? 0)
  then Some (STATUS_INVALID_BUFFER_SIZE, m, [])
  else
    match StoreRemoveWatchLoop fuel StoreAt WatchHead InContext FileObject
            (Flink m WatchHead) NULL m with
    | None => None
    | Some (Context, m1) =>
        let locked := [EvAcquireLock StoreWatchLock;
                       EvReleaseLock StoreWatchLock] in
        if (Context =? NULL) || negb (Context =? InContext)
        then Some (STATUS_NOT_FOUND, m1, locked)
        else Some (STATUS_SUCCESS, ZeroEntry m1 Context,
                   locked ++ StoreFreeWatch (StoreAt Context))
    end.

(** The first loop of XenIfaceCleanup on the links; StoreFreeWatch ends
    with RtlZeroMemory on the context. *)
Fixpoint CleanupWatchesLoop (fuel : nat)
    (StoreAt : Z -> XENIFACE_STORE_CONTEXT)
    (Head FileObject : Z) (Node : Z) (m : LINKS)
  : option (LINKS * list event) :=
  match fuel with
  | O => None
  | S fuel' =>
      if Flink m Node =? Flink m Head then Some (m, [])
      else
        let StoreContext := Node in
        let Node := Flink m Node in
        if negb (Store_FileObject (StoreAt StoreContext) =? FileObject)
        then CleanupWatchesLoop fuel' StoreAt Head FileObject Node m
        else
          let m := ZeroEntry (RemoveEntryList m StoreContext) StoreContext in
          match CleanupWatchesLoop fuel' StoreAt Head FileObject Node m with
          | Some (m', tr) => Some (m', StoreFreeWatch (StoreAt StoreContext) ++ tr)
          | None => None
          end
  end.

(** The second loop: owned channels are unlinked and linked at the tail of
    the list headed at [ToFree]. *)
Fixpoint CleanupDetachLoop (fuel : nat)
    (EvtchnAt : Z -> XENIFACE_EVTCHN_CONTEXT)
    (Head ToFree FileObject : Z) (Node : Z) (m : LINKS) : option LINKS :=
  match fuel with
  | O => None
  | S fuel' =>
      if Flink m Node =? Flink m Head then Some m
      else
        let EvtchnContext := Node in
        let Node := Flink m Node in
        if negb (Evtchn_FileObject (EvtchnAt EvtchnContext) =? FileObject)
        then CleanupDetachLoop fuel' EvtchnAt Head ToFree FileObject Node m
        else
          CleanupDetachLoop fuel' EvtchnAt Head ToFree FileObject Node
            (InsertTailList (RemoveEntryList m EvtchnContext)
               ToFree EvtchnContext)
  end.

(** The third loop: every entry of ToFree is unlinked and freed; EvtchnFree
    ends with RtlZeroMemory on the context. *)
Fixpoint CleanupFreeLoop (fuel : nat)
    (EvtchnAt : Z -> XENIFACE_EVTCHN_CONTEXT)
    (ToFree : Z) (Node : Z) (m : LINKS) : option (LINKS * list event) :=
  match fuel with
  | O => None
  | S fuel' =>
      if Flink m Node =? Flink m ToFree then Some (m, [])
      else
        let EvtchnContext := Node in
        let Node := Flink m Node in
        let m := ZeroEntry (RemoveEntryList m EvtchnContext) EvtchnContext in
        match CleanupFreeLoop fuel' EvtchnAt ToFree Node m with
        | Some (m', tr) => Some (m', EvtchnFree (EvtchnAt EvtchnContext) ++ tr)
        | None => None
        end
  end.

(** XenIfaceCleanup on the links: [WatchHead] and [EvtchnHead] are the
    addresses of Fdo->StoreWatchList and Fdo->EvtchnList, [ToFree] that of
    the local list head. *)
Definition XenIfaceCleanupLinks (fuel : nat)
    (StoreAt : Z -> XENIFACE_STORE_CONTEXT)
    (EvtchnAt : Z -> XENIFACE_EVTCHN_CONTEXT)
    (WatchHead EvtchnHead ToFree FileObject : Z) (m : LINKS)
  : option (LINKS * list event) :=
  match CleanupWatchesLoop fuel StoreAt WatchHead FileObject
          (Flink m WatchHead) m with
  | None => None
  | Some (m1, freed_watches) =>
      let m2 := InitializeListHead m1 ToFree in
      match CleanupDetachLoop fuel EvtchnAt EvtchnHead ToFree FileObject
              (Flink m2 EvtchnHead) m2 with
      | None => None
      | Some m3 =>
          match CleanupFreeLoop fuel EvtchnAt ToFree (Flink m3 ToFree) m3 with
          | None => None
          | Some (m4, freed_channels) =>
              Some (m4,
                    [EvAcquireLock StoreWatchLock] ++ freed_watches
                    ++ [EvReleaseLock StoreWatchLock; EvAcquireLock EvtchnLock;
                        EvReleaseLock EvtchnLock]
                    ++ freed_channels)
          end
      end
  end.

(** EvtchnFindChannel on the links. *)
Fixpoint EvtchnFindChannelLoop (fuel : nat)
    (EvtchnAt : Z -> XENIFACE_EVTCHN_CONTEXT)
    (Head LocalPort FileObject : Z) (Node : Z) (m : LINKS)
  : option Z :=
  match fuel with
  | O => None
  | S fuel' =>
      if Flink m Node =? Flink m Head then Some NULL
      else
        let Context := Node in
        let Node := Flink m Node in
        if negb (Evtchn_LocalPort (EvtchnAt Context) =? LocalPort)
        then EvtchnFindChannelLoop fuel' EvtchnAt Head LocalPort FileObject Node m
        else if negb (FileObject =? NULL)
                && negb (Evtchn_FileObject (EvtchnAt Context) =? FileObject)
        then EvtchnFindChannelLoop fuel' EvtchnAt Head LocalPort FileObject Node m
        else Some Context
  end.

(** A list of entries written into the links, for the examples: the chain
    [Head -> l -> Head] with its back links. *)
Fixpoint write_chain (m : LINKS) (a : Z) (l : list Z) (Head : Z) : LINKS :=
  match l with
  | [] => set_Blink (set_Flink m a Head) Head a
  | b :: l' => write_chain (set_Blink (set_Flink m a b) b a) b l' Head
  end.

Definition no_links : LINKS := {| Flink := fun _ => NULL; Blink := fun _ => NULL |}.

(** The contexts of the examples, by address: the watch at 0x8400 and the
    channel at 0x9400 belong to file object 2, everything else to file
    object 1. *)
Definition example_StoreAt (a : Z) : XENIFACE_STORE_CONTEXT :=
  {| Store_Self := a;
     Store_FileObject := if a =? 0x8400 then 2 else 1;
     Store_Event := a + 0x100;
     Store_Watch := a + 0x200 |}.

Definition example_EvtchnAt (a : Z) : XENIFACE_EVTCHN_CONTEXT :=
  {| Evtchn_Self := a;
     Evtchn_FileObject := if a =? 0x9400 then 2 else 1;
     Evtchn_Channel := a + 0x100;
     Evtchn_LocalPort := if a =? 0x9400 then 6 else 5;
     Evtchn_Event := a + 0x200;
     Evtchn_Active := true |}.

(** Links holding three watches in the list headed at 0x100 and two
    channels in the list headed at 0x200. *)
Definition example_links : LINKS :=
  write_chain (write_chain no_links 0x100 [0x8000; 0x8400; 0x8800] 0x100)
    0x200 [0x9000; 0x9400] 0x200.

(** Links holding one watch, at 0x8000, in the list headed at 0x100. *)
Definition example_one_watch_links : LINKS :=
  write_chain no_links 0x100 [0x8000] 0x100.

(** ** Example data

    A layout with the sizes of a 64-bit build, a kernel and bus that grant
    everything except (optionally) one page, and an FDO with nothing
    registered. *)

Definition example_layout : Layout :=
  {| sizeof_PVOID := 8;
     sizeof_GRANT_CONTEXT := 96;
     sizeof_MAP_CONTEXT := 88;
     sizeof_PERMIT_FOREIGN_ACCESS_IN := 24;
     sizeof_GET_GRANT_RESULT_IN := 4;
     sizeof_GET_GRANT_RESULT_OUT := 16;
     sizeof_REVOKE_FOREIGN_ACCESS_IN := 4;
     sizeof_MAP_FOREIGN_PAGES_IN := 28;
     sizeof_GET_MAP_RESULT_IN := 4;
     sizeof_GET_MAP_RESULT_OUT := 8;
     sizeof_UNMAP_FOREIGN_PAGES_IN := 4;
     sizeof_STORE_REMOVE_WATCH_IN := 8;
     sizeof_EVTCHN_CLOSE_IN := 4 |}.

Definition example_env (reject : option nat) : KERNEL_ENV :=
  {| PsGetCurrentProcess := 0x7000;
     AllocContext := 0x1000;
     AllocGrants := 0x2000;
     AllocKernelVa := 0x100000;
     AllocMdl := 0x3000;
     GnttabPermit := fun i =>
       if bool_decide (reject = Some i) then (STATUS_UNSUCCESSFUL, NULL)
       else (STATUS_SUCCESS, 0x5000 + Z.of_nat i);
     GnttabMap := (STATUS_SUCCESS, 0x9000000);
     GnttabGetReference := fun entry => entry - 0x5000 + 8;
     MapIoSpace := 0x200000;
     MapLockedPages := MapReturned 0x20000;
     Concurrent := fun Queue => Queue |}.

Definition example_Fdo : XENIFACE_FDO :=
  {| StoreWatchList := []; EvtchnList := []; IrpQueue := [] |}.

Definition example_permit_in (NumberPages Flags NotifyOffset : Z)
  : XENIFACE_GNTTAB_PERMIT_FOREIGN_ACCESS_IN :=
  {| Permit_RemoteDomain := 1;
     Permit_NumberPages := NumberPages;
     Permit_Flags := Flags;
     Permit_NotifyOffset := NotifyOffset;
     Permit_NotifyPort := 0;
     Permit_RequestId := 42 |}.

(** ** Well-formed parked grants

    What PermitForeignAccess establishes for every grant context it parks:
    the page count passed the range test and the Grants array has one slot
    per page. *)

Definition GrantContextOk (g : XENIFACE_GRANT_CONTEXT) : Prop :=
  1 <= Grant_NumberPages g <= 1024 * 1024
  /\ length (Grant_Grants g) = Z.to_nat (Grant_NumberPages g).

Definition QueueOk (Queue : list PENDING_IRP) : Prop :=
  forall p g, p ∈ Queue -> DriverContext p = GrantContext g -> GrantContextOk g.

(** An FDO in which one grant of two pages is parked under request id 42 of
    process 0x7000. *)
Definition example_parked_grant : XENIFACE_GRANT_CONTEXT :=
  {| Grant_Self := 0x1000;
     Grant_Process := 0x7000;
     Grant_RequestId := 42;
     Grant_RemoteDomain := 1;
     Grant_NumberPages := 2;
     Grant_Flags := 0;
     Grant_NotifyOffset := 0;
     Grant_NotifyPort := 0;
     Grant_GrantsVa := 0x2000;
     Grant_Grants := [0x5000; 0x5001];
     Grant_KernelVa := 0x100000;
     Grant_Mdl := 0x3000;
     Grant_UserVa := 0x20000 |}.

Definition example_parked_Fdo : XENIFACE_FDO :=
  set_IrpQueue example_Fdo
    [{| Irp := 77; DriverContext := GrantContext example_parked_grant |}].

(** An FDO in which one foreign mapping of two pages is parked under
    request id 42 of process 0x7000. *)
Definition example_parked_map : XENIFACE_MAP_CONTEXT :=
  {| Map_Self := 0x1000;
     Map_Process := 0x7000;
     Map_RequestId := 42;
     Map_RemoteDomain := 1;
     Map_NumberPages := 2;
     Map_Flags := 0;
     Map_NotifyOffset := 0;
     Map_NotifyPort := 0;
     Map_Address := 0x9000000;
     Map_KernelVa := 0x200000;
     Map_Mdl := 0x3000;
     Map_UserVa := 0x20000 |}.

Definition example_mapped_Fdo : XENIFACE_FDO :=
  set_IrpQueue example_Fdo
    [{| Irp := 77; DriverContext := MapContext example_parked_map |}].

(** Watches and channels for the examples; the second field is the owning
    file object. *)
Definition example_watch (Self FileObject : Z) : XENIFACE_STORE_CONTEXT :=
  {| Store_Self := Self;
     Store_FileObject := FileObject;
     Store_Event := Self + 0x100;
     Store_Watch := Self + 0x200 |}.

Definition example_channel (Self FileObject LocalPort : Z)
  : XENIFACE_EVTCHN_CONTEXT :=
  {| Evtchn_Self := Self;
     Evtchn_FileObject := FileObject;
     Evtchn_Channel := Self + 0x100;
     Evtchn_LocalPort := LocalPort;
     Evtchn_Event := Self + 0x200;
     Evtchn_Active := true |}.

(** An FDO with three watches and two channels; file object 1 owns the
    first and third watch and the first channel. *)
Definition example_busy_Fdo : XENIFACE_FDO :=
  {| StoreWatchList := [example_watch 0x8000 1; example_watch 0x8400 2;
                        example_watch 0x8800 1];
     EvtchnList := [example_channel 0x9000 1 5; example_channel 0x9400 2 6];
     IrpQueue := [] |}.

(** The example kernel, out of pool when the buffer to share is asked for. *)
Definition example_env_no_buffer : KERNEL_ENV :=
  {| PsGetCurrentProcess := PsGetCurrentProcess (example_env None);
     AllocContext := AllocContext (example_env None);
     AllocGrants := AllocGrants (example_env None);
     AllocKernelVa := NULL;
     AllocMdl := AllocMdl (example_env None);
     GnttabPermit := GnttabPermit (example_env None);
     GnttabMap := GnttabMap (example_env None);
     GnttabGetReference := GnttabGetReference (example_env None);
     MapIoSpace := MapIoSpace (example_env None);
     MapLockedPages := MapLockedPages (example_env None);
     Concurrent := Concurrent (example_env None) |}.

(** The example kernel, out of pool when the context is asked for. *)
Definition example_env_no_context : KERNEL_ENV :=
  {| PsGetCurrentProcess := PsGetCurrentProcess (example_env None);
     AllocContext := NULL;
     AllocGrants := AllocGrants (example_env None);
     AllocKernelVa := AllocKernelVa (example_env None);
     AllocMdl := AllocMdl (example_env None);
     GnttabPermit := GnttabPermit (example_env None);
     GnttabMap := GnttabMap (example_env None);
     GnttabGetReference := GnttabGetReference (example_env None);
     MapIoSpace := MapIoSpace (example_env None);
     MapLockedPages := MapLockedPages (example_env None);
     Concurrent := Concurrent (example_env None) |}.

(** The example kernel, in which another request of the same process parks
    the example grant, under request id 42, between the first uniqueness
    check and the insertion. *)
Definition example_env_racing : KERNEL_ENV :=
  {| PsGetCurrentProcess := PsGetCurrentProcess (example_env None);
     AllocContext := 0x1800;
     AllocGrants := 0x2800;
     AllocKernelVa := 0x180000;
     AllocMdl := 0x3800;
     GnttabPermit := fun i => (STATUS_SUCCESS, 0x6000 + Z.of_nat i);
     GnttabMap := GnttabMap (example_env None);
     GnttabGetReference := GnttabGetReference (example_env None);
     MapIoSpace := MapIoSpace (example_env None);
     MapLockedPages := MapReturned 0x28000;
     Concurrent := fun Queue =>
       Queue ++ [{| Irp := 77;
                    DriverContext := GrantContext example_parked_grant |}] |}.

Definition example_map_in (NumberPages Flags NotifyOffset : Z)
  : XENIFACE_GNTTAB_MAP_FOREIGN_PAGES_IN :=
  {| MapIn_RemoteDomain := 1;
     MapIn_NumberPages := NumberPages;
     MapIn_Flags := Flags;
     MapIn_NotifyOffset := NotifyOffset;
     MapIn_NotifyPort := 0;
     MapIn_RequestId := 42;
     MapIn_References := [] |}.

(** * The store requests, the bind requests and the dispatcher

    The part of [ioctls.c] that the sections above leave out: the string
    helpers, the store handlers, [IoctlStoreAddWatch], the two bind
    handlers, notify and unmask, [IoctlGnttabGetMapResult] and the
    dispatcher [XenIfaceIoctl].

    Added conventions:
    - a buffer is the list of its bytes, each a [Z]; a read or a write
      outside the list has no value, and a handler that makes one has no
      result ([None]);
    - calls to the store and event-channel interfaces and to the object
      manager are [io_event]s, the events above being embedded by
      [Kernel]. *)

Definition STATUS_BUFFER_OVERFLOW : NTSTATUS := ntstatus 0x80000005.
Definition STATUS_INVALID_DEVICE_REQUEST : NTSTATUS := ntstatus 0xC0000010.
Definition STATUS_INSUFFICIENT_RESOURCES : NTSTATUS := ntstatus 0xC000009A.
Definition STATUS_DEVICE_NOT_READY : NTSTATUS := ntstatus 0xC00000A3.

Definition XENSTORE_ABS_PATH_MAX : Z := 3072.

(** A value converted to ULONG. *)
Definition ULONG (z : Z) : Z := z mod ULONG_MODULUS.

(** Sizes and the permission mask that come from [xeniface_ioctls.h] and
    [store_interface.h]; as for [Layout], the handlers take them as a
    parameter. *)
Record IoctlLayout := {
  sizeof_STORE_SET_PERMISSIONS_IN : Z;
  sizeof_XENBUS_STORE_PERMISSION : Z;
  XENIFACE_STORE_ALLOWED_PERMISSIONS : Z;
  sizeof_STORE_ADD_WATCH_IN : Z;
  sizeof_STORE_ADD_WATCH_OUT : Z;
  sizeof_STORE_CONTEXT : Z;
  sizeof_EVTCHN_CONTEXT : Z;
  sizeof_EVTCHN_BIND_UNBOUND_IN : Z;
  sizeof_EVTCHN_BIND_UNBOUND_OUT : Z;
  sizeof_EVTCHN_BIND_INTERDOMAIN_IN : Z;
  sizeof_EVTCHN_BIND_INTERDOMAIN_OUT : Z;
  sizeof_EVTCHN_NOTIFY_IN : Z;
  sizeof_EVTCHN_UNMASK_IN : Z
}.

(** ** Buffers and C strings *)

(** [Buffer[i] = v]. *)
Definition poke (Buffer : list Z) (i v : Z) : option (list Z) :=
  if (0 <=? i) && (i <? Z.of_nat (length Buffer))
  then Some (<[Z.to_nat i := v]> Buffer)
  else None.

(** RtlCopyMemory(Destination, Source, Length), both held from their first
    byte. *)
Definition RtlCopyMemory (Destination Source : list Z) (Length : Z)
  : option (list Z) :=
  if (Length <=? Z.of_nat (length Source))
     && (Length <=? Z.of_nat (length Destination))
  then Some (take (Z.to_nat Length) Source ++ drop (Z.to_nat Length) Destination)
  else None.

(** strlen of the C library: the number of bytes before the first NUL. *)
Fixpoint strlen (Str : list Z) : option Z :=
  match Str with
  | [] => None
  | c :: Str' => if c =? 0 then Some 0 else n ← strlen Str'; Some (n + 1)
  end.

(** The string a callee reads at [Str]: the bytes before the first NUL. *)
Fixpoint c_str (Str : list Z) : list Z :=
  match Str with
  | [] => []
  | c :: Str' => if c =? 0 then [] else c :: c_str Str'
  end.

(** __IsValidStr: [for ( ; Len--; ++Str)], TRUE at a NUL, out of the loop
    at a byte that is not printable.  [isprint] is the C library's. *)
Fixpoint __IsValidStr (isprint : Z -> bool) (Str : list Z) (Len : nat)
    {struct Len} : option bool :=
  match Len with
  | O => Some false
  | S Len' =>
      match Str with
      | [] => None
      | c :: Str' =>
          if c =? 0 then Some true
          else if negb (isprint c) then Some false
          else __IsValidStr isprint Str' Len'
      end
  end.

(** __MultiSzLen.  One step of the function below is one byte: a byte that
    is not NUL is an iteration of the inner [for], a NUL ends the [for],
    is stepped over and counted in [Length], and the byte after it decides
    the [while] of the outer loop.  [Count] is the cell the caller passes:
    it is set to 0 and then incremented only if the cell is not 0, the test
    being written on the cell's value. *)
Fixpoint MultiSzLenLoop (Str : list Z) (Length Count : Z) : option (Z * Z) :=
  match Str with
  | [] => None
  | c :: Str' =>
      if negb (c =? 0) then MultiSzLenLoop Str' (ULONG (Length + 1)) Count
      else
        let Length' := ULONG (Length + 1) in
        let Count' := if negb (Count =? 0) then ULONG (Count + 1) else Count in
        match Str' with
        | [] => None
        | d :: _ =>
            if negb (d =? 0) then MultiSzLenLoop Str' Length' Count'
            else Some (Length', Count')
        end
  end.

Definition __MultiSzLen (Str : list Z) : option (Z * Z) :=
  MultiSzLenLoop Str 0 0.

(** ** Events and environment of the store and bind requests *)

Record XENBUS_STORE_PERMISSION := {
  Perm_Domain : Z;
  Perm_Mask : Z
}.

Inductive XENBUS_EVTCHN_TYPE :=
| XENBUS_EVTCHN_TYPE_UNBOUND (RemoteDomain : Z)
| XENBUS_EVTCHN_TYPE_INTER_DOMAIN (RemoteDomain RemotePort : Z).

Inductive io_event :=
| Kernel (e : event)
| EvProbeForRead (address length : Z) (copied : bool)
| EvReferenceObjectByHandle (handle : Z) (status : NTSTATUS) (object : Z)
| EvStoreRead (path : list Z) (status : NTSTATUS) (value : Z)
| EvStoreDirectory (path : list Z) (status : NTSTATUS) (value : Z)
| EvStoreFree (value : Z)
| EvStorePrintf (path value : list Z) (status : NTSTATUS)
| EvStoreRemove (path : list Z) (status : NTSTATUS)
| EvStorePermissionsSet (path : list Z)
                        (permissions : list XENBUS_STORE_PERMISSION)
                        (status : NTSTATUS)
| EvStoreWatchAdd (path : list Z) (event : Z) (status : NTSTATUS) (watch : Z)
| EvEvtchnOpen (type : XENBUS_EVTCHN_TYPE) (context channel : Z)
| EvEvtchnGetPort (channel port : Z).

(** What the C library, the store, the object manager, the pool and the
    event-channel interface answer.  A store read gives a status, the
    address of the value and the bytes held there. *)
Record IO_ENV := {
  isprint : Z -> bool;
  StoreRead : list Z -> NTSTATUS * Z * list Z;
  StoreDirectory : list Z -> NTSTATUS * Z * list Z;
  StorePrintf : list Z -> list Z -> NTSTATUS;
  StoreRemove : list Z -> NTSTATUS;
  StorePermissionsSet : list Z -> list XENBUS_STORE_PERMISSION -> NTSTATUS;
  StoreWatchAdd : list Z -> Z -> NTSTATUS * Z;
  AllocCapture : Z;
  (** the byte of user memory at an address, if the address can be read *)
  UserMemory : Z -> option Z;
  (** GetExceptionCode() when the probe or the copy faults *)
  ProbeException : NTSTATUS;
  AllocStoreContext : Z;
  AllocEvtchnContext : Z;
  ObReferenceObjectByHandle : Z -> NTSTATUS * Z;
  EvtchnOpen : XENBUS_EVTCHN_TYPE -> Z -> Z;
  EvtchnGetPort : Z -> Z
}.

(** ** Capturing a user buffer *)

(** The [try] block of __CaptureUserBuffer: the bytes copied, or [None]
    when an address of the range faults. *)
Fixpoint ProbeAndCopy (mem : Z -> option Z) (Buffer : Z) (Length : nat)
  : option (list Z) :=
  match Length with
  | O => Some []
  | S Length' =>
      b ← mem Buffer; rest ← ProbeAndCopy mem (Buffer + 1) Length'; Some (b :: rest)
  end.

(** __CaptureUserBuffer: the status, what the function wrote to
    [*CapturedBuffer] with the bytes held there, and the calls made.  When
    the pool has nothing the function returns before it writes
    [*CapturedBuffer]: the cell is left as it was ([None]), and a caller
    that read it would read a variable that was never set. *)
Definition __CaptureUserBuffer (io : IO_ENV) (Buffer Length : Z)
  : NTSTATUS * option Z * list Z * list io_event :=
  if Length =? 0 then (STATUS_SUCCESS, Some NULL, [], [])
  else
    let TempBuffer := AllocCapture io in
    let tr := [Kernel (EvAllocatePool TempBuffer Length)] in
    if TempBuffer =? NULL then (STATUS_INSUFFICIENT_RESOURCES, None, [], tr)
    else
      match ProbeAndCopy (UserMemory io) Buffer (Z.to_nat Length) with
      | Some bytes =>
          (STATUS_SUCCESS, Some TempBuffer, bytes,
           tr ++ [EvProbeForRead Buffer Length true])
      | None =>
          (ProbeException io, Some NULL, [],
           tr ++ [EvProbeForRead Buffer Length false;
                  Kernel (EvFreePool TempBuffer)])
      end.

Definition __FreeCapturedBuffer (CapturedBuffer : Z) : list io_event :=
  if negb (CapturedBuffer =? NULL) then [Kernel (EvFreePool CapturedBuffer)]
  else [].

(** ** Store requests

    A store handler gives back its status, the system buffer as it leaves
    it, [*Info] if it wrote it, and the calls it made. *)

Definition IoctlStoreRead (io : IO_ENV) (Buffer : list Z) (InLen OutLen : Z)
  : option (NTSTATUS * list Z * option Z * list io_event) :=
  if InLen =? 0 then Some (STATUS_INVALID_BUFFER_SIZE, Buffer, None, [])
  else
    valid ← __IsValidStr (isprint io) Buffer (Z.to_nat InLen);
    if negb (valid : bool) then Some (STATUS_INVALID_PARAMETER, Buffer, None, [])
    else
      let '(status, Value, ValueBytes) := StoreRead io (c_str Buffer) in
      let tr3 := [EvStoreRead (c_str Buffer) status Value] in
      if negb (NT_SUCCESS status) then Some (status, Buffer, None, tr3)
      else
        n ← strlen ValueBytes;
        let Length := ULONG (ULONG n + 1) in
        if OutLen =? 0 then
          Some (STATUS_BUFFER_OVERFLOW, Buffer, Some Length,
                tr3 ++ [EvStoreFree Value])
        else if OutLen <? Length then
          Some (STATUS_INVALID_PARAMETER, Buffer, None,
                tr3 ++ [EvStoreFree Value])
        else
          Buffer1 ← RtlCopyMemory Buffer ValueBytes Length;
          Buffer2 ← poke Buffer1 (ULONG (Length - 1)) 0;
          Some (STATUS_SUCCESS, Buffer2, Some Length,
                tr3 ++ [EvStoreFree Value]).

Definition IoctlStoreWrite (io : IO_ENV) (Buffer : list Z) (InLen OutLen : Z)
  : option (NTSTATUS * list io_event) :=
  if (InLen =? 0) || negb (OutLen =? 0)
  then Some (STATUS_INVALID_BUFFER_SIZE, [])
  else
    valid ← __IsValidStr (isprint io) Buffer (Z.to_nat InLen);
    if negb (valid : bool) then Some (STATUS_INVALID_PARAMETER, [])
    else
      n ← strlen Buffer;
      let Length := ULONG (ULONG n + 1) in
      let Value := drop (Z.to_nat Length) Buffer in
      valid ← __IsValidStr (isprint io) Value (Z.to_nat (ULONG (InLen - Length)));
      if negb (valid : bool) then Some (STATUS_INVALID_PARAMETER, [])
      else
        let status := StorePrintf io (c_str Buffer) (c_str Value) in
        Some (status, [EvStorePrintf (c_str Buffer) (c_str Value) status]).

Definition IoctlStoreDirectory (io : IO_ENV) (Buffer : list Z)
    (InLen OutLen : Z)
  : option (NTSTATUS * list Z * option Z * list io_event) :=
  if InLen =? 0 then Some (STATUS_INVALID_BUFFER_SIZE, Buffer, None, [])
  else
    valid ← __IsValidStr (isprint io) Buffer (Z.to_nat InLen);
    if negb (valid : bool) then Some (STATUS_INVALID_PARAMETER, Buffer, None, [])
    else
      let '(status, Value, ValueBytes) := StoreDirectory io (c_str Buffer) in
      let tr3 := [EvStoreDirectory (c_str Buffer) status Value] in
      if negb (NT_SUCCESS status) then Some (status, Buffer, None, tr3)
      else
        '(n, Count) ← __MultiSzLen ValueBytes;
        let Length := ULONG (n + 1) in
        if OutLen =? 0 then
          Some (STATUS_BUFFER_OVERFLOW, Buffer, Some Length,
                tr3 ++ [EvStoreFree Value])
        else if OutLen <? Length then
          Some (STATUS_INVALID_PARAMETER, Buffer, None,
                tr3 ++ [EvStoreFree Value])
        else
          Buffer1 ← RtlCopyMemory Buffer ValueBytes Length;
          Buffer2 ← poke Buffer1 (ULONG (Length - 2)) 0;
          Buffer3 ← poke Buffer2 (ULONG (Length - 1)) 0;
          Some (STATUS_SUCCESS, Buffer3, Some Length,
                tr3 ++ [EvStoreFree Value]).

Definition IoctlStoreRemove (io : IO_ENV) (Buffer : list Z) (InLen OutLen : Z)
  : option (NTSTATUS * list io_event) :=
  if (InLen =? 0) || negb (OutLen =? 0)
  then Some (STATUS_INVALID_BUFFER_SIZE, [])
  else
    valid ← __IsValidStr (isprint io) Buffer (Z.to_nat InLen);
    if negb (valid : bool) then Some (STATUS_INVALID_PARAMETER, [])
    else
      let status := StoreRemove io (c_str Buffer) in
      Some (status, [EvStoreRemove (c_str Buffer) status]).

(** The message of SetPermissions: the header fields and the array
    [Permissions] that follows them in the system buffer. *)
Record XENIFACE_STORE_SET_PERMISSIONS_IN := {
  SetPerm_Path : Z;
  SetPerm_PathLength : Z;
  SetPerm_NumberPermissions : Z;
  SetPerm_Permissions : list XENBUS_STORE_PERMISSION
}.

(** The loop that checks the masks: [Some true] is [goto fail5]. *)
Fixpoint PermissionsLoop (Allowed : Z)
    (Permissions : list XENBUS_STORE_PERMISSION) (count Index : nat)
  : option bool :=
  match count with
  | O => Some false
  | S count' =>
      p ← Permissions !! Index;
      if negb (Z.land (Perm_Mask p) (Z.lnot Allowed) =? 0) then Some true
      else PermissionsLoop Allowed Permissions count' (S Index)
  end.

Definition IoctlStoreSetPermissions (L : Layout) (L2 : IoctlLayout)
    (io : IO_ENV) (In : XENIFACE_STORE_SET_PERMISSIONS_IN) (InLen OutLen : Z)
  : option (NTSTATUS * list io_event) :=
  if (InLen <? sizeof_STORE_SET_PERMISSIONS_IN L2) || negb (OutLen =? 0)
  then Some (STATUS_INVALID_BUFFER_SIZE, [])
  else if InLen <? SIZE_T L (sizeof_STORE_SET_PERMISSIONS_IN L2
                             + SetPerm_NumberPermissions In
                               * sizeof_XENBUS_STORE_PERMISSION L2)
  then Some (STATUS_INVALID_BUFFER_SIZE, [])
  else if (SetPerm_PathLength In =? 0)
          || (SetPerm_PathLength In >? XENSTORE_ABS_PATH_MAX)
  then Some (STATUS_INVALID_PARAMETER, [])
  else
    let '(status, CapturedBuffer, PathBytes, tr4) :=
      __CaptureUserBuffer io (SetPerm_Path In) (SetPerm_PathLength In) in
    if negb (NT_SUCCESS status) then Some (status, tr4)
    else
      Path ← CapturedBuffer;
      if Path =? NULL then None
      else
        PathBytes' ← poke PathBytes (ULONG (SetPerm_PathLength In - 1)) 0;
        let NumberPermissions := Z.to_nat (SetPerm_NumberPermissions In) in
        bad ← PermissionsLoop (XENIFACE_STORE_ALLOWED_PERMISSIONS L2)
                (SetPerm_Permissions In) NumberPermissions 0%nat;
        if bad : bool then Some (status, tr4 ++ __FreeCapturedBuffer Path)
        else
          let Permissions := take NumberPermissions (SetPerm_Permissions In) in
          let status := StorePermissionsSet io (c_str PathBytes') Permissions in
          Some (status,
                tr4 ++ [EvStorePermissionsSet (c_str PathBytes') Permissions status]
                ++ __FreeCapturedBuffer Path).

Record XENIFACE_STORE_ADD_WATCH_IN := {
  AddWatch_Path : Z;
  AddWatch_PathLength : Z;
  AddWatch_Event : Z
}.

Section AddWatchUnwind.
Variables (Event Context Path : Z).

Definition AddWatch_fail4 : list io_event := __FreeCapturedBuffer Path.
Definition AddWatch_fail5 : list io_event :=
  Kernel (EvFreePool Context) :: AddWatch_fail4.
Definition AddWatch_fail6 : list io_event :=
  Kernel (EvDereferenceObject Event) :: AddWatch_fail5.
End AddWatchUnwind.

(** AddWatch gives back the status, the FDO, [Out->Context] and [*Info] if
    written, and the calls made. *)
Definition IoctlStoreAddWatch (L2 : IoctlLayout) (io : IO_ENV)
    (Fdo : XENIFACE_FDO) (In : XENIFACE_STORE_ADD_WATCH_IN)
    (InLen OutLen FileObject : Z)
  : option (NTSTATUS * XENIFACE_FDO * option Z * option Z * list io_event) :=
  if negb (InLen =? sizeof_STORE_ADD_WATCH_IN L2)
     || negb (OutLen =? sizeof_STORE_ADD_WATCH_OUT L2)
  then Some (STATUS_INVALID_BUFFER_SIZE, Fdo, None, None, [])
  else if (AddWatch_PathLength In =? 0)
          || (AddWatch_PathLength In >? XENSTORE_ABS_PATH_MAX)
  then Some (STATUS_INVALID_PARAMETER, Fdo, None, None, [])
  else
    let '(status, CapturedBuffer, PathBytes, tr3) :=
      __CaptureUserBuffer io (AddWatch_Path In) (AddWatch_PathLength In) in
    if negb (NT_SUCCESS status) then Some (status, Fdo, None, None, tr3)
    else
      Path ← CapturedBuffer;
      if Path =? NULL then None
      else
        PathBytes' ← poke PathBytes (ULONG (AddWatch_PathLength In - 1)) 0;
        let Context := AllocStoreContext io in
        let tr4 := tr3 ++ [Kernel (EvAllocatePool Context (sizeof_STORE_CONTEXT L2))] in
        if Context =? NULL then
          Some (STATUS_NO_MEMORY, Fdo, None, None, tr4 ++ AddWatch_fail4 Path)
        else
          let '(status, Event) := ObReferenceObjectByHandle io (AddWatch_Event In) in
          let tr5 := tr4 ++ [EvReferenceObjectByHandle (AddWatch_Event In)
                               status Event] in
          if negb (NT_SUCCESS status) then
            Some (status, Fdo, None, None, tr5 ++ AddWatch_fail5 Context Path)
          else
            let '(status, Watch) := StoreWatchAdd io (c_str PathBytes') Event in
            let tr6 := tr5 ++ [EvStoreWatchAdd (c_str PathBytes') Event
                                 status Watch] in
            if negb (NT_SUCCESS status) then
              Some (status, Fdo, None, None,
                    tr6 ++ AddWatch_fail6 Event Context Path)
            else
              let Store := {| Store_Self := Context;
                              Store_FileObject := FileObject;
                              Store_Event := Event;
                              Store_Watch := Watch |} in
              Some (status,
                    set_StoreWatchList Fdo (StoreWatchList Fdo ++ [Store]),
                    Some Context, Some (sizeof_STORE_ADD_WATCH_OUT L2),
                    tr6 ++ __FreeCapturedBuffer Path
                    ++ [Kernel (EvAcquireLock StoreWatchLock);
                        Kernel (EvReleaseLock StoreWatchLock)]).

(** ** Binding an event channel *)

Record XENIFACE_EVTCHN_BIND_UNBOUND_IN := {
  BindUnbound_RemoteDomain : Z;
  BindUnbound_Event : Z;
  BindUnbound_Mask : Z
}.

Record XENIFACE_EVTCHN_BIND_INTERDOMAIN_IN := {
  BindInterdomain_RemoteDomain : Z;
  BindInterdomain_RemotePort : Z;
  BindInterdomain_Event : Z;
  BindInterdomain_Mask : Z
}.

(** IoctlEvtchnBindUnbound and IoctlEvtchnBindInterdomain are the same
    statements but for the message sizes and for the arguments of Open;
    [EvtchnBind] is that body.  It gives back the status, the FDO,
    [Out->LocalPort] and [*Info] if written, and the calls made. *)
Definition EvtchnBind (L2 : IoctlLayout) (io : IO_ENV) (Fdo : XENIFACE_FDO)
    (sizeof_IN sizeof_OUT : Z) (Type_ : XENBUS_EVTCHN_TYPE) (Event Mask : Z)
    (InLen OutLen FileObject : Z)
  : NTSTATUS * XENIFACE_FDO * option Z * option Z * list io_event :=
  if negb (InLen =? sizeof_IN) || negb (OutLen =? sizeof_OUT)
  then (STATUS_INVALID_BUFFER_SIZE, Fdo, None, None, [])
  else
    let Context := AllocEvtchnContext io in
    let tr2 := [Kernel (EvAllocatePool Context (sizeof_EVTCHN_CONTEXT L2))] in
    if Context =? NULL then (STATUS_NO_MEMORY, Fdo, None, None, tr2)
    else
      let '(status, EventObject) := ObReferenceObjectByHandle io Event in
      let tr3 := tr2 ++ [EvReferenceObjectByHandle Event status EventObject] in
      if negb (NT_SUCCESS status) then
        (status, Fdo, None, None, tr3 ++ [Kernel (EvFreePool Context)])
      else
        let Channel := EvtchnOpen io Type_ Context in
        let tr4 := tr3 ++ [EvEvtchnOpen Type_ Context Channel] in
        if Channel =? NULL then
          (STATUS_UNSUCCESSFUL, Fdo, None, None,
           tr4 ++ [Kernel (EvDereferenceObject EventObject);
                   Kernel (EvFreePool Context)])
        else
          let LocalPort := EvtchnGetPort io Channel in
          let Evtchn := {| Evtchn_Self := Context;
                           Evtchn_FileObject := FileObject;
                           Evtchn_Channel := Channel;
                           Evtchn_LocalPort := LocalPort;
                           Evtchn_Event := EventObject;
                           Evtchn_Active := true |} in
          (STATUS_SUCCESS,
           set_EvtchnList Fdo (EvtchnList Fdo ++ [Evtchn]),
           Some LocalPort, Some sizeof_OUT,
           tr4 ++ [EvEvtchnGetPort Channel LocalPort;
                   Kernel (EvAcquireLock EvtchnLock);
                   Kernel (EvReleaseLock EvtchnLock);
                   Kernel (EvSetActive Context true)]
           ++ (if Mask =? 0 then [Kernel (EvEvtchnUnmask Channel)] else [])).

Definition IoctlEvtchnBindUnbound (L2 : IoctlLayout) (io : IO_ENV)
    (Fdo : XENIFACE_FDO) (In : XENIFACE_EVTCHN_BIND_UNBOUND_IN)
    (InLen OutLen FileObject : Z)
  : NTSTATUS * XENIFACE_FDO * option Z * option Z * list io_event :=
  EvtchnBind L2 io Fdo
    (sizeof_EVTCHN_BIND_UNBOUND_IN L2) (sizeof_EVTCHN_BIND_UNBOUND_OUT L2)
    (XENBUS_EVTCHN_TYPE_UNBOUND (BindUnbound_RemoteDomain In))
    (BindUnbound_Event In) (BindUnbound_Mask In) InLen OutLen FileObject.

Definition IoctlEvtchnBindInterdomain (L2 : IoctlLayout) (io : IO_ENV)
    (Fdo : XENIFACE_FDO) (In : XENIFACE_EVTCHN_BIND_INTERDOMAIN_IN)
    (InLen OutLen FileObject : Z)
  : NTSTATUS * XENIFACE_FDO * option Z * option Z * list io_event :=
  EvtchnBind L2 io Fdo
    (sizeof_EVTCHN_BIND_INTERDOMAIN_IN L2)
    (sizeof_EVTCHN_BIND_INTERDOMAIN_OUT L2)
    (XENBUS_EVTCHN_TYPE_INTER_DOMAIN (BindInterdomain_RemoteDomain In)
                                    (BindInterdomain_RemotePort In))
    (BindInterdomain_Event In) (BindInterdomain_Mask In)
    InLen OutLen FileObject.

(** ** Notify and unmask *)

Definition IoctlEvtchnNotify (L2 : IoctlLayout) (Fdo : XENIFACE_FDO)
    (LocalPort : Z) (InLen OutLen FileObject : Z) : NTSTATUS * list event :=
  if negb (InLen =? sizeof_EVTCHN_NOTIFY_IN L2) || negb (OutLen =? 0)
  then (STATUS_INVALID_BUFFER_SIZE, [])
  else EvtchnNotify Fdo LocalPort FileObject.

Definition IoctlEvtchnUnmask (L2 : IoctlLayout) (Fdo : XENIFACE_FDO)
    (LocalPort : Z) (InLen OutLen FileObject : Z) : NTSTATUS * list event :=
  if negb (InLen =? sizeof_EVTCHN_UNMASK_IN L2) || negb (OutLen =? 0)
  then (STATUS_INVALID_BUFFER_SIZE, [])
  else
    match EvtchnFindChannel (EvtchnList Fdo) LocalPort FileObject with
    | None =>
        (STATUS_INVALID_PARAMETER,
         [EvAcquireLock EvtchnLock; EvReleaseLock EvtchnLock])
    | Some Context =>
        (STATUS_SUCCESS,
         [EvAcquireLock EvtchnLock; EvEvtchnUnmask (Evtchn_Channel Context);
          EvReleaseLock EvtchnLock])
    end.

(** ** GetMapResult *)

(** GetMapResult gives back the status, [Out->Address] if written and
    [*Info]; it only peeks.  The Type of the id that is looked up is MAP,
    so the context found is a map context. *)
Definition IoctlGnttabGetMapResult (L : Layout) (env : KERNEL_ENV)
    (Fdo : XENIFACE_FDO) (RequestId : Z) (InLen OutLen : Z)
  : NTSTATUS * option Z * option Z :=
  if negb (InLen =? sizeof_GET_MAP_RESULT_IN L)
     || negb (OutLen =? sizeof_GET_MAP_RESULT_OUT L)
  then (STATUS_INVALID_BUFFER_SIZE, None, None)
  else
    let Id := {| Id_Type := XENIFACE_CONTEXT_MAP;
                 Id_Process := PsGetCurrentProcess env;
                 Id_RequestId := RequestId |} in
    match CsqPeekNextIrp (IrpQueue Fdo) Id with
    | None => (STATUS_NOT_FOUND, None, None)
    | Some p =>
        match DriverContext p with
        | GrantContext _ => (STATUS_NOT_FOUND, None, None)
        | MapContext Context =>
            (STATUS_SUCCESS, Some (Map_UserVa Context), Some OutLen)
        end
    end.

(** ** The dispatcher *)

(** A device-control request: the control code together with the system
    buffer as the handler of that code reads it.  The codes are the
    constants of [xeniface_ioctls.h], which a [switch] requires to be
    distinct; every other code is [IOCTL_OTHER]. *)
Inductive IOCTL_REQUEST :=
| IOCTL_XENIFACE_STORE_READ (Buffer : list Z)
| IOCTL_XENIFACE_STORE_WRITE (Buffer : list Z)
| IOCTL_XENIFACE_STORE_DIRECTORY (Buffer : list Z)
| IOCTL_XENIFACE_STORE_REMOVE (Buffer : list Z)
| IOCTL_XENIFACE_STORE_SET_PERMISSIONS (In : XENIFACE_STORE_SET_PERMISSIONS_IN)
| IOCTL_XENIFACE_STORE_ADD_WATCH (In : XENIFACE_STORE_ADD_WATCH_IN)
| IOCTL_XENIFACE_STORE_REMOVE_WATCH (Context : Z)
| IOCTL_XENIFACE_EVTCHN_BIND_UNBOUND (In : XENIFACE_EVTCHN_BIND_UNBOUND_IN)
| IOCTL_XENIFACE_EVTCHN_BIND_INTERDOMAIN
    (In : XENIFACE_EVTCHN_BIND_INTERDOMAIN_IN)
| IOCTL_XENIFACE_EVTCHN_CLOSE (LocalPort : Z)
| IOCTL_XENIFACE_EVTCHN_NOTIFY (LocalPort : Z)
| IOCTL_XENIFACE_EVTCHN_UNMASK (LocalPort : Z)
| IOCTL_XENIFACE_GNTTAB_PERMIT_FOREIGN_ACCESS
    (In : XENIFACE_GNTTAB_PERMIT_FOREIGN_ACCESS_IN)
| IOCTL_XENIFACE_GNTTAB_GET_GRANT_RESULT (RequestId : Z)
| IOCTL_XENIFACE_GNTTAB_REVOKE_FOREIGN_ACCESS (RequestId : Z)
| IOCTL_XENIFACE_GNTTAB_MAP_FOREIGN_PAGES
    (In : XENIFACE_GNTTAB_MAP_FOREIGN_PAGES_IN)
| IOCTL_XENIFACE_GNTTAB_GET_MAP_RESULT (RequestId : Z)
| IOCTL_XENIFACE_GNTTAB_UNMAP_FOREIGN_PAGES (RequestId : Z)
| IOCTL_OTHER (IoControlCode : Z).

(** What a handler left in the system buffer. *)
Inductive IOCTL_OUTPUT :=
| OutputNone
| OutputBuffer (Buffer : list Z)
| OutputContext (Context : option Z)
| OutputLocalPort (LocalPort : option Z)
| OutputGrantResult (Out : option XENIFACE_GNTTAB_GET_GRANT_RESULT_OUT)
| OutputAddress (Address : option Z).

(** The [switch] of XenIfaceIoctl: the status of the handler, the FDO, the
    output, [Irp->IoStatus.Information] if the handler wrote it, and the
    calls made. *)
Definition XenIfaceIoctlSwitch (L : Layout) (L2 : IoctlLayout)
    (env : KERNEL_ENV) (io : IO_ENV) (Fdo : XENIFACE_FDO)
    (Request : IOCTL_REQUEST) (InLen OutLen FileObject Irp : Z)
  : option (NTSTATUS * XENIFACE_FDO * IOCTL_OUTPUT * option Z * list io_event) :=
  match Request with
  | IOCTL_XENIFACE_STORE_READ Buffer =>
      '(status, Buffer', Info, tr) ← IoctlStoreRead io Buffer InLen OutLen;
      Some (status, Fdo, OutputBuffer Buffer', Info, tr)
  | IOCTL_XENIFACE_STORE_WRITE Buffer =>
      '(status, tr) ← IoctlStoreWrite io Buffer InLen OutLen;
      Some (status, Fdo, OutputNone, None, tr)
  | IOCTL_XENIFACE_STORE_DIRECTORY Buffer =>
      '(status, Buffer', Info, tr) ← IoctlStoreDirectory io Buffer InLen OutLen;
      Some (status, Fdo, OutputBuffer Buffer', Info, tr)
  | IOCTL_XENIFACE_STORE_REMOVE Buffer =>
      '(status, tr) ← IoctlStoreRemove io Buffer InLen OutLen;
      Some (status, Fdo, OutputNone, None, tr)
  | IOCTL_XENIFACE_STORE_SET_PERMISSIONS In =>
      '(status, tr) ← IoctlStoreSetPermissions L L2 io In InLen OutLen;
      Some (status, Fdo, OutputNone, None, tr)
  | IOCTL_XENIFACE_STORE_ADD_WATCH In =>
      '(status, Fdo', Context, Info, tr) ←
        IoctlStoreAddWatch L2 io Fdo In InLen OutLen FileObject;
      Some (status, Fdo', OutputContext Context, Info, tr)
  | IOCTL_XENIFACE_STORE_REMOVE_WATCH Context =>
      let '(status, Fdo', tr) :=
        IoctlStoreRemoveWatch L Fdo Context InLen OutLen FileObject in
      Some (status, Fdo', OutputNone, None, Kernel <$> tr)
  | IOCTL_XENIFACE_EVTCHN_BIND_UNBOUND In =>
      let '(status, Fdo', LocalPort, Info, tr) :=
        IoctlEvtchnBindUnbound L2 io Fdo In InLen OutLen FileObject in
      Some (status, Fdo', OutputLocalPort LocalPort, Info, tr)
  | IOCTL_XENIFACE_EVTCHN_BIND_INTERDOMAIN In =>
      let '(status, Fdo', LocalPort, Info, tr) :=
        IoctlEvtchnBindInterdomain L2 io Fdo In InLen OutLen FileObject in
      Some (status, Fdo', OutputLocalPort LocalPort, Info, tr)
  | IOCTL_XENIFACE_EVTCHN_CLOSE LocalPort =>
      let '(status, Fdo', tr) :=
        IoctlEvtchnClose L Fdo LocalPort InLen OutLen FileObject in
      Some (status, Fdo', OutputNone, None, Kernel <$> tr)
  | IOCTL_XENIFACE_EVTCHN_NOTIFY LocalPort =>
      let '(status, tr) :=
        IoctlEvtchnNotify L2 Fdo LocalPort InLen OutLen FileObject in
      Some (status, Fdo, OutputNone, None, Kernel <$> tr)
  | IOCTL_XENIFACE_EVTCHN_UNMASK LocalPort =>
      let '(status, tr) :=
        IoctlEvtchnUnmask L2 Fdo LocalPort InLen OutLen FileObject in
      Some (status, Fdo, OutputNone, None, Kernel <$> tr)
  | IOCTL_XENIFACE_GNTTAB_PERMIT_FOREIGN_ACCESS In =>
      let '(status, Fdo', tr) :=
        IoctlGnttabPermitForeignAccess L env Fdo In InLen OutLen Irp in
      Some (status, Fdo', OutputNone, None, Kernel <$> tr)
  | IOCTL_XENIFACE_GNTTAB_GET_GRANT_RESULT RequestId =>
      let '(status, Fdo', Out, Info) :=
        IoctlGnttabGetGrantResult L env Fdo RequestId InLen OutLen in
      Some (status, Fdo', OutputGrantResult Out,
            if NT_SUCCESS status then Some Info else None, [])
  | IOCTL_XENIFACE_GNTTAB_REVOKE_FOREIGN_ACCESS RequestId =>
      let '(status, Fdo', tr) :=
        IoctlGnttabRevokeForeignAccess L env Fdo RequestId InLen OutLen in
      Some (status, Fdo', OutputNone, None, Kernel <$> tr)
  | IOCTL_XENIFACE_GNTTAB_MAP_FOREIGN_PAGES In =>
      let '(status, Fdo', tr) :=
        IoctlGnttabMapForeignPages L env Fdo In InLen OutLen Irp in
      Some (status, Fdo', OutputNone, None, Kernel <$> tr)
  | IOCTL_XENIFACE_GNTTAB_GET_MAP_RESULT RequestId =>
      let '(status, Address, Info) :=
        IoctlGnttabGetMapResult L env Fdo RequestId InLen OutLen in
      Some (status, Fdo, OutputAddress Address, Info, [])
  | IOCTL_XENIFACE_GNTTAB_UNMAP_FOREIGN_PAGES RequestId =>
      match IoctlGnttabUnmapForeignPages L env Fdo RequestId InLen OutLen with
      | Some (status, Fdo', tr) =>
          Some (status, Fdo', OutputNone, None, Kernel <$> tr)
      | None => None
      end
  | IOCTL_OTHER _ =>
      Some (STATUS_INVALID_DEVICE_REQUEST, Fdo, OutputNone, None, [])
  end.

(** XenIfaceIoctl.  The status is stored in the request, and the request
    is completed unless the status is STATUS_PENDING. *)
Definition XenIfaceIoctl (L : Layout) (L2 : IoctlLayout)
    (env : KERNEL_ENV) (io : IO_ENV) (InterfacesAcquired : bool)
    (Fdo : XENIFACE_FDO) (Request : IOCTL_REQUEST)
    (InLen OutLen FileObject Irp : Z)
  : option (NTSTATUS * XENIFACE_FDO * IOCTL_OUTPUT * option Z * list io_event) :=
  '(status, Fdo', Out, Info, tr) ←
    (if negb InterfacesAcquired
     then Some (STATUS_DEVICE_NOT_READY, Fdo, OutputNone, None, [])
     else XenIfaceIoctlSwitch L L2 env io Fdo Request InLen OutLen
            FileObject Irp);
  Some (status, Fdo', Out, Info,
        tr ++ (if negb (status =? STATUS_PENDING)
               then [Kernel (EvCompleteRequest Irp status)] else [])).

(** The answers of the store and of the locked-pages mapping that the
    handlers pass on as their own status are never STATUS_PENDING. *)
Definition never_pending (env : KERNEL_ENV) (io : IO_ENV) : Prop :=
  (forall path value, StorePrintf io path value <> STATUS_PENDING)
  /\ (forall path, StoreRemove io path <> STATUS_PENDING)
  /\ (forall path permissions,
        StorePermissionsSet io path permissions <> STATUS_PENDING)
  /\ (forall path event, fst (StoreWatchAdd io path event) <> STATUS_PENDING)
  /\ MapLockedPages env <> MapRaised STATUS_PENDING.

(** A request as the I/O manager delivers it.  The system buffer of a
    buffered request holds [max InLen OutLen] bytes; the view of it that a
    request carries here agrees with that: the bytes of a store request are
    the bytes of the buffer, the entries of SetPermissions that the message
    declares are entries of the message, the lengths are ULONGs, and the
    message of UnmapForeignPages lies in the buffer. *)
Definition request_in_buffer (L : Layout) (Request : IOCTL_REQUEST)
    (InLen OutLen : Z) : Prop :=
  match Request with
  | IOCTL_XENIFACE_STORE_READ Buffer
  | IOCTL_XENIFACE_STORE_WRITE Buffer
  | IOCTL_XENIFACE_STORE_DIRECTORY Buffer
  | IOCTL_XENIFACE_STORE_REMOVE Buffer =>
      Z.of_nat (length Buffer) = Z.max InLen OutLen
  | IOCTL_XENIFACE_STORE_SET_PERMISSIONS In =>
      (Z.to_nat (SetPerm_NumberPermissions In)
       <= length (SetPerm_Permissions In))%nat
      /\ 0 <= SetPerm_PathLength In
  | IOCTL_XENIFACE_STORE_ADD_WATCH In => 0 <= AddWatch_PathLength In
  | IOCTL_XENIFACE_GNTTAB_UNMAP_FOREIGN_PAGES _ =>
      sizeof_UNMAP_FOREIGN_PAGES_IN L <= Z.max InLen OutLen
  | _ => True
  end.

(** What the handlers take for granted of the store and of a faulting
    capture: a value read from the store is a string, with its NUL; a
    directory read from the store is a multi-string that __MultiSzLen can
    walk to its end; both are shorter than 2^32 bytes; and the exception
    code of a fault is a failure status. *)
Definition answers_in_bounds (io : IO_ENV) : Prop :=
  (forall path,
      NT_SUCCESS (StoreRead io path).1.1 = true ->
      is_Some (strlen (StoreRead io path).2)
      /\ Z.of_nat (length (StoreRead io path).2) < ULONG_MODULUS)
  /\ (forall path,
        NT_SUCCESS (StoreDirectory io path).1.1 = true ->
        is_Some (__MultiSzLen (StoreDirectory io path).2)
        /\ Z.of_nat (length (StoreDirectory io path).2) < ULONG_MODULUS)
  /\ NT_SUCCESS (ProbeException io) = false.

(** ** Example data for the store and bind requests *)

(** The layout of a multi-string: every string with its NUL, then one more
    NUL. *)
Definition multi_sz (strings : list (list Z)) : list Z :=
  concat (map (fun s => s ++ [0]) strings) ++ [0].

(** ** Reading a trace of the store and bind requests *)

(** The kernel events of a trace. *)
Definition kernel_events (tr : list io_event) : list event :=
  omap (fun e => match e with Kernel k => Some k | _ => None end) tr.

(** Values the store handed out (successful Read and Directory calls) and
    values given back to it. *)
Definition store_values (tr : list io_event) : list Z :=
  omap (fun e => match e with
                 | EvStoreRead _ status value
                 | EvStoreDirectory _ status value =>
                     if NT_SUCCESS status then Some value else None
                 | _ => None
                 end) tr.

Definition store_freed (tr : list io_event) : list Z :=
  omap (fun e => match e with EvStoreFree value => Some value | _ => None end) tr.

(** Objects referenced by handle, and objects dereferenced. *)
Definition referenced (tr : list io_event) : list Z :=
  omap (fun e => match e with
                 | EvReferenceObjectByHandle _ status object =>
                     if NT_SUCCESS status then Some object else None
                 | _ => None
                 end) tr.

Definition dereferenced (tr : list event) : list Z :=
  omap (fun e => match e with EvDereferenceObject o => Some o | _ => None end) tr.

(** Paths and permission lists given to PermissionsSet. *)
Definition permissions_set (tr : list io_event)
  : list (list Z * list XENBUS_STORE_PERMISSION) :=
  omap (fun e => match e with
                 | EvStorePermissionsSet path permissions _ =>
                     Some (path, permissions)
                 | _ => None
                 end) tr.

(** A string of printable bytes, none of them NUL. *)
Definition printable (isprint : Z -> bool) (s : list Z) : Prop :=
  Forall (fun c => c <> 0 /\ isprint c = true) s.

(** An example environment: printable is 0x20..0x7E, the store holds the
    value "v1" and a directory of "a" and "bc", sixteen bytes of user memory
    at 0x10000 hold the letter p. *)
Definition example_io : IO_ENV :=
  {| isprint := fun c => (0x20 <=? c) && (c <=? 0x7E);
     StoreRead := fun _ => (STATUS_SUCCESS, 0xA000, [118; 49; 0]);
     StoreDirectory := fun _ => (STATUS_SUCCESS, 0xB000, multi_sz [[97]; [98; 99]]);
     StorePrintf := fun _ _ => STATUS_SUCCESS;
     StoreRemove := fun _ => STATUS_SUCCESS;
     StorePermissionsSet := fun _ _ => STATUS_SUCCESS;
     StoreWatchAdd := fun _ _ => (STATUS_SUCCESS, 0xC000);
     AllocCapture := 0x4000;
     UserMemory := fun a =>
       if (0x10000 <=? a) && (a <? 0x10010) then Some 112 else None;
     ProbeException := ntstatus 0xC0000005;
     AllocStoreContext := 0x8C00;
     AllocEvtchnContext := 0x9800;
     ObReferenceObjectByHandle := fun handle => (STATUS_SUCCESS, handle + 0x1000);
     EvtchnOpen := fun _ Context => Context + 0x100;
     EvtchnGetPort := fun _ => 7 |}.

Definition example_ioctl_layout : IoctlLayout :=
  {| sizeof_STORE_SET_PERMISSIONS_IN := 24;
     sizeof_XENBUS_STORE_PERMISSION := 8;
     XENIFACE_STORE_ALLOWED_PERMISSIONS := 3;
     sizeof_STORE_ADD_WATCH_IN := 24;
     sizeof_STORE_ADD_WATCH_OUT := 8;
     sizeof_STORE_CONTEXT := 40;
     sizeof_EVTCHN_CONTEXT := 56;
     sizeof_EVTCHN_BIND_UNBOUND_IN := 16;
     sizeof_EVTCHN_BIND_UNBOUND_OUT := 4;
     sizeof_EVTCHN_BIND_INTERDOMAIN_IN := 24;
     sizeof_EVTCHN_BIND_INTERDOMAIN_OUT := 4;
     sizeof_EVTCHN_NOTIFY_IN := 4;
     sizeof_EVTCHN_UNMASK_IN := 4 |}.

(** A permission whose mask has no bit outside the allowed ones. *)
Definition allowed_mask (L2 : IoctlLayout) (p : XENBUS_STORE_PERMISSION)
  : Prop :=
  Z.land (Perm_Mask p) (Z.lnot (XENIFACE_STORE_ALLOWED_PERMISSIONS L2)) = 0.

Definition example_set_permissions_in (Mask : Z)
  : XENIFACE_STORE_SET_PERMISSIONS_IN :=
  {| SetPerm_Path := 0x10000;
     SetPerm_PathLength := 4;
     SetPerm_NumberPermissions := 2;
     SetPerm_Permissions := [{| Perm_Domain := 0; Perm_Mask := 1 |};
                             {| Perm_Domain := 1; Perm_Mask := Mask |}] |}.

Definition example_add_watch_in : XENIFACE_STORE_ADD_WATCH_IN :=
  {| AddWatch_Path := 0x10000; AddWatch_PathLength := 4; AddWatch_Event := 0x44 |}.

Definition example_bind_unbound_in (Mask : Z) : XENIFACE_EVTCHN_BIND_UNBOUND_IN :=
  {| BindUnbound_RemoteDomain := 0; BindUnbound_Event := 0x48;
     BindUnbound_Mask := Mask |}.

(** Channels that Open gave, and channels passed to Close. *)
Definition opened (tr : list io_event) : list Z :=
  omap (fun e => match e with
                 | EvEvtchnOpen _ _ channel =>
                     if channel =? NULL then None else Some channel
                 | _ => None
                 end) tr.

Definition closed (tr : list event) : list Z :=
  omap (fun e => match e with EvEvtchnClose channel => Some channel | _ => None end) tr.

(** Requests completed, with the status they are completed with. *)
Definition completed (tr : list event) : list (Z * NTSTATUS) :=
  omap (fun e => match e with
                 | EvCompleteRequest irp status => Some (irp, status)
                 | _ => None
                 end) tr.

(** User-space mappings made (address and MDL) and undone. *)
Definition user_mapped (tr : list event) : list (Z * Z) :=
  omap (fun e => match e with
                 | EvMapLockedPages mdl (MapReturned uva) =>
                     if uva =? NULL then None else Some (uva, mdl)
                 | _ => None
                 end) tr.

Definition user_unmapped (tr : list event) : list (Z * Z) :=
  omap (fun e => match e with
                 | EvUnmapLockedPages uva mdl => Some (uva, mdl)
                 | _ => None
                 end) tr.

(** I/O space mapped (address and byte count) and unmapped. *)
Definition io_mapped (tr : list event) : list (Z * Z) :=
  omap (fun e => match e with
                 | EvMapIoSpace _ bytes va =>
                     if va =? NULL then None else Some (va, bytes)
                 | _ => None
                 end) tr.

Definition io_unmapped (tr : list event) : list (Z * Z) :=
  omap (fun e => match e with
                 | EvUnmapIoSpace va bytes => Some (va, bytes)
                 | _ => None
                 end) tr.

(** The example kernel, seen from another process. *)
Definition example_env_other_process : KERNEL_ENV :=
  {| PsGetCurrentProcess := 0x7100;
     AllocContext := AllocContext (example_env None);
     AllocGrants := AllocGrants (example_env None);
     AllocKernelVa := AllocKernelVa (example_env None);
     AllocMdl := AllocMdl (example_env None);
     GnttabPermit := GnttabPermit (example_env None);
     GnttabMap := GnttabMap (example_env None);
     GnttabGetReference := GnttabGetReference (example_env None);
     MapIoSpace := MapIoSpace (example_env None);
     MapLockedPages := MapLockedPages (example_env None);
     Concurrent := Concurrent (example_env None) |}.

(** Strings given to the store by Read, Directory, Remove and Printf. *)
Definition store_strings (tr : list io_event) : list (list Z) :=
  flat_map (fun e => match e with
                     | EvStoreRead path _ _
                     | EvStoreDirectory path _ _
                     | EvStoreRemove path _ => [path]
                     | EvStorePrintf path value _ => [path; value]
                     | _ => []
                     end) tr.

(** Processes attached to, and detachments. *)
Definition attached (tr : list event) : list Z :=
  omap (fun e => match e with EvAttachProcess p => Some p | _ => None end) tr.

Definition detached (tr : list event) : list unit :=
  omap (fun e => match e with EvDetachProcess => Some tt | _ => None end) tr.

(** * Properties *)

(** ** Loops *)

Lemma array_read_lookup (a : list Z) (i : nat) (x : Z) :
  a !! i = Some x -> array_read a i = x.
Proof. unfold array_read. intros ->. reflexivity. Qed.

Lemma RevokeForward_spec (f : nat -> Z) (Grants : list Z) :
  forall (count Page : nat),
    (forall i, (Page <= i < Page + count)%nat -> array_read Grants i = f i) ->
    RevokeForward Grants count Page
    = map (fun i => EvRevokeForeignAccess (f i)) (seq Page count).
Proof.
  induction count as [|count IH]; intros Page Hf; simpl; [reflexivity|].
  rewrite Hf by lia. f_equal. apply IH. intros i Hi. apply Hf. lia.
Qed.

Lemma RevokeForward_all (Grants : list Z) :
  forall (Page : nat),
    RevokeForward Grants (length Grants - Page) Page
    = map EvRevokeForeignAccess (drop Page Grants).
Proof.
  intros Page.
  remember (length Grants - Page)%nat as count eqn:Hc.
  revert Page Hc. induction count as [|count IH]; intros Page Hc; simpl.
  - rewrite drop_ge by lia. reflexivity.
  - destruct (Grants !! Page) as [x|] eqn:Hx.
    + rewrite (drop_S _ _ _ Hx). simpl.
      rewrite (array_read_lookup _ _ _ Hx). f_equal. apply IH. lia.
    + apply lookup_ge_None in Hx. lia.
Qed.

Lemma RevokeBackward_spec (f : nat -> Z) (Grants : list Z) :
  forall (Page : nat),
    (forall i, (i < Page)%nat -> array_read Grants i = f i) ->
    RevokeBackward Grants Page
    = map (fun i => EvRevokeForeignAccess (f i)) (reverse (seq 0 Page)).
Proof.
  induction Page as [|Page IH]; intros Hf; [reflexivity|].
  cbn [RevokeBackward]. rewrite seq_S, reverse_app. cbn [reverse rev_append app map plus].
  rewrite Hf by lia. f_equal. apply IH. intros i Hi. apply Hf. lia.
Qed.

Lemma RevokeBackward_take (Grants : list Z) :
  forall (Page : nat),
    (Page <= length Grants)%nat ->
    RevokeBackward Grants Page
    = map EvRevokeForeignAccess (reverse (take Page Grants)).
Proof.
  induction Page as [|Page IH]; intros Hlen; [reflexivity|].
  cbn [RevokeBackward].
  destruct (Grants !! Page) as [x|] eqn:Hx.
  - rewrite (take_S_r _ _ _ Hx), reverse_app. cbn [reverse rev_append app map].
    rewrite (array_read_lookup _ _ _ Hx). f_equal. apply IH. lia.
  - apply lookup_ge_None in Hx. lia.
Qed.

Lemma revoked_map_revoke (l : list Z) :
  revoked (map EvRevokeForeignAccess l) = l.
Proof. induction l as [|x l IH]; simpl; [reflexivity|]. f_equal. exact IH. Qed.

Lemma acquired_app (a b : list event) : acquired (a ++ b) = acquired a ++ acquired b.
Proof. apply omap_app. Qed.

Lemma revoked_app (a b : list event) : revoked (a ++ b) = revoked a ++ revoked b.
Proof. apply omap_app. Qed.

Lemma acquired_map_revoke (l : list Z) : acquired (map EvRevokeForeignAccess l) = [].
Proof. induction l as [|x l IH]; simpl; [reflexivity|exact IH]. Qed.

Lemma acquired_cons_permit d page ro status entry (tr : list event) :
  acquired (EvPermitForeignAccess d page ro status entry :: tr)
  = if NT_SUCCESS status then entry :: acquired tr else acquired tr.
Proof. unfold acquired. simpl. destruct (NT_SUCCESS status); reflexivity. Qed.

(** What the sharing loop leaves behind, whichever way it ends: the first
    [Page'] slots of the Grants array hold what was there before the loop
    followed by the entries acquired, in page order; the loop itself revokes
    nothing; and it ends without a failure only after the last page. *)
Lemma PermitLoop_inv (env : KERNEL_ENV) (d : Z) (ro : bool) :
  forall (count Page : nat) (Grants : list Z) failed Page' Grants' tr,
    (Page + count <= length Grants)%nat ->
    PermitLoop env d ro count Page Grants = (failed, Page', Grants', tr) ->
    length Grants' = length Grants
    /\ (Page <= Page' <= Page + count)%nat
    /\ take Page' Grants' = take Page Grants ++ acquired tr
    /\ revoked tr = []
    /\ (failed = None -> Page' = (Page + count)%nat)
    /\ (forall status, failed = Some status ->
          (Page' < Page + count)%nat
          /\ status = fst (GnttabPermit env Page')
          /\ NT_SUCCESS status = false).
Proof.
  induction count as [|count IH]; intros Page Grants failed Page' Grants' tr Hlen Hrun.
  - simpl in Hrun. inversion Hrun; subst. simpl.
    rewrite app_nil_r. repeat split; try lia; try discriminate.
  - cbn [PermitLoop] in Hrun.
    destruct (GnttabPermit env Page) as [status entry] eqn:HP.
    destruct (NT_SUCCESS status) eqn:Hok.
    + destruct (PermitLoop env d ro count (S Page) (<[Page:=entry]> Grants))
        as [[[r P1] G1] tr1] eqn:Hrec.
      inversion Hrun; subst; clear Hrun.
      apply IH in Hrec; [|rewrite length_insert; lia].
      destruct Hrec as (Hl & Hp & Ht & Hr & Hn & Hs).
      rewrite length_insert in Hl.
      assert (Hentry : <[Page:=entry]> Grants !! Page = Some entry)
        by (apply list_lookup_insert_eq; lia).
      rewrite (take_S_r _ _ _ Hentry), take_insert_ge in Ht by lia.
      split; [exact Hl|]. split; [lia|]. split.
      { rewrite Ht, acquired_cons_permit, Hok, <- app_assoc. reflexivity. }
      split; [exact Hr|]. split.
      { intros E. rewrite (Hn E). lia. }
      intros st E. destruct (Hs _ E) as (? & ? & ?).
      split; [lia|]. split; assumption.
    + inversion Hrun; subst; clear Hrun.
      rewrite length_insert, acquired_cons_permit, Hok.
      rewrite take_insert_ge by lia. cbn [acquired omap]. rewrite app_nil_r.
      split; [reflexivity|]. split; [lia|]. split; [reflexivity|].
      split; [reflexivity|]. split; [discriminate|].
      intros st E. inversion E; subst. rewrite HP.
      split; [lia|]. split; [reflexivity|exact Hok].
Qed.

(** The sharing loop when the bus rejects page [Page + k] after accepting
    the [k] pages before it. *)
Lemma PermitLoop_rejects (env : KERNEL_ENV) (d : Z) (ro : bool) :
  forall (k count Page : nat) (Grants : list Z),
    (k < count)%nat ->
    (Page + count <= length Grants)%nat ->
    (forall i, (i < k)%nat -> NT_SUCCESS (fst (GnttabPermit env (Page + i))) = true) ->
    NT_SUCCESS (fst (GnttabPermit env (Page + k))) = false ->
    exists Grants',
      PermitLoop env d ro count Page Grants
      = (Some (fst (GnttabPermit env (Page + k))), (Page + k)%nat, Grants',
         map (PermitEvent env d ro) (seq Page (S k)))
      /\ (forall i, (Page <= i < Page + k)%nat ->
            Grants' !! i = Some (snd (GnttabPermit env i))).
Proof.
  induction k as [|k IH]; intros count Page Grants Hk Hlen Hok Hbad.
  - destruct count as [|count]; [lia|].
    cbn [PermitLoop]. rewrite Nat.add_0_r in *.
    destruct (GnttabPermit env Page) as [status entry] eqn:HP.
    cbn [fst] in Hbad. rewrite Hbad.
    assert (Hev : PermitEvent env d ro Page
                  = EvPermitForeignAccess d Page ro status entry)
      by (unfold PermitEvent; rewrite HP; reflexivity).
    eexists. split.
    + cbn [seq map]. rewrite Hev. reflexivity.
    + intros i Hi. lia.
  - destruct count as [|count]; [lia|].
    cbn [PermitLoop].
    destruct (GnttabPermit env Page) as [status entry] eqn:HP.
    pose proof (Hok 0%nat ltac:(lia)) as H0.
    rewrite Nat.add_0_r, HP in H0. cbn [fst] in H0. rewrite H0.
    assert (Hev : PermitEvent env d ro Page
                  = EvPermitForeignAccess d Page ro status entry)
      by (unfold PermitEvent; rewrite HP; reflexivity).
    destruct (IH count (S Page) (<[Page:=entry]> Grants)) as (G' & Hrun & Hget).
    + lia.
    + rewrite length_insert. lia.
    + intros i Hi. replace (S Page + i)%nat with (Page + S i)%nat by lia.
      apply Hok. lia.
    + replace (S Page + k)%nat with (Page + S k)%nat by lia. exact Hbad.
    + rewrite Hrun. exists G'. split.
      * replace (S Page + k)%nat with (Page + S k)%nat by lia.
        cbn [seq map]. rewrite Hev. reflexivity.
      * intros i Hi. destruct (decide (i = Page)) as [->|Hne].
        -- assert (Hpre : (S Page + count <= length (<[Page:=entry]> Grants))%nat)
             by (rewrite length_insert; lia).
           pose proof (PermitLoop_inv env d ro _ _ _ _ _ _ _ Hpre Hrun)
             as (Hl & _ & Ht & _).
           assert (HP' : take (S Page) G' !! Page = Some entry).
           { assert (E : take (S Page) G' = take (S Page) (take (S Page + k) G')).
             { rewrite take_take. f_equal. lia. }
             rewrite E, Ht. rewrite lookup_take_lt by lia. rewrite lookup_app_l.
             - rewrite lookup_take_lt by lia.
               apply list_lookup_insert_eq. lia.
             - rewrite length_take, length_insert. lia. }
           rewrite lookup_take_lt in HP' by lia. rewrite HP', HP. reflexivity.
        -- apply Hget. lia.
Qed.

(** ** PermitForeignAccess: a page rejected by the bus *)

(** C2. If the bus rejects the share of page [k] (pages 0..k-1 having been
    shared), PermitForeignAccess revokes the pages k-1, ..., 0 in that order,
    frees the MDL, the kernel buffer, the Grants array and the context,
    returns the status the bus gave, and leaves the FDO, hence the queue of
    parked requests, as it was. *)
Theorem PermitForeignAccess_rejected_page_unwinds
    (L : Layout) (env : KERNEL_ENV) (Fdo : XENIFACE_FDO)
    (In : XENIFACE_GNTTAB_PERMIT_FOREIGN_ACCESS_IN) (InLen OutLen Irp : Z)
    (k : nat) :
  InLen = sizeof_PERMIT_FOREIGN_ACCESS_IN L ->
  OutLen = 0 ->
  GnttabBadPages (Permit_NumberPages In) (Permit_Flags In)
                 (Permit_NotifyOffset In) = false ->
  AllocContext env <> NULL ->
  AllocGrants env <> NULL ->
  AllocKernelVa env <> NULL ->
  AllocMdl env <> NULL ->
  FindGnttabIrp Fdo {| Id_Type := XENIFACE_CONTEXT_GRANT;
                       Id_Process := PsGetCurrentProcess env;
                       Id_RequestId := Permit_RequestId In |} = None ->
  (k < Z.to_nat (Permit_NumberPages In))%nat ->
  (forall i, (i < k)%nat -> NT_SUCCESS (fst (GnttabPermit env i)) = true) ->
  NT_SUCCESS (fst (GnttabPermit env k)) = false ->
  IoctlGnttabPermitForeignAccess L env Fdo In InLen OutLen Irp
  = (fst (GnttabPermit env k), Fdo,
     [EvAllocatePool (AllocContext env) (sizeof_GRANT_CONTEXT L);
      EvAllocatePool (AllocGrants env)
        (SIZE_T L (Permit_NumberPages In * sizeof_PVOID L));
      EvAllocatePool (AllocKernelVa env)
        (ULONG_mul (Permit_NumberPages In) PAGE_SIZE);
      EvAllocateMdl (AllocMdl env) (AllocKernelVa env)
        (ULONG_mul (Permit_NumberPages In) PAGE_SIZE)]
     ++ map (PermitEvent env (Permit_RemoteDomain In)
               (flag_set (Permit_Flags In) XENIFACE_GNTTAB_READONLY))
            (seq 0 (S k))
     ++ map (fun i => EvRevokeForeignAccess (snd (GnttabPermit env i)))
            (reverse (seq 0 k))
     ++ [EvFreeMdl (AllocMdl env);
         EvFreePool (AllocKernelVa env);
         EvFreePool (AllocGrants env);
         EvFreePool (AllocContext env)]).
Proof.
  intros -> -> Hpages Hc Hg Hk Hm Hfind Hlt Hok Hbad.
  unfold IoctlGnttabPermitForeignAccess.
  rewrite !Z.eqb_refl, Hpages, Hfind. cbn [negb orb].
  apply Z.eqb_neq in Hc, Hg, Hk, Hm. rewrite Hc, Hg, Hk, Hm.
  destruct (PermitLoop_rejects env (Permit_RemoteDomain In)
              (flag_set (Permit_Flags In) XENIFACE_GNTTAB_READONLY)
              k (Z.to_nat (Permit_NumberPages In)) 0
              (replicate (Z.to_nat (Permit_NumberPages In)) NULL))
    as (Grants' & Hrun & Hget).
  - exact Hlt.
  - rewrite length_replicate. lia.
  - exact Hok.
  - exact Hbad.
  - cbn [plus] in Hrun. rewrite Hrun.
    unfold Permit_fail8, Permit_fail7, Permit_fail6, Permit_fail4.
    rewrite (RevokeBackward_spec (fun i => snd (GnttabPermit env i))).
    + rewrite <- !app_assoc. reflexivity.
    + intros i Hi. apply array_read_lookup, Hget. lia.
Qed.

Lemma PermitForeignAccess_rejected_page_unwinds_witness :
  IoctlGnttabPermitForeignAccess example_layout (example_env (Some 2%nat))
    example_Fdo (example_permit_in 4 0 0) 24 0 77
  = (STATUS_UNSUCCESSFUL, example_Fdo,
     [EvAllocatePool 0x1000 96; EvAllocatePool 0x2000 32;
      EvAllocatePool 0x100000 0x4000; EvAllocateMdl 0x3000 0x100000 0x4000;
      EvPermitForeignAccess 1 0 false STATUS_SUCCESS 0x5000;
      EvPermitForeignAccess 1 1 false STATUS_SUCCESS 0x5001;
      EvPermitForeignAccess 1 2 false STATUS_UNSUCCESSFUL NULL;
      EvRevokeForeignAccess 0x5001; EvRevokeForeignAccess 0x5000;
      EvFreeMdl 0x3000; EvFreePool 0x100000; EvFreePool 0x2000;
      EvFreePool 0x1000]).
Proof.
  apply (PermitForeignAccess_rejected_page_unwinds example_layout
           (example_env (Some 2%nat)) example_Fdo (example_permit_in 4 0 0)
           24 0 77 2%nat).
  - reflexivity.
  - reflexivity.
  - reflexivity.
  - discriminate.
  - discriminate.
  - discriminate.
  - discriminate.
  - reflexivity.
  - vm_compute. lia.
  - intros i Hi.
    destruct i as [|[|i]]; [reflexivity|reflexivity|lia].
  - reflexivity.
Defined.

(** ** The queue *)

Lemma ContextTypeEq_eq (a b : XENIFACE_CONTEXT_TYPE) :
  ContextTypeEq a b = true <-> a = b.
Proof. destruct a, b; simpl; split; congruence. Qed.

Lemma ContextIdEq_eq (a b : XENIFACE_CONTEXT_ID) :
  ContextIdEq a b = true <-> a = b.
Proof.
  destruct a as [ta pa ra], b as [tb pb rb]. unfold ContextIdEq. simpl.
  rewrite !andb_true_iff, ContextTypeEq_eq, !Z.eqb_eq.
  split; [intros [[-> ->] ->]; reflexivity | intros E; inversion E; auto].
Qed.

Lemma ContextIdEq_refl (a : XENIFACE_CONTEXT_ID) : ContextIdEq a a = true.
Proof. apply ContextIdEq_eq. reflexivity. Qed.

(** Peek finds nothing exactly when no parked request carries the id. *)
Lemma CsqPeekNextIrp_None (Queue : list PENDING_IRP) (Id : XENIFACE_CONTEXT_ID) :
  CsqPeekNextIrp Queue Id = None
  <-> forall p, p ∈ Queue -> ContextId (DriverContext p) <> Id.
Proof.
  induction Queue as [|q Queue IH]; simpl.
  - split; [intros _ p Hp; inversion Hp | reflexivity].
  - destruct (ContextIdEq (ContextId (DriverContext q)) Id) eqn:E.
    + apply ContextIdEq_eq in E. split; [discriminate|].
      intros H. exfalso. apply (H q); [left | exact E].
    + rewrite IH. split.
      * intros H p Hp. apply elem_of_cons in Hp as [->|Hp]; [|auto].
        intros E'. apply ContextIdEq_eq in E'. congruence.
      * intros H p Hp. apply H. right. exact Hp.
Qed.

(** What peek finds is parked in the queue under the id asked for. *)
Lemma CsqPeekNextIrp_Some (Queue : list PENDING_IRP) (Id : XENIFACE_CONTEXT_ID)
    (p : PENDING_IRP) :
  CsqPeekNextIrp Queue Id = Some p ->
  p ∈ Queue /\ ContextId (DriverContext p) = Id.
Proof.
  induction Queue as [|q Queue IH]; simpl; [discriminate|].
  destruct (ContextIdEq (ContextId (DriverContext q)) Id) eqn:E.
  - intros [= ->]. apply ContextIdEq_eq in E. split; [left | exact E].
  - intros H. destruct (IH H) as [Hin Hid]. split; [right; exact Hin | exact Hid].
Qed.

Lemma CsqPeekNextIrp_grant (Queue : list PENDING_IRP) (Process RequestId : Z)
    (p : PENDING_IRP) :
  CsqPeekNextIrp Queue {| Id_Type := XENIFACE_CONTEXT_GRANT;
                          Id_Process := Process;
                          Id_RequestId := RequestId |} = Some p ->
  exists g, DriverContext p = GrantContext g
            /\ Grant_Process g = Process /\ Grant_RequestId g = RequestId.
Proof.
  intros H. apply CsqPeekNextIrp_Some in H as [_ Hid].
  destruct (DriverContext p) as [g|m]; simpl in Hid; [|discriminate].
  exists g. inversion Hid. auto.
Qed.

Lemma CsqPeekNextIrp_map (Queue : list PENDING_IRP) (Process RequestId : Z)
    (p : PENDING_IRP) :
  CsqPeekNextIrp Queue {| Id_Type := XENIFACE_CONTEXT_MAP;
                          Id_Process := Process;
                          Id_RequestId := RequestId |} = Some p ->
  exists m, DriverContext p = MapContext m
            /\ Map_Process m = Process /\ Map_RequestId m = RequestId.
Proof.
  intros H. apply CsqPeekNextIrp_Some in H as [_ Hid].
  destruct (DriverContext p) as [g|m]; simpl in Hid; [discriminate|].
  exists m. inversion Hid. auto.
Qed.

Lemma CsqPeekNextIrp_snoc (Queue : list PENDING_IRP) (p : PENDING_IRP) :
  CsqPeekNextIrp Queue (ContextId (DriverContext p)) = None ->
  CsqPeekNextIrp (Queue ++ [p]) (ContextId (DriverContext p)) = Some p.
Proof.
  induction Queue as [|q Queue IH]; simpl.
  - intros _. rewrite ContextIdEq_refl. reflexivity.
  - destruct (ContextIdEq _ _); [discriminate | exact IH].
Qed.

Lemma IoCsqRemoveNextIrp_snoc (Queue : list PENDING_IRP) (p : PENDING_IRP) :
  CsqPeekNextIrp Queue (ContextId (DriverContext p)) = None ->
  IoCsqRemoveNextIrp (Queue ++ [p]) (ContextId (DriverContext p))
  = (Some p, Queue).
Proof.
  induction Queue as [|q Queue IH]; simpl.
  - intros _. rewrite ContextIdEq_refl. reflexivity.
  - destruct (ContextIdEq _ _); [discriminate|].
    intros H. rewrite (IH H). reflexivity.
Qed.

(** Removal and peek agree on what is found, and removal takes out one
    entry. *)
Lemma IoCsqRemoveNextIrp_peek (Queue : list PENDING_IRP) (Id : XENIFACE_CONTEXT_ID) :
  fst (IoCsqRemoveNextIrp Queue Id) = CsqPeekNextIrp Queue Id.
Proof.
  induction Queue as [|q Queue IH]; simpl; [reflexivity|].
  destruct (ContextIdEq _ _); [reflexivity|].
  destruct (IoCsqRemoveNextIrp Queue Id). exact IH.
Qed.

Lemma CsqInsertIrpEx_cases (Queue : list PENDING_IRP) (p : PENDING_IRP) :
  (CsqInsertIrpEx Queue p = (STATUS_SUCCESS, Queue ++ [p])
   /\ CsqPeekNextIrp Queue (ContextId (DriverContext p)) = None)
  \/ (CsqInsertIrpEx Queue p = (STATUS_INVALID_PARAMETER, Queue)
      /\ CsqPeekNextIrp Queue (ContextId (DriverContext p)) <> None).
Proof.
  unfold CsqInsertIrpEx.
  destruct (CsqPeekNextIrp Queue (ContextId (DriverContext p)));
    [right | left]; split; congruence.
Qed.

(** ** Teardown of a grant *)

Lemma allocated_app (a b : list event) : allocated (a ++ b) = allocated a ++ allocated b.
Proof. apply omap_app. Qed.

Lemma released_app (a b : list event) : released (a ++ b) = released a ++ released b.
Proof. apply omap_app. Qed.

Lemma mapped_app (a b : list event) : mapped (a ++ b) = mapped a ++ mapped b.
Proof. apply omap_app. Qed.

Lemma unmapped_app (a b : list event) : unmapped (a ++ b) = unmapped a ++ unmapped b.
Proof. apply omap_app. Qed.

(** The notification step neither shares, revokes, maps, unmaps, takes nor
    frees anything. *)
Lemma GnttabNotify_silent (Fdo : XENIFACE_FDO) (Flags KernelVa Offset Port : Z) :
  acquired (GnttabNotify Fdo Flags KernelVa Offset Port) = []
  /\ revoked (GnttabNotify Fdo Flags KernelVa Offset Port) = []
  /\ mapped (GnttabNotify Fdo Flags KernelVa Offset Port) = []
  /\ unmapped (GnttabNotify Fdo Flags KernelVa Offset Port) = []
  /\ released (GnttabNotify Fdo Flags KernelVa Offset Port) = [].
Proof.
  unfold GnttabNotify, EvtchnNotify.
  destruct (flag_set Flags XENIFACE_GNTTAB_USE_NOTIFY_OFFSET);
    destruct (flag_set Flags XENIFACE_GNTTAB_USE_NOTIFY_PORT);
    try destruct (EvtchnFindChannel (EvtchnList Fdo) Port NULL);
    repeat split; reflexivity.
Qed.

(** GnttabFreeGrant revokes every entry of the Grants array once, page 0
    first. *)
Lemma GnttabFreeGrant_revoked (Fdo : XENIFACE_FDO) (g : XENIFACE_GRANT_CONTEXT) :
  length (Grant_Grants g) = Z.to_nat (Grant_NumberPages g) ->
  revoked (GnttabFreeGrant Fdo g) = Grant_Grants g.
Proof.
  intros Hlen. unfold GnttabFreeGrant.
  pose proof (RevokeForward_all (Grant_Grants g) 0) as Hfwd.
  rewrite Nat.sub_0_r, Hlen in Hfwd. rewrite Hfwd.
  rewrite !revoked_app.
  destruct (GnttabNotify_silent Fdo (Grant_Flags g) (Grant_KernelVa g)
              (Grant_NotifyOffset g) (Grant_NotifyPort g)) as (_ & -> & _).
  rewrite revoked_map_revoke. cbn. apply app_nil_r.
Qed.

Lemma GnttabFreeMap_unmapped (Fdo : XENIFACE_FDO) (m : XENIFACE_MAP_CONTEXT) :
  unmapped (GnttabFreeMap Fdo m) = [Map_Address m].
Proof.
  unfold GnttabFreeMap. rewrite unmapped_app.
  destruct (GnttabNotify_silent Fdo (Map_Flags m) (Map_KernelVa m)
              (Map_NotifyOffset m) (Map_NotifyPort m)) as (_ & _ & _ & -> & _).
  reflexivity.
Qed.

Lemma PermitLoop_only_permits (env : KERNEL_ENV) (d : Z) (ro : bool) :
  forall (count Page : nat) (Grants : list Z) failed Page' Grants' tr,
    PermitLoop env d ro count Page Grants = (failed, Page', Grants', tr) ->
    allocated tr = [] /\ released tr = [].
Proof.
  induction count as [|count IH]; intros Page Grants failed Page' Grants' tr Hrun.
  - simpl in Hrun. inversion Hrun. split; reflexivity.
  - cbn [PermitLoop] in Hrun.
    destruct (GnttabPermit env Page) as [status entry].
    destruct (NT_SUCCESS status).
    + destruct (PermitLoop env d ro count (S Page) (<[Page:=entry]> Grants))
        as [[[r P1] G1] tr1] eqn:Hrec.
      inversion Hrun; subst. apply IH in Hrec as [Ha Hr].
      split; [exact Ha | exact Hr].
    + inversion Hrun. split; reflexivity.
Qed.

Lemma RevokeBackward_silent (Grants : list Z) (Page : nat) :
  acquired (RevokeBackward Grants Page) = []
  /\ allocated (RevokeBackward Grants Page) = []
  /\ released (RevokeBackward Grants Page) = [].
Proof.
  induction Page as [|Page IH]; [repeat split; reflexivity|exact IH].
Qed.

(** ** PermitForeignAccess, every way out *)

Ltac trace_norm :=
  rewrite ?acquired_app, ?revoked_app, ?allocated_app, ?released_app,
          ?mapped_app, ?unmapped_app.

(** The ladder from fail8 down gives back, in reverse order, what the
    handler took before it. *)
Lemma Permit_fail8_balances (Context GrantsVa KernelVa Mdl : Z)
    (Grants : list Z) (Page : nat) (pre : list event) :
  (Page <= length Grants)%nat ->
  take Page Grants = acquired pre ->
  revoked pre = [] ->
  allocated pre = [Context; GrantsVa; KernelVa; Mdl] ->
  released pre = [] ->
  revoked (pre ++ Permit_fail8 Context GrantsVa KernelVa Mdl Grants Page)
  = reverse (acquired (pre ++ Permit_fail8 Context GrantsVa KernelVa Mdl Grants Page))
  /\ released (pre ++ Permit_fail8 Context GrantsVa KernelVa Mdl Grants Page)
     = reverse (allocated (pre ++ Permit_fail8 Context GrantsVa KernelVa Mdl Grants Page)).
Proof.
  intros Hlen Htake Hrev Halloc Hrel.
  unfold Permit_fail8, Permit_fail7, Permit_fail6, Permit_fail4.
  destruct (RevokeBackward_silent Grants Page) as (Ha & Hal & Hr).
  trace_norm. rewrite Hrev, Halloc, Hrel, Ha, Hal, Hr, <- Htake.
  rewrite (RevokeBackward_take _ _ Hlen), revoked_map_revoke.
  cbn. rewrite !app_nil_r. split; reflexivity.
Qed.

(** Every run of PermitForeignAccess either registers nothing, having
    revoked what it shared in reverse order and freed what it allocated in
    reverse order, or parks a grant context that holds exactly the entries
    acquired, having revoked and freed nothing.  A run that registers nothing
    leaves the FDO as it was, but for the run that the queue refuses at the
    insertion: that one leaves the queue as the insertion found it, with the
    request that holds the id. *)
Lemma PermitForeignAccess_cases (L : Layout) (env : KERNEL_ENV)
    (Fdo : XENIFACE_FDO) (In : XENIFACE_GNTTAB_PERMIT_FOREIGN_ACCESS_IN)
    (InLen OutLen Irp : Z) :
  (exists status Fdo1 tr,
      IoctlGnttabPermitForeignAccess L env Fdo In InLen OutLen Irp
      = (status, Fdo1, tr)
      /\ (Fdo1 = Fdo
          \/ (status = STATUS_INVALID_PARAMETER
              /\ Fdo1 = set_IrpQueue Fdo (Concurrent env (IrpQueue Fdo))
              /\ CsqPeekNextIrp (Concurrent env (IrpQueue Fdo))
                   {| Id_Type := XENIFACE_CONTEXT_GRANT;
                      Id_Process := PsGetCurrentProcess env;
                      Id_RequestId := Permit_RequestId In |} <> None))
      /\ revoked tr = reverse (acquired tr)
      /\ released tr = reverse (allocated tr))
  \/ (exists g tr,
        IoctlGnttabPermitForeignAccess L env Fdo In InLen OutLen Irp
        = (STATUS_PENDING,
           set_IrpQueue Fdo (Concurrent env (IrpQueue Fdo)
                             ++ [{| Irp := Irp; DriverContext := GrantContext g |}]),
           tr)
        /\ CsqPeekNextIrp (Concurrent env (IrpQueue Fdo))
             (ContextId (GrantContext g)) = None
        /\ Grant_Process g = PsGetCurrentProcess env
        /\ Grant_RequestId g = Permit_RequestId In
        /\ Grant_NumberPages g = Permit_NumberPages In
        /\ GnttabBadPages (Permit_NumberPages In) (Permit_Flags In)
                          (Permit_NotifyOffset In) = false
        /\ Grant_Grants g = acquired tr
        /\ length (Grant_Grants g) = Z.to_nat (Permit_NumberPages In)
        /\ revoked tr = []
        /\ released tr = []).
Proof.
  unfold IoctlGnttabPermitForeignAccess.
  destruct (negb (InLen =? _) || negb (OutLen =? 0));
    [left; eexists _, _, _; split; [reflexivity|]; split; [left; reflexivity|]; split; reflexivity|].
  destruct (GnttabBadPages _ _ _) eqn:Hpages;
    [left; eexists _, _, _; split; [reflexivity|]; split; [left; reflexivity|]; split; reflexivity|].
  destruct (AllocContext env =? NULL) eqn:Hc;
    [left; eexists _, _, _; split; [reflexivity|]; split; [left; reflexivity|]; cbn; rewrite Hc; split; reflexivity|].
  destruct (FindGnttabIrp Fdo _);
    [left; eexists _, _, _; split; [reflexivity|]; split; [left; reflexivity|]; cbn; rewrite Hc; split; reflexivity|].
  destruct (AllocGrants env =? NULL) eqn:Hg;
    [left; eexists _, _, _; split; [reflexivity|]; split; [left; reflexivity|]; cbn; rewrite Hc, Hg; split; reflexivity|].
  destruct (AllocKernelVa env =? NULL) eqn:Hk;
    [left; eexists _, _, _; split; [reflexivity|]; split; [left; reflexivity|]; cbn; rewrite Hc, Hg, Hk; split; reflexivity|].
  destruct (AllocMdl env =? NULL) eqn:Hm;
    [left; eexists _, _, _; split; [reflexivity|]; split; [left; reflexivity|]; cbn; rewrite Hc, Hg, Hk, Hm; split; reflexivity|].
  destruct (PermitLoop _ _ _ _ _ _) as [[[failed Page] Grants] shared] eqn:Hloop.
  pose proof (PermitLoop_only_permits _ _ _ _ _ _ _ _ _ _ Hloop) as [Hsa Hsr].
  apply PermitLoop_inv in Hloop; [|rewrite length_replicate; lia].
  destruct Hloop as (Hlen & Hpage & Htake & Hrev & Hdone & Hfail).
  rewrite length_replicate in Hlen. rewrite take_0 in Htake.
  cbn [app plus] in Htake, Hpage, Hdone.
  match goal with
  | |- context [(?a ++ shared)] => set (tr8 := a ++ shared)
  end.
  assert (H8 : acquired tr8 = acquired shared /\ revoked tr8 = []
               /\ allocated tr8 = [AllocContext env; AllocGrants env;
                                    AllocKernelVa env; AllocMdl env]
               /\ released tr8 = []).
  { subst tr8. trace_norm. rewrite Hrev, Hsa, Hsr. cbn.
    rewrite Hc, Hg, Hk, Hm. repeat split; reflexivity. }
  destruct H8 as (H8a & H8r & H8l & H8f).
  destruct failed as [status|].
  { left. eexists _, _, _. split; [reflexivity|]. split; [left; reflexivity|].
    apply Permit_fail8_balances; first [assumption | lia | congruence]. }
  specialize (Hdone eq_refl). subst Page.
  assert (Hfull : Grants = acquired shared).
  { rewrite <- Htake. symmetry. apply take_ge. lia. }
  match goal with
  | |- context [(tr8 ++ ?e)] => set (tr9 := tr8 ++ e)
  end.
  assert (H9 : acquired tr9 = acquired shared /\ revoked tr9 = []
               /\ allocated tr9 = [AllocContext env; AllocGrants env;
                                    AllocKernelVa env; AllocMdl env]
               /\ released tr9 = []).
  { subst tr9. trace_norm. rewrite H8a, H8r, H8l, H8f. cbn.
    rewrite !app_nil_r. repeat split; reflexivity. }
  destruct H9 as (H9a & H9r & H9l & H9f).
  destruct (MapLockedPages env) as [UserVa|code].
  2:{ left. eexists _, _, _. split; [reflexivity|]. split; [left; reflexivity|].
      apply Permit_fail8_balances; first [assumption | lia | congruence]. }
  destruct (UserVa =? NULL) eqn:Hu.
  { left. eexists _, _, _. split; [reflexivity|]. split; [left; reflexivity|].
    apply Permit_fail8_balances; first [assumption | lia | congruence]. }
  match goal with
  | |- context [CsqInsertIrpEx ?q ?p] =>
      destruct (CsqInsertIrpEx_cases q p) as [[-> Hpeek]|[-> Hpeek]]
  end.
  - right. eexists _, _. split; [reflexivity|]. cbn [NT_SUCCESS].
    split; [exact Hpeek|].
    cbn [Grant_Process Grant_RequestId Grant_NumberPages Grant_Grants].
    trace_norm. rewrite H9a, H9r, H9f. cbn. rewrite !app_nil_r.
    repeat split; first [reflexivity | assumption].
  - left. eexists _, _, _. split; [reflexivity|].
    split; [right; split; [reflexivity|]; split; [reflexivity | exact Hpeek]|].
    unfold Permit_fail11. rewrite cons_middle, app_assoc.
    apply Permit_fail8_balances; try lia.
    + trace_norm. rewrite H9a. cbn. rewrite !app_nil_r. congruence.
    + trace_norm. rewrite H9r. reflexivity.
    + trace_norm. rewrite H9l. reflexivity.
    + trace_norm. rewrite H9f. reflexivity.
Qed.

(** The same for MapForeignPages: a run either registers nothing, having
    undone the foreign mapping if the bus had made one, or parks a map
    context for the address the bus gave. *)
Lemma MapForeignPages_cases (L : Layout) (env : KERNEL_ENV)
    (Fdo : XENIFACE_FDO) (In : XENIFACE_GNTTAB_MAP_FOREIGN_PAGES_IN)
    (InLen OutLen Irp : Z) :
  (exists status Fdo1 tr,
      IoctlGnttabMapForeignPages L env Fdo In InLen OutLen Irp
      = (status, Fdo1, tr)
      /\ (Fdo1 = Fdo
          \/ (status = STATUS_INVALID_PARAMETER
              /\ Fdo1 = set_IrpQueue Fdo (Concurrent env (IrpQueue Fdo))
              /\ CsqPeekNextIrp (Concurrent env (IrpQueue Fdo))
                   {| Id_Type := XENIFACE_CONTEXT_MAP;
                      Id_Process := PsGetCurrentProcess env;
                      Id_RequestId := MapIn_RequestId In |} <> None))
      /\ unmapped tr = mapped tr
      /\ released tr = reverse (allocated tr))
  \/ (exists m tr,
        IoctlGnttabMapForeignPages L env Fdo In InLen OutLen Irp
        = (STATUS_PENDING,
           set_IrpQueue Fdo (Concurrent env (IrpQueue Fdo)
                             ++ [{| Irp := Irp; DriverContext := MapContext m |}]),
           tr)
        /\ CsqPeekNextIrp (Concurrent env (IrpQueue Fdo))
             (ContextId (MapContext m)) = None
        /\ Map_Process m = PsGetCurrentProcess env
        /\ Map_RequestId m = MapIn_RequestId In
        /\ Map_NumberPages m = MapIn_NumberPages In
        /\ mapped tr = [Map_Address m]
        /\ unmapped tr = []
        /\ released tr = []).
Proof.
  unfold IoctlGnttabMapForeignPages.
  destruct ((InLen <? _) || negb (OutLen =? 0));
    [left; eexists _, _, _; split; [reflexivity|]; split; [left; reflexivity|]; split; reflexivity|].
  destruct (GnttabBadPages _ _ _);
    [left; eexists _, _, _; split; [reflexivity|]; split; [left; reflexivity|]; split; reflexivity|].
  destruct (negb (InLen =? _));
    [left; eexists _, _, _; split; [reflexivity|]; split; [left; reflexivity|]; split; reflexivity|].
  destruct (AllocContext env =? NULL) eqn:Hc;
    [left; eexists _, _, _; split; [reflexivity|]; split; [left; reflexivity|]; cbn; rewrite Hc; split; reflexivity|].
  destruct (FindGnttabIrp Fdo _);
    [left; eexists _, _, _; split; [reflexivity|]; split; [left; reflexivity|]; cbn; rewrite Hc; split; reflexivity|].
  destruct (GnttabMap env) as [status Address].
  destruct (NT_SUCCESS status) eqn:Hok; cbn [negb];
    [|left; eexists _, _, _; split; [reflexivity|]; split; [left; reflexivity|]; cbn; rewrite Hc, Hok; split; reflexivity].
  destruct (MapIoSpace env =? NULL);
    [left; eexists _, _, _; split; [reflexivity|]; split; [left; reflexivity|]; cbn; rewrite Hc, Hok; split; reflexivity|].
  destruct (AllocMdl env =? NULL) eqn:Hm;
    [left; eexists _, _, _; split; [reflexivity|]; split; [left; reflexivity|]; cbn; rewrite Hc, Hok, Hm; split; reflexivity|].
  destruct (MapLockedPages env) as [UserVa|code];
    [|left; eexists _, _, _; split; [reflexivity|]; split; [left; reflexivity|]; cbn; rewrite Hc, Hok, Hm; split; reflexivity].
  destruct (UserVa =? NULL);
    [left; eexists _, _, _; split; [reflexivity|]; split; [left; reflexivity|]; cbn; rewrite Hc, Hok, Hm; split; reflexivity|].
  match goal with
  | |- context [CsqInsertIrpEx ?q ?p] =>
      destruct (CsqInsertIrpEx_cases q p) as [[-> Hpeek]|[-> Hpeek]]
  end.
  - right. eexists _, _. split; [reflexivity|]. split; [exact Hpeek|].
    cbn. rewrite Hok. repeat split; reflexivity.
  - left. eexists _, _, _. split; [reflexivity|].
    split; [right; split; [reflexivity|]; split; [reflexivity | exact Hpeek]|].
    cbn. rewrite Hc, Hok, Hm. split; reflexivity.
Qed.

(** ** Explicit revoke, explicit unmap and cancellation of a parked request *)

Lemma RevokeForeignAccess_parked (L : Layout) (env : KERNEL_ENV)
    (Fdo : XENIFACE_FDO) (Queue : list PENDING_IRP) (Irp OutLen : Z)
    (g : XENIFACE_GRANT_CONTEXT) :
  IrpQueue Fdo = Queue ++ [{| Irp := Irp; DriverContext := GrantContext g |}] ->
  CsqPeekNextIrp Queue (ContextId (GrantContext g)) = None ->
  Grant_Process g = PsGetCurrentProcess env ->
  IoctlGnttabRevokeForeignAccess L env Fdo (Grant_RequestId g)
    (sizeof_REVOKE_FOREIGN_ACCESS_IN L) OutLen
  = (STATUS_SUCCESS, set_IrpQueue Fdo Queue,
     EvCsqRemove Irp :: GnttabFreeGrant Fdo g
     ++ [EvCompleteRequest Irp STATUS_SUCCESS]).
Proof.
  intros HQ Hpeek Hproc. unfold IoctlGnttabRevokeForeignAccess.
  rewrite Z.eqb_refl, HQ, <- Hproc. cbn [negb].
  pose proof (IoCsqRemoveNextIrp_snoc Queue
                {| Irp := Irp; DriverContext := GrantContext g |} Hpeek) as Hrm.
  cbn [DriverContext ContextId] in Hrm. rewrite Hrm. reflexivity.
Qed.

Lemma UnmapForeignPages_parked (L : Layout) (env : KERNEL_ENV)
    (Fdo : XENIFACE_FDO) (Queue : list PENDING_IRP) (Irp OutLen : Z)
    (m : XENIFACE_MAP_CONTEXT) :
  IrpQueue Fdo = Queue ++ [{| Irp := Irp; DriverContext := MapContext m |}] ->
  CsqPeekNextIrp Queue (ContextId (MapContext m)) = None ->
  Map_Process m = PsGetCurrentProcess env ->
  IoctlGnttabUnmapForeignPages L env Fdo (Map_RequestId m)
    (sizeof_UNMAP_FOREIGN_PAGES_IN L) OutLen
  = Some (STATUS_SUCCESS, set_IrpQueue Fdo Queue,
          EvCsqRemove Irp :: GnttabFreeMap Fdo m
          ++ [EvCompleteRequest Irp STATUS_SUCCESS]).
Proof.
  intros HQ Hpeek Hproc. unfold IoctlGnttabUnmapForeignPages.
  rewrite Z.eqb_refl, HQ, <- Hproc. cbn [negb andb].
  rewrite (proj2 (Z.ltb_ge _ _)) by lia.
  pose proof (IoCsqRemoveNextIrp_snoc Queue
                {| Irp := Irp; DriverContext := MapContext m |} Hpeek) as Hrm.
  cbn [DriverContext ContextId] in Hrm. rewrite Hrm. reflexivity.
Qed.

Lemma CompleteGnttabIrp_grant_revoked (env : KERNEL_ENV) (Fdo : XENIFACE_FDO)
    (Irp : Z) (g : XENIFACE_GRANT_CONTEXT) :
  length (Grant_Grants g) = Z.to_nat (Grant_NumberPages g) ->
  revoked (CompleteGnttabIrp env Fdo
             {| Irp := Irp; DriverContext := GrantContext g |})
  = Grant_Grants g.
Proof.
  intros Hlen. unfold CompleteGnttabIrp. cbn [DriverContext].
  trace_norm. rewrite (GnttabFreeGrant_revoked _ _ Hlen).
  destruct (negb _); cbn; rewrite app_nil_r; reflexivity.
Qed.

Lemma CompleteGnttabIrp_map_unmapped (env : KERNEL_ENV) (Fdo : XENIFACE_FDO)
    (Irp : Z) (m : XENIFACE_MAP_CONTEXT) :
  unmapped (CompleteGnttabIrp env Fdo
              {| Irp := Irp; DriverContext := MapContext m |})
  = [Map_Address m].
Proof.
  unfold CompleteGnttabIrp. cbn [DriverContext].
  trace_norm. rewrite GnttabFreeMap_unmapped.
  destruct (negb _); reflexivity.
Qed.

Lemma revoked_completed (irp : Z) (status : NTSTATUS) (tr : list event) :
  revoked (EvCsqRemove irp :: tr ++ [EvCompleteRequest irp status]) = revoked tr.
Proof.
  change (EvCsqRemove irp :: tr ++ [EvCompleteRequest irp status])
    with ([EvCsqRemove irp] ++ tr ++ [EvCompleteRequest irp status]).
  trace_norm. cbn. apply app_nil_r.
Qed.

Lemma unmapped_completed (irp : Z) (status : NTSTATUS) (tr : list event) :
  unmapped (EvCsqRemove irp :: tr ++ [EvCompleteRequest irp status]) = unmapped tr.
Proof.
  change (EvCsqRemove irp :: tr ++ [EvCompleteRequest irp status])
    with ([EvCsqRemove irp] ++ tr ++ [EvCompleteRequest irp status]).
  trace_norm. cbn. apply app_nil_r.
Qed.

(** C1 (as amended). Every page PermitForeignAccess shares is revoked
    exactly once, but the order depends on the way out.  When construction
    fails the pages shared so far are revoked in reverse order of
    acquisition and the handler registers nothing: the FDO is as it was,
    or, when it is the queue that refuses the id at the insertion, the queue
    is the one the insertion found, in which another request holds the id.
    When the request is parked nothing is
    revoked; a later RevokeForeignAccess, or the work item that completes
    the cancelled request, revokes exactly the acquired entries in the order
    of acquisition (page 0 first), and afterwards the request is gone from
    the queue.  A foreign mapping is made by one bus call: when construction
    fails after it, it is undone by one UnmapForeignPages, and when the
    request is parked it is undone once by UnmapForeignPages or by the
    cancellation work item. *)
Theorem shared_pages_revoked_once
    (L : Layout) (env : KERNEL_ENV) (Fdo : XENIFACE_FDO)
    (In : XENIFACE_GNTTAB_PERMIT_FOREIGN_ACCESS_IN)
    (MapIn : XENIFACE_GNTTAB_MAP_FOREIGN_PAGES_IN)
    (InLen OutLen Irp : Z) :
  (let '(status, Fdo1, tr1) :=
     IoctlGnttabPermitForeignAccess L env Fdo In InLen OutLen Irp in
   let Id := {| Id_Type := XENIFACE_CONTEXT_GRANT;
                Id_Process := PsGetCurrentProcess env;
                Id_RequestId := Permit_RequestId In |} in
   ((Fdo1 = Fdo
     \/ (status = STATUS_INVALID_PARAMETER
         /\ Fdo1 = set_IrpQueue Fdo (Concurrent env (IrpQueue Fdo))
         /\ CsqPeekNextIrp (IrpQueue Fdo1) Id <> None))
    /\ revoked tr1 = reverse (acquired tr1))
   \/ (status = STATUS_PENDING /\ revoked tr1 = []
       /\ exists Pending Fdo2 tr2,
            CsqPeekNextIrp (IrpQueue Fdo1) Id = Some Pending
            /\ (forall OutLen2,
                  IoctlGnttabRevokeForeignAccess L env Fdo1 (Permit_RequestId In)
                    (sizeof_REVOKE_FOREIGN_ACCESS_IN L) OutLen2
                  = (STATUS_SUCCESS, Fdo2, tr2))
            /\ revoked tr2 = acquired tr1
            /\ CsqPeekNextIrp (IrpQueue Fdo2) Id = None
            /\ forall env', revoked (CompleteGnttabIrp env' Fdo1 Pending)
                            = acquired tr1))
  /\
  (let '(status, Fdo1, tr1) :=
     IoctlGnttabMapForeignPages L env Fdo MapIn InLen OutLen Irp in
   let Id := {| Id_Type := XENIFACE_CONTEXT_MAP;
                Id_Process := PsGetCurrentProcess env;
                Id_RequestId := MapIn_RequestId MapIn |} in
   ((Fdo1 = Fdo
     \/ (status = STATUS_INVALID_PARAMETER
         /\ Fdo1 = set_IrpQueue Fdo (Concurrent env (IrpQueue Fdo))
         /\ CsqPeekNextIrp (IrpQueue Fdo1) Id <> None))
    /\ unmapped tr1 = mapped tr1)
   \/ (status = STATUS_PENDING /\ unmapped tr1 = []
       /\ exists Pending Fdo2 tr2,
            CsqPeekNextIrp (IrpQueue Fdo1) Id = Some Pending
            /\ (forall OutLen2,
                  IoctlGnttabUnmapForeignPages L env Fdo1 (MapIn_RequestId MapIn)
                    (sizeof_UNMAP_FOREIGN_PAGES_IN L) OutLen2
                  = Some (STATUS_SUCCESS, Fdo2, tr2))
            /\ unmapped tr2 = mapped tr1
            /\ length (mapped tr1) = 1%nat
            /\ CsqPeekNextIrp (IrpQueue Fdo2) Id = None
            /\ forall env', unmapped (CompleteGnttabIrp env' Fdo1 Pending)
                            = mapped tr1)).
Proof.
  split.
  - destruct (PermitForeignAccess_cases L env Fdo In InLen OutLen Irp)
      as [(status & Fdo1 & tr & -> & HFdo & Hrev & _)
         |(g & tr & -> & Hpeek & Hproc & Hid & Hn & _ & Hgrants & Hlen & Hrev & _)].
    + left. split; [|exact Hrev].
      destruct HFdo as [->|(-> & -> & Hheld)]; [left; reflexivity|].
      right. split; [reflexivity|]. split; [reflexivity | exact Hheld].
    + right. split; [reflexivity|]. split; [exact Hrev|].
      rewrite <- Hn in Hlen.
      set (Q := Concurrent env (IrpQueue Fdo)) in *.
      set (P := {| Irp := Irp; DriverContext := GrantContext g |}).
      assert (HId : ContextId (DriverContext P)
                    = {| Id_Type := XENIFACE_CONTEXT_GRANT;
                         Id_Process := PsGetCurrentProcess env;
                         Id_RequestId := Permit_RequestId In |})
        by (cbn; rewrite Hproc, Hid; reflexivity).
      exists P, (set_IrpQueue (set_IrpQueue Fdo (Q ++ [P])) Q),
        (EvCsqRemove Irp :: GnttabFreeGrant (set_IrpQueue Fdo (Q ++ [P])) g
         ++ [EvCompleteRequest Irp STATUS_SUCCESS]).
      split; [|split; [|split; [|split]]].
      * cbn [IrpQueue set_IrpQueue]. rewrite <- HId.
        apply CsqPeekNextIrp_snoc. exact Hpeek.
      * intros OutLen2. rewrite <- Hid.
        apply RevokeForeignAccess_parked; [reflexivity | exact Hpeek | exact Hproc].
      * rewrite revoked_completed, (GnttabFreeGrant_revoked _ _ Hlen).
        exact Hgrants.
      * cbn [IrpQueue set_IrpQueue]. rewrite <- HId. exact Hpeek.
      * intros env'. unfold P.
        rewrite (CompleteGnttabIrp_grant_revoked _ _ _ _ Hlen). exact Hgrants.
  - destruct (MapForeignPages_cases L env Fdo MapIn InLen OutLen Irp)
      as [(status & Fdo1 & tr & -> & HFdo & Hun & _)
         |(m & tr & -> & Hpeek & Hproc & Hid & _ & Hmapped & Hun & _)].
    + left. split; [|exact Hun].
      destruct HFdo as [->|(-> & -> & Hheld)]; [left; reflexivity|].
      right. split; [reflexivity|]. split; [reflexivity | exact Hheld].
    + right. split; [reflexivity|]. split; [exact Hun|].
      set (Q := Concurrent env (IrpQueue Fdo)) in *.
      set (P := {| Irp := Irp; DriverContext := MapContext m |}).
      assert (HId : ContextId (DriverContext P)
                    = {| Id_Type := XENIFACE_CONTEXT_MAP;
                         Id_Process := PsGetCurrentProcess env;
                         Id_RequestId := MapIn_RequestId MapIn |})
        by (cbn; rewrite Hproc, Hid; reflexivity).
      exists P, (set_IrpQueue (set_IrpQueue Fdo (Q ++ [P])) Q),
        (EvCsqRemove Irp :: GnttabFreeMap (set_IrpQueue Fdo (Q ++ [P])) m
         ++ [EvCompleteRequest Irp STATUS_SUCCESS]).
      split; [|split; [|split; [|split; [|split]]]].
      * cbn [IrpQueue set_IrpQueue]. rewrite <- HId.
        apply CsqPeekNextIrp_snoc. exact Hpeek.
      * intros OutLen2. rewrite <- Hid.
        apply UnmapForeignPages_parked; [reflexivity | exact Hpeek | exact Hproc].
      * rewrite unmapped_completed, GnttabFreeMap_unmapped, Hmapped.
        reflexivity.
      * rewrite Hmapped. reflexivity.
      * cbn [IrpQueue set_IrpQueue]. rewrite <- HId. exact Hpeek.
      * intros env'. unfold P.
        rewrite CompleteGnttabIrp_map_unmapped, Hmapped. reflexivity.
Qed.

(** The claim as the spec words it, "strict reverse order of acquisition
    on every exit path", fails on the explicit revoke path: three pages are
    shared, the request is parked, and RevokeForeignAccess revokes them in
    the order in which they were acquired. *)
Lemma explicit_revoke_is_not_reverse_order :
  exists Fdo1 tr1 Fdo2 tr2,
    IoctlGnttabPermitForeignAccess example_layout (example_env None)
      example_Fdo (example_permit_in 3 0 0) 24 0 77
    = (STATUS_PENDING, Fdo1, tr1)
    /\ IoctlGnttabRevokeForeignAccess example_layout (example_env None)
         Fdo1 42 4 0
       = (STATUS_SUCCESS, Fdo2, tr2)
    /\ acquired tr1 = [0x5000; 0x5001; 0x5002]
    /\ revoked tr2 = [0x5000; 0x5001; 0x5002]
    /\ revoked tr2 <> reverse (acquired tr1).
Proof.
  eexists _, _, _, _.
  split; [vm_compute; reflexivity|].
  split; [vm_compute; reflexivity|].
  split; [vm_compute; reflexivity|].
  split; [vm_compute; reflexivity|].
  vm_compute. discriminate.
Qed.

(** ** PermitForeignAccess with a request id that is already parked *)

(** C3 (as amended). A well-sized PermitForeignAccess whose request id
    is held by a parked request of the same client is never put into the
    queue itself, and the request that holds the id stays parked,
    unchanged.

    When the id is held before the second request arrives, the second
    request shares no page, gives back what it allocated and leaves the FDO
    as it was; its status is STATUS_INVALID_PARAMETER when the handler gets
    its context block, which it asks for before it looks the id up, and
    also when the page count is refused; with the pool exhausted and the
    page count accepted it is STATUS_NO_MEMORY.

    When the id is taken by another request between the first lookup and
    the insertion, the second request is refused by the queue if it gets as
    far as the insertion: it then fails with STATUS_INVALID_PARAMETER,
    revokes what it shared in reverse order, frees what it allocated, and
    the queue is the one the insertion found, with the other request
    parked under the id.  If it fails before the insertion it leaves the
    FDO as it was. *)
Theorem PermitForeignAccess_duplicate_id
    (L : Layout) (env : KERNEL_ENV) (Fdo : XENIFACE_FDO)
    (In : XENIFACE_GNTTAB_PERMIT_FOREIGN_ACCESS_IN) (InLen OutLen Irp : Z)
    (Pending : PENDING_IRP) :
  InLen = sizeof_PERMIT_FOREIGN_ACCESS_IN L ->
  OutLen = 0 ->
  let Id := {| Id_Type := XENIFACE_CONTEXT_GRANT;
               Id_Process := PsGetCurrentProcess env;
               Id_RequestId := Permit_RequestId In |} in
  let BadPages := GnttabBadPages (Permit_NumberPages In) (Permit_Flags In)
                    (Permit_NotifyOffset In) in
  (CsqPeekNextIrp (IrpQueue Fdo) Id = Some Pending ->
   exists status tr,
     IoctlGnttabPermitForeignAccess L env Fdo In InLen OutLen Irp
     = (status, Fdo, tr)
     /\ acquired tr = []
     /\ released tr = allocated tr
     /\ (AllocContext env <> NULL \/ BadPages = true ->
         status = STATUS_INVALID_PARAMETER)
     /\ (AllocContext env = NULL -> BadPages = false ->
         status = STATUS_NO_MEMORY))
  /\ (CsqPeekNextIrp (IrpQueue Fdo) Id = None ->
      CsqPeekNextIrp (Concurrent env (IrpQueue Fdo)) Id = Some Pending ->
      exists status Fdo1 tr,
        IoctlGnttabPermitForeignAccess L env Fdo In InLen OutLen Irp
        = (status, Fdo1, tr)
        /\ revoked tr = reverse (acquired tr)
        /\ released tr = reverse (allocated tr)
        /\ ((Fdo1 = Fdo /\ EvCsqInsert Irp status ∉ tr)
            \/ (status = STATUS_INVALID_PARAMETER
                /\ EvCsqInsert Irp status ∈ tr
                /\ Fdo1 = set_IrpQueue Fdo (Concurrent env (IrpQueue Fdo))
                /\ CsqPeekNextIrp (IrpQueue Fdo1) Id = Some Pending))).
Proof.
  intros -> -> Id BadPages. split.
  - intros Hpeek. unfold IoctlGnttabPermitForeignAccess.
    rewrite !Z.eqb_refl. cbn [negb orb]. fold BadPages.
    destruct BadPages.
    { exists STATUS_INVALID_PARAMETER, []. repeat split; discriminate. }
    destruct (Z.eqb_spec (AllocContext env) NULL) as [E|Hc].
    + eexists _, _. split; [reflexivity|]. cbn. rewrite E. cbn.
      repeat split. intros [H|H]; [contradiction | discriminate].
    + unfold FindGnttabIrp. fold Id. rewrite Hpeek.
      eexists _, _. split; [reflexivity|]. cbn.
      apply Z.eqb_neq in Hc. rewrite Hc.
      repeat split. intros E. apply Z.eqb_neq in Hc. contradiction.
  - intros Hfirst Hraced. unfold IoctlGnttabPermitForeignAccess.
    rewrite !Z.eqb_refl. cbn [negb orb]. fold BadPages.
    assert (Hno : forall (tr : list event) status,
               Forall (fun e => match e with EvCsqInsert _ _ => False
                                        | _ => True end) tr ->
               EvCsqInsert Irp status ∉ tr).
    { intros tr status Hall Hin. rewrite Forall_forall in Hall.
      exact (Hall _ Hin). }
    assert (Hback : forall Grants Page,
               Forall (fun e => match e with EvCsqInsert _ _ => False
                                        | _ => True end)
                 (RevokeBackward Grants Page)).
    { intros Grants. induction Page as [|Page IH]; [constructor|].
      cbn [RevokeBackward ASSERT app]. constructor; [exact I | exact IH]. }
    destruct BadPages.
    { eexists _, _, _. split; [reflexivity|]. repeat split.
      left. split; [reflexivity | apply not_elem_of_nil]. }
    destruct (AllocContext env =? NULL) eqn:Hc.
    { eexists _, _, _. split; [reflexivity|]. cbn. rewrite Hc.
      repeat split. left. split; [reflexivity|].
      apply Hno. repeat constructor. }
    unfold FindGnttabIrp. fold Id. rewrite Hfirst.
    destruct (AllocGrants env =? NULL) eqn:Hg.
    { eexists _, _, _. split; [reflexivity|]. cbn. rewrite Hc, Hg.
      repeat split. left. split; [reflexivity|].
      apply Hno. repeat constructor. }
    destruct (AllocKernelVa env =? NULL) eqn:Hk.
    { eexists _, _, _. split; [reflexivity|]. cbn. rewrite Hc, Hg, Hk.
      repeat split. left. split; [reflexivity|].
      apply Hno. repeat constructor. }
    destruct (AllocMdl env =? NULL) eqn:Hm.
    { eexists _, _, _. split; [reflexivity|]. cbn. rewrite Hc, Hg, Hk, Hm.
      repeat split. left. split; [reflexivity|].
      apply Hno. repeat constructor. }
    destruct (PermitLoop _ _ _ _ _ _) as [[[failed Page] Grants] shared] eqn:Hloop.
    pose proof (PermitLoop_only_permits _ _ _ _ _ _ _ _ _ _ Hloop) as [Hsa Hsr].
    assert (Hshared : Forall (fun e => match e with EvCsqInsert _ _ => False
                                               | _ => True end) shared).
    { revert Hloop. generalize (replicate (Z.to_nat (Permit_NumberPages In)) NULL).
      generalize 0%nat. generalize (Z.to_nat (Permit_NumberPages In)).
      clear. intros count. revert failed Page Grants shared.
      induction count as [|count IH]; intros failed Page Grants shared P0 G0 H.
      - cbn in H. injection H as <- <- <- <-. constructor.
      - cbn [PermitLoop] in H. destruct (GnttabPermit env P0) as [st entry].
        destruct (NT_SUCCESS st).
        + destruct (PermitLoop _ _ _ count _ _) as [[[r P1] G1] t1] eqn:E.
          injection H as <- <- <- <-. constructor; [exact I|].
          exact (IH _ _ _ _ _ _ E).
        + injection H as <- <- <- <-. repeat constructor. }
    apply PermitLoop_inv in Hloop; [|rewrite length_replicate; lia].
    destruct Hloop as (Hlen & Hpage & Htake & Hrev & Hdone & Hfail).
    rewrite length_replicate in Hlen. rewrite take_0 in Htake.
    cbn [app plus] in Htake, Hpage, Hdone.
    match goal with
    | |- context [(?a ++ shared)] => set (tr8 := a ++ shared)
    end.
    assert (H8 : acquired tr8 = acquired shared /\ revoked tr8 = []
                 /\ allocated tr8 = [AllocContext env; AllocGrants env;
                                      AllocKernelVa env; AllocMdl env]
                 /\ released tr8 = []
                 /\ Forall (fun e => match e with EvCsqInsert _ _ => False
                                              | _ => True end) tr8).
    { split; [|split; [|split; [|split]]];
        [| | | |subst tr8; apply Forall_app;
                split; [repeat constructor | exact Hshared]];
        subst tr8; trace_norm; rewrite ?Hrev, ?Hsa, ?Hsr; cbn;
        rewrite ?Hc, ?Hg, ?Hk, ?Hm, ?app_nil_r; reflexivity. }
    destruct H8 as (H8a & H8r & H8l & H8f & H8n).
    assert (Hunwind : Forall (fun e => match e with EvCsqInsert _ _ => False
                                               | _ => True end)
                        (Permit_fail8 (AllocContext env) (AllocGrants env)
                           (AllocKernelVa env) (AllocMdl env) Grants Page)).
    { unfold Permit_fail8, Permit_fail7, Permit_fail6, Permit_fail4.
      apply Forall_app. split; [apply Hback | repeat constructor]. }
    destruct failed as [status|].
    { eexists _, _, _. split; [reflexivity|].
      destruct (Permit_fail8_balances (AllocContext env) (AllocGrants env)
                  (AllocKernelVa env) (AllocMdl env) Grants Page tr8)
        as [Hr Hf]; [lia | congruence | assumption | assumption | assumption |].
      split; [exact Hr|]. split; [exact Hf|]. left.
      split; [reflexivity|]. apply Hno, Forall_app. split; assumption. }
    specialize (Hdone eq_refl). subst Page.
    match goal with
    | |- context [(tr8 ++ ?e)] => set (tr9 := tr8 ++ e)
    end.
    assert (H9 : acquired tr9 = acquired shared /\ revoked tr9 = []
                 /\ allocated tr9 = [AllocContext env; AllocGrants env;
                                      AllocKernelVa env; AllocMdl env]
                 /\ released tr9 = []
                 /\ Forall (fun e => match e with EvCsqInsert _ _ => False
                                              | _ => True end) tr9).
    { split; [|split; [|split; [|split]]];
        [| | | |subst tr9; apply Forall_app;
                split; [exact H8n | repeat constructor]];
        subst tr9; trace_norm; rewrite ?H8a, ?H8r, ?H8l, ?H8f; cbn;
        rewrite ?app_nil_r; reflexivity. }
    destruct H9 as (H9a & H9r & H9l & H9f & H9n).
    destruct (MapLockedPages env) as [UserVa|code].
    2:{ eexists _, _, _. split; [reflexivity|].
        destruct (Permit_fail8_balances (AllocContext env) (AllocGrants env)
                    (AllocKernelVa env) (AllocMdl env) Grants
                    (Z.to_nat (Permit_NumberPages In)) tr9)
          as [Hr Hf]; [lia | congruence | assumption | assumption | assumption |].
        split; [exact Hr|]. split; [exact Hf|]. left.
        split; [reflexivity|]. apply Hno, Forall_app. split; assumption. }
    destruct (UserVa =? NULL) eqn:Hu.
    { eexists _, _, _. split; [reflexivity|].
      destruct (Permit_fail8_balances (AllocContext env) (AllocGrants env)
                  (AllocKernelVa env) (AllocMdl env) Grants
                  (Z.to_nat (Permit_NumberPages In)) tr9)
        as [Hr Hf]; [lia | congruence | assumption | assumption | assumption |].
      split; [exact Hr|]. split; [exact Hf|]. left.
      split; [reflexivity|]. apply Hno, Forall_app. split; assumption. }
    unfold CsqInsertIrpEx. cbn [DriverContext ContextId Grant_Process
                                Grant_RequestId].
    fold Id. rewrite Hraced.
    change (NT_SUCCESS STATUS_INVALID_PARAMETER) with false. cbn iota.
    eexists _, _, _. split; [reflexivity|].
    unfold Permit_fail11. rewrite cons_middle, app_assoc.
    destruct (Permit_fail8_balances (AllocContext env) (AllocGrants env)
                (AllocKernelVa env) (AllocMdl env) Grants
                (Z.to_nat (Permit_NumberPages In))
                ((tr9 ++ [EvCsqInsert Irp STATUS_INVALID_PARAMETER])
                 ++ [EvUnmapLockedPages UserVa (AllocMdl env)]))
      as [Hr Hf].
    + lia.
    + trace_norm. rewrite H9a. cbn. rewrite !app_nil_r. congruence.
    + trace_norm. rewrite H9r. reflexivity.
    + trace_norm. rewrite H9l. reflexivity.
    + trace_norm. rewrite H9f. reflexivity.
    + split; [exact Hr|]. split; [exact Hf|]. right.
      split; [reflexivity|]. split.
      * apply elem_of_app. left. apply elem_of_app. left.
        apply elem_of_app. right. left.
      * split; [reflexivity | exact Hraced].
Qed.

(** The claim as the spec words it fails when the pool is exhausted: the
    example grant is parked under request id 42, and a second, well-sized
    request of the same process with the same id, for which the pool has no
    context block, is answered with STATUS_NO_MEMORY, not with
    STATUS_INVALID_PARAMETER. *)
Lemma duplicate_id_under_pool_exhaustion :
  CsqPeekNextIrp (IrpQueue example_parked_Fdo)
    {| Id_Type := XENIFACE_CONTEXT_GRANT;
       Id_Process := PsGetCurrentProcess example_env_no_context;
       Id_RequestId := Permit_RequestId (example_permit_in 5 0 0) |}
  = Some {| Irp := 77; DriverContext := GrantContext example_parked_grant |}
  /\ IoctlGnttabPermitForeignAccess example_layout example_env_no_context
       example_parked_Fdo (example_permit_in 5 0 0) 24 0 78
     = (STATUS_NO_MEMORY, example_parked_Fdo, [EvAllocatePool NULL 96])
  /\ STATUS_NO_MEMORY <> STATUS_INVALID_PARAMETER.
Proof.
  split; [vm_compute; reflexivity|].
  split; [vm_compute; reflexivity | discriminate].
Qed.

(** Both ways of meeting a held id.  The example grant is parked: a second
    request with its id is refused at the first lookup.  The example grant
    is parked by a racing request: the second request, of two pages, is
    refused at the insertion, revokes its two pages, the last first, and
    the racing request is the one in the queue. *)
Lemma PermitForeignAccess_duplicate_id_witness :
  (exists tr,
      IoctlGnttabPermitForeignAccess example_layout (example_env None)
        example_parked_Fdo (example_permit_in 5 0 0) 24 0 78
      = (STATUS_INVALID_PARAMETER, example_parked_Fdo, tr)
      /\ acquired tr = [])
  /\ (exists tr,
        IoctlGnttabPermitForeignAccess example_layout example_env_racing
          example_Fdo (example_permit_in 2 0 0) 24 0 78
        = (STATUS_INVALID_PARAMETER, example_parked_Fdo, tr)
        /\ acquired tr = [0x6000; 0x6001]
        /\ revoked tr = [0x6001; 0x6000]).
Proof.
  split.
  - destruct (PermitForeignAccess_duplicate_id example_layout (example_env None)
                example_parked_Fdo (example_permit_in 5 0 0) 24 0 78
                {| Irp := 77; DriverContext := GrantContext example_parked_grant |}
                eq_refl eq_refl)
      as [Hfirst _].
    destruct (Hfirst eq_refl) as (status & tr & Hrun & Hacq & _ & Hst & _).
    assert (Hctx : AllocContext (example_env None) <> NULL)
      by (vm_compute; discriminate).
    specialize (Hst (or_introl Hctx)). subst status.
    exists tr. split; [exact Hrun | exact Hacq].
  - destruct (PermitForeignAccess_duplicate_id example_layout example_env_racing
                example_Fdo (example_permit_in 2 0 0) 24 0 78
                {| Irp := 77; DriverContext := GrantContext example_parked_grant |}
                eq_refl eq_refl)
      as [_ Hsecond].
    destruct (Hsecond eq_refl eq_refl)
      as (status & Fdo1 & tr & Hrun & Hrev & _ & _).
    vm_compute in Hrun. injection Hrun as <- <- <-.
    eexists. split; [vm_compute; reflexivity|].
    split; vm_compute; reflexivity.
Defined.

(** ** GetGrantResult *)

Lemma ReferenceLoop_all (env : KERNEL_ENV) (Grants : list Z) :
  forall (Page : nat),
    ReferenceLoop env Grants (length Grants - Page) Page
    = map (GnttabGetReference env) (drop Page Grants).
Proof.
  intros Page.
  remember (length Grants - Page)%nat as count eqn:Hc.
  revert Page Hc. induction count as [|count IH]; intros Page Hc; simpl.
  - rewrite drop_ge by lia. reflexivity.
  - destruct (Grants !! Page) as [x|] eqn:Hx.
    + rewrite (drop_S _ _ _ Hx). simpl.
      rewrite (array_read_lookup _ _ _ Hx). f_equal. apply IH. lia.
    + apply lookup_ge_None in Hx. lia.
Qed.

(** The size the output block must have does not wrap in [size_t]. *)
Lemma GetGrantResult_size (L : Layout) (n : Z) :
  0 <= sizeof_GET_GRANT_RESULT_OUT L < 2 ^ 16 ->
  32 <= 8 * sizeof_PVOID L ->
  0 <= n <= 1024 * 1024 ->
  SIZE_T L (sizeof_GET_GRANT_RESULT_OUT L + sizeof_ULONG * n)
  = sizeof_GET_GRANT_RESULT_OUT L + sizeof_ULONG * n.
Proof.
  intros Hout Hptr Hn. unfold SIZE_T, sizeof_ULONG.
  apply Z.mod_small. split; [lia|].
  apply Z.lt_le_trans with (2 ^ 32); [lia|].
  apply Z.pow_le_mono_r; lia.
Qed.

(** A request PermitForeignAccess parks is well formed. *)
Lemma PermitForeignAccess_QueueOk (L : Layout) (env : KERNEL_ENV)
    (Fdo : XENIFACE_FDO) (In : XENIFACE_GNTTAB_PERMIT_FOREIGN_ACCESS_IN)
    (InLen OutLen Irp : Z) :
  0 <= Permit_NumberPages In ->
  QueueOk (IrpQueue Fdo) ->
  QueueOk (Concurrent env (IrpQueue Fdo)) ->
  QueueOk (IrpQueue (snd (fst
    (IoctlGnttabPermitForeignAccess L env Fdo In InLen OutLen Irp)))).
Proof.
  intros Hn HQ HQ'.
  destruct (PermitForeignAccess_cases L env Fdo In InLen OutLen Irp)
    as [(status & Fdo1 & tr & -> & [->|(_ & -> & _)] & _)
       |(g & tr & -> & _ & _ & _ & Hnum & Hbad & _ & Hlen & _)].
  - exact HQ.
  - exact HQ'.
  - cbn [fst snd IrpQueue set_IrpQueue]. intros p g' Hp Hg'.
    apply elem_of_app in Hp as [Hp|Hp]; [exact (HQ' p g' Hp Hg')|].
    apply list_elem_of_singleton in Hp. subst p. cbn in Hg'.
    inversion Hg'; subst g'. unfold GrantContextOk. rewrite Hnum.
    split; [|exact Hlen].
    unfold GnttabBadPages in Hbad.
    apply orb_false_elim in Hbad as [Hbad _].
    apply orb_false_elim in Hbad as [H0 Hmax].
    apply Z.eqb_neq in H0. rewrite Z.gtb_ltb in Hmax.
    apply Z.ltb_ge in Hmax. lia.
Qed.

(** C6. GetGrantResult, for a well-sized input block.  If no grant is
    parked for the calling process under the request id it fails with
    STATUS_NOT_FOUND.  If one is parked, it fails with
    STATUS_INVALID_BUFFER_SIZE unless the output size is exactly
    sizeof(XENIFACE_GNTTAB_GET_GRANT_RESULT_OUT) + sizeof(ULONG) * NumberPages,
    and with that size it succeeds and gives the user address and the
    reference of every page, in page order.  In every case the FDO, hence
    the parked request, is left as it was. *)
Theorem GetGrantResult_outcomes
    (L : Layout) (env : KERNEL_ENV) (Fdo : XENIFACE_FDO)
    (RequestId InLen OutLen : Z) :
  InLen = sizeof_GET_GRANT_RESULT_IN L ->
  0 <= sizeof_GET_GRANT_RESULT_OUT L < 2 ^ 16 ->
  32 <= 8 * sizeof_PVOID L ->
  QueueOk (IrpQueue Fdo) ->
  let Id := {| Id_Type := XENIFACE_CONTEXT_GRANT;
               Id_Process := PsGetCurrentProcess env;
               Id_RequestId := RequestId |} in
  let result := IoctlGnttabGetGrantResult L env Fdo RequestId InLen OutLen in
  ((forall p, p ∈ IrpQueue Fdo -> ContextId (DriverContext p) <> Id) ->
   result = (STATUS_NOT_FOUND, Fdo, None, 0))
  /\ (forall p, p ∈ IrpQueue Fdo -> ContextId (DriverContext p) = Id ->
      exists Pending g,
        CsqPeekNextIrp (IrpQueue Fdo) Id = Some Pending
        /\ DriverContext Pending = GrantContext g
        /\ Grant_Process g = PsGetCurrentProcess env
        /\ Grant_RequestId g = RequestId
        /\ (OutLen <> sizeof_GET_GRANT_RESULT_OUT L
                      + sizeof_ULONG * Grant_NumberPages g ->
            result = (STATUS_INVALID_BUFFER_SIZE, Fdo, None, 0))
        /\ (OutLen = sizeof_GET_GRANT_RESULT_OUT L
                     + sizeof_ULONG * Grant_NumberPages g ->
            result = (STATUS_SUCCESS, Fdo,
                      Some {| Out_Address := Grant_UserVa g;
                              Out_References :=
                                map (GnttabGetReference env) (Grant_Grants g) |},
                      OutLen)
            /\ length (Grant_Grants g) = Z.to_nat (Grant_NumberPages g))).
Proof.
  intros -> Hout Hptr HQ Id result. subst result.
  unfold IoctlGnttabGetGrantResult. rewrite Z.eqb_refl. cbn [negb]. fold Id.
  split.
  - intros Hnone. apply CsqPeekNextIrp_None in Hnone. rewrite Hnone. reflexivity.
  - intros p Hp Hid.
    destruct (CsqPeekNextIrp (IrpQueue Fdo) Id) as [Pending|] eqn:Hpeek.
    2:{ exfalso. eapply CsqPeekNextIrp_None in Hpeek; eauto. }
    destruct (CsqPeekNextIrp_grant _ _ _ _ Hpeek) as (g & Hg & Hproc & Hreq).
    destruct (CsqPeekNextIrp_Some _ _ _ Hpeek) as [Hin _].
    destruct (HQ Pending g Hin Hg) as [Hrange Hlen].
    exists Pending, g. rewrite Hg.
    rewrite (GetGrantResult_size L _ Hout Hptr) by lia.
    split; [reflexivity|]. split; [reflexivity|].
    split; [exact Hproc|]. split; [exact Hreq|]. split.
    + intros Hne. apply Z.eqb_neq in Hne. rewrite Hne. reflexivity.
    + intros ->. rewrite Z.eqb_refl. cbn [negb].
      pose proof (ReferenceLoop_all env (Grant_Grants g) 0) as Hloop.
      rewrite Nat.sub_0_r, Hlen in Hloop. rewrite Hloop.
      split; [reflexivity | exact Hlen].
Qed.

Lemma GetGrantResult_outcomes_witness :
  IoctlGnttabGetGrantResult example_layout (example_env None)
    example_parked_Fdo 42 4 24
  = (STATUS_SUCCESS, example_parked_Fdo,
     Some {| Out_Address := 0x20000; Out_References := [8; 9] |}, 24)
  /\ IoctlGnttabGetGrantResult example_layout (example_env None)
       example_parked_Fdo 42 4 20
     = (STATUS_INVALID_BUFFER_SIZE, example_parked_Fdo, None, 0)
  /\ IoctlGnttabGetGrantResult example_layout (example_env None)
       example_parked_Fdo 43 4 24
     = (STATUS_NOT_FOUND, example_parked_Fdo, None, 0).
Proof.
  assert (HQ : QueueOk (IrpQueue example_parked_Fdo)).
  { intros p g Hp Hg. apply list_elem_of_singleton in Hp. subst p.
    inversion Hg; subst g. split; [cbn; lia | reflexivity]. }
  assert (Hout : 0 <= sizeof_GET_GRANT_RESULT_OUT example_layout < 2 ^ 16)
    by (cbn; lia).
  assert (Hptr : 32 <= 8 * sizeof_PVOID example_layout) by (cbn; lia).
  split; [|split].
  - destruct (GetGrantResult_outcomes example_layout (example_env None)
                example_parked_Fdo 42 4 24 eq_refl Hout Hptr HQ) as [_ Hsome].
    destruct (Hsome {| Irp := 77; DriverContext := GrantContext example_parked_grant |})
      as (Pending & g & Hpeek & Hg & _ & _ & _ & Hok).
    + left.
    + reflexivity.
    + vm_compute in Hpeek. inversion Hpeek; subst Pending.
      inversion Hg; subst g. exact (proj1 (Hok eq_refl)).
  - destruct (GetGrantResult_outcomes example_layout (example_env None)
                example_parked_Fdo 42 4 20 eq_refl Hout Hptr HQ) as [_ Hsome].
    destruct (Hsome {| Irp := 77; DriverContext := GrantContext example_parked_grant |})
      as (Pending & g & Hpeek & Hg & _ & _ & Hbad & _).
    + left.
    + reflexivity.
    + vm_compute in Hpeek. inversion Hpeek; subst Pending.
      inversion Hg; subst g. apply Hbad. vm_compute. discriminate.
  - destruct (GetGrantResult_outcomes example_layout (example_env None)
                example_parked_Fdo 43 4 24 eq_refl Hout Hptr HQ) as [Hnone _].
    apply Hnone. intros p Hp. apply list_elem_of_singleton in Hp. subst p.
    cbn. discriminate.
Defined.

(** ** UnmapForeignPages: the size test *)

(** The size test rejects a request only when both sizes are off. *)
Lemma UnmapForeignPages_size_test (L : Layout) (env : KERNEL_ENV)
    (Fdo : XENIFACE_FDO) (RequestId InLen OutLen : Z) :
  InLen <> sizeof_UNMAP_FOREIGN_PAGES_IN L ->
  OutLen <> 0 ->
  IoctlGnttabUnmapForeignPages L env Fdo RequestId InLen OutLen
  = Some (STATUS_INVALID_BUFFER_SIZE, Fdo, []).
Proof.
  intros Hin Hout. unfold IoctlGnttabUnmapForeignPages.
  apply Z.eqb_neq in Hin, Hout. rewrite Hin, Hout. reflexivity.
Qed.

(** With an empty output block the input size is not looked at: the
    handler goes on to the queue whatever [InLen] is, and with an input
    block that holds the message it does what it does on a message of the
    right size. *)
Lemma UnmapForeignPages_ignores_InLen (L : Layout) (env : KERNEL_ENV)
    (Fdo : XENIFACE_FDO) (RequestId InLen : Z) :
  sizeof_UNMAP_FOREIGN_PAGES_IN L <= InLen ->
  IoctlGnttabUnmapForeignPages L env Fdo RequestId InLen 0
  = IoctlGnttabUnmapForeignPages L env Fdo RequestId
      (sizeof_UNMAP_FOREIGN_PAGES_IN L) 0.
Proof.
  intros Hin. unfold IoctlGnttabUnmapForeignPages.
  rewrite !Z.eqb_refl, !andb_false_r.
  rewrite !(proj2 (Z.ltb_ge _ _)) by lia. reflexivity.
Qed.

(** C7 fails on the code.  An input block of 9 bytes, where the message has
    4, with an empty output block, is not rejected with
    STATUS_INVALID_BUFFER_SIZE: the handler looks the request up, answers
    STATUS_NOT_FOUND when nothing is parked, and tears the mapping down when
    one is. *)
Theorem UnmapForeignPages_oversized_input_accepted :
  IoctlGnttabUnmapForeignPages example_layout (example_env None)
    example_Fdo 42 9 0
  = Some (STATUS_NOT_FOUND, example_Fdo, [])
  /\ IoctlGnttabUnmapForeignPages example_layout (example_env None)
       example_mapped_Fdo 42 9 0
     = Some (STATUS_SUCCESS, example_Fdo,
             [EvCsqRemove 77;
              EvUnmapLockedPages 0x20000 0x3000;
              EvFreeMdl 0x3000;
              EvUnmapIoSpace 0x200000 0x2000;
              EvUnmapForeignPages 0x9000000;
              EvFreePool 0x1000;
              EvCompleteRequest 77 STATUS_SUCCESS]).
Proof. split; vm_compute; reflexivity. Qed.

(** ** RemoveWatch on a watch of another file object *)

Lemma RemoveWatchWalk_no_match (InContext FileObject : Z) :
  forall (Node : list XENIFACE_STORE_CONTEXT) Context List,
    (forall c, c ∈ Node ->
       Store_Self c <> InContext \/ Store_FileObject c <> FileObject) ->
    RemoveWatchWalk Node InContext FileObject Context List
    = (match last Node with Some c => Some c | None => Context end, List).
Proof.
  induction Node as [|c Node IH]; intros Context List Hno; [reflexivity|].
  cbn [RemoveWatchWalk].
  assert (Hc : negb (Store_Self c =? InContext)
               || negb (Store_FileObject c =? FileObject) = true).
  { apply orb_true_iff. destruct (Hno c ltac:(left)) as [H|H];
      [left|right]; apply negb_true_iff, Z.eqb_neq; exact H. }
  rewrite Hc, IH by (intros c' Hc'; apply Hno; right; exact Hc').
  destruct Node as [|c' Node]; [reflexivity|].
  rewrite last_cons_cons. destruct (last (c' :: Node)) eqn:E; [reflexivity|].
  apply last_None in E. discriminate.
Qed.

(** When the handle names a watch of another file object and that watch is
    the last entry of the list, the walk ends with [Context] left on it,
    the test after the loop passes, and the watch is freed although it was
    not unlinked. *)
Lemma RemoveWatch_foreign_last (L : Layout) (Fdo : XENIFACE_FDO)
    (Watches : list XENIFACE_STORE_CONTEXT) (w : XENIFACE_STORE_CONTEXT)
    (FileObject : Z) :
  StoreWatchList Fdo = Watches ++ [w] ->
  Store_FileObject w <> FileObject ->
  (forall c, c ∈ Watches -> Store_Self c <> Store_Self w) ->
  IoctlStoreRemoveWatch L Fdo (Store_Self w)
    (sizeof_STORE_REMOVE_WATCH_IN L) 0 FileObject
  = (STATUS_SUCCESS, set_StoreWatchList Fdo (Watches ++ [w]),
     [EvAcquireLock StoreWatchLock; EvReleaseLock StoreWatchLock]
     ++ StoreFreeWatch w).
Proof.
  intros Hlist Howner Hfresh. unfold IoctlStoreRemoveWatch.
  rewrite !Z.eqb_refl, Hlist. cbn [negb orb].
  rewrite RemoveWatchWalk_no_match.
  - rewrite last_snoc, Z.eqb_refl. reflexivity.
  - intros c Hc. apply elem_of_app in Hc as [Hc|Hc].
    + left. apply Hfresh. exact Hc.
    + apply list_elem_of_singleton in Hc. subst c. right. exact Howner.
Qed.

(** When it is not the last entry, the request is refused and nothing
    happens, as the spec says. *)
Lemma RemoveWatch_foreign_not_last (L : Layout) (Fdo : XENIFACE_FDO)
    (Before After : list XENIFACE_STORE_CONTEXT)
    (w z : XENIFACE_STORE_CONTEXT) (FileObject : Z) :
  StoreWatchList Fdo = Before ++ w :: After ++ [z] ->
  Store_FileObject w <> FileObject ->
  (forall c, c ∈ Before ++ After ++ [z] -> Store_Self c <> Store_Self w) ->
  IoctlStoreRemoveWatch L Fdo (Store_Self w)
    (sizeof_STORE_REMOVE_WATCH_IN L) 0 FileObject
  = (STATUS_NOT_FOUND, set_StoreWatchList Fdo (StoreWatchList Fdo),
     [EvAcquireLock StoreWatchLock; EvReleaseLock StoreWatchLock]).
Proof.
  intros Hlist Howner Hfresh. unfold IoctlStoreRemoveWatch.
  rewrite !Z.eqb_refl, Hlist. cbn [negb orb].
  rewrite RemoveWatchWalk_no_match.
  - replace (Before ++ w :: After ++ [z]) with ((Before ++ w :: After) ++ [z])
      by (rewrite <- app_assoc; reflexivity).
    rewrite last_snoc.
    assert (Hz : (Store_Self z =? Store_Self w) = false).
    { apply Z.eqb_neq, Hfresh. rewrite !elem_of_app.
      right. right. apply list_elem_of_singleton. reflexivity. }
    rewrite Hz. reflexivity.
  - intros c Hc. apply elem_of_app in Hc as [Hc|Hc].
    + left. apply Hfresh. apply elem_of_app. left. exact Hc.
    + apply elem_of_cons in Hc as [->|Hc]; [right; exact Howner|].
      left. apply Hfresh. apply elem_of_app. right. exact Hc.
Qed.

(** The smallest case: the watch list holds one watch, at 0x8000, owned by
    file object 1, and file object 2 asks for its removal. *)
Example RemoveWatch_foreign_watch_lists :
  IoctlStoreRemoveWatch example_layout
    (set_StoreWatchList example_Fdo [example_watch 0x8000 1]) 0x8000 8 0 2
  = (STATUS_SUCCESS,
     set_StoreWatchList example_Fdo [example_watch 0x8000 1],
     [EvAcquireLock StoreWatchLock; EvReleaseLock StoreWatchLock;
      EvWatchRemove 0x8200; EvDereferenceObject 0x8100; EvFreePool 0x8000]).
Proof. vm_compute. reflexivity. Qed.

(** ** XenIfaceCleanup *)

Lemma filter_keeps_all {A} (P : A -> Prop) `{!forall x, Decision (P x)}
    (l : list A) :
  (forall x, x ∈ l -> P x) -> filter P l = l.
Proof.
  induction l as [|x l IH]; intros Hall; [reflexivity|].
  rewrite filter_cons_True by (apply Hall; left).
  f_equal. apply IH. intros y Hy. apply Hall. right. exact Hy.
Qed.

Lemma filter_drops_all {A} (P : A -> Prop) `{!forall x, Decision (P x)}
    (l : list A) :
  (forall x, x ∈ l -> ~ P x) -> filter P l = [].
Proof.
  induction l as [|x l IH]; intros Hall; [reflexivity|].
  rewrite filter_cons_False by (apply Hall; left).
  apply IH. intros y Hy. apply Hall. right. exact Hy.
Qed.

(** RemoveEntryList on an entry whose address is not shared: exactly that
    entry leaves the list. *)
Lemma RemoveStoreEntry_middle (Kept Node : list XENIFACE_STORE_CONTEXT)
    (c : XENIFACE_STORE_CONTEXT) :
  NoDup (Store_Self <$> (Kept ++ c :: Node)) ->
  RemoveStoreEntry c (Kept ++ c :: Node) = Kept ++ Node.
Proof.
  intros Hnd. unfold RemoveStoreEntry.
  rewrite fmap_app, fmap_cons in Hnd.
  apply NoDup_app in Hnd as (_ & Hdisj & Hnd).
  apply NoDup_cons in Hnd as [Hc _].
  rewrite filter_app, filter_cons_False by (intros H; apply H; reflexivity).
  rewrite !filter_keeps_all; [reflexivity| |].
  - intros x Hx E. apply Hc. rewrite <- E. apply list_elem_of_fmap_2. exact Hx.
  - intros x Hx E. apply (Hdisj (Store_Self x)).
    + apply list_elem_of_fmap_2. exact Hx.
    + rewrite E. left.
Qed.

Lemma RemoveEvtchnEntry_middle (Kept Node : list XENIFACE_EVTCHN_CONTEXT)
    (c : XENIFACE_EVTCHN_CONTEXT) :
  NoDup (Evtchn_Self <$> (Kept ++ c :: Node)) ->
  RemoveEvtchnEntry c (Kept ++ c :: Node) = Kept ++ Node.
Proof.
  intros Hnd. unfold RemoveEvtchnEntry.
  rewrite fmap_app, fmap_cons in Hnd.
  apply NoDup_app in Hnd as (_ & Hdisj & Hnd).
  apply NoDup_cons in Hnd as [Hc _].
  rewrite filter_app, filter_cons_False by (intros H; apply H; reflexivity).
  rewrite !filter_keeps_all; [reflexivity| |].
  - intros x Hx E. apply Hc. rewrite <- E. apply list_elem_of_fmap_2. exact Hx.
  - intros x Hx E. apply (Hdisj (Evtchn_Self x)).
    + apply list_elem_of_fmap_2. exact Hx.
    + rewrite E. left.
Qed.

Lemma NoDup_drop_middle {A B} (f : A -> B) (Kept Node : list A) (c : A) :
  NoDup (f <$> (Kept ++ c :: Node)) -> NoDup (f <$> (Kept ++ Node)).
Proof.
  intros H. eapply sublist_NoDup; [exact H|].
  apply fmap_sublist, sublist_app; [reflexivity | apply sublist_cons; reflexivity].
Qed.

(** The invariant of the first loop: the watch list is the entries kept so
    far followed by the entries still to visit. *)
Lemma CleanupWatches_inv (FileObject : Z) :
  forall (Node Kept : list XENIFACE_STORE_CONTEXT),
    NoDup (Store_Self <$> (Kept ++ Node)) ->
    CleanupWatches Node FileObject (Kept ++ Node)
    = (Kept ++ filter (fun c => Store_FileObject c <> FileObject) Node,
       concat (map StoreFreeWatch
                 (filter (fun c => Store_FileObject c = FileObject) Node))).
Proof.
  induction Node as [|c Node IH]; intros Kept Hnd; [reflexivity|].
  cbn [CleanupWatches].
  destruct (Z.eqb_spec (Store_FileObject c) FileObject) as [Heq|Hne]; cbn [negb].
  - rewrite (RemoveStoreEntry_middle _ _ _ Hnd).
    rewrite IH by (eapply NoDup_drop_middle; exact Hnd).
    rewrite filter_cons_False by (intros H; apply H; exact Heq).
    rewrite filter_cons_True by exact Heq. reflexivity.
  - replace (Kept ++ c :: Node) with ((Kept ++ [c]) ++ Node) in *
      by (rewrite <- app_assoc; reflexivity).
    rewrite IH by exact Hnd.
    rewrite filter_cons_True by exact Hne.
    rewrite filter_cons_False by exact Hne.
    rewrite <- app_assoc. reflexivity.
Qed.

(** The invariant of the second loop. *)
Lemma CleanupDetach_inv (FileObject : Z) :
  forall (Node Kept ToFree : list XENIFACE_EVTCHN_CONTEXT),
    NoDup (Evtchn_Self <$> (Kept ++ Node)) ->
    CleanupDetach Node FileObject (Kept ++ Node) ToFree
    = (Kept ++ filter (fun c => Evtchn_FileObject c <> FileObject) Node,
       ToFree ++ filter (fun c => Evtchn_FileObject c = FileObject) Node).
Proof.
  induction Node as [|c Node IH]; intros Kept ToFree Hnd.
  - cbn. rewrite !app_nil_r. reflexivity.
  - cbn [CleanupDetach].
    destruct (Z.eqb_spec (Evtchn_FileObject c) FileObject) as [Heq|Hne]; cbn [negb].
    + rewrite (RemoveEvtchnEntry_middle _ _ _ Hnd).
      rewrite IH by (eapply NoDup_drop_middle; exact Hnd).
      rewrite filter_cons_False by (intros H; apply H; exact Heq).
      rewrite filter_cons_True by exact Heq.
      rewrite <- app_assoc. reflexivity.
    + replace (Kept ++ c :: Node) with ((Kept ++ [c]) ++ Node) in *
        by (rewrite <- app_assoc; reflexivity).
      rewrite IH by exact Hnd.
      rewrite filter_cons_True by exact Hne.
      rewrite filter_cons_False by exact Hne.
      rewrite <- app_assoc. reflexivity.
Qed.

Lemma CleanupWatches_all (FileObject : Z) (List : list XENIFACE_STORE_CONTEXT) :
  NoDup (Store_Self <$> List) ->
  CleanupWatches List FileObject List
  = (filter (fun c => Store_FileObject c <> FileObject) List,
     concat (map StoreFreeWatch
               (filter (fun c => Store_FileObject c = FileObject) List))).
Proof. exact (CleanupWatches_inv FileObject List []). Qed.

Lemma CleanupDetach_all (FileObject : Z) (List : list XENIFACE_EVTCHN_CONTEXT) :
  NoDup (Evtchn_Self <$> List) ->
  CleanupDetach List FileObject List []
  = (filter (fun c => Evtchn_FileObject c <> FileObject) List,
     filter (fun c => Evtchn_FileObject c = FileObject) List).
Proof. exact (CleanupDetach_inv FileObject List [] []). Qed.

(** The third loop frees every detached channel, in list order, and leaves
    ToFree empty. *)
Lemma CleanupFree_all :
  forall (Node : list XENIFACE_EVTCHN_CONTEXT),
    NoDup (Evtchn_Self <$> Node) ->
    CleanupFree Node Node = ([], concat (map EvtchnFree Node)).
Proof.
  induction Node as [|c Node IH]; intros Hnd; [reflexivity|].
  cbn [CleanupFree].
  pose proof (RemoveEvtchnEntry_middle [] Node c Hnd) as Hrm.
  cbn [app] in Hrm. rewrite Hrm.
  rewrite IH by (apply (NoDup_drop_middle Evtchn_Self [] Node c Hnd)).
  reflexivity.
Qed.

Lemma released_StoreFreeWatch (l : list XENIFACE_STORE_CONTEXT) :
  released (concat (map StoreFreeWatch l)) = Store_Self <$> l.
Proof.
  induction l as [|c l IH]; [reflexivity|].
  cbn [map concat]. rewrite released_app, IH. reflexivity.
Qed.

Lemma released_EvtchnFree (l : list XENIFACE_EVTCHN_CONTEXT) :
  released (concat (map EvtchnFree l)) = Evtchn_Self <$> l.
Proof.
  induction l as [|c l IH]; [reflexivity|].
  cbn [map concat]. rewrite released_app, IH. reflexivity.
Qed.

(** XenIfaceCleanup on Rocq lists.  The owned watches are freed inside the
    watch-list lock and the owned channels after the channel-list lock is
    released, both in list order; the contexts freed are the owned ones,
    each once; the entries of other file objects stay where they were; and
    a second cleanup for the same file object frees nothing and changes
    nothing. *)
Lemma XenIfaceCleanup_lists
    (Fdo : XENIFACE_FDO) (FileObject : Z) :
  NoDup ((Store_Self <$> StoreWatchList Fdo)
         ++ (Evtchn_Self <$> EvtchnList Fdo)) ->
  let owned_watches :=
    filter (fun c => Store_FileObject c = FileObject) (StoreWatchList Fdo) in
  let owned_channels :=
    filter (fun c => Evtchn_FileObject c = FileObject) (EvtchnList Fdo) in
  let Fdo' :=
    {| StoreWatchList :=
         filter (fun c => Store_FileObject c <> FileObject) (StoreWatchList Fdo);
       EvtchnList :=
         filter (fun c => Evtchn_FileObject c <> FileObject) (EvtchnList Fdo);
       IrpQueue := IrpQueue Fdo |} in
  let tr :=
    [EvAcquireLock StoreWatchLock]
    ++ concat (map StoreFreeWatch owned_watches)
    ++ [EvReleaseLock StoreWatchLock; EvAcquireLock EvtchnLock;
        EvReleaseLock EvtchnLock]
    ++ concat (map EvtchnFree owned_channels) in
  XenIfaceCleanup Fdo FileObject = (Fdo', tr)
  /\ released tr
     = (Store_Self <$> owned_watches) ++ (Evtchn_Self <$> owned_channels)
  /\ NoDup (released tr)
  /\ length (released tr) = (length owned_watches + length owned_channels)%nat
  /\ XenIfaceCleanup Fdo' FileObject
     = (Fdo', [EvAcquireLock StoreWatchLock; EvReleaseLock StoreWatchLock;
               EvAcquireLock EvtchnLock; EvReleaseLock EvtchnLock]).
Proof.
  intros Hnd owned_watches owned_channels Fdo' tr.
  pose proof Hnd as Hnd'. apply NoDup_app in Hnd' as (Hw & _ & Hc).
  assert (Hrel : released tr
                 = (Store_Self <$> owned_watches)
                   ++ (Evtchn_Self <$> owned_channels)).
  { subst tr. rewrite !released_app, released_StoreFreeWatch,
      released_EvtchnFree. reflexivity. }
  split; [|split; [exact Hrel|split; [|split]]].
  - unfold XenIfaceCleanup.
    rewrite (CleanupWatches_all FileObject _ Hw).
    rewrite (CleanupDetach_all FileObject _ Hc).
    rewrite CleanupFree_all; [reflexivity|].
    eapply sublist_NoDup; [exact Hc|]. apply fmap_sublist, sublist_filter.
  - rewrite Hrel. eapply sublist_NoDup; [exact Hnd|].
    apply sublist_app; apply fmap_sublist, sublist_filter.
  - rewrite Hrel, length_app, !length_fmap. reflexivity.
  - unfold XenIfaceCleanup, Fdo'. cbn [StoreWatchList EvtchnList IrpQueue].
    assert (Hw' : NoDup (Store_Self <$>
                filter (fun c => Store_FileObject c <> FileObject)
                       (StoreWatchList Fdo)))
      by (eapply sublist_NoDup; [exact Hw|]; apply fmap_sublist, sublist_filter).
    assert (Hc' : NoDup (Evtchn_Self <$>
                filter (fun c => Evtchn_FileObject c <> FileObject)
                       (EvtchnList Fdo)))
      by (eapply sublist_NoDup; [exact Hc|]; apply fmap_sublist, sublist_filter).
    rewrite (CleanupWatches_all FileObject _ Hw').
    rewrite (CleanupDetach_all FileObject _ Hc').
    rewrite (filter_keeps_all (fun c => Store_FileObject c <> FileObject)
               (filter _ (StoreWatchList Fdo)))
      by (intros x Hx; apply list_elem_of_filter in Hx as [Hx _]; exact Hx).
    rewrite (filter_keeps_all (fun c => Evtchn_FileObject c <> FileObject)
               (filter _ (EvtchnList Fdo)))
      by (intros x Hx; apply list_elem_of_filter in Hx as [Hx _]; exact Hx).
    rewrite (filter_drops_all (fun c => Store_FileObject c = FileObject)
               (filter _ (StoreWatchList Fdo)))
      by (intros x Hx; apply list_elem_of_filter in Hx as [Hx _]; exact Hx).
    rewrite (filter_drops_all (fun c => Evtchn_FileObject c = FileObject)
               (filter _ (EvtchnList Fdo)))
      by (intros x Hx; apply list_elem_of_filter in Hx as [Hx _]; exact Hx).
    reflexivity.
Qed.

Example XenIfaceCleanup_lists_example :
  XenIfaceCleanup example_busy_Fdo 1
  = ({| StoreWatchList := [example_watch 0x8400 2];
        EvtchnList := [example_channel 0x9400 2 6];
        IrpQueue := [] |},
     [EvAcquireLock StoreWatchLock;
      EvWatchRemove 0x8200; EvDereferenceObject 0x8100; EvFreePool 0x8000;
      EvWatchRemove 0x8A00; EvDereferenceObject 0x8900; EvFreePool 0x8800;
      EvReleaseLock StoreWatchLock;
      EvAcquireLock EvtchnLock; EvReleaseLock EvtchnLock;
      EvSetActive 0x9000 false; EvEvtchnClose 0x9100; EvFlushQueuedDpcs;
      EvDereferenceObject 0x9200; EvFreePool 0x9000]).
Proof.
  refine (proj1 (XenIfaceCleanup_lists example_busy_Fdo 1 _)).
  apply (bool_decide_unpack _). vm_compute. reflexivity.
Qed.

(** ** The range test on the page count *)

Lemma GnttabBadPages_zero (Flags NotifyOffset : Z) :
  GnttabBadPages 0 Flags NotifyOffset = true.
Proof. reflexivity. Qed.

Lemma GnttabBadPages_too_many (NumberPages Flags NotifyOffset : Z) :
  1024 * 1024 < NumberPages ->
  GnttabBadPages NumberPages Flags NotifyOffset = true.
Proof.
  intros H. unfold GnttabBadPages.
  assert (E : (NumberPages >? 1024 * 1024) = true)
    by (rewrite Z.gtb_ltb; apply Z.ltb_lt; exact H).
  rewrite E, orb_true_r. reflexivity.
Qed.

Lemma GnttabBadPages_no_offset (NumberPages Flags NotifyOffset : Z) :
  1 <= NumberPages <= 1024 * 1024 ->
  flag_set Flags XENIFACE_GNTTAB_USE_NOTIFY_OFFSET = false ->
  GnttabBadPages NumberPages Flags NotifyOffset = false.
Proof.
  intros Hn Hflag. unfold GnttabBadPages. rewrite Hflag.
  assert (E1 : (NumberPages =? 0) = false) by (apply Z.eqb_neq; lia).
  assert (E2 : (NumberPages >? 1024 * 1024) = false)
    by (rewrite Z.gtb_ltb; apply Z.ltb_ge; lia).
  rewrite E1, E2. reflexivity.
Qed.

(** Below 2^20 pages the ULONG product is the exact one, and the test on
    the notify offset is the one the spec states. *)
Lemma GnttabBadPages_offset_exact (NumberPages Flags NotifyOffset : Z) :
  1 <= NumberPages < 1024 * 1024 ->
  flag_set Flags XENIFACE_GNTTAB_USE_NOTIFY_OFFSET = true ->
  (GnttabBadPages NumberPages Flags NotifyOffset = false
   <-> NotifyOffset < NumberPages * PAGE_SIZE).
Proof.
  intros Hn Hflag. unfold GnttabBadPages. rewrite Hflag.
  assert (E1 : (NumberPages =? 0) = false) by (apply Z.eqb_neq; lia).
  assert (E2 : (NumberPages >? 1024 * 1024) = false)
    by (rewrite Z.gtb_ltb; apply Z.ltb_ge; lia).
  rewrite E1, E2. cbn [orb andb].
  assert (E3 : ULONG_mul NumberPages PAGE_SIZE = NumberPages * PAGE_SIZE).
  { unfold ULONG_mul, ULONG_MODULUS, PAGE_SIZE. apply Z.mod_small. lia. }
  rewrite E3, Z.geb_leb, Z.leb_gt. reflexivity.
Qed.

(** At exactly 2^20 pages the ULONG product is 0, and every notify offset
    is refused. *)
Lemma GnttabBadPages_offset_at_max (Flags NotifyOffset : Z) :
  flag_set Flags XENIFACE_GNTTAB_USE_NOTIFY_OFFSET = true ->
  0 <= NotifyOffset ->
  GnttabBadPages (1024 * 1024) Flags NotifyOffset = true.
Proof.
  intros Hflag Hoff. unfold GnttabBadPages. rewrite Hflag.
  change (ULONG_mul (1024 * 1024) PAGE_SIZE) with 0.
  assert (E : (NotifyOffset >=? 0) = true)
    by (rewrite Z.geb_leb; apply Z.leb_le; exact Hoff).
  rewrite E. reflexivity.
Qed.

(** C4 on the code.  PermitForeignAccess and MapForeignPages refuse 0 pages
    and 2^20 + 1 pages with STATUS_INVALID_PARAMETER, as the claim says.  At
    2^20 pages the arithmetic on the page count does wrap: the size of the
    buffer to share, NumberPages * PAGE_SIZE, is computed as 0 (seen here in
    the pool request of a run that the kernel then fails), and with an
    offset notification asked for the request is refused with
    STATUS_INVALID_PARAMETER whatever the offset. *)
Theorem page_count_boundary_wraps :
  (IoctlGnttabPermitForeignAccess example_layout (example_env None)
     example_Fdo (example_permit_in 0 0 0) 24 0 77
   = (STATUS_INVALID_PARAMETER, example_Fdo, [])
   /\ IoctlGnttabMapForeignPages example_layout (example_env None)
        example_Fdo (example_map_in 0 0 0) 28 0 77
      = (STATUS_INVALID_PARAMETER, example_Fdo, []))
  /\ (IoctlGnttabPermitForeignAccess example_layout (example_env None)
        example_Fdo (example_permit_in (2 ^ 20 + 1) 0 0) 24 0 77
      = (STATUS_INVALID_PARAMETER, example_Fdo, [])
      /\ IoctlGnttabMapForeignPages example_layout (example_env None)
           example_Fdo (example_map_in (2 ^ 20 + 1) 0 0)
           (28 + 4 * (2 ^ 20 + 1)) 0 77
         = (STATUS_INVALID_PARAMETER, example_Fdo, []))
  /\ ULONG_mul (2 ^ 20) PAGE_SIZE = 0
  /\ IoctlGnttabPermitForeignAccess example_layout example_env_no_buffer
       example_Fdo (example_permit_in (2 ^ 20) 0 0) 24 0 77
     = (STATUS_NO_MEMORY, example_Fdo,
        [EvAllocatePool 0x1000 96; EvAllocatePool 0x2000 (8 * 2 ^ 20);
         EvAllocatePool NULL 0; EvFreePool 0x2000; EvFreePool 0x1000])
  /\ IoctlGnttabPermitForeignAccess example_layout (example_env None)
       example_Fdo
       (example_permit_in (2 ^ 20) XENIFACE_GNTTAB_USE_NOTIFY_OFFSET 0) 24 0 77
     = (STATUS_INVALID_PARAMETER, example_Fdo, [])
  /\ IoctlGnttabMapForeignPages example_layout (example_env None)
       example_Fdo
       (example_map_in (2 ^ 20) XENIFACE_GNTTAB_USE_NOTIFY_OFFSET 0)
       (28 + 4 * 2 ^ 20) 0 77
     = (STATUS_INVALID_PARAMETER, example_Fdo, []).
Proof. repeat split; vm_compute; reflexivity. Qed.

(** C5 on the code.  With 2^20 pages and an offset notification, notify
    offset 0 lies inside the buffer (0 < 2^20 * PAGE_SIZE as integers), yet
    the test refuses it: the product wraps to 0 in a ULONG, so the request
    fails with STATUS_INVALID_PARAMETER in both handlers.  The same holds
    for the last byte of the buffer. *)
Theorem notify_offset_refused_at_max_pages :
  0 < 2 ^ 20 * PAGE_SIZE
  /\ 2 ^ 20 * PAGE_SIZE - 1 < 2 ^ 20 * PAGE_SIZE
  /\ GnttabBadPages (2 ^ 20) XENIFACE_GNTTAB_USE_NOTIFY_OFFSET 0 = true
  /\ GnttabBadPages (2 ^ 20) XENIFACE_GNTTAB_USE_NOTIFY_OFFSET
       (2 ^ 20 * PAGE_SIZE - 1) = true
  /\ IoctlGnttabPermitForeignAccess example_layout (example_env None)
       example_Fdo
       (example_permit_in (2 ^ 20) XENIFACE_GNTTAB_USE_NOTIFY_OFFSET 0) 24 0 77
     = (STATUS_INVALID_PARAMETER, example_Fdo, [])
  /\ IoctlGnttabMapForeignPages example_layout (example_env None)
       example_Fdo
       (example_map_in (2 ^ 20) XENIFACE_GNTTAB_USE_NOTIFY_OFFSET 0)
       (28 + 4 * 2 ^ 20) 0 77
     = (STATUS_INVALID_PARAMETER, example_Fdo, []).
Proof. repeat split; vm_compute; reflexivity. Qed.

(** ** Closing an event channel *)

(** The steps of EvtchnFree, in program order: the context is marked
    inactive, the channel is closed with the bus, the queued DPCs are
    flushed, and only then are the event reference and the context given
    up. *)
Lemma EvtchnFree_order (Context : XENIFACE_EVTCHN_CONTEXT) :
  EvtchnFree Context
  = [EvSetActive (Evtchn_Self Context) false;
     EvEvtchnClose (Evtchn_Channel Context);
     EvFlushQueuedDpcs;
     EvDereferenceObject (Evtchn_Event Context);
     EvFreePool (Evtchn_Self Context)].
Proof. reflexivity. Qed.

(** On an inactive context neither the interrupt handler nor the DPC does
    anything. *)
Lemma inactive_channel_is_silent (Context : XENIFACE_EVTCHN_CONTEXT) :
  Evtchn_Active Context = false ->
  EvtchnInterruptHandler Context = [] /\ EvtchnNotificationDpc Context = [].
Proof.
  intros H. unfold EvtchnInterruptHandler, EvtchnNotificationDpc.
  rewrite H. split; reflexivity.
Qed.

(** CloseChannel takes the channel of the caller off the list and frees
    it; a port the caller does not own is not found. *)
Lemma IoctlEvtchnClose_found (L : Layout) (Fdo : XENIFACE_FDO)
    (LocalPort FileObject : Z) (Context : XENIFACE_EVTCHN_CONTEXT) :
  EvtchnFindChannel (EvtchnList Fdo) LocalPort FileObject = Some Context ->
  IoctlEvtchnClose L Fdo LocalPort (sizeof_EVTCHN_CLOSE_IN L) 0 FileObject
  = (STATUS_SUCCESS,
     set_EvtchnList Fdo (RemoveEvtchnEntry Context (EvtchnList Fdo)),
     [EvAcquireLock EvtchnLock; EvReleaseLock EvtchnLock] ++ EvtchnFree Context).
Proof.
  intros H. unfold IoctlEvtchnClose. rewrite !Z.eqb_refl, H. reflexivity.
Qed.

(** ** LIST_ENTRY links *)

Lemma Flink_set_Flink (m : LINKS) (a v x : Z) :
  Flink (set_Flink m a v) x = if decide (a = x) then v else Flink m x.
Proof.
  unfold set_Flink. cbn [Flink]. destruct (decide (a = x)) as [->|Hne].
  - apply fn_lookup_insert.
  - apply fn_lookup_insert_ne. exact Hne.
Qed.

Lemma Blink_set_Blink (m : LINKS) (a v x : Z) :
  Blink (set_Blink m a v) x = if decide (a = x) then v else Blink m x.
Proof.
  unfold set_Blink. cbn [Blink]. destruct (decide (a = x)) as [->|Hne].
  - apply fn_lookup_insert.
  - apply fn_lookup_insert_ne. exact Hne.
Qed.

Lemma Flink_set_Blink (m : LINKS) (a v x : Z) :
  Flink (set_Blink m a v) x = Flink m x.
Proof. reflexivity. Qed.

Lemma Blink_set_Flink (m : LINKS) (a v x : Z) :
  Blink (set_Flink m a v) x = Blink m x.
Proof. reflexivity. Qed.

Ltac links_simpl :=
  repeat first
    [ rewrite Flink_set_Blink
    | rewrite Blink_set_Flink
    | rewrite Flink_set_Flink
    | rewrite Blink_set_Blink ];
  repeat case_decide; try congruence.

(** A chain only depends on the forward links of its entries and of its
    start, and on the back links of its entries and of the head. *)
Lemma chain_ext (m m' : LINKS) (Head : Z) :
  forall (l : list Z) (a : Z),
    (forall x, x ∈ a :: l -> Flink m' x = Flink m x) ->
    (forall x, x ∈ l ++ [Head] -> Blink m' x = Blink m x) ->
    chain m a l Head -> chain m' a l Head.
Proof.
  induction l as [|b l IH]; intros a HF HB Hc; cbn [chain] in *.
  - destruct Hc as [H1 H2]. split.
    + rewrite HF by left. exact H1.
    + rewrite HB by (apply list_elem_of_singleton; reflexivity). exact H2.
  - destruct Hc as (H1 & H2 & H3). split; [|split].
    + rewrite HF by left. exact H1.
    + rewrite HB by left. exact H2.
    + apply IH; [| |exact H3].
      * intros x Hx. apply HF. right. exact Hx.
      * intros x Hx. apply HB. right. exact Hx.
Qed.

Lemma default_last_cons (a k : Z) (K : list Z) :
  default a (last (k :: K)) = default k (last K).
Proof.
  destruct K as [|k' K]; [reflexivity|].
  rewrite last_cons_cons.
  destruct (last (k' :: K)) eqn:E; [reflexivity|].
  apply last_None in E. discriminate.
Qed.

Lemma default_last_elem (a : Z) (K : list Z) : default a (last K) ∈ a :: K.
Proof.
  destruct (last K) as [x|] eqn:E; cbn.
  - right. apply last_Some_elem_of. exact E.
  - left.
Qed.

Lemma default_head_elem (a : Z) (N : list Z) : default a (head N) ∈ a :: N.
Proof. destruct N as [|x N]; cbn; [left | right; left]. Qed.

(** Around an entry of a chain: its back link is the entry before it (or
    the start), its forward link the entry after it (or the head). *)
Lemma chain_mid (m : LINKS) (Head e : Z) (Node : list Z) :
  forall (Kept : list Z) (a : Z),
    chain m a (Kept ++ e :: Node) Head ->
    Blink m e = default a (last Kept)
    /\ Flink m e = default Head (head Node)
    /\ chain m e Node Head.
Proof.
  induction Kept as [|k Kept IH]; intros a Hc.
  - cbn [app chain] in Hc. destruct Hc as (_ & H2 & H3).
    split; [exact H2|]. split; [|exact H3].
    destruct Node as [|b Node]; cbn [chain] in H3; cbn; tauto.
  - cbn [app chain] in Hc. destruct Hc as (_ & _ & H3).
    rewrite default_last_cons. apply IH. exact H3.
Qed.

Lemma chain_blink_head (m : LINKS) (Head : Z) :
  forall (l : list Z) (a : Z),
    chain m a l Head -> Blink m Head = default a (last l).
Proof.
  induction l as [|b l IH]; intros a Hc; cbn [chain] in Hc.
  - tauto.
  - destruct Hc as (_ & _ & H3). rewrite default_last_cons. apply IH. exact H3.
Qed.

Lemma chain_flink_start (m : LINKS) (Head a : Z) (l : list Z) :
  chain m a l Head -> Flink m a = default Head (head l).
Proof. destruct l; cbn; tauto. Qed.

Lemma elem_of_app_cons_l (x k : Z) (K R : list Z) :
  x ∈ k :: K -> x ∈ k :: K ++ R.
Proof.
  intros H. apply elem_of_cons in H as [->|H]; [left|].
  right. apply elem_of_app. left. exact H.
Qed.

(** Unlinking an entry from the middle of a chain. *)
Lemma chain_unlink (m : LINKS) (Head e F : Z) (Node : list Z) :
  F = default Head (head Node) ->
  forall (Kept : list Z) (a B : Z),
    B = default a (last Kept) ->
    NoDup (a :: Kept ++ e :: Node) ->
    Head ∉ Kept ++ e :: Node ->
    chain m a (Kept ++ e :: Node) Head ->
    chain (set_Blink (set_Flink m B F) F B) a (Kept ++ Node) Head.
Proof.
  intros HF. induction Kept as [|k Kept IH]; intros a B HB Hnd Hhead Hc.
  - cbn in HB. subst B. cbn [app chain] in Hc. destruct Hc as (H1 & H2 & H3).
    cbn [app] in *.
    apply NoDup_cons in Hnd as [Ha Hnd]. apply NoDup_cons in Hnd as [He Hnd].
    destruct Node as [|b Node]; cbn in HF; subst F; cbn [chain] in *.
    + split; links_simpl.
    + destruct H3 as (H4 & H5 & H6).
      apply NoDup_cons in Hnd as [Hb Hnd].
      split; [links_simpl|]. split; [links_simpl|].
      eapply chain_ext; [| |exact H6].
      * intros x Hx. links_simpl. subst x. exfalso. apply Ha. right. exact Hx.
      * intros x Hx. links_simpl. subst x. exfalso.
        apply elem_of_app in Hx as [Hx|Hx]; [apply Hb; exact Hx|].
        apply list_elem_of_singleton in Hx. apply Hhead. right.
        rewrite <- Hx. left.
  - rewrite default_last_cons in HB.
    cbn [app chain] in Hc. destruct Hc as (H1 & H2 & H3).
    cbn [app] in *. apply NoDup_cons in Hnd as [Ha Hnd].
    assert (HBin : B ∈ k :: Kept) by (subst B; apply default_last_elem).
    assert (HFin : F ∈ Head :: Node) by (subst F; apply default_head_elem).
    assert (Hk : k ∉ Kept ++ e :: Node) by (apply NoDup_cons in Hnd as [? _]; assumption).
    assert (HBa : B <> a).
    { intros ->. apply Ha. apply elem_of_app_cons_l. exact HBin. }
    assert (HFk : F <> k).
    { intros ->. apply elem_of_cons in HFin as [E|HFin].
      - apply Hhead. rewrite <- E. left.
      - apply Hk. apply elem_of_app. right. right. exact HFin. }
    cbn [chain]. split; [links_simpl|]. split; [links_simpl|].
    + apply IH; try assumption.
      intros Hin. apply Hhead. right. exact Hin.
Qed.

Lemma dll_mid (m : LINKS) (Head e : Z) (Kept Node : list Z) :
  dll m Head (Kept ++ e :: Node) ->
  Blink m e = default Head (last Kept)
  /\ Flink m e = default Head (head Node).
Proof.
  intros [_ Hc]. destruct (chain_mid _ _ _ _ _ _ Hc) as (H1 & H2 & _).
  split; assumption.
Qed.

(** RemoveEntryList takes exactly the entry out of the list. *)
Lemma dll_remove (m : LINKS) (Head e : Z) (Kept Node : list Z) :
  dll m Head (Kept ++ e :: Node) ->
  dll (RemoveEntryList m e) Head (Kept ++ Node).
Proof.
  intros Hd. pose proof (dll_mid _ _ _ _ _ Hd) as [HB HF].
  destruct Hd as [Hnd Hc]. split.
  - eapply sublist_NoDup; [exact Hnd|].
    apply sublist_skip, sublist_app; [reflexivity|].
    apply sublist_cons. reflexivity.
  - unfold RemoveEntryList. cbn zeta.
    apply (chain_unlink m Head e (Flink m e) Node HF Kept Head (Blink m e) HB Hnd).
    + apply NoDup_cons in Hnd as [? _]. assumption.
    + exact Hc.
Qed.

(** What RemoveEntryList writes: the forward link of the entry before and
    the back link of the entry after. *)
Lemma RemoveEntryList_frame (m : LINKS) (e x : Z) :
  (x <> Blink m e -> Flink (RemoveEntryList m e) x = Flink m x)
  /\ (x <> Flink m e -> Blink (RemoveEntryList m e) x = Blink m x).
Proof. unfold RemoveEntryList. cbn zeta. split; intros H; links_simpl. Qed.

Lemma dll_frame (m m' : LINKS) (Head : Z) (l : list Z) :
  (forall x, x ∈ Head :: l -> Flink m' x = Flink m x /\ Blink m' x = Blink m x) ->
  dll m Head l -> dll m' Head l.
Proof.
  intros Hsame [Hnd Hc]. split; [exact Hnd|].
  eapply chain_ext; [| |exact Hc].
  - intros x Hx. apply Hsame. exact Hx.
  - intros x Hx. apply Hsame. apply elem_of_app in Hx as [Hx|Hx].
    + right. exact Hx.
    + apply list_elem_of_singleton in Hx. subst x. left.
Qed.

(** Linking an entry at the tail of a chain. *)
Lemma chain_append (m : LINKS) (Head e : Z) :
  e <> Head ->
  forall (l : list Z) (a B : Z),
    B = default a (last l) ->
    NoDup (a :: l) ->
    e ∉ a :: l ->
    Head ∉ l ->
    chain m a l Head ->
    chain (set_Blink (set_Flink (set_Blink (set_Flink m e Head) e B) B e) Head e)
          a (l ++ [e]) Head.
Proof.
  intros HeH. induction l as [|b l IH]; intros a B HB Hnd He Hhead Hc.
  - cbn in HB. subst B. cbn [chain] in Hc. destruct Hc as [H1 H2].
    assert (e <> a) by (intros ->; apply He; left).
    cbn [app chain]. repeat split; links_simpl.
  - rewrite default_last_cons in HB.
    cbn [chain] in Hc. destruct Hc as (H1 & H2 & H3).
    apply NoDup_cons in Hnd as [Ha Hnd].
    assert (HBin : B ∈ b :: l) by (subst B; apply default_last_elem).
    assert (HBa : B <> a) by (intros ->; exact (Ha HBin)).
    assert (Hea : e <> a) by (intros ->; apply He; left).
    assert (HbH : b <> Head) by (intros ->; apply Hhead; left).
    assert (Heb : e <> b) by (intros ->; apply He; right; left).
    cbn [app chain]. split; [links_simpl|]. split; [links_simpl|].
    + apply IH; try assumption.
      * intros Hin. apply He. right. exact Hin.
      * intros Hin. apply Hhead. right. exact Hin.
Qed.

Lemma dll_insert_tail (m : LINKS) (Head e : Z) (l : list Z) :
  dll m Head l -> e ∉ Head :: l ->
  dll (InsertTailList m Head e) Head (l ++ [e]).
Proof.
  intros [Hnd Hc] He. split.
  - rewrite app_comm_cons. apply NoDup_app. split; [exact Hnd|].
    split; [|apply NoDup_singleton].
    intros x Hx Hxe. apply list_elem_of_singleton in Hxe. subst x. exact (He Hx).
  - unfold InsertTailList. cbn zeta.
    apply chain_append; try assumption.
    + intros ->. apply He. left.
    + apply chain_blink_head. exact Hc.
    + apply NoDup_cons in Hnd as [? _]. assumption.
Qed.

Lemma InsertTailList_frame (m : LINKS) (Head e x : Z) :
  (x <> e -> x <> Blink m Head -> Flink (InsertTailList m Head e) x = Flink m x)
  /\ (x <> e -> x <> Head -> Blink (InsertTailList m Head e) x = Blink m x).
Proof. unfold InsertTailList. cbn zeta. split; intros H1 H2; links_simpl. Qed.

Lemma dll_InitializeListHead (m : LINKS) (Head : Z) :
  dll (InitializeListHead m Head) Head [].
Proof.
  split; [apply NoDup_singleton|].
  unfold InitializeListHead. cbn [chain]. split; links_simpl.
Qed.

Lemma dll_flink_head (m : LINKS) (Head : Z) (l : list Z) :
  dll m Head l -> Flink m Head = default Head (head l).
Proof. intros [_ Hc]. apply chain_flink_start. exact Hc. Qed.

(** The test of the walks, [Node->Flink != Head.Flink], holds at every
    entry of the list, and fails at the head, where a walk ends. *)
Lemma dll_walk_goes_on (m : LINKS) (Head e : Z) (Kept Node : list Z) :
  dll m Head (Kept ++ e :: Node) ->
  (Flink m e =? Flink m Head) = false.
Proof.
  intros Hd. pose proof (dll_mid _ _ _ _ _ Hd) as [_ HF].
  pose proof (dll_flink_head _ _ _ Hd) as HH.
  destruct Hd as [Hnd _]. apply Z.eqb_neq. rewrite HF, HH. intros E.
  pose proof (default_head_elem Head Node) as H1. rewrite E in H1.
  apply NoDup_cons in Hnd as [HHead Hnd].
  apply NoDup_app in Hnd as (_ & Hdisj & Hnd').
  apply NoDup_cons in Hnd' as [He _].
  destruct Kept as [|k Kept]; cbn in H1.
  - apply elem_of_cons in H1 as [->|H1]; [apply HHead; left | exact (He H1)].
  - apply elem_of_cons in H1 as [->|H1].
    + apply HHead. left.
    + apply (Hdisj k); [left | right; exact H1].
Qed.

(** ** The walks on the links against the walks on Rocq lists *)

Lemma ZeroEntry_frame (m : LINKS) (e x : Z) :
  x <> e ->
  Flink (ZeroEntry m e) x = Flink m x /\ Blink (ZeroEntry m e) x = Blink m x.
Proof. intros H. unfold ZeroEntry. split; links_simpl. Qed.

(** Unlinking an entry and clearing its links leaves the list without the
    entry, and writes nothing outside the list. *)
Lemma dll_remove_zero (m : LINKS) (Head e : Z) (Kept Node : list Z) :
  dll m Head (Kept ++ e :: Node) ->
  dll (ZeroEntry (RemoveEntryList m e) e) Head (Kept ++ Node)
  /\ (forall x, x ∉ Head :: Kept ++ e :: Node ->
        Flink (ZeroEntry (RemoveEntryList m e) e) x = Flink m x
        /\ Blink (ZeroEntry (RemoveEntryList m e) e) x = Blink m x).
Proof.
  intros Hd. pose proof (dll_mid _ _ _ _ _ Hd) as [HB HF].
  pose proof (dll_remove _ _ _ _ _ Hd) as Hd'.
  assert (He : e ∉ Head :: Kept ++ Node).
  { destruct Hd as [Hnd _]. intros Hin.
    apply NoDup_cons in Hnd as [HH Hnd].
    apply elem_of_cons in Hin as [->|Hin]; [apply HH, elem_of_app; right; left|].
    apply NoDup_app in Hnd as (_ & Hdisj & Hnd').
    apply NoDup_cons in Hnd' as [He' _].
    apply elem_of_app in Hin as [Hin|Hin]; [|exact (He' Hin)].
    apply (Hdisj e Hin). left. }
  split.
  - eapply dll_frame; [|exact Hd'].
    intros x Hx. apply ZeroEntry_frame. intros ->. exact (He Hx).
  - intros x Hx.
    assert (x <> e) by (intros ->; apply Hx; right; apply elem_of_app; right; left).
    destruct (ZeroEntry_frame (RemoveEntryList m e) e x H) as [-> ->].
    destruct (RemoveEntryList_frame m e x) as [H1 H2].
    rewrite H1, H2; [split; reflexivity| |].
    + rewrite HF. intros ->. apply Hx.
      pose proof (default_head_elem Head Node) as Hin.
      apply elem_of_cons in Hin as [->|Hin]; [left|].
      right. apply elem_of_app. right. right. exact Hin.
    + rewrite HB. intros ->. apply Hx.
      pose proof (default_last_elem Head Kept) as Hin.
      apply elem_of_cons in Hin as [->|Hin]; [left|].
      right. apply elem_of_app. left. exact Hin.
Qed.

Section WatchWalks.
Variable StoreAt : Z -> XENIFACE_STORE_CONTEXT.
Variables Head FileObject : Z.

(** The first loop of XenIfaceCleanup, on the links: it ends, it frees the
    owned entries in list order, and it leaves the list of the entries of
    other owners. *)
Lemma CleanupWatchesLoop_spec :
  forall (Node Kept : list Z) (m : LINKS) (fuel : nat),
    dll m Head (Kept ++ Node) ->
    (length Node < fuel)%nat ->
    exists m',
      CleanupWatchesLoop fuel StoreAt Head FileObject
        (default Head (head Node)) m
      = Some (m',
              concat (map (fun a => StoreFreeWatch (StoreAt a))
                        (filter (fun a => Store_FileObject (StoreAt a) = FileObject)
                                Node)))
      /\ dll m' Head
           (Kept ++ filter (fun a => Store_FileObject (StoreAt a) <> FileObject) Node)
      /\ (forall x, x ∉ Head :: Kept ++ Node ->
            Flink m' x = Flink m x /\ Blink m' x = Blink m x).
Proof.
  induction Node as [|e Node IH]; intros Kept m fuel Hd Hfuel;
    (destruct fuel as [|fuel]; [cbn in Hfuel; lia|]).
  - cbn. rewrite Z.eqb_refl. exists m. rewrite app_nil_r in *.
    split; [reflexivity|]. split; [exact Hd|]. intros; split; reflexivity.
  - change (default Head (head (e :: Node))) with e.
    cbn [CleanupWatchesLoop]. rewrite (dll_walk_goes_on _ _ _ _ _ Hd).
    destruct (dll_mid _ _ _ _ _ Hd) as [_ HF]. rewrite HF.
    destruct (Z.eqb_spec (Store_FileObject (StoreAt e)) FileObject) as [Heq|Hne];
      cbn [negb].
    + destruct (dll_remove_zero _ _ _ _ _ Hd) as [Hd' Hfr].
      destruct (IH Kept _ fuel Hd' ltac:(cbn in Hfuel; lia)) as (m' & -> & Hd'' & Hfr').
      exists m'. rewrite filter_cons_True by exact Heq.
      rewrite filter_cons_False by (intros H; exact (H Heq)).
      split; [reflexivity|]. split; [exact Hd''|].
      intros x Hx. destruct (Hfr' x) as [-> ->].
      * intros Hin. apply Hx. apply elem_of_cons in Hin as [->|Hin]; [left|].
        right. apply elem_of_app in Hin as [Hin|Hin]; apply elem_of_app;
          [left | right; right]; exact Hin.
      * apply Hfr. exact Hx.
    + replace (Kept ++ e :: Node) with ((Kept ++ [e]) ++ Node) in *
        by (rewrite <- app_assoc; reflexivity).
      destruct (IH (Kept ++ [e]) m fuel Hd ltac:(cbn in Hfuel; lia))
        as (m' & -> & Hd'' & Hfr').
      exists m'. rewrite filter_cons_False by exact Hne.
      rewrite filter_cons_True by exact Hne.
      rewrite <- app_assoc in Hd''.
      split; [reflexivity|]. split; [exact Hd''|exact Hfr'].
Qed.

Hypothesis StoreAt_Self : forall a, Store_Self (StoreAt a) = a.

Lemma Store_Self_StoreAt (l : list Z) : Store_Self <$> (StoreAt <$> l) = l.
Proof.
  induction l as [|a l IH]; [reflexivity|].
  rewrite !fmap_cons, IH, StoreAt_Self. reflexivity.
Qed.

Lemma filter_StoreAt (P : XENIFACE_STORE_CONTEXT -> Prop)
    `{!forall c, Decision (P c)} (l : list Z) :
  filter P (StoreAt <$> l) = StoreAt <$> filter (fun a => P (StoreAt a)) l.
Proof.
  induction l as [|a l IH]; [reflexivity|]. rewrite fmap_cons.
  destruct (decide (P (StoreAt a))) as [Hp|Hp].
  - rewrite !filter_cons_True by exact Hp. rewrite fmap_cons, IH. reflexivity.
  - rewrite !filter_cons_False by exact Hp. exact IH.
Qed.

Lemma concat_map_StoreAt (l : list Z) :
  concat (map StoreFreeWatch (StoreAt <$> l))
  = concat (map (fun a => StoreFreeWatch (StoreAt a)) l).
Proof.
  induction l as [|a l IH]; [reflexivity|].
  rewrite fmap_cons. cbn [map concat]. rewrite IH. reflexivity.
Qed.

Variable InContext : Z.

(** The walk of IoctlStoreRemoveWatch on the links does what the walk on the
    Rocq list does: same final value of [Context], and the links hold the
    list the walk on the Rocq list returns. *)
Lemma StoreRemoveWatchLoop_refines :
  forall (Node Kept : list Z) (m : LINKS)
         (Context : option XENIFACE_STORE_CONTEXT) (fuel : nat),
    dll m Head (Kept ++ Node) ->
    (length Node < fuel)%nat ->
    exists m',
      StoreRemoveWatchLoop fuel StoreAt Head InContext FileObject
        (default Head (head Node)) (StoreContextPtr Context) m
      = Some (StoreContextPtr
                (fst (RemoveWatchWalk (StoreAt <$> Node) InContext FileObject
                        Context (StoreAt <$> (Kept ++ Node)))),
              m')
      /\ dll m' Head
           (Store_Self <$>
              snd (RemoveWatchWalk (StoreAt <$> Node) InContext FileObject
                     Context (StoreAt <$> (Kept ++ Node)))).
Proof.
  induction Node as [|e Node IH]; intros Kept m Context fuel Hd Hfuel;
    (destruct fuel as [|fuel]; [cbn in Hfuel; lia|]).
  - cbn. rewrite Z.eqb_refl. exists m. split; [reflexivity|].
    rewrite Store_Self_StoreAt. exact Hd.
  - change (default Head (head (e :: Node))) with e.
    cbn [StoreRemoveWatchLoop]. rewrite (dll_walk_goes_on _ _ _ _ _ Hd).
    destruct (dll_mid _ _ _ _ _ Hd) as [_ HF]. rewrite HF.
    rewrite fmap_cons. cbn [RemoveWatchWalk]. rewrite StoreAt_Self.
    destruct (negb (e =? InContext)
              || negb (Store_FileObject (StoreAt e) =? FileObject)).
    + replace (Kept ++ e :: Node) with ((Kept ++ [e]) ++ Node) in *
        by (rewrite <- app_assoc; reflexivity).
      destruct (IH (Kept ++ [e]) m (Some (StoreAt e)) fuel Hd
                  ltac:(cbn in Hfuel; lia)) as (m' & Hrun & Hd').
      cbn [StoreContextPtr from_option] in Hrun. rewrite StoreAt_Self in Hrun.
      exists m'. split; [exact Hrun | exact Hd'].
    + exists (RemoveEntryList m e). cbn [fst snd StoreContextPtr from_option].
      rewrite StoreAt_Self. split; [reflexivity|].
      rewrite fmap_app, fmap_cons, RemoveStoreEntry_middle.
      * rewrite <- fmap_app, Store_Self_StoreAt. apply dll_remove. exact Hd.
      * rewrite <- fmap_cons, <- fmap_app, Store_Self_StoreAt.
        destruct Hd as [Hnd _]. apply NoDup_cons in Hnd as [_ Hnd]. exact Hnd.
Qed.

End WatchWalks.

Section ChannelWalks.
Variable EvtchnAt : Z -> XENIFACE_EVTCHN_CONTEXT.
Variables Head ToFree FileObject : Z.

(** The second loop of XenIfaceCleanup, on the links: the owned entries
    leave the channel list and join the tail of ToFree, in list order. *)
Lemma CleanupDetachLoop_spec :
  forall (Node Kept Free : list Z) (m : LINKS) (fuel : nat),
    dll m Head (Kept ++ Node) ->
    dll m ToFree Free ->
    (forall x, x ∈ Head :: Kept ++ Node -> x ∉ ToFree :: Free) ->
    (length Node < fuel)%nat ->
    exists m',
      CleanupDetachLoop fuel EvtchnAt Head ToFree FileObject
        (default Head (head Node)) m = Some m'
      /\ dll m' Head
           (Kept ++ filter (fun a => Evtchn_FileObject (EvtchnAt a) <> FileObject) Node)
      /\ dll m' ToFree
           (Free ++ filter (fun a => Evtchn_FileObject (EvtchnAt a) = FileObject) Node)
      /\ (forall x, x ∉ Head :: Kept ++ Node -> x ∉ ToFree :: Free ->
            Flink m' x = Flink m x /\ Blink m' x = Blink m x).
Proof.
  induction Node as [|e Node IH]; intros Kept Free m fuel Hd Hf Hdisj Hfuel;
    (destruct fuel as [|fuel]; [cbn in Hfuel; lia|]).
  - cbn. rewrite Z.eqb_refl. exists m. rewrite !app_nil_r in *.
    split; [reflexivity|]. split; [exact Hd|]. split; [exact Hf|].
    intros; split; reflexivity.
  - change (default Head (head (e :: Node))) with e.
    cbn [CleanupDetachLoop]. rewrite (dll_walk_goes_on _ _ _ _ _ Hd).
    destruct (dll_mid _ _ _ _ _ Hd) as [HB HF]. rewrite HF.
    destruct (Z.eqb_spec (Evtchn_FileObject (EvtchnAt e)) FileObject) as [Heq|Hne];
      cbn [negb].
    + assert (Hnd : NoDup (Head :: Kept ++ e :: Node)) by (destruct Hd; assumption).
      assert (HBin : Blink m e ∈ Head :: Kept ++ e :: Node).
      { rewrite HB. pose proof (default_last_elem Head Kept) as Hin.
        apply elem_of_cons in Hin as [->|Hin]; [left|].
        right. apply elem_of_app. left. exact Hin. }
      assert (HFin : Flink m e ∈ Head :: Kept ++ e :: Node).
      { rewrite HF. pose proof (default_head_elem Head Node) as Hin.
        apply elem_of_cons in Hin as [->|Hin]; [left|].
        right. apply elem_of_app. right. right. exact Hin. }
      assert (Hein : e ∈ Head :: Kept ++ e :: Node)
        by (right; apply elem_of_app; right; left).
      assert (He : e ∉ Head :: Kept ++ Node).
      { intros Hin. apply NoDup_cons in Hnd as [HH Hnd].
        apply elem_of_cons in Hin as [->|Hin];
          [apply HH, elem_of_app; right; left|].
        apply NoDup_app in Hnd as (_ & Hd1 & Hnd').
        apply NoDup_cons in Hnd' as [He' _].
        apply elem_of_app in Hin as [Hin|Hin]; [|exact (He' Hin)].
        apply (Hd1 e Hin). left. }
      assert (Hsub : forall x, x ∈ Head :: Kept ++ Node ->
                               x ∈ Head :: Kept ++ e :: Node).
      { intros x Hin. apply elem_of_cons in Hin as [->|Hin]; [left|].
        right. apply elem_of_app in Hin as [Hin|Hin]; apply elem_of_app;
          [left | right; right]; exact Hin. }
      set (m1 := RemoveEntryList m e).
      assert (Hd1 : dll m1 Head (Kept ++ Node)) by (apply dll_remove; exact Hd).
      assert (Hf1 : dll m1 ToFree Free).
      { eapply dll_frame; [|exact Hf]. intros x Hx.
        destruct (RemoveEntryList_frame m e x) as [H1 H2].
        split; [apply H1 | apply H2]; intros ->;
          [exact (Hdisj _ HBin Hx) | exact (Hdisj _ HFin Hx)]. }
      set (m2 := InsertTailList m1 ToFree e).
      assert (Hf2 : dll m2 ToFree (Free ++ [e])).
      { apply dll_insert_tail; [exact Hf1|]. apply Hdisj. exact Hein. }
      assert (HBT : Blink m1 ToFree ∈ ToFree :: Free).
      { destruct Hf1 as [_ Hc]. rewrite (chain_blink_head _ _ _ _ Hc).
        apply default_last_elem. }
      assert (Hd2 : dll m2 Head (Kept ++ Node)).
      { eapply dll_frame; [|exact Hd1]. intros x Hx.
        destruct (InsertTailList_frame m1 ToFree e x) as [H1 H2].
        assert (x <> e) by (intros ->; exact (He Hx)).
        split; [apply H1 | apply H2]; try assumption.
        - intros ->. exact (Hdisj _ (Hsub _ Hx) HBT).
        - intros ->. apply (Hdisj _ (Hsub _ Hx)). left. }
      destruct (IH Kept (Free ++ [e]) m2 fuel Hd2 Hf2) as (m' & -> & Hd' & Hf' & Hfr').
      { intros x Hx Hin. apply elem_of_cons in Hin as [->|Hin].
        - apply (Hdisj _ (Hsub _ Hx)). left.
        - apply elem_of_app in Hin as [Hin|Hin].
          + apply (Hdisj _ (Hsub _ Hx)). right. exact Hin.
          + apply list_elem_of_singleton in Hin. subst x. exact (He Hx). }
      { cbn in Hfuel. lia. }
      exists m'. rewrite filter_cons_False by (intros H; exact (H Heq)).
      rewrite filter_cons_True by exact Heq.
      rewrite <- app_assoc in Hf'.
      split; [reflexivity|]. split; [exact Hd'|]. split; [exact Hf'|].
      intros x Hx1 Hx2.
      assert (Hxe : x <> e) by (intros ->; exact (Hx1 Hein)).
      destruct (Hfr' x) as [-> ->].
      * intros Hin. apply Hx1, Hsub. exact Hin.
      * intros Hin. apply elem_of_cons in Hin as [->|Hin]; [apply Hx2; left|].
        apply elem_of_app in Hin as [Hin|Hin]; [apply Hx2; right; exact Hin|].
        apply list_elem_of_singleton in Hin. exact (Hxe Hin).
      * destruct (InsertTailList_frame m1 ToFree e x) as [H1 H2].
        destruct (RemoveEntryList_frame m e x) as [H3 H4].
        subst m2. rewrite H1, H2; try assumption.
        -- subst m1. rewrite H3, H4; [split; reflexivity| |];
             intros ->; [exact (Hx1 HFin) | exact (Hx1 HBin)].
        -- intros ->. apply Hx2. left.
        -- intros ->. exact (Hx2 HBT).
    + replace (Kept ++ e :: Node) with ((Kept ++ [e]) ++ Node) in *
        by (rewrite <- app_assoc; reflexivity).
      destruct (IH (Kept ++ [e]) Free m fuel Hd Hf Hdisj ltac:(cbn in Hfuel; lia))
        as (m' & -> & Hd' & Hf' & Hfr').
      exists m'. rewrite filter_cons_True by exact Hne.
      rewrite filter_cons_False by exact Hne.
      rewrite <- app_assoc in Hd'.
      split; [reflexivity|]. split; [exact Hd'|]. split; [exact Hf'|exact Hfr'].
Qed.

(** The third loop, on the links: every entry of ToFree is unlinked and
    freed, in list order, and ToFree ends empty. *)
Lemma CleanupFreeLoop_spec :
  forall (Node : list Z) (m : LINKS) (fuel : nat),
    dll m ToFree Node ->
    (length Node < fuel)%nat ->
    exists m',
      CleanupFreeLoop fuel EvtchnAt ToFree (default ToFree (head Node)) m
      = Some (m', concat (map (fun a => EvtchnFree (EvtchnAt a)) Node))
      /\ dll m' ToFree []
      /\ (forall x, x ∉ ToFree :: Node ->
            Flink m' x = Flink m x /\ Blink m' x = Blink m x).
Proof.
  induction Node as [|e Node IH]; intros m fuel Hd Hfuel;
    (destruct fuel as [|fuel]; [cbn in Hfuel; lia|]).
  - cbn. rewrite Z.eqb_refl. exists m.
    split; [reflexivity|]. split; [exact Hd|]. intros; split; reflexivity.
  - change (default ToFree (head (e :: Node))) with e.
    cbn [CleanupFreeLoop].
    rewrite (dll_walk_goes_on m ToFree e [] Node Hd).
    destruct (dll_mid m ToFree e [] Node Hd) as [_ HF]. rewrite HF.
    destruct (dll_remove_zero m ToFree e [] Node Hd) as [Hd' Hfr].
    cbn [app] in Hd', Hfr.
    destruct (IH _ fuel Hd' ltac:(cbn in Hfuel; lia)) as (m' & -> & Hd'' & Hfr').
    exists m'. split; [reflexivity|]. split; [exact Hd''|].
    intros x Hx. destruct (Hfr' x) as [-> ->].
    + intros Hin. apply Hx. apply elem_of_cons in Hin as [->|Hin]; [left|].
      right. right. exact Hin.
    + apply Hfr. exact Hx.
Qed.

Hypothesis EvtchnAt_Self : forall a, Evtchn_Self (EvtchnAt a) = a.

Lemma Evtchn_Self_EvtchnAt (l : list Z) : Evtchn_Self <$> (EvtchnAt <$> l) = l.
Proof.
  induction l as [|a l IH]; [reflexivity|].
  rewrite !fmap_cons, IH, EvtchnAt_Self. reflexivity.
Qed.

Lemma filter_EvtchnAt (P : XENIFACE_EVTCHN_CONTEXT -> Prop)
    `{!forall c, Decision (P c)} (l : list Z) :
  filter P (EvtchnAt <$> l) = EvtchnAt <$> filter (fun a => P (EvtchnAt a)) l.
Proof.
  induction l as [|a l IH]; [reflexivity|]. rewrite fmap_cons.
  destruct (decide (P (EvtchnAt a))) as [Hp|Hp].
  - rewrite !filter_cons_True by exact Hp. rewrite fmap_cons, IH. reflexivity.
  - rewrite !filter_cons_False by exact Hp. exact IH.
Qed.

Lemma concat_map_EvtchnAt (l : list Z) :
  concat (map EvtchnFree (EvtchnAt <$> l))
  = concat (map (fun a => EvtchnFree (EvtchnAt a)) l).
Proof.
  induction l as [|a l IH]; [reflexivity|].
  rewrite fmap_cons. cbn [map concat]. rewrite IH. reflexivity.
Qed.

(** EvtchnFindChannel on the links finds the channel that the search of
    the Rocq list finds, or NULL. *)
Lemma EvtchnFindChannelLoop_refines (LocalPort : Z) :
  forall (Node Kept : list Z) (m : LINKS) (fuel : nat),
    dll m Head (Kept ++ Node) ->
    (length Node < fuel)%nat ->
    EvtchnFindChannelLoop fuel EvtchnAt Head LocalPort FileObject
      (default Head (head Node)) m
    = Some (from_option Evtchn_Self NULL
              (EvtchnFindChannel (EvtchnAt <$> Node) LocalPort FileObject)).
Proof.
  induction Node as [|e Node IH]; intros Kept m fuel Hd Hfuel;
    (destruct fuel as [|fuel]; [cbn in Hfuel; lia|]).
  - cbn. rewrite Z.eqb_refl. reflexivity.
  - change (default Head (head (e :: Node))) with e.
    cbn [EvtchnFindChannelLoop]. rewrite (dll_walk_goes_on _ _ _ _ _ Hd).
    destruct (dll_mid _ _ _ _ _ Hd) as [_ HF]. rewrite HF.
    rewrite fmap_cons. cbn [EvtchnFindChannel].
    replace (Kept ++ e :: Node) with ((Kept ++ [e]) ++ Node) in *
      by (rewrite <- app_assoc; reflexivity).
    destruct (negb (Evtchn_LocalPort (EvtchnAt e) =? LocalPort));
      [apply (IH (Kept ++ [e])); [exact Hd | cbn in Hfuel; lia]|].
    destruct (negb (FileObject =? NULL)
              && negb (Evtchn_FileObject (EvtchnAt e) =? FileObject));
      [apply (IH (Kept ++ [e])); [exact Hd | cbn in Hfuel; lia]|].
    cbn. rewrite EvtchnAt_Self. reflexivity.
Qed.

End ChannelWalks.

Lemma InitializeListHead_frame (m : LINKS) (Head x : Z) :
  x <> Head ->
  Flink (InitializeListHead m Head) x = Flink m x
  /\ Blink (InitializeListHead m Head) x = Blink m x.
Proof. intros H. unfold InitializeListHead. split; links_simpl. Qed.

Lemma elem_of_cons_filter (P : Z -> Prop) `{!forall a, Decision (P a)}
    (h x : Z) (l : list Z) :
  x ∈ h :: filter P l -> x ∈ h :: l.
Proof.
  intros Hin. apply elem_of_cons in Hin as [->|Hin]; [left|].
  right. apply list_elem_of_filter in Hin as [_ Hin]. exact Hin.
Qed.

(** XenIfaceCleanup on the links.  When the links hold the watch list
    [ws] and the channel list [cs], the three loops end within [fuel]
    iterations each; the owned watches are freed inside the watch lock, the
    owned channels after the channel lock is released, both in list order;
    and the links are left holding the watches and the channels of the
    other file objects, the local list ToFree being empty again. *)
Lemma XenIfaceCleanupLinks_spec
    (StoreAt : Z -> XENIFACE_STORE_CONTEXT)
    (EvtchnAt : Z -> XENIFACE_EVTCHN_CONTEXT)
    (WatchHead EvtchnHead ToFree FileObject : Z)
    (ws cs : list Z) (m : LINKS) (fuel : nat) :
  dll m WatchHead ws ->
  dll m EvtchnHead cs ->
  NoDup (WatchHead :: EvtchnHead :: ToFree :: ws ++ cs) ->
  (length ws < fuel)%nat ->
  (length cs < fuel)%nat ->
  exists m',
    XenIfaceCleanupLinks fuel StoreAt EvtchnAt WatchHead EvtchnHead ToFree
      FileObject m
    = Some (m',
            [EvAcquireLock StoreWatchLock]
            ++ concat (map (fun a => StoreFreeWatch (StoreAt a))
                         (filter (fun a => Store_FileObject (StoreAt a) = FileObject) ws))
            ++ [EvReleaseLock StoreWatchLock; EvAcquireLock EvtchnLock;
                EvReleaseLock EvtchnLock]
            ++ concat (map (fun a => EvtchnFree (EvtchnAt a))
                         (filter (fun a => Evtchn_FileObject (EvtchnAt a) = FileObject) cs)))
    /\ dll m' WatchHead
         (filter (fun a => Store_FileObject (StoreAt a) <> FileObject) ws)
    /\ dll m' EvtchnHead
         (filter (fun a => Evtchn_FileObject (EvtchnAt a) <> FileObject) cs)
    /\ dll m' ToFree [].
Proof.
  intros Hdw Hde Hnd Hfw Hfc.
  (* the addresses are apart *)
  apply NoDup_cons in Hnd as [HW Hnd]. apply NoDup_cons in Hnd as [HE Hnd].
  apply NoDup_cons in Hnd as [HT Hnd].
  apply NoDup_app in Hnd as (_ & Hwc & _).
  rewrite !not_elem_of_cons, !not_elem_of_app in HW.
  rewrite !not_elem_of_cons, !not_elem_of_app in HE.
  rewrite !not_elem_of_app in HT.
  destruct HW as (HWE & HWT & HWw & HWc). destruct HE as (HET & HEw & HEc).
  destruct HT as (HTw & HTc).
  assert (A1 : forall x, x ∈ WatchHead :: ws -> x ∉ EvtchnHead :: cs).
  { intros x Hx Hy.
    apply elem_of_cons in Hx as [->|Hx]; apply elem_of_cons in Hy as [E|Hy].
    - exact (HWE E).
    - exact (HWc Hy).
    - subst x. exact (HEw Hx).
    - exact (Hwc x Hx Hy). }
  assert (A2 : forall x, x ∈ WatchHead :: ws -> x <> ToFree).
  { intros x Hx ->. apply elem_of_cons in Hx as [E|Hx];
      [symmetry in E; exact (HWT E) | exact (HTw Hx)]. }
  assert (A3 : forall x, x ∈ EvtchnHead :: cs -> x <> ToFree).
  { intros x Hx ->. apply elem_of_cons in Hx as [E|Hx];
      [symmetry in E; exact (HET E) | exact (HTc Hx)]. }
  (* first loop *)
  unfold XenIfaceCleanupLinks.
  destruct (CleanupWatchesLoop_spec StoreAt WatchHead FileObject ws [] m fuel
              Hdw Hfw) as (m1 & Hrun1 & Hdw1 & Hfr1).
  rewrite (dll_flink_head _ _ _ Hdw), Hrun1. cbn [app] in Hdw1, Hfr1.
  assert (Hde1 : dll m1 EvtchnHead cs).
  { eapply dll_frame; [|exact Hde]. intros x Hx. apply Hfr1.
    intros Hy. exact (A1 x Hy Hx). }
  (* the local list head *)
  set (m2 := InitializeListHead m1 ToFree).
  assert (Hdw2 : dll m2 WatchHead
            (filter (fun a => Store_FileObject (StoreAt a) <> FileObject) ws)).
  { eapply dll_frame; [|exact Hdw1]. intros x Hx.
    apply InitializeListHead_frame, A2. eapply elem_of_cons_filter. exact Hx. }
  assert (Hde2 : dll m2 EvtchnHead cs).
  { eapply dll_frame; [|exact Hde1]. intros x Hx.
    apply InitializeListHead_frame, A3. exact Hx. }
  assert (Hdt2 : dll m2 ToFree []) by apply dll_InitializeListHead.
  (* second loop *)
  destruct (CleanupDetachLoop_spec EvtchnAt EvtchnHead ToFree FileObject
              cs [] [] m2 fuel Hde2 Hdt2) as (m3 & Hrun3 & Hde3 & Hdt3 & Hfr3).
  { intros x Hx Hy. apply list_elem_of_singleton in Hy. exact (A3 x Hx Hy). }
  { exact Hfc. }
  rewrite (dll_flink_head _ _ _ Hde2), Hrun3. cbn [app] in Hde3, Hdt3, Hfr3.
  assert (Hdw3 : dll m3 WatchHead
            (filter (fun a => Store_FileObject (StoreAt a) <> FileObject) ws)).
  { eapply dll_frame; [|exact Hdw2]. intros x Hx.
    apply elem_of_cons_filter in Hx. apply Hfr3.
    - exact (A1 x Hx).
    - intros Hy. apply list_elem_of_singleton in Hy. exact (A2 x Hx Hy). }
  (* third loop *)
  destruct (CleanupFreeLoop_spec EvtchnAt ToFree _ m3 fuel Hdt3)
    as (m4 & Hrun4 & Hdt4 & Hfr4).
  { eapply Nat.le_lt_trans; [apply length_filter | exact Hfc]. }
  rewrite (dll_flink_head _ _ _ Hdt3), Hrun4.
  exists m4. split; [reflexivity|]. split; [|split; [|exact Hdt4]].
  - eapply dll_frame; [|exact Hdw3]. intros x Hx.
    apply elem_of_cons_filter in Hx. apply Hfr4. intros Hy.
    apply elem_of_cons_filter in Hy.
    apply elem_of_cons in Hy as [E|Hy]; [exact (A2 x Hx E)|].
    apply (A1 x Hx). right. exact Hy.
  - eapply dll_frame; [|exact Hde3]. intros x Hx. apply Hfr4. intros Hy.
    apply elem_of_cons in Hy as [E|Hy].
    + apply elem_of_cons_filter in Hx. exact (A3 x Hx E).
    + apply list_elem_of_filter in Hy as [Hown Hy].
      apply elem_of_cons in Hx as [E|Hx].
      * subst x. destruct Hde as [Hn _]. apply NoDup_cons in Hn as [Hn _].
        exact (Hn Hy).
      * apply list_elem_of_filter in Hx as [Hnot _]. exact (Hnot Hown).
Qed.

(** XenIfaceCleanup on the links, against XenIfaceCleanup on Rocq lists:
    the same calls in the same order, and links that hold the lists the
    walk over the Rocq lists returns. *)
Theorem XenIfaceCleanupLinks_refines
    (StoreAt : Z -> XENIFACE_STORE_CONTEXT)
    (EvtchnAt : Z -> XENIFACE_EVTCHN_CONTEXT)
    (WatchHead EvtchnHead ToFree FileObject : Z)
    (ws cs : list Z) (Queue : list PENDING_IRP) (m : LINKS) (fuel : nat) :
  (forall a, Store_Self (StoreAt a) = a) ->
  (forall a, Evtchn_Self (EvtchnAt a) = a) ->
  dll m WatchHead ws ->
  dll m EvtchnHead cs ->
  NoDup (WatchHead :: EvtchnHead :: ToFree :: ws ++ cs) ->
  (length ws < fuel)%nat ->
  (length cs < fuel)%nat ->
  let Fdo := {| StoreWatchList := StoreAt <$> ws;
                EvtchnList := EvtchnAt <$> cs;
                IrpQueue := Queue |} in
  exists m',
    XenIfaceCleanupLinks fuel StoreAt EvtchnAt WatchHead EvtchnHead ToFree
      FileObject m
    = Some (m', snd (XenIfaceCleanup Fdo FileObject))
    /\ dll m' WatchHead
         (Store_Self <$> StoreWatchList (fst (XenIfaceCleanup Fdo FileObject)))
    /\ dll m' EvtchnHead
         (Evtchn_Self <$> EvtchnList (fst (XenIfaceCleanup Fdo FileObject)))
    /\ dll m' ToFree [].
Proof.
  intros HsS HsE Hdw Hde Hnd Hfw Hfc Fdo.
  assert (Habs : XenIfaceCleanup Fdo FileObject
    = ({| StoreWatchList :=
            StoreAt <$> filter (fun a => Store_FileObject (StoreAt a) <> FileObject) ws;
          EvtchnList :=
            EvtchnAt <$> filter (fun a => Evtchn_FileObject (EvtchnAt a) <> FileObject) cs;
          IrpQueue := Queue |},
       [EvAcquireLock StoreWatchLock]
       ++ concat (map (fun a => StoreFreeWatch (StoreAt a))
                    (filter (fun a => Store_FileObject (StoreAt a) = FileObject) ws))
       ++ [EvReleaseLock StoreWatchLock; EvAcquireLock EvtchnLock;
           EvReleaseLock EvtchnLock]
       ++ concat (map (fun a => EvtchnFree (EvtchnAt a))
                    (filter (fun a => Evtchn_FileObject (EvtchnAt a) = FileObject) cs)))).
  { unfold XenIfaceCleanup, Fdo. cbn [StoreWatchList EvtchnList IrpQueue].
    rewrite CleanupWatches_all
      by (rewrite (Store_Self_StoreAt StoreAt HsS); destruct Hdw as [H _];
          apply NoDup_cons in H as [_ H]; exact H).
    rewrite CleanupDetach_all
      by (rewrite (Evtchn_Self_EvtchnAt EvtchnAt HsE); destruct Hde as [H _];
          apply NoDup_cons in H as [_ H]; exact H).
    rewrite CleanupFree_all.
    - rewrite !(filter_StoreAt StoreAt), !(filter_EvtchnAt EvtchnAt).
      rewrite (concat_map_StoreAt StoreAt), (concat_map_EvtchnAt EvtchnAt).
      reflexivity.
    - rewrite (filter_EvtchnAt EvtchnAt), (Evtchn_Self_EvtchnAt EvtchnAt HsE).
      eapply sublist_NoDup; [|apply sublist_filter].
      destruct Hde as [H _]. apply NoDup_cons in H as [_ H]. exact H. }
  rewrite Habs. cbn [fst snd StoreWatchList EvtchnList].
  rewrite (Store_Self_StoreAt StoreAt HsS), (Evtchn_Self_EvtchnAt EvtchnAt HsE).
  apply XenIfaceCleanupLinks_spec; assumption.
Qed.

(** ** RemoveWatch on the links *)

Lemma RemoveWatchWalk_context (InContext FileObject : Z) :
  forall (Node : list XENIFACE_STORE_CONTEXT) Context List c,
    fst (RemoveWatchWalk Node InContext FileObject Context List) = Some c ->
    c ∈ Node \/ Context = Some c.
Proof.
  induction Node as [|x Node IH]; intros Context List c H; cbn in H.
  - right. exact H.
  - destruct (negb (Store_Self x =? InContext)
              || negb (Store_FileObject x =? FileObject)).
    + apply IH in H as [H|H]; [left; right; exact H|].
      inversion H; subst. left. left.
    + cbn in H. inversion H; subst. left. left.
Qed.

(** IoctlStoreRemoveWatch on the links answers and calls what
    IoctlStoreRemoveWatch on the Rocq list does.  The links it leaves are
    those of the list the walk returns, with the links of the context
    cleared when the context was freed. *)
Theorem IoctlStoreRemoveWatchLinks_refines
    (L : Layout) (StoreAt : Z -> XENIFACE_STORE_CONTEXT)
    (WatchHead InContext InLen OutLen FileObject : Z)
    (ws : list Z) (Fdo : XENIFACE_FDO) (m : LINKS) (fuel : nat) :
  (forall a, Store_Self (StoreAt a) = a) ->
  StoreWatchList Fdo = StoreAt <$> ws ->
  dll m WatchHead ws ->
  NULL ∉ ws ->
  (length ws < fuel)%nat ->
  let '(status, Fdo', tr) :=
    IoctlStoreRemoveWatch L Fdo InContext InLen OutLen FileObject in
  exists m1,
    IoctlStoreRemoveWatchLinks fuel L StoreAt WatchHead m InContext InLen
      OutLen FileObject
    = Some (status,
            if bool_decide (status = STATUS_SUCCESS)
            then ZeroEntry m1 InContext else m1,
            tr)
    /\ dll m1 WatchHead (Store_Self <$> StoreWatchList Fdo').
Proof.
  intros Hself Hlist Hd Hnull Hfuel.
  unfold IoctlStoreRemoveWatch, IoctlStoreRemoveWatchLinks.
  destruct (negb (InLen =? _) || negb (OutLen =? 0)).
  { exists m. split; [reflexivity|].
    rewrite Hlist, (Store_Self_StoreAt StoreAt Hself). exact Hd. }
  rewrite Hlist.
  destruct (StoreRemoveWatchLoop_refines StoreAt WatchHead FileObject Hself
              InContext ws [] m None fuel Hd Hfuel) as (m1 & Hrun & Hd1).
  cbn [app StoreContextPtr from_option] in Hrun, Hd1.
  rewrite (dll_flink_head _ _ _ Hd), Hrun.
  destruct (RemoveWatchWalk (StoreAt <$> ws) InContext FileObject None
              (StoreAt <$> ws)) as [Context List] eqn:Hwalk.
  cbn [fst snd] in *.
  destruct Context as [c|]; cbn [StoreContextPtr from_option].
  - assert (Hc : c ∈ StoreAt <$> ws).
    { destruct (RemoveWatchWalk_context InContext FileObject
                  (StoreAt <$> ws) None (StoreAt <$> ws) c) as [H|H];
        [rewrite Hwalk; reflexivity | exact H | discriminate]. }
    apply list_elem_of_fmap in Hc as (a & -> & Ha).
    rewrite Hself.
    assert (Hnz : (a =? NULL) = false)
      by (apply Z.eqb_neq; intros ->; exact (Hnull Ha)).
    rewrite Hnz. cbn [orb].
    destruct (Z.eqb_spec a InContext) as [->|Hne]; cbn [negb].
    + exists m1. split; [reflexivity | exact Hd1].
    + exists m1. split; [reflexivity | exact Hd1].
  - exists m1. split; [reflexivity | exact Hd1].
Qed.

(** C8 fails on the code.  The watch list holds one watch, at 0x8000, owned
    by file object 1.  RemoveWatch with that handle from file object 2
    returns STATUS_SUCCESS and frees the watch: the store watch is removed,
    the event dereferenced, the context freed.  The walk never unlinked it:
    on Rocq lists the watch is still in the list, and on the links the list
    head is left pointing at the freed context, whose links are cleared. *)
Theorem RemoveWatch_foreign_watch_torn_down :
  IoctlStoreRemoveWatch example_layout
    (set_StoreWatchList example_Fdo [example_watch 0x8000 1]) 0x8000 8 0 2
  = (STATUS_SUCCESS,
     set_StoreWatchList example_Fdo [example_watch 0x8000 1],
     [EvAcquireLock StoreWatchLock; EvReleaseLock StoreWatchLock;
      EvWatchRemove 0x8200; EvDereferenceObject 0x8100; EvFreePool 0x8000])
  /\
  match IoctlStoreRemoveWatchLinks 2 example_layout example_StoreAt 0x100
          example_one_watch_links 0x8000 8 0 2 with
  | Some (status, m', tr) =>
      status = STATUS_SUCCESS
      /\ tr = [EvAcquireLock StoreWatchLock; EvReleaseLock StoreWatchLock;
               EvWatchRemove 0x8200; EvDereferenceObject 0x8100;
               EvFreePool 0x8000]
      /\ Flink m' 0x100 = 0x8000
      /\ Flink m' 0x8000 = NULL
      /\ Blink m' 0x8000 = NULL
  | None => False
  end.
Proof. split; vm_compute; repeat split; reflexivity. Qed.

(** ** XenIfaceCleanup: what a closing file object leaves behind *)

Lemma NoDup_heads_filter (P Q : Z -> Prop)
    `{!forall a, Decision (P a)} `{!forall a, Decision (Q a)}
    (h1 h2 h3 : Z) (ws cs : list Z) :
  NoDup (h1 :: h2 :: h3 :: ws ++ cs) ->
  NoDup (h1 :: h2 :: h3 :: filter P ws ++ filter Q cs).
Proof.
  intros Hnd. eapply sublist_NoDup; [exact Hnd|].
  do 3 apply sublist_skip. apply sublist_app; apply sublist_filter.
Qed.

Lemma filter_filter_same {A} (P : A -> Prop) `{!forall x, Decision (P x)}
    (l : list A) :
  filter P (filter P l) = filter P l.
Proof.
  apply filter_keeps_all. intros x Hx.
  apply list_elem_of_filter in Hx as [Hx _]. exact Hx.
Qed.

(** C9. A file object that owns N watches and M channels is closed.  On
    links that hold the watch list [ws] and the channel list [cs],
    XenIfaceCleanup ends; it frees exactly the owned watches, inside the
    watch-list lock and in list order; it moves exactly the owned channels
    to the local list inside the channel-list lock and frees them after the
    lock is released; the contexts freed are the N + M owned ones, each
    once; the lists are left holding the watches and channels of the other
    file objects; and a second cleanup for the same file object takes both
    locks, frees nothing and leaves the same lists. *)
Theorem XenIfaceCleanup_tears_down_owned
    (StoreAt : Z -> XENIFACE_STORE_CONTEXT)
    (EvtchnAt : Z -> XENIFACE_EVTCHN_CONTEXT)
    (WatchHead EvtchnHead ToFree FileObject : Z)
    (ws cs : list Z) (m : LINKS) (fuel : nat) :
  (forall a, Store_Self (StoreAt a) = a) ->
  (forall a, Evtchn_Self (EvtchnAt a) = a) ->
  dll m WatchHead ws ->
  dll m EvtchnHead cs ->
  NoDup (WatchHead :: EvtchnHead :: ToFree :: ws ++ cs) ->
  (length ws < fuel)%nat ->
  (length cs < fuel)%nat ->
  let owned_watches :=
    filter (fun a => Store_FileObject (StoreAt a) = FileObject) ws in
  let owned_channels :=
    filter (fun a => Evtchn_FileObject (EvtchnAt a) = FileObject) cs in
  let other_watches :=
    filter (fun a => Store_FileObject (StoreAt a) <> FileObject) ws in
  let other_channels :=
    filter (fun a => Evtchn_FileObject (EvtchnAt a) <> FileObject) cs in
  let tr :=
    [EvAcquireLock StoreWatchLock]
    ++ concat (map (fun a => StoreFreeWatch (StoreAt a)) owned_watches)
    ++ [EvReleaseLock StoreWatchLock; EvAcquireLock EvtchnLock;
        EvReleaseLock EvtchnLock]
    ++ concat (map (fun a => EvtchnFree (EvtchnAt a)) owned_channels) in
  exists m1 m2,
    XenIfaceCleanupLinks fuel StoreAt EvtchnAt WatchHead EvtchnHead ToFree
      FileObject m = Some (m1, tr)
    /\ dll m1 WatchHead other_watches
    /\ dll m1 EvtchnHead other_channels
    /\ released tr = owned_watches ++ owned_channels
    /\ NoDup (released tr)
    /\ length (released tr) = (length owned_watches + length owned_channels)%nat
    /\ XenIfaceCleanupLinks fuel StoreAt EvtchnAt WatchHead EvtchnHead ToFree
         FileObject m1
       = Some (m2, [EvAcquireLock StoreWatchLock; EvReleaseLock StoreWatchLock;
                    EvAcquireLock EvtchnLock; EvReleaseLock EvtchnLock])
    /\ dll m2 WatchHead other_watches
    /\ dll m2 EvtchnHead other_channels
    /\ tr = snd (XenIfaceCleanup
                   {| StoreWatchList := StoreAt <$> ws;
                      EvtchnList := EvtchnAt <$> cs;
                      IrpQueue := [] |} FileObject).
Proof.
  intros HsS HsE Hdw Hde Hnd Hfw Hfc
         owned_watches owned_channels other_watches other_channels tr.
  destruct (XenIfaceCleanupLinks_spec StoreAt EvtchnAt WatchHead EvtchnHead
              ToFree FileObject ws cs m fuel Hdw Hde Hnd Hfw Hfc)
    as (m1 & Hrun1 & Hdw1 & Hde1 & _).
  destruct (XenIfaceCleanupLinks_spec StoreAt EvtchnAt WatchHead EvtchnHead
              ToFree FileObject other_watches other_channels m1 fuel Hdw1 Hde1)
    as (m2 & Hrun2 & Hdw2 & Hde2 & _).
  { apply NoDup_heads_filter. exact Hnd. }
  { eapply Nat.le_lt_trans; [apply length_filter | exact Hfw]. }
  { eapply Nat.le_lt_trans; [apply length_filter | exact Hfc]. }
  unfold other_watches, other_channels in Hrun2, Hdw2, Hde2.
  rewrite !filter_filter_same in Hdw2, Hde2.
  rewrite (filter_drops_all (fun a => Store_FileObject (StoreAt a) = FileObject)
             (filter _ ws)) in Hrun2
    by (intros x Hx; apply list_elem_of_filter in Hx as [Hx _]; exact Hx).
  rewrite (filter_drops_all (fun a => Evtchn_FileObject (EvtchnAt a) = FileObject)
             (filter _ cs)) in Hrun2
    by (intros x Hx; apply list_elem_of_filter in Hx as [Hx _]; exact Hx).
  assert (Hrel : released tr = owned_watches ++ owned_channels).
  { subst tr. rewrite !released_app.
    rewrite <- (concat_map_StoreAt StoreAt), <- (concat_map_EvtchnAt EvtchnAt).
    rewrite released_StoreFreeWatch, released_EvtchnFree.
    rewrite (Store_Self_StoreAt StoreAt HsS), (Evtchn_Self_EvtchnAt EvtchnAt HsE).
    reflexivity. }
  exists m1, m2.
  split; [exact Hrun1|]. split; [exact Hdw1|]. split; [exact Hde1|].
  split; [exact Hrel|]. split; [|split; [|split; [|split; [|split]]]].
  - rewrite Hrel. eapply sublist_NoDup.
    + do 3 apply NoDup_cons in Hnd as [_ Hnd]. exact Hnd.
    + apply sublist_app; apply sublist_filter.
  - rewrite Hrel. apply length_app.
  - exact Hrun2.
  - exact Hdw2.
  - exact Hde2.
  - destruct (XenIfaceCleanupLinks_refines StoreAt EvtchnAt WatchHead EvtchnHead
                ToFree FileObject ws cs [] m fuel HsS HsE Hdw Hde Hnd Hfw Hfc)
      as (m1' & Hrun1' & _).
    rewrite Hrun1 in Hrun1'. inversion Hrun1'. reflexivity.
Qed.

Lemma XenIfaceCleanup_tears_down_owned_witness :
  exists m1 m2,
    XenIfaceCleanupLinks 4 example_StoreAt example_EvtchnAt 0x100 0x200 0x300 1
      example_links
    = Some (m1,
            [EvAcquireLock StoreWatchLock;
             EvWatchRemove 0x8200; EvDereferenceObject 0x8100; EvFreePool 0x8000;
             EvWatchRemove 0x8A00; EvDereferenceObject 0x8900; EvFreePool 0x8800;
             EvReleaseLock StoreWatchLock;
             EvAcquireLock EvtchnLock; EvReleaseLock EvtchnLock;
             EvSetActive 0x9000 false; EvEvtchnClose 0x9100; EvFlushQueuedDpcs;
             EvDereferenceObject 0x9200; EvFreePool 0x9000])
    /\ dll m1 0x100 [0x8400]
    /\ dll m1 0x200 [0x9400]
    /\ XenIfaceCleanupLinks 4 example_StoreAt example_EvtchnAt 0x100 0x200 0x300 1
         m1
       = Some (m2, [EvAcquireLock StoreWatchLock; EvReleaseLock StoreWatchLock;
                    EvAcquireLock EvtchnLock; EvReleaseLock EvtchnLock]).
Proof.
  destruct (XenIfaceCleanup_tears_down_owned example_StoreAt example_EvtchnAt
              0x100 0x200 0x300 1 [0x8000; 0x8400; 0x8800] [0x9000; 0x9400]
              example_links 4)
    as (m1 & m2 & Hrun1 & Hdw1 & Hde1 & _ & _ & _ & Hrun2 & _).
  - reflexivity.
  - reflexivity.
  - split; [apply (bool_decide_unpack _); vm_compute; reflexivity|].
    vm_compute. repeat split; reflexivity.
  - split; [apply (bool_decide_unpack _); vm_compute; reflexivity|].
    vm_compute. repeat split; reflexivity.
  - apply (bool_decide_unpack _). vm_compute. reflexivity.
  - cbn. lia.
  - cbn. lia.
  - exists m1, m2. split; [exact Hrun1|]. split; [exact Hdw1|].
    split; [exact Hde1 | exact Hrun2].
Defined.

(** ** The requests seen together *)

Lemma IoCsqRemoveNextIrp_subset (Id : XENIFACE_CONTEXT_ID) :
  forall (Queue : list PENDING_IRP) p,
    p ∈ snd (IoCsqRemoveNextIrp Queue Id) -> p ∈ Queue.
Proof.
  induction Queue as [|q Queue IH]; intros p Hp; cbn in Hp; [exact Hp|].
  destruct (ContextIdEq _ _); cbn in Hp; [right; exact Hp|].
  destruct (IoCsqRemoveNextIrp Queue Id) as [r rest] eqn:E. cbn in Hp, IH.
  apply elem_of_cons in Hp as [->|Hp]; [left | right; apply IH; exact Hp].
Qed.

(** Revoke, unmap and map keep the parked grants well formed. *)
Lemma RevokeForeignAccess_QueueOk (L : Layout) (env : KERNEL_ENV)
    (Fdo : XENIFACE_FDO) (RequestId InLen OutLen : Z) :
  QueueOk (IrpQueue Fdo) ->
  QueueOk (IrpQueue (snd (fst
    (IoctlGnttabRevokeForeignAccess L env Fdo RequestId InLen OutLen)))).
Proof.
  intros HQ. unfold IoctlGnttabRevokeForeignAccess.
  destruct (negb _); [exact HQ|].
  destruct (IoCsqRemoveNextIrp (IrpQueue Fdo) _) as [[p|] rest] eqn:E;
    [|exact HQ].
  destruct (DriverContext p); [|exact HQ].
  cbn [fst snd IrpQueue set_IrpQueue]. intros q g Hq Hg.
  apply (HQ q g); [|exact Hg].
  match type of E with
  | IoCsqRemoveNextIrp _ ?Id = _ =>
      apply (IoCsqRemoveNextIrp_subset Id (IrpQueue Fdo))
  end.
  rewrite E. exact Hq.
Qed.

Lemma UnmapForeignPages_QueueOk (L : Layout) (env : KERNEL_ENV)
    (Fdo Fdo1 : XENIFACE_FDO) (RequestId InLen OutLen : Z)
    (status : NTSTATUS) (tr : list event) :
  QueueOk (IrpQueue Fdo) ->
  IoctlGnttabUnmapForeignPages L env Fdo RequestId InLen OutLen
  = Some (status, Fdo1, tr) ->
  QueueOk (IrpQueue Fdo1).
Proof.
  intros HQ. unfold IoctlGnttabUnmapForeignPages.
  destruct (_ && _); [intros [= _ <- _]; exact HQ|].
  destruct (_ <? _); [discriminate|].
  destruct (IoCsqRemoveNextIrp (IrpQueue Fdo) _) as [[p|] rest] eqn:E;
    [|intros [= _ <- _]; exact HQ].
  destruct (DriverContext p); [intros [= _ <- _]; exact HQ|].
  intros [= _ <- _].
  cbn [fst snd IrpQueue set_IrpQueue]. intros q g Hq Hg.
  apply (HQ q g); [|exact Hg].
  match type of E with
  | IoCsqRemoveNextIrp _ ?Id = _ =>
      apply (IoCsqRemoveNextIrp_subset Id (IrpQueue Fdo))
  end.
  rewrite E. exact Hq.
Qed.

Lemma MapForeignPages_QueueOk (L : Layout) (env : KERNEL_ENV)
    (Fdo : XENIFACE_FDO) (In : XENIFACE_GNTTAB_MAP_FOREIGN_PAGES_IN)
    (InLen OutLen Irp : Z) :
  QueueOk (IrpQueue Fdo) ->
  QueueOk (Concurrent env (IrpQueue Fdo)) ->
  QueueOk (IrpQueue (snd (fst
    (IoctlGnttabMapForeignPages L env Fdo In InLen OutLen Irp)))).
Proof.
  intros HQ HQ'.
  destruct (MapForeignPages_cases L env Fdo In InLen OutLen Irp)
    as [(status & Fdo1 & tr & -> & [->|(_ & -> & _)] & _)|(m & tr & -> & _)].
  - exact HQ.
  - exact HQ'.
  - cbn [fst snd IrpQueue set_IrpQueue]. intros p g Hp Hg.
    apply elem_of_app in Hp as [Hp|Hp]; [exact (HQ' p g Hp Hg)|].
    apply list_elem_of_singleton in Hp. subst p. discriminate.
Qed.

(** X24. A request that PermitForeignAccess has parked, queried by the
    same process with an output block of the right size: GetGrantResult gives
    the user address of the mapping and the references of the entries
    acquired, page by page, and the request stays parked. *)
Lemma PermitForeignAccess_then_GetGrantResult
    (L : Layout) (env : KERNEL_ENV) (Fdo Fdo1 : XENIFACE_FDO)
    (In : XENIFACE_GNTTAB_PERMIT_FOREIGN_ACCESS_IN)
    (InLen OutLen Irp : Z) (tr1 : list event) (UserVa : Z) :
  0 <= Permit_NumberPages In ->
  0 <= sizeof_GET_GRANT_RESULT_OUT L < 2 ^ 16 ->
  32 <= 8 * sizeof_PVOID L ->
  MapLockedPages env = MapReturned UserVa ->
  IoctlGnttabPermitForeignAccess L env Fdo In InLen OutLen Irp
  = (STATUS_PENDING, Fdo1, tr1) ->
  IoctlGnttabGetGrantResult L env Fdo1 (Permit_RequestId In)
    (sizeof_GET_GRANT_RESULT_IN L)
    (sizeof_GET_GRANT_RESULT_OUT L + sizeof_ULONG * Permit_NumberPages In)
  = (STATUS_SUCCESS, Fdo1,
     Some {| Out_Address := UserVa;
             Out_References := map (GnttabGetReference env) (acquired tr1) |},
     sizeof_GET_GRANT_RESULT_OUT L + sizeof_ULONG * Permit_NumberPages In)
  /\ UserVa <> NULL
  /\ length (acquired tr1) = Z.to_nat (Permit_NumberPages In).
Proof.
  intros Hn Hout Hptr Hmap Hrun.
  assert (Hpend : exists g,
    Fdo1 = set_IrpQueue Fdo (Concurrent env (IrpQueue Fdo)
             ++ [{| Irp := Irp; DriverContext := GrantContext g |}])
    /\ CsqPeekNextIrp (Concurrent env (IrpQueue Fdo))
         (ContextId (GrantContext g)) = None
    /\ Grant_Process g = PsGetCurrentProcess env
    /\ Grant_RequestId g = Permit_RequestId In
    /\ Grant_NumberPages g = Permit_NumberPages In
    /\ Grant_Grants g = acquired tr1
    /\ Grant_UserVa g = UserVa /\ UserVa <> NULL
    /\ length (Grant_Grants g) = Z.to_nat (Permit_NumberPages In)
    /\ GnttabBadPages (Permit_NumberPages In) (Permit_Flags In)
         (Permit_NotifyOffset In) = false).
  { revert Hrun. unfold IoctlGnttabPermitForeignAccess.
    destruct (negb (InLen =? _) || negb (OutLen =? 0)); [discriminate|].
    destruct (GnttabBadPages _ _ _) eqn:Hbad; [discriminate|].
    destruct (AllocContext env =? NULL); [discriminate|].
    destruct (FindGnttabIrp Fdo _); [discriminate|].
    destruct (AllocGrants env =? NULL); [discriminate|].
    destruct (AllocKernelVa env =? NULL); [discriminate|].
    destruct (AllocMdl env =? NULL); [discriminate|].
    destruct (PermitLoop _ _ _ _ _ _) as [[[failed Page] Grants] shared] eqn:Hloop.
    pose proof Hloop as Hinv.
    apply PermitLoop_inv in Hinv; [|rewrite length_replicate; lia].
    destruct Hinv as (Hlen & _ & Htake & _ & Hdone & Hfail).
    destruct failed as [status|].
    { intros [= Hst _ _].
      destruct (Hfail _ eq_refl) as (_ & _ & Hbadst).
      rewrite Hst in Hbadst. discriminate. }
    rewrite Hmap. destruct (Z.eqb_spec UserVa NULL) as [->|Hu]; [discriminate|].
    match goal with
    | |- context [CsqInsertIrpEx ?q ?p] =>
        destruct (CsqInsertIrpEx_cases q p) as [[-> Hpeek]|[-> Hpeek]]
    end; cbn [NT_SUCCESS STATUS_SUCCESS STATUS_INVALID_PARAMETER ntstatus
              Z.leb Z.compare Z.opp Z.sub Z.add Z.pos_sub]; [|discriminate].
    intros [= <- <-]. eexists. split; [reflexivity|].
    split; [exact Hpeek|]. cbn [Grant_Process Grant_RequestId Grant_NumberPages
                                Grant_Grants Grant_UserVa].
    assert (HG : Grants = acquired shared).
    { rewrite take_0 in Htake. cbn [app plus] in Htake, Hdone.
      rewrite <- Htake, (Hdone eq_refl). symmetry. apply take_ge.
      rewrite Hlen, length_replicate. lia. }
    repeat split; try reflexivity; try assumption.
    - rewrite HG. symmetry.
      match goal with
      | |- acquired (?a :: ?b :: ?c :: ?d :: ?t) = _ =>
          change (acquired ([a; b; c; d] ++ t) = acquired shared)
      end.
      trace_norm. cbn. rewrite !app_nil_r. reflexivity.
    - rewrite Hlen, length_replicate. reflexivity. }
  destruct Hpend as (g & -> & Hpeek & Hproc & Hid & Hnum & Hgr & Hva & Hnz & Hlen0 & Hbad).
  assert (Hrange : 0 <= Permit_NumberPages In <= 1024 * 1024).
  { unfold GnttabBadPages in Hbad.
    apply orb_false_elim in Hbad as [Hbad _].
    apply orb_false_elim in Hbad as [_ Hmax].
    rewrite Z.gtb_ltb in Hmax. apply Z.ltb_ge in Hmax. lia. }
  assert (Hlen : length (acquired tr1) = Z.to_nat (Permit_NumberPages In)).
  { rewrite <- Hgr. exact Hlen0. }
  split; [|split; [exact Hnz | exact Hlen]].
  unfold IoctlGnttabGetGrantResult. rewrite Z.eqb_refl. cbn [negb].
  cbn [IrpQueue set_IrpQueue].
  pose proof (CsqPeekNextIrp_snoc _
                {| Irp := Irp; DriverContext := GrantContext g |} Hpeek) as Hs.
  cbn [DriverContext ContextId] in Hs. rewrite Hproc, Hid in Hs. rewrite Hs.
  cbn [DriverContext]. rewrite Hnum.
  rewrite (GetGrantResult_size L _ Hout Hptr Hrange), Z.eqb_refl. cbn [negb].
  rewrite Hva, Hgr.
  pose proof (ReferenceLoop_all env (acquired tr1) 0) as Hloop.
  rewrite Nat.sub_0_r, Hlen in Hloop. rewrite Hloop. reflexivity.
Qed.

(** Four pages shared and then queried: a user address and four distinct
    references. *)
Example PermitForeignAccess_then_GetGrantResult_example :
  exists Fdo1 tr1,
    IoctlGnttabPermitForeignAccess example_layout (example_env None)
      example_Fdo (example_permit_in 4 0 0) 24 0 77
    = (STATUS_PENDING, Fdo1, tr1)
    /\ IoctlGnttabGetGrantResult example_layout (example_env None) Fdo1 42
         4 32
       = (STATUS_SUCCESS, Fdo1,
          Some {| Out_Address := 0x20000; Out_References := [8; 9; 10; 11] |},
          32).
Proof.
  eexists _, _. split; [vm_compute; reflexivity|].
  destruct (PermitForeignAccess_then_GetGrantResult example_layout
              (example_env None) example_Fdo _ (example_permit_in 4 0 0)
              24 0 77 _ 0x20000 ltac:(vm_compute; discriminate)
              ltac:(vm_compute; split; [discriminate | reflexivity])
              ltac:(vm_compute; discriminate) eq_refl eq_refl) as [Hget _].
  exact Hget.
Defined.


(** * Properties of the store requests, the bind requests and the dispatcher *)

(** ** C strings *)

Lemma strlen_app (s rest : list Z) :
  Forall (fun c => c <> 0) s ->
  strlen (s ++ 0 :: rest) = Some (Z.of_nat (length s)).
Proof.
  induction s as [|c s IH]; intros Hs; [reflexivity|].
  apply Forall_cons in Hs as [Hc Hs]. cbn [app strlen length].
  destruct (Z.eqb_spec c 0) as [->|_]; [contradiction|].
  rewrite (IH Hs). cbn. f_equal. lia.
Qed.

Lemma c_str_app (s rest : list Z) :
  Forall (fun c => c <> 0) s -> c_str (s ++ 0 :: rest) = s.
Proof.
  induction s as [|c s IH]; intros Hs; [reflexivity|].
  apply Forall_cons in Hs as [Hc Hs]. cbn [app c_str].
  destruct (Z.eqb_spec c 0) as [->|_]; [contradiction|].
  rewrite (IH Hs). reflexivity.
Qed.

(** What __IsValidStr answers on the string [s], NUL, anything. *)
Lemma IsValidStr_app (isprint : Z -> bool) (s rest : list Z) (Len : nat) :
  printable isprint s ->
  __IsValidStr isprint (s ++ 0 :: rest) Len
  = Some (bool_decide (length s < Len)%nat).
Proof.
  revert Len. induction s as [|c s IH]; intros Len Hs.
  - destruct Len; reflexivity.
  - apply Forall_cons in Hs as [[Hc Hp] Hs]. destruct Len; [reflexivity|].
    cbn [app __IsValidStr length].
    destruct (Z.eqb_spec c 0) as [->|_]; [contradiction|].
    rewrite Hp. cbn [negb]. rewrite (IH _ Hs). f_equal.
    apply bool_decide_ext. lia.
Qed.

(** A TRUE of __IsValidStr gives the string back. *)
Lemma IsValidStr_true (isprint : Z -> bool) (Str : list Z) (Len : nat) :
  __IsValidStr isprint Str Len = Some true ->
  exists s rest,
    Str = s ++ 0 :: rest /\ (length s < Len)%nat /\ printable isprint s.
Proof.
  revert Str. induction Len as [|Len IH]; intros Str H; [discriminate|].
  destruct Str as [|c Str]; [discriminate|]. cbn [__IsValidStr] in H.
  destruct (Z.eqb_spec c 0) as [->|Hc].
  { exists [], Str. repeat split; [cbn; lia | constructor]. }
  destruct (isprint c) eqn:Hp; [|discriminate]. cbn [negb] in H.
  destruct (IH _ H) as (s & rest & -> & Hlen & Hs).
  exists (c :: s), rest. repeat split; [cbn; lia|].
  constructor; [split; assumption | exact Hs].
Qed.

(** Inside the buffer the function has an answer. *)
Lemma IsValidStr_in_bounds (isprint : Z -> bool) (Str : list Z) (Len : nat) :
  (Len <= length Str)%nat -> is_Some (__IsValidStr isprint Str Len).
Proof.
  revert Str. induction Len as [|Len IH]; intros Str H; [eexists; reflexivity|].
  destruct Str as [|c Str]; [cbn in H; lia|]. cbn [__IsValidStr].
  destruct (c =? 0); [eexists; reflexivity|].
  destruct (isprint c); cbn [negb]; [|eexists; reflexivity].
  apply IH. cbn in H. lia.
Qed.

(** X1. __IsValidStr, called on [Len] bytes of a buffer that holds them, reads
    no byte outside them, and answers TRUE exactly when the buffer starts
    with a string of printable bytes whose NUL is among the [Len] bytes. *)
Theorem IsValidStr_accepts_terminated_printable
    (isprint : Z -> bool) (Str : list Z) (Len : nat) :
  (Len <= length Str)%nat ->
  exists b,
    __IsValidStr isprint Str Len = Some b
    /\ __IsValidStr isprint (take Len Str) Len = Some b
    /\ (b = true <->
        exists s rest,
          Str = s ++ 0 :: rest /\ (length s < Len)%nat
          /\ printable isprint s).
Proof.
  intros Hlen.
  assert (Htake : forall (Len : nat) (Str : list Z),
             (Len <= length Str)%nat ->
             __IsValidStr isprint (take Len Str) Len
             = __IsValidStr isprint Str Len).
  { clear. induction Len as [|Len IH]; intros Str H; [reflexivity|].
    destruct Str as [|c Str]; [cbn in H; lia|]. cbn [take __IsValidStr].
    destruct (c =? 0); [reflexivity|].
    destruct (isprint c); cbn [negb]; [|reflexivity].
    apply IH. cbn in H. lia. }
  destruct (IsValidStr_in_bounds isprint Str Len Hlen) as [b Hb].
  exists b. split; [exact Hb|]. split; [rewrite Htake; assumption|].
  split.
  - intros ->. apply (IsValidStr_true _ _ _ Hb).
  - intros (s & rest & -> & Hs & Hall).
    rewrite (IsValidStr_app _ _ _ _ Hall) in Hb.
    rewrite bool_decide_eq_true_2 in Hb by exact Hs. congruence.
Qed.

(** ** __MultiSzLen *)

Lemma ULONG_small (z : Z) : 0 <= z < ULONG_MODULUS -> ULONG z = z.
Proof. intros H. unfold ULONG. apply Z.mod_small. exact H. Qed.

Lemma ULONG_MODULUS_eq : ULONG_MODULUS = 4294967296.
Proof. reflexivity. Qed.

(** The inner [for] over a string, up to its NUL. *)
Lemma MultiSzLenLoop_string (s tail : list Z) (Length Count : Z) :
  Forall (fun c => c <> 0) s ->
  0 <= Length -> Length + Z.of_nat (length s) < ULONG_MODULUS ->
  MultiSzLenLoop (s ++ tail) Length Count
  = match s with
    | [] => MultiSzLenLoop tail Length Count
    | _ => MultiSzLenLoop tail (Length + Z.of_nat (length s)) Count
    end.
Proof.
  revert Length. induction s as [|c s IH]; intros Length Hs H0 Hmax;
    [reflexivity|].
  apply Forall_cons in Hs as [Hc Hs]. cbn [app MultiSzLenLoop].
  destruct (Z.eqb_spec c 0) as [->|_]; [contradiction|]. cbn [negb].
  cbn [length] in Hmax. rewrite ULONG_small by lia.
  rewrite IH by (try assumption; lia).
  destruct s; cbn [length]; f_equal; lia.
Qed.

Lemma MultiSzLenLoop_strings (strings : list (list Z)) (rest : list Z) :
  forall Length : Z,
    strings <> [] ->
    Forall (fun s => s <> [] /\ Forall (fun c => c <> 0) s) strings ->
    0 <= Length ->
    Length + Z.of_nat (length (concat (map (fun s => s ++ [0]) strings)))
    < ULONG_MODULUS ->
    MultiSzLenLoop (concat (map (fun s => s ++ [0]) strings) ++ 0 :: rest)
                   Length 0
    = Some (Length
            + Z.of_nat (length (concat (map (fun s => s ++ [0]) strings))), 0).
Proof.
  induction strings as [|s strings IH]; intros Length Hne Hall H0 Hmax;
    [contradiction|].
  apply Forall_cons in Hall as [[Hs Hnz] Hall].
  cbn [map concat] in *. rewrite !length_app in *. cbn [length] in *.
  rewrite <- !app_assoc.
  rewrite MultiSzLenLoop_string by (try assumption; lia).
  destruct s as [|c s]; [contradiction|].
  cbn [app MultiSzLenLoop Z.eqb negb].
  rewrite ULONG_small by lia.
  destruct strings as [|s2 strings].
  - cbn [map concat app length Z.eqb negb]. f_equal. f_equal. lia.
  - pose proof Hall as Hall2. apply Forall_cons in Hall2 as [[Hs2 Hnz2] _].
    destruct s2 as [|d s2]; [contradiction|].
    apply Forall_cons in Hnz2 as [Hd _].
    specialize (IH (Length + Z.of_nat (length (c :: s)) + 1)).
    cbn [map concat app] in IH |- *.
    destruct (Z.eqb_spec d 0) as [->|_]; [contradiction|]. cbn [negb].
    rewrite IH; [f_equal; f_equal | discriminate | exact Hall | lia |].
    all: cbn [map concat length] in *; rewrite ?length_app in *;
      cbn [length] in *; lia.
Qed.

(** X2. On a multi-string of one or more strings, none of them empty,
    __MultiSzLen returns the number of bytes before the last NUL, so the
    callers' [+ 1] is the size of the whole; and it leaves [*Count] at 0,
    however many strings there are. *)
Theorem MultiSzLen_of_multi_sz (strings : list (list Z)) (rest : list Z) :
  strings <> [] ->
  Forall (fun s => s <> [] /\ Forall (fun c => c <> 0) s) strings ->
  Z.of_nat (length (multi_sz strings)) <= ULONG_MODULUS ->
  __MultiSzLen (multi_sz strings ++ rest)
  = Some (Z.of_nat (length (multi_sz strings)) - 1, 0).
Proof.
  intros Hne Hall Hmax. unfold __MultiSzLen, multi_sz in *.
  rewrite length_app in *. cbn [length] in *. rewrite <- app_assoc.
  cbn [app]. rewrite MultiSzLenLoop_strings by (try assumption; lia).
  f_equal. f_equal. lia.
Qed.

Lemma MultiSzLen_of_multi_sz_witness :
  __MultiSzLen (multi_sz [[97; 98]; [99]] ++ [7; 7])
  = Some (Z.of_nat (length (multi_sz [[97; 98]; [99]])) - 1, 0).
Proof.
  apply (MultiSzLen_of_multi_sz [[97; 98]; [99]] [7; 7]).
  - discriminate.
  - repeat constructor; discriminate.
  - vm_compute. discriminate.
Defined.

Lemma MultiSzLenLoop_count (Str : list Z) :
  forall Length n Count,
    MultiSzLenLoop Str Length 0 = Some (n, Count) -> Count = 0.
Proof.
  induction Str as [|c Str IH]; intros Length n Count H; [discriminate|].
  cbn [MultiSzLenLoop] in H. destruct (c =? 0); cbn [negb Z.eqb] in H.
  - destruct Str as [|d Str']; [discriminate|].
    destruct (d =? 0); cbn [negb] in H; [congruence | eapply IH; exact H].
  - eapply IH; exact H.
Qed.

(** The empty multi-string, a single NUL: the [while] test reads the byte
    after it. *)
Lemma MultiSzLen_single_NUL : __MultiSzLen [0] = None.
Proof. reflexivity. Qed.

(** X3. Whatever bytes __MultiSzLen is given, the count of strings it reports
    is 0: the increment is guarded by the count being non-zero already. *)
Theorem MultiSzLen_never_counts (Str : list Z) (n Count : Z) :
  __MultiSzLen Str = Some (n, Count) -> Count = 0.
Proof. intros H. exact (MultiSzLenLoop_count Str 0 n Count H). Qed.

Lemma MultiSzLen_never_counts_witness :
  __MultiSzLen [97; 0; 98; 0; 99; 0; 0] = Some (6, 0) /\ 0 = 0.
Proof.
  split; [reflexivity|].
  exact (MultiSzLen_never_counts [97; 0; 98; 0; 99; 0; 0] 6 0 eq_refl).
Defined.

(** ** The store requests *)

Lemma printable_nonzero (isprint : Z -> bool) (s : list Z) :
  printable isprint s -> Forall (fun c => c <> 0) s.
Proof.
  intros H. eapply Forall_impl; [exact H|]. intros c [Hc _]. exact Hc.
Qed.

(** Where the first NUL of a buffer is. *)
Lemma first_NUL_unique (s s' rest rest' : list Z) :
  Forall (fun c => c <> 0) s -> Forall (fun c => c <> 0) s' ->
  s ++ 0 :: rest = s' ++ 0 :: rest' -> s = s' /\ rest = rest'.
Proof.
  revert s'. induction s as [|c s IH]; intros s' Hs Hs' E.
  - destruct s' as [|c' s']; cbn in E.
    + split; congruence.
    + apply Forall_cons in Hs' as [Hc' _]. congruence.
  - apply Forall_cons in Hs as [Hc Hs]. destruct s' as [|c' s']; cbn in E.
    + congruence.
    + apply Forall_cons in Hs' as [_ Hs']. injection E as -> E.
      destruct (IH _ Hs Hs' E) as [-> ->]. split; reflexivity.
Qed.

(** X4. IoctlStoreWrite on a system buffer of exactly [InLen] bytes: the handler
    reads no byte outside the buffer; it calls the store exactly when the
    buffer holds a key and a value, both strings of printable bytes with
    their NULs inside the buffer, and then with that key and that value; in
    every other case it answers STATUS_INVALID_PARAMETER and the store is
    not called. *)
Theorem IoctlStoreWrite_key_and_value (io : IO_ENV) (Buffer : list Z)
    (InLen : Z) :
  Z.of_nat (length Buffer) = InLen ->
  0 < InLen < ULONG_MODULUS ->
  (exists key value rest,
      Buffer = key ++ 0 :: value ++ 0 :: rest
      /\ printable (isprint io) key /\ printable (isprint io) value
      /\ IoctlStoreWrite io Buffer InLen 0
         = Some (StorePrintf io key value,
                 [EvStorePrintf key value (StorePrintf io key value)]))
  \/ (IoctlStoreWrite io Buffer InLen 0 = Some (STATUS_INVALID_PARAMETER, [])
      /\ ~ exists key value rest,
             Buffer = key ++ 0 :: value ++ 0 :: rest
             /\ printable (isprint io) key /\ printable (isprint io) value).
Proof.
  intros Hlen Hin. unfold IoctlStoreWrite.
  destruct (Z.eqb_spec InLen 0) as [?|_]; [lia|]. cbn [orb Z.eqb negb].
  destruct (IsValidStr_in_bounds (isprint io) Buffer (Z.to_nat InLen))
    as [b Hb]; [lia|].
  rewrite Hb. cbn [mbind option_bind].
  destruct b; cbn [negb].
  2:{ right. split; [reflexivity|]. intros (key & value & rest & -> & Hk & _).
      rewrite (IsValidStr_app _ _ _ _ Hk) in Hb.
      rewrite length_app in Hlen. cbn [length] in Hlen.
      rewrite bool_decide_eq_true_2 in Hb by lia. discriminate. }
  destruct (IsValidStr_true _ _ _ Hb) as (key & tail & -> & Hklen & Hk).
  pose proof (printable_nonzero _ _ Hk) as Hknz.
  rewrite (strlen_app _ _ Hknz). cbn [mbind option_bind].
  rewrite length_app in Hlen. cbn [length] in Hlen.
  rewrite (ULONG_small (Z.of_nat (length key))) by lia.
  rewrite (ULONG_small (Z.of_nat (length key) + 1)) by lia.
  rewrite (ULONG_small (InLen - _)) by lia.
  replace (Z.to_nat (Z.of_nat (length key) + 1)) with (S (length key)) by lia.
  assert (Hdrop : drop (S (length key)) (key ++ 0 :: tail) = tail).
  { change (0 :: tail) with ([0] ++ tail). rewrite app_assoc.
    apply drop_app_length'. rewrite length_app. cbn. lia. }
  rewrite Hdrop.
  destruct (IsValidStr_in_bounds (isprint io) tail
              (Z.to_nat (InLen - (Z.of_nat (length key) + 1))))
    as [b2 Hb2]; [lia|].
  rewrite Hb2. cbn [mbind option_bind]. rewrite (c_str_app _ _ Hknz).
  destruct b2; cbn [negb].
  - destruct (IsValidStr_true _ _ _ Hb2) as (value & rest & -> & Hvlen & Hv).
    rewrite (c_str_app _ _ (printable_nonzero _ _ Hv)).
    left. exists key, value, rest. repeat split; assumption.
  - right. split; [reflexivity|].
    intros (key' & value & rest & E & Hk' & Hv).
    destruct (first_NUL_unique _ _ _ _ Hknz (printable_nonzero _ _ Hk') E)
      as [<- ->].
    rewrite (IsValidStr_app _ _ _ _ Hv) in Hb2.
    rewrite length_app in Hlen. cbn [length] in Hlen.
    rewrite bool_decide_eq_true_2 in Hb2 by lia. discriminate.
Qed.

Lemma IoctlStoreWrite_key_and_value_witness :
  (exists key value rest,
      [107; 0; 118; 0] = key ++ 0 :: value ++ 0 :: rest
      /\ printable (isprint example_io) key
      /\ printable (isprint example_io) value
      /\ IoctlStoreWrite example_io [107; 0; 118; 0] 4 0
         = Some (StorePrintf example_io key value,
                 [EvStorePrintf key value (StorePrintf example_io key value)]))
  \/ (IoctlStoreWrite example_io [107; 0; 118; 0] 4 0
      = Some (STATUS_INVALID_PARAMETER, [])
      /\ ~ exists key value rest,
             [107; 0; 118; 0] = key ++ 0 :: value ++ 0 :: rest
             /\ printable (isprint example_io) key
             /\ printable (isprint example_io) value).
Proof.
  apply (IoctlStoreWrite_key_and_value example_io [107; 0; 118; 0] 4).
  - reflexivity.
  - vm_compute. split; reflexivity.
Defined.

Lemma IsValidStr_accepts_terminated_printable_witness :
  exists b,
    __IsValidStr (isprint example_io) [107; 0; 118; 0] 3 = Some b
    /\ __IsValidStr (isprint example_io) (take 3 [107; 0; 118; 0]) 3 = Some b
    /\ (b = true <->
        exists s rest,
          [107; 0; 118; 0] = s ++ 0 :: rest /\ (length s < 3)%nat
          /\ printable (isprint example_io) s).
Proof.
  apply (IsValidStr_accepts_terminated_printable (isprint example_io)
           [107; 0; 118; 0] 3).
  cbn. lia.
Defined.

(** A valid path at the head of the buffer is what the store is asked
    for. *)
Lemma IsValidStr_path (isprint : Z -> bool) (path rest : list Z) (InLen : Z) :
  printable isprint path -> Z.of_nat (length path) < InLen ->
  __IsValidStr isprint (path ++ 0 :: rest) (Z.to_nat InLen) = Some true
  /\ c_str (path ++ 0 :: rest) = path.
Proof.
  intros Hp Hlen. rewrite (IsValidStr_app _ _ _ _ Hp).
  rewrite bool_decide_eq_true_2 by lia.
  rewrite (c_str_app _ _ (printable_nonzero _ _ Hp)). split; reflexivity.
Qed.

Lemma poke_same (Buffer : list Z) (i : nat) :
  Buffer !! i = Some 0 -> poke Buffer (Z.of_nat i) 0 = Some Buffer.
Proof.
  intros H. unfold poke. pose proof (lookup_lt_Some _ _ _ H) as Hlt.
  destruct (Z.leb_spec 0 (Z.of_nat i)); [|lia].
  destruct (Z.ltb_spec (Z.of_nat i) (Z.of_nat (length Buffer))); [|lia].
  cbn [andb]. rewrite Nat2Z.id. rewrite list_insert_id by exact H.
  reflexivity.
Qed.

(** X5. IoctlStoreRead with a valid path, the store holding the value [v]:
    with no output buffer the handler reports the size needed,
    [strlen v + 1], under STATUS_BUFFER_OVERFLOW; an output buffer smaller
    than that is refused; with a buffer of that size or more the value and
    its NUL are copied to the head of the system buffer and the size is
    reported.  In all three cases the value is given back to the store. *)
Theorem IoctlStoreRead_query_then_read (io : IO_ENV)
    (path rest v junk : list Z) (InLen : Z) (status : NTSTATUS) (Value : Z) :
  printable (isprint io) path ->
  Z.of_nat (length path) < InLen ->
  StoreRead io path = (status, Value, v ++ 0 :: junk) ->
  NT_SUCCESS status = true ->
  Forall (fun c => c <> 0) v ->
  Z.of_nat (length v) + 1 < ULONG_MODULUS ->
  let Buffer := path ++ 0 :: rest in
  let Length := Z.of_nat (length v) + 1 in
  let calls := [EvStoreRead path status Value; EvStoreFree Value] in
  IoctlStoreRead io Buffer InLen 0
  = Some (STATUS_BUFFER_OVERFLOW, Buffer, Some Length, calls)
  /\ (forall OutLen, 0 < OutLen < Length ->
        IoctlStoreRead io Buffer InLen OutLen
        = Some (STATUS_INVALID_PARAMETER, Buffer, None, calls))
  /\ (forall OutLen, Length <= OutLen <= Z.of_nat (length Buffer) ->
        IoctlStoreRead io Buffer InLen OutLen
        = Some (STATUS_SUCCESS,
                v ++ 0 :: drop (Z.to_nat Length) Buffer, Some Length, calls)).
Proof.
  intros Hp Hlen Hread Hok Hv Hmax Buffer Length calls.
  destruct (IsValidStr_path _ path rest InLen Hp Hlen) as [Hvalid Hstr].
  assert (Hhead : forall OutLen,
    IoctlStoreRead io Buffer InLen OutLen
    = if OutLen =? 0 then
        Some (STATUS_BUFFER_OVERFLOW, Buffer, Some Length, calls)
      else if OutLen <? Length then
        Some (STATUS_INVALID_PARAMETER, Buffer, None, calls)
      else
        Buffer1 ← RtlCopyMemory Buffer (v ++ 0 :: junk) Length;
        Buffer2 ← poke Buffer1 (ULONG (Length - 1)) 0;
        Some (STATUS_SUCCESS, Buffer2, Some Length, calls)).
  { intros OutLen. unfold IoctlStoreRead.
    destruct (Z.eqb_spec InLen 0) as [?|_]; [lia|].
    fold Buffer. subst Buffer. rewrite Hvalid. cbn [mbind option_bind negb].
    rewrite Hstr, Hread, Hok. cbn [negb].
    rewrite (strlen_app _ _ Hv). cbn [mbind option_bind].
    rewrite (ULONG_small (Z.of_nat (length v))) by lia.
    rewrite (ULONG_small (Z.of_nat (length v) + 1)) by lia.
    reflexivity. }
  split; [rewrite Hhead; reflexivity|]. split.
  - intros OutLen H. rewrite Hhead.
    destruct (Z.eqb_spec OutLen 0); [lia|].
    destruct (Z.ltb_spec OutLen Length); [reflexivity | lia].
  - intros OutLen H. rewrite Hhead.
    destruct (Z.eqb_spec OutLen 0); [subst Length; lia|].
    destruct (Z.ltb_spec OutLen Length); [lia|].
    unfold RtlCopyMemory. rewrite length_app. cbn [length].
    destruct (Z.leb_spec Length (Z.of_nat (length v + S (length junk))));
      [|subst Length; lia].
    destruct (Z.leb_spec Length (Z.of_nat (length Buffer))); [|lia].
    cbn [andb mbind option_bind].
    assert (Htake : take (Z.to_nat Length) (v ++ 0 :: junk) = v ++ [0]).
    { change (0 :: junk) with ([0] ++ junk). rewrite app_assoc.
      apply take_app_length'. rewrite length_app. cbn. subst Length. lia. }
    rewrite Htake, <- app_assoc. cbn [app].
    rewrite (ULONG_small (Length - 1)) by (subst Length; lia).
    replace (Length - 1) with (Z.of_nat (length v)) by (subst Length; lia).
    rewrite poke_same; [reflexivity|].
    rewrite lookup_app_r by lia. rewrite Nat.sub_diag. reflexivity.
Qed.

Lemma IoctlStoreRead_query_then_read_witness :
  IoctlStoreRead example_io [107; 0; 1; 2; 3] 2 0
  = Some (STATUS_BUFFER_OVERFLOW, [107; 0; 1; 2; 3], Some 3,
          [EvStoreRead [107] STATUS_SUCCESS 0xA000; EvStoreFree 0xA000])
  /\ IoctlStoreRead example_io [107; 0; 1; 2; 3] 2 3
     = Some (STATUS_SUCCESS, [118; 49; 0; 2; 3], Some 3,
             [EvStoreRead [107] STATUS_SUCCESS 0xA000; EvStoreFree 0xA000]).
Proof.
  destruct (IoctlStoreRead_query_then_read example_io [107] [1; 2; 3]
              [118; 49] [] 2 STATUS_SUCCESS 0xA000)
    as (Hquery & _ & Hread).
  - repeat constructor; discriminate.
  - reflexivity.
  - reflexivity.
  - reflexivity.
  - repeat constructor; discriminate.
  - reflexivity.
  - split; [exact Hquery|]. apply (Hread 3). cbn. lia.
Defined.

(** X6. Whatever IoctlStoreRead and IoctlStoreDirectory are given and whatever
    the store answers, a value the store handed out is given back exactly
    once before the handler returns, and nothing else is given back. *)
Theorem store_values_are_given_back (io : IO_ENV) (Buffer : list Z)
    (InLen OutLen : Z) :
  match IoctlStoreRead io Buffer InLen OutLen with
  | Some (_, _, _, tr) => store_freed tr = store_values tr
  | None => True
  end
  /\ match IoctlStoreDirectory io Buffer InLen OutLen with
     | Some (_, _, _, tr) => store_freed tr = store_values tr
     | None => True
     end.
Proof.
  split.
  - unfold IoctlStoreRead. destruct (InLen =? 0); [reflexivity|].
    destruct (__IsValidStr _ _ _) as [[|]|]; cbn [mbind option_bind negb];
      [|reflexivity|exact I].
    destruct (StoreRead io _) as [[status Value] ValueBytes].
    destruct (NT_SUCCESS status) eqn:Hok; cbn [negb];
      [|cbn; rewrite Hok; reflexivity].
    destruct (strlen ValueBytes) as [n|]; cbn [mbind option_bind]; [|exact I].
    destruct (OutLen =? 0); [cbn; rewrite Hok; reflexivity|].
    destruct (OutLen <? _); [cbn; rewrite Hok; reflexivity|].
    destruct (RtlCopyMemory _ _ _) as [B1|]; cbn [mbind option_bind]; [|exact I].
    destruct (poke _ _ _) as [B2|]; cbn [mbind option_bind]; [|exact I].
    cbn. rewrite Hok. reflexivity.
  - unfold IoctlStoreDirectory. destruct (InLen =? 0); [reflexivity|].
    destruct (__IsValidStr _ _ _) as [[|]|]; cbn [mbind option_bind negb];
      [|reflexivity|exact I].
    destruct (StoreDirectory io _) as [[status Value] ValueBytes].
    destruct (NT_SUCCESS status) eqn:Hok; cbn [negb];
      [|cbn; rewrite Hok; reflexivity].
    destruct (__MultiSzLen ValueBytes) as [[n Count]|];
      cbn [mbind option_bind]; [|exact I].
    destruct (OutLen =? 0); [cbn; rewrite Hok; reflexivity|].
    destruct (OutLen <? _); [cbn; rewrite Hok; reflexivity|].
    destruct (RtlCopyMemory _ _ _) as [B1|]; cbn [mbind option_bind]; [|exact I].
    destruct (poke _ _ _) as [B2|]; cbn [mbind option_bind]; [|exact I].
    destruct (poke _ _ _) as [B3|]; cbn [mbind option_bind]; [|exact I].
    cbn. rewrite Hok. reflexivity.
Qed.

Lemma multi_sz_ends (strings : list (list Z)) :
  strings <> [] -> exists pre, multi_sz strings = pre ++ [0; 0].
Proof.
  intros Hne. destruct strings as [|s strings] using rev_ind; [contradiction|].
  unfold multi_sz. rewrite map_app, concat_app. cbn [map concat].
  rewrite app_nil_r. exists (concat (map (fun s => s ++ [0]) strings) ++ s).
  rewrite <- !app_assoc. reflexivity.
Qed.

(** X7. IoctlStoreDirectory with a valid path, the store holding a directory
    of one or more names: with no output buffer the handler reports the size
    of the multi-string under STATUS_BUFFER_OVERFLOW; an output buffer
    smaller than that is refused; with a buffer of that size or more the
    multi-string, its two closing NULs included, is copied to the head of
    the system buffer.  In all three cases the value is given back to the
    store. *)
Theorem IoctlStoreDirectory_query_then_read (io : IO_ENV)
    (path rest junk : list Z) (strings : list (list Z)) (InLen : Z)
    (status : NTSTATUS) (Value : Z) :
  printable (isprint io) path ->
  Z.of_nat (length path) < InLen ->
  StoreDirectory io path = (status, Value, multi_sz strings ++ junk) ->
  NT_SUCCESS status = true ->
  strings <> [] ->
  Forall (fun s => s <> [] /\ Forall (fun c => c <> 0) s) strings ->
  Z.of_nat (length (multi_sz strings)) < ULONG_MODULUS ->
  let Buffer := path ++ 0 :: rest in
  let Length := Z.of_nat (length (multi_sz strings)) in
  let calls := [EvStoreDirectory path status Value; EvStoreFree Value] in
  IoctlStoreDirectory io Buffer InLen 0
  = Some (STATUS_BUFFER_OVERFLOW, Buffer, Some Length, calls)
  /\ (forall OutLen, 0 < OutLen < Length ->
        IoctlStoreDirectory io Buffer InLen OutLen
        = Some (STATUS_INVALID_PARAMETER, Buffer, None, calls))
  /\ (forall OutLen, Length <= OutLen <= Z.of_nat (length Buffer) ->
        IoctlStoreDirectory io Buffer InLen OutLen
        = Some (STATUS_SUCCESS,
                multi_sz strings ++ drop (Z.to_nat Length) Buffer,
                Some Length, calls)).
Proof.
  intros Hp Hlen Hread Hok Hne Hall Hmax Buffer Length calls.
  destruct (IsValidStr_path _ path rest InLen Hp Hlen) as [Hvalid Hstr].
  destruct (multi_sz_ends strings Hne) as [pre Hpre].
  assert (Hlen2 : Length = Z.of_nat (length pre) + 2).
  { subst Length. rewrite Hpre, length_app. cbn. lia. }
  assert (Hhead : forall OutLen,
    IoctlStoreDirectory io Buffer InLen OutLen
    = if OutLen =? 0 then
        Some (STATUS_BUFFER_OVERFLOW, Buffer, Some Length, calls)
      else if OutLen <? Length then
        Some (STATUS_INVALID_PARAMETER, Buffer, None, calls)
      else
        Buffer1 ← RtlCopyMemory Buffer (multi_sz strings ++ junk) Length;
        Buffer2 ← poke Buffer1 (ULONG (Length - 2)) 0;
        Buffer3 ← poke Buffer2 (ULONG (Length - 1)) 0;
        Some (STATUS_SUCCESS, Buffer3, Some Length, calls)).
  { intros OutLen. unfold IoctlStoreDirectory.
    destruct (Z.eqb_spec InLen 0) as [?|_]; [lia|].
    fold Buffer. subst Buffer. rewrite Hvalid. cbn [mbind option_bind negb].
    rewrite Hstr, Hread, Hok. cbn [negb].
    assert (Hsz : __MultiSzLen (multi_sz strings ++ junk)
                  = Some (Length - 1, 0)).
    { subst Length. clear - Hne Hall Hmax. unfold __MultiSzLen, multi_sz in *.
      rewrite length_app in *. cbn [length] in *. rewrite <- app_assoc.
      cbn [app]. rewrite MultiSzLenLoop_strings by (try assumption; lia).
      f_equal. f_equal. lia. }
    rewrite Hsz. cbn [mbind option_bind].
    replace (Length - 1 + 1) with Length by lia.
    rewrite (ULONG_small Length) by lia. reflexivity. }
  split; [rewrite Hhead; reflexivity|]. split.
  - intros OutLen H. rewrite Hhead.
    destruct (Z.eqb_spec OutLen 0); [lia|].
    destruct (Z.ltb_spec OutLen Length); [reflexivity | lia].
  - intros OutLen H. rewrite Hhead.
    destruct (Z.eqb_spec OutLen 0); [lia|].
    destruct (Z.ltb_spec OutLen Length); [lia|].
    unfold RtlCopyMemory. rewrite length_app.
    destruct (Z.leb_spec Length
                (Z.of_nat (length (multi_sz strings) + length junk)));
      [|subst Length; lia].
    destruct (Z.leb_spec Length (Z.of_nat (length Buffer))); [|lia].
    cbn [andb mbind option_bind].
    assert (Htake : take (Z.to_nat Length) (multi_sz strings ++ junk)
                    = multi_sz strings).
    { apply take_app_length'. subst Length. lia. }
    rewrite Htake.
    rewrite (ULONG_small (Length - 2)), (ULONG_small (Length - 1)) by lia.
    replace (Length - 2) with (Z.of_nat (length pre)) by lia.
    replace (Length - 1) with (Z.of_nat (S (length pre))) by lia.
    rewrite poke_same.
    2:{ rewrite Hpre, <- app_assoc, lookup_app_r by lia.
        rewrite Nat.sub_diag. reflexivity. }
    cbn [mbind option_bind]. rewrite poke_same; [reflexivity|].
    rewrite Hpre, <- app_assoc, lookup_app_r by lia.
    replace (S (length pre) - length pre)%nat with 1%nat by lia. reflexivity.
Qed.

Lemma IoctlStoreDirectory_query_then_read_witness :
  IoctlStoreDirectory example_io [107; 0; 1; 2; 3; 4; 5] 2 0
  = Some (STATUS_BUFFER_OVERFLOW, [107; 0; 1; 2; 3; 4; 5], Some 6,
          [EvStoreDirectory [107] STATUS_SUCCESS 0xB000; EvStoreFree 0xB000])
  /\ IoctlStoreDirectory example_io [107; 0; 1; 2; 3; 4; 5] 2 6
     = Some (STATUS_SUCCESS, [97; 0; 98; 99; 0; 0; 5], Some 6,
             [EvStoreDirectory [107] STATUS_SUCCESS 0xB000; EvStoreFree 0xB000]).
Proof.
  destruct (IoctlStoreDirectory_query_then_read example_io [107]
              [1; 2; 3; 4; 5] [] [[97]; [98; 99]] 2 STATUS_SUCCESS 0xB000)
    as (Hquery & _ & Hread).
  - repeat constructor; discriminate.
  - reflexivity.
  - reflexivity.
  - reflexivity.
  - discriminate.
  - repeat constructor; discriminate.
  - reflexivity.
  - split; [exact Hquery|]. apply (Hread 6). cbn. lia.
Defined.

(** ** Capturing the path of SetPermissions and AddWatch *)

Lemma ProbeAndCopy_length (mem : Z -> option Z) :
  forall (Length : nat) (Buffer : Z) (bytes : list Z),
    ProbeAndCopy mem Buffer Length = Some bytes -> length bytes = Length.
Proof.
  induction Length as [|Length IH]; intros Buffer bytes H; cbn in H.
  - injection H as <-. reflexivity.
  - destruct (mem Buffer) as [b|]; [|discriminate]. cbn in H.
    destruct (ProbeAndCopy mem (Buffer + 1) Length) as [r|] eqn:E;
      [|discriminate].
    cbn in H. injection H as <-. cbn. f_equal. eapply IH. exact E.
Qed.

(** The ways out of __CaptureUserBuffer for a length that is not 0. *)
Lemma CaptureUserBuffer_cases (io : IO_ENV) (Buffer Length : Z) :
  0 < Length ->
  let '(status, CapturedBuffer, PathBytes, tr) :=
    __CaptureUserBuffer io Buffer Length in
  (status = STATUS_SUCCESS /\ CapturedBuffer = Some (AllocCapture io)
   /\ AllocCapture io <> NULL
   /\ Z.of_nat (length PathBytes) = Length
   /\ ProbeAndCopy (UserMemory io) Buffer (Z.to_nat Length) = Some PathBytes
   /\ tr = [Kernel (EvAllocatePool (AllocCapture io) Length);
            EvProbeForRead Buffer Length true])
  \/ (status = STATUS_INSUFFICIENT_RESOURCES /\ CapturedBuffer = None
      /\ AllocCapture io = NULL
      /\ tr = [Kernel (EvAllocatePool NULL Length)])
  \/ (status = ProbeException io /\ CapturedBuffer = Some NULL
      /\ AllocCapture io <> NULL
      /\ ProbeAndCopy (UserMemory io) Buffer (Z.to_nat Length) = None
      /\ tr = [Kernel (EvAllocatePool (AllocCapture io) Length);
               EvProbeForRead Buffer Length false;
               Kernel (EvFreePool (AllocCapture io))]).
Proof.
  intros Hpos. unfold __CaptureUserBuffer.
  destruct (Z.eqb_spec Length 0) as [?|_]; [lia|].
  destruct (Z.eqb_spec (AllocCapture io) NULL) as [E|Hne].
  { right. left. rewrite E. repeat split. }
  destruct (ProbeAndCopy _ _ _) as [bytes|] eqn:Hcopy.
  - left. repeat split; try assumption.
    rewrite (ProbeAndCopy_length _ _ _ _ Hcopy). lia.
  - right. right. repeat split. exact Hne.
Qed.

Lemma FreeCapturedBuffer_nonnull (Path : Z) :
  Path <> NULL -> __FreeCapturedBuffer Path = [Kernel (EvFreePool Path)].
Proof.
  intros H. unfold __FreeCapturedBuffer.
  destruct (Z.eqb_spec Path NULL); [contradiction | reflexivity].
Qed.

Lemma c_str_length_le (Str : list Z) : (length (c_str Str) <= length Str)%nat.
Proof.
  induction Str as [|c Str IH]; cbn; [lia|]. destruct (c =? 0); cbn; lia.
Qed.

(** A buffer with a NUL stored at [i] holds a string shorter than [i + 1]. *)
Lemma c_str_poke (Buffer Buffer' : list Z) (i : Z) :
  poke Buffer i 0 = Some Buffer' -> Z.of_nat (length (c_str Buffer')) <= i.
Proof.
  unfold poke. destruct (Z.leb_spec 0 i); [|discriminate].
  destruct (Z.ltb_spec i (Z.of_nat (length Buffer))); [|discriminate].
  cbn [andb]. intros [= <-].
  assert (Hgen : forall (B : list Z) (n : nat),
             (n < length B)%nat -> (length (c_str (<[n:=0%Z]> B)) <= n)%nat).
  { clear. induction B as [|c B IH]; intros n Hn; [cbn in Hn; lia|].
    destruct n as [|n]; [reflexivity|].
    change (<[S n:=0%Z]> (c :: B)) with (c :: <[n:=0%Z]> B). cbn [c_str].
    destruct (c =? 0); cbn [length] in *; [lia|].
    specialize (IH n ltac:(lia)). lia. }
  specialize (Hgen Buffer (Z.to_nat i) ltac:(lia)). lia.
Qed.

Lemma PermissionsLoop_spec (L2 : IoctlLayout)
    (Permissions : list XENBUS_STORE_PERMISSION) :
  forall (count Index : nat),
    (Index + count <= length Permissions)%nat ->
    exists bad,
      PermissionsLoop (XENIFACE_STORE_ALLOWED_PERMISSIONS L2) Permissions
        count Index = Some bad
      /\ (bad = false <->
          Forall (allowed_mask L2) (take count (drop Index Permissions))).
Proof.
  induction count as [|count IH]; intros Index Hlen.
  - exists false. split; [reflexivity|]. rewrite take_0. split; constructor.
  - cbn [PermissionsLoop].
    destruct (Permissions !! Index) as [p|] eqn:Hp.
    2:{ apply lookup_ge_None in Hp. lia. }
    cbn [mbind option_bind].
    rewrite (drop_S _ _ _ Hp). cbn [take].
    destruct (Z.eqb_spec (Z.land (Perm_Mask p)
                (Z.lnot (XENIFACE_STORE_ALLOWED_PERMISSIONS L2))) 0) as [E|E];
      cbn [negb].
    + destruct (IH (S Index) ltac:(lia)) as (bad & -> & Hbad).
      exists bad. split; [reflexivity|]. rewrite Hbad. split.
      * intros H. constructor; [exact E | exact H].
      * intros H. apply Forall_cons in H as [_ H]. exact H.
    + exists true. split; [reflexivity|]. split; [discriminate|].
      intros H. apply Forall_cons in H as [H _]. contradiction.
Qed.

Lemma PermissionsLoop_false (L2 : IoctlLayout)
    (Permissions : list XENBUS_STORE_PERMISSION) :
  forall (count Index : nat),
    PermissionsLoop (XENIFACE_STORE_ALLOWED_PERMISSIONS L2) Permissions
      count Index = Some false ->
    Forall (allowed_mask L2) (take count (drop Index Permissions)).
Proof.
  induction count as [|count IH]; intros Index H.
  - rewrite take_0. constructor.
  - cbn [PermissionsLoop] in H.
    destruct (Permissions !! Index) as [p|] eqn:Hp; [|discriminate].
    cbn [mbind option_bind] in H. rewrite (drop_S _ _ _ Hp). cbn [take].
    destruct (Z.eqb_spec (Z.land (Perm_Mask p)
                (Z.lnot (XENIFACE_STORE_ALLOWED_PERMISSIONS L2))) 0) as [E|E];
      cbn [negb] in H; [|discriminate].
    constructor; [exact E | apply IH; exact H].
Qed.

(** ** SetPermissions *)

(** The ways out of IoctlStoreSetPermissions on a message that holds the
    entries it declares. *)
Lemma IoctlStoreSetPermissions_cases (L : Layout)
    (L2 : IoctlLayout) (io : IO_ENV) (In : XENIFACE_STORE_SET_PERMISSIONS_IN)
    (InLen OutLen : Z) :
  (Z.to_nat (SetPerm_NumberPermissions In)
   <= length (SetPerm_Permissions In))%nat ->
  0 <= SetPerm_PathLength In ->
  NT_SUCCESS (ProbeException io) = false ->
  exists status tr,
    IoctlStoreSetPermissions L L2 io In InLen OutLen = Some (status, tr)
    /\ released (kernel_events tr) = allocated (kernel_events tr)
    /\ (permissions_set tr = []
        \/ exists path,
             permissions_set tr
             = [(path, take (Z.to_nat (SetPerm_NumberPermissions In))
                            (SetPerm_Permissions In))]
             /\ Z.of_nat (length path) < SetPerm_PathLength In
                <= XENSTORE_ABS_PATH_MAX
             /\ Forall (allowed_mask L2)
                  (take (Z.to_nat (SetPerm_NumberPermissions In))
                        (SetPerm_Permissions In))).
Proof.
  intros Hin Hnonneg Hfault. unfold IoctlStoreSetPermissions.
  destruct (_ || _);
    [eexists _, _; split; [reflexivity|]; split; [reflexivity | left; reflexivity]|].
  destruct (InLen <? _);
    [eexists _, _; split; [reflexivity|]; split; [reflexivity | left; reflexivity]|].
  destruct (Z.eqb_spec (SetPerm_PathLength In) 0) as [|Hnz];
    [eexists _, _; split; [reflexivity|]; split; [reflexivity | left; reflexivity]|].
  destruct (Z.gtb_spec (SetPerm_PathLength In) XENSTORE_ABS_PATH_MAX) as [|Hmax];
    [eexists _, _; split; [reflexivity|]; split; [reflexivity | left; reflexivity]|].
  cbn [orb].
  assert (Hpos : 0 < SetPerm_PathLength In) by lia.
  pose proof (CaptureUserBuffer_cases io (SetPerm_Path In)
                (SetPerm_PathLength In) Hpos) as Hcap.
  destruct (__CaptureUserBuffer io _ _) as [[[status Captured] PathBytes] tr4].
  destruct Hcap as [(-> & -> & Hpath & Hlen & _ & ->)
                   |[(-> & -> & Halloc & ->)|(-> & -> & Halloc & _ & ->)]].
  - change (negb (NT_SUCCESS STATUS_SUCCESS)) with false.
    cbn [mbind option_bind].
    destruct (Z.eqb_spec (AllocCapture io) NULL) as [|_]; [contradiction|].
    destruct (poke PathBytes _ 0) as [PathBytes'|] eqn:Hpoke.
    2:{ exfalso. revert Hpoke. unfold poke.
        rewrite ULONG_small
          by (unfold ULONG_MODULUS, XENSTORE_ABS_PATH_MAX in *; lia).
        destruct (Z.leb_spec 0 (SetPerm_PathLength In - 1)); [|lia].
        destruct (Z.ltb_spec (SetPerm_PathLength In - 1)
                    (Z.of_nat (length PathBytes))); [|lia].
        discriminate. }
    cbn [mbind option_bind].
    destruct (PermissionsLoop_spec L2 (SetPerm_Permissions In)
                (Z.to_nat (SetPerm_NumberPermissions In)) 0 Hin)
      as (bad & Hloop & Hiff).
    rewrite Hloop. cbn [mbind option_bind]. rewrite drop_0 in Hiff.
    rewrite (FreeCapturedBuffer_nonnull _ Hpath).
    assert (HallocP : (AllocCapture io =? NULL) = false)
      by (apply Z.eqb_neq; assumption).
    destruct bad.
    + eexists _, _. split; [reflexivity|]. cbn. rewrite HallocP.
      split; [reflexivity | left; reflexivity].
    + eexists _, _. split; [reflexivity|]. cbn. rewrite HallocP.
      split; [reflexivity|]. right. eexists.
      split; [reflexivity|]. split.
      * apply c_str_poke in Hpoke.
        rewrite ULONG_small in Hpoke
          by (unfold ULONG_MODULUS, XENSTORE_ABS_PATH_MAX in *; lia).
        lia.
      * apply Hiff. reflexivity.
  - eexists _, _. split; [reflexivity|]. cbn.
    split; [reflexivity | left; reflexivity].
  - rewrite Hfault. cbn [negb].
    assert (Hn : (AllocCapture io =? NULL) = false)
      by (apply Z.eqb_neq; assumption).
    eexists _, _. split; [reflexivity|]. cbn. rewrite Hn.
    split; [reflexivity | left; reflexivity].
Qed.

(** X8. IoctlStoreSetPermissions, on a message that holds the
    [NumberPermissions] entries it declares, the exception code of a faulting
    capture being a failure status.  The handler returns; the block that
    holds the captured path is freed before it returns, on every way out;
    and the store is asked to set permissions at most once, for a path
    shorter than [PathLength] and only with the [NumberPermissions]
    permissions of the message, each with no mask bit outside the allowed
    ones.  (A message that declares more entries than it holds passes the
    size test only when the [size_t] sum of that test wraps; the loop over
    the masks then reads outside the message, and nothing is stated.) *)
Theorem SetPermissions_only_allowed_and_no_leak (L : Layout)
    (L2 : IoctlLayout) (io : IO_ENV) (In : XENIFACE_STORE_SET_PERMISSIONS_IN)
    (InLen OutLen : Z) :
  (Z.to_nat (SetPerm_NumberPermissions In)
   <= length (SetPerm_Permissions In))%nat ->
  0 <= SetPerm_PathLength In ->
  NT_SUCCESS (ProbeException io) = false ->
  exists status tr,
    IoctlStoreSetPermissions L L2 io In InLen OutLen = Some (status, tr)
    /\ released (kernel_events tr) = allocated (kernel_events tr)
    /\ (permissions_set tr = []
        \/ exists path,
             permissions_set tr
             = [(path, take (Z.to_nat (SetPerm_NumberPermissions In))
                            (SetPerm_Permissions In))]
             /\ Z.of_nat (length path) < SetPerm_PathLength In
                <= XENSTORE_ABS_PATH_MAX
             /\ Forall (allowed_mask L2)
                  (take (Z.to_nat (SetPerm_NumberPermissions In))
                        (SetPerm_Permissions In))).
Proof.
  exact (IoctlStoreSetPermissions_cases L L2 io In InLen OutLen).
Qed.

Lemma SetPermissions_only_allowed_and_no_leak_witness :
  exists status path,
    IoctlStoreSetPermissions example_layout example_ioctl_layout example_io
      (example_set_permissions_in 2) 40 0
    = Some (status,
            [Kernel (EvAllocatePool 0x4000 4); EvProbeForRead 0x10000 4 true;
             EvStorePermissionsSet path
               [{| Perm_Domain := 0; Perm_Mask := 1 |};
                {| Perm_Domain := 1; Perm_Mask := 2 |}] status;
             Kernel (EvFreePool 0x4000)])
    /\ Z.of_nat (length path) < 4.
Proof.
  destruct (SetPermissions_only_allowed_and_no_leak example_layout
              example_ioctl_layout example_io (example_set_permissions_in 2)
              40 0)
    as (status & tr & Hrun & _ & Hset).
  - cbn. lia.
  - discriminate.
  - reflexivity.
  - vm_compute in Hrun. injection Hrun as <- <-.
    destruct Hset as [Hset|(path & Hset & Hlen & _)]; [discriminate Hset|].
    exists STATUS_SUCCESS, path. vm_compute in Hset.
    injection Hset as <-. split; [reflexivity | exact (proj1 Hlen)].
Defined.

(** X9. IoctlStoreSetPermissions given a permission whose mask has a bit
    outside the allowed ones, in a message of the right size whose path is
    captured: the handler leaves at fail5 with the status of the capture
    still in [status], so it returns STATUS_SUCCESS; the store is not
    called and the captured path is freed. *)
Theorem SetPermissions_disallowed_mask_reports_success (L : Layout)
    (L2 : IoctlLayout) (io : IO_ENV) (In : XENIFACE_STORE_SET_PERMISSIONS_IN)
    (InLen : Z) :
  sizeof_STORE_SET_PERMISSIONS_IN L2 <= InLen ->
  SIZE_T L (sizeof_STORE_SET_PERMISSIONS_IN L2
            + SetPerm_NumberPermissions In * sizeof_XENBUS_STORE_PERMISSION L2)
  <= InLen ->
  0 < SetPerm_PathLength In <= XENSTORE_ABS_PATH_MAX ->
  AllocCapture io <> NULL ->
  is_Some (ProbeAndCopy (UserMemory io) (SetPerm_Path In)
             (Z.to_nat (SetPerm_PathLength In))) ->
  (Z.to_nat (SetPerm_NumberPermissions In)
   <= length (SetPerm_Permissions In))%nat ->
  ~ Forall (allowed_mask L2)
      (take (Z.to_nat (SetPerm_NumberPermissions In)) (SetPerm_Permissions In)) ->
  IoctlStoreSetPermissions L L2 io In InLen 0
  = Some (STATUS_SUCCESS,
          [Kernel (EvAllocatePool (AllocCapture io) (SetPerm_PathLength In));
           EvProbeForRead (SetPerm_Path In) (SetPerm_PathLength In) true;
           Kernel (EvFreePool (AllocCapture io))]).
Proof.
  intros Hsize1 Hsize2 Hpath Halloc [bytes Hcopy] Hin Hbad.
  unfold IoctlStoreSetPermissions.
  destruct (Z.ltb_spec InLen (sizeof_STORE_SET_PERMISSIONS_IN L2)); [lia|].
  cbn [orb Z.eqb negb].
  destruct (Z.ltb_spec InLen (SIZE_T L (sizeof_STORE_SET_PERMISSIONS_IN L2
              + SetPerm_NumberPermissions In
                * sizeof_XENBUS_STORE_PERMISSION L2))); [lia|].
  destruct (Z.eqb_spec (SetPerm_PathLength In) 0); [lia|].
  destruct (Z.gtb_spec (SetPerm_PathLength In) XENSTORE_ABS_PATH_MAX); [lia|].
  cbn [orb]. unfold __CaptureUserBuffer.
  destruct (Z.eqb_spec (SetPerm_PathLength In) 0); [lia|].
  destruct (Z.eqb_spec (AllocCapture io) NULL); [contradiction|].
  rewrite Hcopy.
  change (negb (NT_SUCCESS STATUS_SUCCESS)) with false. cbn iota.
  destruct (Z.eqb_spec (AllocCapture io) NULL); [contradiction|].
  pose proof (ProbeAndCopy_length _ _ _ _ Hcopy) as Hlen.
  unfold poke.
  rewrite ULONG_small
    by (unfold ULONG_MODULUS, XENSTORE_ABS_PATH_MAX in *; lia).
  destruct (Z.leb_spec 0 (SetPerm_PathLength In - 1)); [|lia].
  destruct (Z.ltb_spec (SetPerm_PathLength In - 1) (Z.of_nat (length bytes)));
    [|lia].
  cbn [andb mbind option_bind].
  destruct (PermissionsLoop_spec L2 (SetPerm_Permissions In)
              (Z.to_nat (SetPerm_NumberPermissions In)) 0 Hin)
    as (bad & -> & Hiff).
  cbn [mbind option_bind]. rewrite drop_0 in Hiff.
  destruct bad; [|exfalso; apply Hbad, Hiff; reflexivity].
  unfold __FreeCapturedBuffer.
  destruct (Z.eqb_spec (AllocCapture io) NULL); [contradiction|].
  reflexivity.
Qed.

Lemma SetPermissions_disallowed_mask_reports_success_witness :
  IoctlStoreSetPermissions example_layout example_ioctl_layout example_io
    (example_set_permissions_in 4) 40 0
  = Some (STATUS_SUCCESS,
          [Kernel (EvAllocatePool 0x4000 4); EvProbeForRead 0x10000 4 true;
           Kernel (EvFreePool 0x4000)]).
Proof.
  apply (SetPermissions_disallowed_mask_reports_success example_layout
           example_ioctl_layout example_io (example_set_permissions_in 4) 40).
  - vm_compute. discriminate.
  - vm_compute. discriminate.
  - vm_compute. split; [reflexivity | discriminate].
  - discriminate.
  - eexists. vm_compute. reflexivity.
  - cbn. lia.
  - intros H. apply Forall_cons in H as [_ H]. apply Forall_cons in H as [H _].
    vm_compute in H. discriminate.
Defined.

(** ** AddWatch *)

Lemma kernel_events_app (a b : list io_event) :
  kernel_events (a ++ b) = kernel_events a ++ kernel_events b.
Proof. apply omap_app. Qed.

Lemma referenced_app (a b : list io_event) :
  referenced (a ++ b) = referenced a ++ referenced b.
Proof. apply omap_app. Qed.

(** The ways out of IoctlStoreAddWatch. *)
Lemma IoctlStoreAddWatch_cases (L2 : IoctlLayout) (io : IO_ENV)
    (Fdo : XENIFACE_FDO) (In : XENIFACE_STORE_ADD_WATCH_IN)
    (InLen OutLen FileObject : Z) :
  match IoctlStoreAddWatch L2 io Fdo In InLen OutLen FileObject with
  | None => True
  | Some (status, Fdo', OutContext, Info, tr) =>
      (NT_SUCCESS status = true
       /\ exists Store,
            Fdo' = set_StoreWatchList Fdo (StoreWatchList Fdo ++ [Store])
            /\ Store_FileObject Store = FileObject
            /\ Store_Self Store <> NULL
            /\ OutContext = Some (Store_Self Store)
            /\ Info = Some (sizeof_STORE_ADD_WATCH_OUT L2)
            /\ allocated (kernel_events tr) = [AllocCapture io; Store_Self Store]
            /\ released (kernel_events tr) = [AllocCapture io]
            /\ referenced tr = [Store_Event Store]
            /\ dereferenced (kernel_events tr) = [])
      \/ (NT_SUCCESS status = false
          /\ Fdo' = Fdo /\ OutContext = None /\ Info = None
          /\ released (kernel_events tr) = reverse (allocated (kernel_events tr))
          /\ dereferenced (kernel_events tr) = referenced tr)
  end.
Proof.
  unfold IoctlStoreAddWatch.
  destruct (_ || _); [right; repeat split; first [reflexivity | assumption]|].
  destruct (Z.eqb_spec (AddWatch_PathLength In) 0) as [|Hnz];
    [right; repeat split; first [reflexivity | assumption]|].
  destruct (Z.gtb_spec (AddWatch_PathLength In) XENSTORE_ABS_PATH_MAX) as [|Hmax];
    [right; repeat split; first [reflexivity | assumption]|].
  cbn [orb].
  destruct (Z_lt_le_dec 0 (AddWatch_PathLength In)) as [Hpos|Hneg].
  2:{ unfold __CaptureUserBuffer.
      destruct (Z.eqb_spec (AddWatch_PathLength In) 0); [contradiction|].
      destruct (Z.eqb_spec (AllocCapture io) NULL) as [E|Hne].
      { cbn. rewrite E. right. repeat split; first [reflexivity | assumption]. }
      replace (Z.to_nat (AddWatch_PathLength In)) with 0%nat by lia.
      cbn [ProbeAndCopy NT_SUCCESS STATUS_SUCCESS ntstatus Z.ltb Z.compare
           Z.leb negb mbind option_bind].
      destruct (Z.eqb_spec (AllocCapture io) NULL); [contradiction|].
      unfold poke. cbn [length].
      destruct (Z.ltb_spec (ULONG (AddWatch_PathLength In - 1)) (Z.of_nat 0))
        as [Hlt|_].
      { unfold ULONG in Hlt.
        pose proof (Z.mod_pos_bound (AddWatch_PathLength In - 1) ULONG_MODULUS
                      eq_refl). cbn in Hlt. lia. }
      rewrite andb_false_r. exact I. }
  pose proof (CaptureUserBuffer_cases io (AddWatch_Path In)
                (AddWatch_PathLength In) Hpos) as Hcap.
  destruct (__CaptureUserBuffer io _ _) as [[[status Captured] PathBytes] tr3].
  destruct Hcap as [(-> & -> & Hpath & Hlen & _ & ->)
                   |[(-> & -> & Halloc & ->)|(-> & -> & Halloc & _ & ->)]].
  - change (negb (NT_SUCCESS STATUS_SUCCESS)) with false.
    cbn [mbind option_bind].
    destruct (Z.eqb_spec (AllocCapture io) NULL); [contradiction|].
    destruct (poke PathBytes _ 0) as [PathBytes'|] eqn:Hpoke;
      cbn [mbind option_bind]; [|exact I].
    rewrite (FreeCapturedBuffer_nonnull _ Hpath).
    unfold AddWatch_fail6, AddWatch_fail5, AddWatch_fail4.
    rewrite (FreeCapturedBuffer_nonnull _ Hpath).
    assert (HP : (AllocCapture io =? NULL) = false)
      by (apply Z.eqb_neq; assumption).
    destruct (Z.eqb_spec (AllocStoreContext io) NULL) as [E|Hctx].
    { right. cbn. rewrite HP, E. cbn. repeat split; first [reflexivity | assumption]. }
    assert (HC : (AllocStoreContext io =? NULL) = false)
      by (apply Z.eqb_neq; assumption).
    destruct (ObReferenceObjectByHandle io _) as [status2 Event].
    destruct (NT_SUCCESS status2) eqn:Hok2; cbn [negb].
    2:{ right. cbn. rewrite HP, HC, Hok2. cbn. repeat split; first [reflexivity | assumption]. }
    destruct (StoreWatchAdd io _ _) as [status3 Watch].
    destruct (NT_SUCCESS status3) eqn:Hok3; cbn [negb].
    2:{ right. cbn. rewrite HP, HC, Hok2. cbn. repeat split; first [reflexivity | assumption]. }
    left. split; [exact Hok3|]. eexists. split; [reflexivity|].
    cbn. rewrite HP, HC, Hok2. repeat split; try reflexivity. exact Hctx.
  - right. cbn. repeat split; first [reflexivity | assumption].
  - destruct (NT_SUCCESS (ProbeException io)) eqn:Hex; cbn [negb].
    + cbn [mbind option_bind]. rewrite Z.eqb_refl. exact I.
    + assert (Hn : (AllocCapture io =? NULL) = false)
        by (apply Z.eqb_neq; assumption).
      right. cbn. rewrite Hn. repeat split; first [reflexivity | assumption].
Qed.

(** X10. IoctlStoreAddWatch, whatever it is given, ends in one of two ways.
    Either it succeeds: the watch list has one more entry, at its tail,
    owned by the calling file object; the handle given back is the address
    of that entry; of the two pool blocks taken the captured path is freed
    and the context stays; the event object stays referenced.  Or it fails:
    the FDO is as it was, nothing is written to the output, every pool block
    taken is freed, in reverse order, and the event object, if it was
    referenced, is dereferenced. *)
Theorem AddWatch_registers_or_unwinds (L2 : IoctlLayout) (io : IO_ENV)
    (Fdo : XENIFACE_FDO) (In : XENIFACE_STORE_ADD_WATCH_IN)
    (InLen OutLen FileObject : Z) :
  match IoctlStoreAddWatch L2 io Fdo In InLen OutLen FileObject with
  | None => True
  | Some (status, Fdo', OutContext, Info, tr) =>
      (NT_SUCCESS status = true
       /\ exists Store,
            Fdo' = set_StoreWatchList Fdo (StoreWatchList Fdo ++ [Store])
            /\ Store_FileObject Store = FileObject
            /\ Store_Self Store <> NULL
            /\ OutContext = Some (Store_Self Store)
            /\ Info = Some (sizeof_STORE_ADD_WATCH_OUT L2)
            /\ allocated (kernel_events tr) = [AllocCapture io; Store_Self Store]
            /\ released (kernel_events tr) = [AllocCapture io]
            /\ referenced tr = [Store_Event Store]
            /\ dereferenced (kernel_events tr) = [])
      \/ (NT_SUCCESS status = false
          /\ Fdo' = Fdo /\ OutContext = None /\ Info = None
          /\ released (kernel_events tr) = reverse (allocated (kernel_events tr))
          /\ dereferenced (kernel_events tr) = referenced tr)
  end.
Proof. exact (IoctlStoreAddWatch_cases L2 io Fdo In InLen OutLen FileObject). Qed.

Lemma set_StoreWatchList_back (Fdo : XENIFACE_FDO)
    (l : list XENIFACE_STORE_CONTEXT) :
  set_StoreWatchList (set_StoreWatchList Fdo l) (StoreWatchList Fdo) = Fdo.
Proof. destruct Fdo. reflexivity. Qed.

Lemma RemoveWatchWalk_tail (InContext FileObject : Z)
    (Store : XENIFACE_STORE_CONTEXT) (List : list XENIFACE_STORE_CONTEXT) :
  Store_Self Store = InContext -> Store_FileObject Store = FileObject ->
  forall (Node : list XENIFACE_STORE_CONTEXT) Context,
    Forall (fun w => Store_Self w <> InContext) Node ->
    RemoveWatchWalk (Node ++ [Store]) InContext FileObject Context List
    = (Some Store, RemoveStoreEntry Store List).
Proof.
  intros Hself Hown. induction Node as [|c Node IH]; intros Context Hall.
  - cbn. rewrite Hself, Hown, !Z.eqb_refl. reflexivity.
  - apply Forall_cons in Hall as [Hc Hall]. cbn [app RemoveWatchWalk].
    destruct (Z.eqb_spec (Store_Self c) InContext); [contradiction|].
    cbn [negb orb]. apply IH. exact Hall.
Qed.

(** X11. A watch added and then removed.  When IoctlStoreAddWatch has given back
    a handle that is the address of no watch already in the list, and the
    same file object passes that handle to IoctlStoreRemoveWatch, the
    removal succeeds; the FDO is back to what it was before the watch was
    added; the object dereferenced is the event object that was referenced;
    and the context is freed, so that every pool block of the two requests
    is given back. *)
Theorem AddWatch_then_RemoveWatch (L : Layout) (L2 : IoctlLayout)
    (io : IO_ENV) (Fdo Fdo1 : XENIFACE_FDO) (In : XENIFACE_STORE_ADD_WATCH_IN)
    (InLen OutLen FileObject : Z) (status : NTSTATUS) (Context : Z)
    (Info : option Z) (tr1 : list io_event) :
  IoctlStoreAddWatch L2 io Fdo In InLen OutLen FileObject
  = Some (status, Fdo1, Some Context, Info, tr1) ->
  Forall (fun w => Store_Self w <> Context) (StoreWatchList Fdo) ->
  exists tr2,
    IoctlStoreRemoveWatch L Fdo1 Context (sizeof_STORE_REMOVE_WATCH_IN L) 0
      FileObject
    = (STATUS_SUCCESS, Fdo, tr2)
    /\ dereferenced tr2 = referenced tr1
    /\ released (kernel_events tr1) ++ released tr2
       = allocated (kernel_events tr1).
Proof.
  intros Hadd Hfresh.
  pose proof (IoctlStoreAddWatch_cases L2 io Fdo In InLen OutLen FileObject)
    as Hcases.
  rewrite Hadd in Hcases.
  destruct Hcases as [(_ & Store & -> & Hown & _ & Hout & _ & Hal & Hrel & Href & _)
                     |(_ & _ & Hout & _)]; [|discriminate].
  injection Hout as Hself.
  unfold IoctlStoreRemoveWatch. rewrite !Z.eqb_refl. cbn [negb orb].
  cbn [StoreWatchList set_StoreWatchList].
  rewrite (RemoveWatchWalk_tail Context FileObject Store _
             (eq_sym Hself) Hown _ None Hfresh).
  rewrite <- Hself, Z.eqb_refl. cbn [negb].
  assert (Hlist : RemoveStoreEntry Store (StoreWatchList Fdo ++ [Store])
                  = StoreWatchList Fdo).
  { unfold RemoveStoreEntry. rewrite filter_app.
    rewrite filter_cons_False by (intros H; apply H; reflexivity).
    rewrite filter_nil, app_nil_r. apply filter_keeps_all.
    eapply Forall_forall. eapply Forall_impl; [exact Hfresh|].
    intros w Hw. rewrite <- Hself. exact Hw. }
  rewrite Hlist, set_StoreWatchList_back.
  eexists. split; [reflexivity|]. cbn. rewrite Href, Hrel, Hal.
  split; reflexivity.
Qed.

Lemma AddWatch_then_RemoveWatch_witness :
  exists tr1 tr2,
    IoctlStoreAddWatch example_ioctl_layout example_io example_busy_Fdo
      example_add_watch_in 24 8 1
    = Some (STATUS_SUCCESS,
            set_StoreWatchList example_busy_Fdo
              (StoreWatchList example_busy_Fdo
               ++ [{| Store_Self := 0x8C00; Store_FileObject := 1;
                      Store_Event := 0x1044; Store_Watch := 0xC000 |}]),
            Some 0x8C00, Some 8, tr1)
    /\ IoctlStoreRemoveWatch example_layout
         (set_StoreWatchList example_busy_Fdo
            (StoreWatchList example_busy_Fdo
             ++ [{| Store_Self := 0x8C00; Store_FileObject := 1;
                    Store_Event := 0x1044; Store_Watch := 0xC000 |}]))
         0x8C00 8 0 1
       = (STATUS_SUCCESS, example_busy_Fdo, tr2)
    /\ dereferenced tr2 = referenced tr1
    /\ released (kernel_events tr1) ++ released tr2
       = allocated (kernel_events tr1).
Proof.
  eexists.
  destruct (AddWatch_then_RemoveWatch example_layout example_ioctl_layout
              example_io example_busy_Fdo _ example_add_watch_in 24 8 1
              _ 0x8C00 _ _ eq_refl) as (tr2 & Hrun & Hderef & Hpool).
  - repeat constructor; discriminate.
  - exists tr2. split; [reflexivity|]. split; [exact Hrun|].
    split; assumption.
Defined.

(** ** Binding an event channel *)

(** The ways out of the body of the two bind handlers. *)
Lemma EvtchnBind_cases (L2 : IoctlLayout) (io : IO_ENV) (Fdo : XENIFACE_FDO)
    (sizeof_IN sizeof_OUT : Z) (Type_ : XENBUS_EVTCHN_TYPE) (Event Mask : Z)
    (InLen OutLen FileObject : Z) :
  let '(status, Fdo', LocalPort, Info, tr) :=
    EvtchnBind L2 io Fdo sizeof_IN sizeof_OUT Type_ Event Mask
               InLen OutLen FileObject in
  (status = STATUS_SUCCESS
   /\ exists Evtchn,
        Fdo' = set_EvtchnList Fdo (EvtchnList Fdo ++ [Evtchn])
        /\ Evtchn_Self Evtchn = AllocEvtchnContext io
        /\ Evtchn_Self Evtchn <> NULL
        /\ Evtchn_FileObject Evtchn = FileObject
        /\ Evtchn_Channel Evtchn = EvtchnOpen io Type_ (Evtchn_Self Evtchn)
        /\ Evtchn_Channel Evtchn <> NULL
        /\ Evtchn_Active Evtchn = true
        /\ LocalPort = Some (Evtchn_LocalPort Evtchn)
        /\ Info = Some sizeof_OUT
        /\ allocated (kernel_events tr) = [Evtchn_Self Evtchn]
        /\ released (kernel_events tr) = []
        /\ referenced tr = [Evtchn_Event Evtchn]
        /\ dereferenced (kernel_events tr) = []
        /\ opened tr = [Evtchn_Channel Evtchn]
        /\ (Kernel (EvEvtchnUnmask (Evtchn_Channel Evtchn)) ∈ tr <-> Mask = 0))
  \/ (NT_SUCCESS status = false
      /\ Fdo' = Fdo /\ LocalPort = None /\ Info = None
      /\ released (kernel_events tr) = reverse (allocated (kernel_events tr))
      /\ dereferenced (kernel_events tr) = referenced tr
      /\ opened tr = []).
Proof.
  unfold EvtchnBind.
  destruct (_ || _); [right; repeat split; reflexivity|].
  destruct (Z.eqb_spec (AllocEvtchnContext io) NULL) as [E|Hctx].
  { right. cbn. rewrite E. cbn. repeat split; reflexivity. }
  assert (HC : (AllocEvtchnContext io =? NULL) = false)
    by (apply Z.eqb_neq; assumption).
  destruct (ObReferenceObjectByHandle io Event) as [status EventObject].
  destruct (NT_SUCCESS status) eqn:Hok; cbn [negb].
  2:{ right. cbn. rewrite HC, Hok. cbn.
      repeat split; first [reflexivity | assumption]. }
  destruct (Z.eqb_spec (EvtchnOpen io Type_ (AllocEvtchnContext io)) NULL)
    as [E|Hch].
  { right. cbn. rewrite HC, Hok, E. cbn. repeat split; reflexivity. }
  left. split; [reflexivity|]. eexists. split; [reflexivity|].
  cbn [Evtchn_Self Evtchn_FileObject Evtchn_Channel Evtchn_Active
       Evtchn_LocalPort Evtchn_Event].
  repeat split; try reflexivity; try assumption.
  - rewrite !kernel_events_app. cbn. rewrite HC.
    destruct (Mask =? 0); reflexivity.
  - rewrite !kernel_events_app. cbn. destruct (Mask =? 0); reflexivity.
  - rewrite !referenced_app. cbn. rewrite Hok.
    destruct (Mask =? 0); reflexivity.
  - rewrite !kernel_events_app. cbn. destruct (Mask =? 0); reflexivity.
  - assert (Hn : (EvtchnOpen io Type_ (AllocEvtchnContext io) =? NULL) = false)
      by (apply Z.eqb_neq; assumption).
    unfold opened. rewrite !omap_app. cbn. rewrite Hn.
    destruct (Mask =? 0); reflexivity.
  - intros Hin. destruct (Z.eqb_spec Mask 0) as [|Hne]; [assumption|].
    exfalso. rewrite app_nil_r in Hin.
    repeat (apply elem_of_app in Hin as [Hin|Hin]
            || apply elem_of_cons in Hin as [Hin|Hin]);
      try discriminate; try (apply elem_of_nil in Hin; contradiction).
  - intros ->. cbn [Z.eqb app].
    do 7 apply list_elem_of_further. apply list_elem_of_here.
Qed.

(** X12. What a handler that binds a channel leaves behind.  [r] is the result
    of IoctlEvtchnBindUnbound or of IoctlEvtchnBindInterdomain.  Either the
    handler succeeds: the channel list has one more entry, at its tail,
    owned by the calling file object and active, with the channel that Open
    gave; the port written to the output is the port of that entry; the
    context stays allocated and the event object referenced; the channel is
    unmasked exactly when the message's Mask is 0.  Or it fails: the FDO is
    as it was, nothing is written to the output, the context is freed if it
    was allocated and the event object dereferenced if it was referenced. *)
Theorem bind_registers_or_unwinds (L2 : IoctlLayout) (io : IO_ENV)
    (Fdo : XENIFACE_FDO) (InLen OutLen FileObject : Z)
    (r : NTSTATUS * XENIFACE_FDO * option Z * option Z * list io_event)
    (Mask : Z) :
  (exists In,
      r = IoctlEvtchnBindUnbound L2 io Fdo In InLen OutLen FileObject
      /\ Mask = BindUnbound_Mask In)
  \/ (exists In,
        r = IoctlEvtchnBindInterdomain L2 io Fdo In InLen OutLen FileObject
        /\ Mask = BindInterdomain_Mask In) ->
  let '(status, Fdo', LocalPort, Info, tr) := r in
  (status = STATUS_SUCCESS
   /\ exists Evtchn,
        Fdo' = set_EvtchnList Fdo (EvtchnList Fdo ++ [Evtchn])
        /\ Evtchn_Self Evtchn <> NULL
        /\ Evtchn_FileObject Evtchn = FileObject
        /\ Evtchn_Channel Evtchn <> NULL
        /\ Evtchn_Active Evtchn = true
        /\ LocalPort = Some (Evtchn_LocalPort Evtchn)
        /\ allocated (kernel_events tr) = [Evtchn_Self Evtchn]
        /\ released (kernel_events tr) = []
        /\ referenced tr = [Evtchn_Event Evtchn]
        /\ dereferenced (kernel_events tr) = []
        /\ opened tr = [Evtchn_Channel Evtchn]
        /\ (Kernel (EvEvtchnUnmask (Evtchn_Channel Evtchn)) ∈ tr <-> Mask = 0))
  \/ (NT_SUCCESS status = false
      /\ Fdo' = Fdo /\ LocalPort = None /\ Info = None
      /\ released (kernel_events tr) = reverse (allocated (kernel_events tr))
      /\ dereferenced (kernel_events tr) = referenced tr
      /\ opened tr = []).
Proof.
  intros [(In & -> & ->)|(In & -> & ->)].
  - unfold IoctlEvtchnBindUnbound.
    pose proof (EvtchnBind_cases L2 io Fdo
                  (sizeof_EVTCHN_BIND_UNBOUND_IN L2)
                  (sizeof_EVTCHN_BIND_UNBOUND_OUT L2)
                  (XENBUS_EVTCHN_TYPE_UNBOUND (BindUnbound_RemoteDomain In))
                  (BindUnbound_Event In) (BindUnbound_Mask In)
                  InLen OutLen FileObject) as H.
    destruct (EvtchnBind _ _ _ _ _ _ _ _ _ _ _) as [[[[status Fdo'] Port] Info] tr].
    destruct H as [(-> & c & ? & ? & ? & ? & ? & ? & ? & ? & ? & ? & ? & ? & ? & ? & ?)|H];
      [|right; exact H].
    left. split; [reflexivity|]. exists c. repeat split; tauto.
  - unfold IoctlEvtchnBindInterdomain.
    pose proof (EvtchnBind_cases L2 io Fdo
                  (sizeof_EVTCHN_BIND_INTERDOMAIN_IN L2)
                  (sizeof_EVTCHN_BIND_INTERDOMAIN_OUT L2)
                  (XENBUS_EVTCHN_TYPE_INTER_DOMAIN
                     (BindInterdomain_RemoteDomain In)
                     (BindInterdomain_RemotePort In))
                  (BindInterdomain_Event In) (BindInterdomain_Mask In)
                  InLen OutLen FileObject) as H.
    destruct (EvtchnBind _ _ _ _ _ _ _ _ _ _ _) as [[[[status Fdo'] Port] Info] tr].
    destruct H as [(-> & c & ? & ? & ? & ? & ? & ? & ? & ? & ? & ? & ? & ? & ? & ? & ?)|H];
      [|right; exact H].
    left. split; [reflexivity|]. exists c. repeat split; tauto.
Qed.

Lemma bind_registers_or_unwinds_witness :
  let '(status, Fdo', LocalPort, Info, tr) :=
    IoctlEvtchnBindUnbound example_ioctl_layout example_io example_busy_Fdo
      (example_bind_unbound_in 0) 16 4 1 in
  (status = STATUS_SUCCESS
   /\ exists Evtchn,
        Fdo' = set_EvtchnList example_busy_Fdo
                 (EvtchnList example_busy_Fdo ++ [Evtchn])
        /\ Evtchn_Self Evtchn <> NULL
        /\ Evtchn_FileObject Evtchn = 1
        /\ Evtchn_Channel Evtchn <> NULL
        /\ Evtchn_Active Evtchn = true
        /\ LocalPort = Some (Evtchn_LocalPort Evtchn)
        /\ allocated (kernel_events tr) = [Evtchn_Self Evtchn]
        /\ released (kernel_events tr) = []
        /\ referenced tr = [Evtchn_Event Evtchn]
        /\ dereferenced (kernel_events tr) = []
        /\ opened tr = [Evtchn_Channel Evtchn]
        /\ (Kernel (EvEvtchnUnmask (Evtchn_Channel Evtchn)) ∈ tr <-> 0 = 0))
  \/ (NT_SUCCESS status = false
      /\ Fdo' = example_busy_Fdo /\ LocalPort = None /\ Info = None
      /\ released (kernel_events tr) = reverse (allocated (kernel_events tr))
      /\ dereferenced (kernel_events tr) = referenced tr
      /\ opened tr = []).
Proof.
  apply (bind_registers_or_unwinds example_ioctl_layout example_io
           example_busy_Fdo 16 4 1
           (IoctlEvtchnBindUnbound example_ioctl_layout example_io
              example_busy_Fdo (example_bind_unbound_in 0) 16 4 1) 0).
  left. exists (example_bind_unbound_in 0). split; reflexivity.
Defined.

Lemma set_EvtchnList_back (Fdo : XENIFACE_FDO)
    (l : list XENIFACE_EVTCHN_CONTEXT) :
  set_EvtchnList (set_EvtchnList Fdo l) (EvtchnList Fdo) = Fdo.
Proof. destruct Fdo. reflexivity. Qed.

(** A lookup that finds nothing in a list goes on to what is appended. *)
Lemma EvtchnFindChannel_app (LocalPort FileObject : Z)
    (List More : list XENIFACE_EVTCHN_CONTEXT) :
  EvtchnFindChannel List LocalPort FileObject = None ->
  EvtchnFindChannel (List ++ More) LocalPort FileObject
  = EvtchnFindChannel More LocalPort FileObject.
Proof.
  induction List as [|c List IH]; intros H; [reflexivity|].
  cbn [app EvtchnFindChannel] in *.
  destruct (negb (Evtchn_LocalPort c =? LocalPort)); [exact (IH H)|].
  destruct (negb (FileObject =? NULL) && negb (Evtchn_FileObject c =? FileObject));
    [exact (IH H) | discriminate].
Qed.

Lemma EvtchnBind_then_close (L : Layout) (L2 : IoctlLayout) (io : IO_ENV)
    (Fdo Fdo1 : XENIFACE_FDO) (sizeof_IN sizeof_OUT : Z)
    (Type_ : XENBUS_EVTCHN_TYPE) (Event Mask : Z)
    (InLen OutLen FileObject LocalPort : Z) (status : NTSTATUS)
    (Info : option Z) (tr1 : list io_event) :
  EvtchnBind L2 io Fdo sizeof_IN sizeof_OUT Type_ Event Mask
             InLen OutLen FileObject
  = (status, Fdo1, Some LocalPort, Info, tr1) ->
  EvtchnFindChannel (EvtchnList Fdo) LocalPort FileObject = None ->
  Forall (fun c => Evtchn_Self c <> AllocEvtchnContext io) (EvtchnList Fdo) ->
  exists Channel tr2,
    opened tr1 = [Channel]
    /\ IoctlEvtchnNotify L2 Fdo1 LocalPort (sizeof_EVTCHN_NOTIFY_IN L2) 0
         FileObject
       = (STATUS_SUCCESS,
          [EvAcquireLock EvtchnLock; EvEvtchnSend Channel;
           EvReleaseLock EvtchnLock])
    /\ IoctlEvtchnClose L Fdo1 LocalPort (sizeof_EVTCHN_CLOSE_IN L) 0
         FileObject
       = (STATUS_SUCCESS, Fdo, tr2)
    /\ closed tr2 = opened tr1
    /\ dereferenced tr2 = referenced tr1
    /\ released tr2 = allocated (kernel_events tr1).
Proof.
  intros Hbind Hnone Hfresh.
  pose proof (EvtchnBind_cases L2 io Fdo sizeof_IN sizeof_OUT Type_ Event Mask
                InLen OutLen FileObject) as H.
  rewrite Hbind in H.
  destruct H as [(_ & c & -> & Hself & _ & Hown & Hch & _ & _ & Hport & _
                  & Hal & _ & Href & _ & Hopen & _)
                |(_ & _ & Hport & _)]; [|discriminate].
  injection Hport as Hport.
  assert (Hfind : EvtchnFindChannel (EvtchnList Fdo ++ [c]) LocalPort FileObject
                  = Some c).
  { rewrite (EvtchnFindChannel_app _ _ _ _ Hnone). cbn.
    rewrite <- Hport, Hown, !Z.eqb_refl. cbn. rewrite andb_false_r.
    reflexivity. }
  exists (Evtchn_Channel c). eexists. split; [exact Hopen|].
  split.
  { unfold IoctlEvtchnNotify, EvtchnNotify. rewrite !Z.eqb_refl.
    cbn [negb orb EvtchnList set_EvtchnList]. rewrite Hfind. reflexivity. }
  unfold IoctlEvtchnClose. rewrite !Z.eqb_refl.
  cbn [negb orb EvtchnList set_EvtchnList]. rewrite Hfind.
  assert (Hlist : RemoveEvtchnEntry c (EvtchnList Fdo ++ [c]) = EvtchnList Fdo).
  { unfold RemoveEvtchnEntry. rewrite filter_app.
    rewrite filter_cons_False by (intros H; apply H; reflexivity).
    rewrite filter_nil, app_nil_r. apply filter_keeps_all.
    eapply Forall_forall. eapply Forall_impl; [exact Hfresh|].
    intros w Hw. rewrite Hself. exact Hw. }
  rewrite Hlist, set_EvtchnList_back. split; [reflexivity|].
  cbn. rewrite Href, Hal, Hopen. repeat split; reflexivity.
Qed.

(** X13. A channel bound, notified and closed.  When a bind handler has
    succeeded with a port that the file object had no channel for, and the
    pool has given a block that is no channel of the list: a Notify for that
    port by the same file object sends on the channel that Open gave; a
    Close for that port by the same file object succeeds, closes that
    channel, dereferences the event object that the bind referenced, frees
    the context that the bind allocated, and leaves the FDO as it was
    before the bind. *)
Theorem bind_then_notify_then_close (L : Layout) (L2 : IoctlLayout)
    (io : IO_ENV) (Fdo Fdo1 : XENIFACE_FDO)
    (InLen OutLen FileObject LocalPort : Z) (status : NTSTATUS)
    (Info : option Z) (tr1 : list io_event) :
  (exists In,
      IoctlEvtchnBindUnbound L2 io Fdo In InLen OutLen FileObject
      = (status, Fdo1, Some LocalPort, Info, tr1))
  \/ (exists In,
        IoctlEvtchnBindInterdomain L2 io Fdo In InLen OutLen FileObject
        = (status, Fdo1, Some LocalPort, Info, tr1)) ->
  EvtchnFindChannel (EvtchnList Fdo) LocalPort FileObject = None ->
  Forall (fun c => Evtchn_Self c <> AllocEvtchnContext io) (EvtchnList Fdo) ->
  exists Channel tr2,
    opened tr1 = [Channel]
    /\ IoctlEvtchnNotify L2 Fdo1 LocalPort (sizeof_EVTCHN_NOTIFY_IN L2) 0
         FileObject
       = (STATUS_SUCCESS,
          [EvAcquireLock EvtchnLock; EvEvtchnSend Channel;
           EvReleaseLock EvtchnLock])
    /\ IoctlEvtchnClose L Fdo1 LocalPort (sizeof_EVTCHN_CLOSE_IN L) 0
         FileObject
       = (STATUS_SUCCESS, Fdo, tr2)
    /\ closed tr2 = opened tr1
    /\ dereferenced tr2 = referenced tr1
    /\ released tr2 = allocated (kernel_events tr1).
Proof.
  intros [[In Hbind]|[In Hbind]] Hnone Hfresh.
  - exact (EvtchnBind_then_close L L2 io Fdo Fdo1 _ _ _ _ _ InLen OutLen
             FileObject LocalPort status Info tr1 Hbind Hnone Hfresh).
  - exact (EvtchnBind_then_close L L2 io Fdo Fdo1 _ _ _ _ _ InLen OutLen
             FileObject LocalPort status Info tr1 Hbind Hnone Hfresh).
Qed.

Lemma bind_then_notify_then_close_witness :
  exists Fdo1 tr1 Channel tr2,
    IoctlEvtchnBindUnbound example_ioctl_layout example_io example_busy_Fdo
      (example_bind_unbound_in 0) 16 4 1
    = (STATUS_SUCCESS, Fdo1, Some 7, Some 4, tr1)
    /\ opened tr1 = [Channel]
    /\ IoctlEvtchnNotify example_ioctl_layout Fdo1 7 4 0 1
       = (STATUS_SUCCESS,
          [EvAcquireLock EvtchnLock; EvEvtchnSend Channel;
           EvReleaseLock EvtchnLock])
    /\ IoctlEvtchnClose example_layout Fdo1 7 4 0 1
       = (STATUS_SUCCESS, example_busy_Fdo, tr2)
    /\ closed tr2 = opened tr1
    /\ dereferenced tr2 = referenced tr1
    /\ released tr2 = allocated (kernel_events tr1).
Proof.
  eexists _, _.
  destruct (bind_then_notify_then_close example_layout example_ioctl_layout
              example_io example_busy_Fdo _ 16 4 1 7 STATUS_SUCCESS (Some 4) _
              (or_introl (ex_intro _ (example_bind_unbound_in 0) eq_refl)))
    as (Channel & tr2 & H).
  - reflexivity.
  - repeat constructor; discriminate.
  - exists Channel, tr2. split; [reflexivity | exact H].
Defined.


(** ** Looking a channel up *)

(** X14. EvtchnFindChannel gives the first channel of the list that has the
    port and, unless the file object asked for is NULL, that owner; with a
    NULL file object the owner is not looked at. *)
Theorem EvtchnFindChannel_first_match
    (List : list XENIFACE_EVTCHN_CONTEXT) (LocalPort FileObject : Z) :
  EvtchnFindChannel List LocalPort FileObject
  = head (filter (fun c => Evtchn_LocalPort c = LocalPort
                           /\ (FileObject = NULL
                               \/ Evtchn_FileObject c = FileObject)) List).
Proof.
  induction List as [|c List IH]; [reflexivity|]. cbn [EvtchnFindChannel].
  destruct (Z.eqb_spec (Evtchn_LocalPort c) LocalPort) as [Hp|Hp]; cbn [negb].
  - destruct (Z.eqb_spec FileObject NULL) as [Hf|Hf]; cbn [negb andb].
    + rewrite filter_cons_True by (split; [assumption | left; assumption]).
      reflexivity.
    + destruct (Z.eqb_spec (Evtchn_FileObject c) FileObject) as [Ho|Ho];
        cbn [negb].
      * rewrite filter_cons_True by (split; [assumption | right; assumption]).
        reflexivity.
      * rewrite filter_cons_False by (intros [_ [?|?]]; contradiction).
        exact IH.
  - rewrite filter_cons_False by (intros [? _]; contradiction). exact IH.
Qed.

Lemma EvtchnFindChannel_none (List : list XENIFACE_EVTCHN_CONTEXT)
    (LocalPort FileObject : Z) :
  FileObject <> NULL ->
  Forall (fun c => Evtchn_LocalPort c = LocalPort ->
                   Evtchn_FileObject c <> FileObject) List ->
  EvtchnFindChannel List LocalPort FileObject = None.
Proof.
  intros Hf. induction List as [|c List IH]; intros Hall; [reflexivity|].
  apply Forall_cons in Hall as [Hc Hall]. cbn [EvtchnFindChannel].
  destruct (Z.eqb_spec (Evtchn_LocalPort c) LocalPort) as [Hp|Hp]; cbn [negb];
    [|exact (IH Hall)].
  destruct (Z.eqb_spec FileObject NULL); [contradiction|].
  destruct (Z.eqb_spec (Evtchn_FileObject c) FileObject) as [Ho|Ho];
    [exact (False_ind _ (Hc Hp Ho))|].
  cbn [negb andb]. exact (IH Hall).
Qed.

(** With no owner asked for, the lookup finds a channel as soon as the
    list has one with the port. *)
Lemma EvtchnFindChannel_any_owner (List : list XENIFACE_EVTCHN_CONTEXT)
    (LocalPort : Z) :
  (exists c, c ∈ List /\ Evtchn_LocalPort c = LocalPort) ->
  exists c, EvtchnFindChannel List LocalPort NULL = Some c
            /\ c ∈ List /\ Evtchn_LocalPort c = LocalPort.
Proof.
  induction List as [|d List IH]; intros (c & Hc & Hport).
  - apply elem_of_nil in Hc. contradiction.
  - cbn [EvtchnFindChannel].
    destruct (Z.eqb_spec (Evtchn_LocalPort d) LocalPort) as [E|E];
      cbn [negb andb].
    + rewrite Z.eqb_refl. cbn [negb andb].
      exists d. split; [reflexivity|]. split; [left | exact E].
    + apply elem_of_cons in Hc as [->|Hc]; [contradiction|].
      destruct (IH (ex_intro _ c (conj Hc Hport))) as (c' & -> & Hc' & Hp').
      exists c'. split; [reflexivity|]. split; [right; exact Hc' | exact Hp'].
Qed.

(** X15. The owner filter of the channel requests, and where it is absent.
    When no channel with the port belongs to the calling file object,
    Notify and Close answer STATUS_NOT_FOUND and Unmask answers
    STATUS_INVALID_PARAMETER; the three take the channel lock and release
    it, make no call to the event-channel interface, and Close leaves the
    FDO as it is.  The filter is that of the three requests only: the
    teardown of a grant or of a foreign mapping whose NotifyPort is that
    port looks the channel up with no owner (GnttabFreeGrant and
    GnttabFreeMap pass a NULL file object), and if the list has a channel
    with the port it sends on one, which belongs to another file object. *)
Theorem channel_owner_filter_and_teardown_notify (L : Layout)
    (L2 : IoctlLayout) (Fdo : XENIFACE_FDO) (LocalPort FileObject : Z) :
  FileObject <> NULL ->
  Forall (fun c => Evtchn_LocalPort c = LocalPort ->
                   Evtchn_FileObject c <> FileObject) (EvtchnList Fdo) ->
  let locked := [EvAcquireLock EvtchnLock; EvReleaseLock EvtchnLock] in
  IoctlEvtchnNotify L2 Fdo LocalPort (sizeof_EVTCHN_NOTIFY_IN L2) 0 FileObject
  = (STATUS_NOT_FOUND, locked)
  /\ IoctlEvtchnUnmask L2 Fdo LocalPort (sizeof_EVTCHN_UNMASK_IN L2) 0 FileObject
     = (STATUS_INVALID_PARAMETER, locked)
  /\ IoctlEvtchnClose L Fdo LocalPort (sizeof_EVTCHN_CLOSE_IN L) 0 FileObject
     = (STATUS_NOT_FOUND, Fdo, locked)
  /\ ((exists c, c ∈ EvtchnList Fdo /\ Evtchn_LocalPort c = LocalPort) ->
      exists c,
        c ∈ EvtchnList Fdo /\ Evtchn_LocalPort c = LocalPort
        /\ Evtchn_FileObject c <> FileObject
        /\ (forall g,
              flag_set (Grant_Flags g) XENIFACE_GNTTAB_USE_NOTIFY_PORT = true ->
              Grant_NotifyPort g = LocalPort ->
              EvEvtchnSend (Evtchn_Channel c) ∈ GnttabFreeGrant Fdo g)
        /\ (forall m,
              flag_set (Map_Flags m) XENIFACE_GNTTAB_USE_NOTIFY_PORT = true ->
              Map_NotifyPort m = LocalPort ->
              EvEvtchnSend (Evtchn_Channel c) ∈ GnttabFreeMap Fdo m)).
Proof.
  intros Hf Hall locked.
  pose proof (EvtchnFindChannel_none _ _ _ Hf Hall) as Hnone.
  unfold IoctlEvtchnNotify, EvtchnNotify, IoctlEvtchnUnmask, IoctlEvtchnClose.
  rewrite !Z.eqb_refl. cbn [negb orb]. rewrite Hnone.
  split; [reflexivity|]. split; [reflexivity|]. split; [reflexivity|].
  intros Hex.
  destruct (EvtchnFindChannel_any_owner _ _ Hex) as (c & Hfind & Hc & Hport).
  exists c. split; [exact Hc|]. split; [exact Hport|]. split.
  { rewrite Forall_forall in Hall. exact (Hall c Hc Hport). }
  assert (Hsend : forall Flags KernelVa Offset,
             flag_set Flags XENIFACE_GNTTAB_USE_NOTIFY_PORT = true ->
             EvEvtchnSend (Evtchn_Channel c)
             ∈ GnttabNotify Fdo Flags KernelVa Offset LocalPort).
  { intros Flags KernelVa Offset Hflag. unfold GnttabNotify, EvtchnNotify.
    rewrite Hflag, Hfind. cbn [snd]. apply elem_of_app. right.
    right. left. }
  split.
  - intros g Hflag Hp. unfold GnttabFreeGrant. apply elem_of_app. left.
    rewrite Hp. apply Hsend. exact Hflag.
  - intros m Hflag Hp. unfold GnttabFreeMap. apply elem_of_app. left.
    rewrite Hp. apply Hsend. exact Hflag.
Qed.

(** File object 1 asks for port 6, which is a channel of file object 2: the
    three requests find nothing, and the teardown of a grant that names
    port 6 sends on that channel. *)
Lemma channel_owner_filter_and_teardown_notify_witness :
  IoctlEvtchnNotify example_ioctl_layout example_busy_Fdo 6 4 0 1
  = (STATUS_NOT_FOUND, [EvAcquireLock EvtchnLock; EvReleaseLock EvtchnLock])
  /\ IoctlEvtchnUnmask example_ioctl_layout example_busy_Fdo 6 4 0 1
     = (STATUS_INVALID_PARAMETER,
        [EvAcquireLock EvtchnLock; EvReleaseLock EvtchnLock])
  /\ IoctlEvtchnClose example_layout example_busy_Fdo 6 4 0 1
     = (STATUS_NOT_FOUND, example_busy_Fdo,
        [EvAcquireLock EvtchnLock; EvReleaseLock EvtchnLock])
  /\ exists c,
       c ∈ EvtchnList example_busy_Fdo /\ Evtchn_LocalPort c = 6
       /\ Evtchn_FileObject c <> 1
       /\ EvEvtchnSend (Evtchn_Channel c)
          ∈ GnttabFreeGrant example_busy_Fdo
              {| Grant_Self := 0x1000;
                 Grant_Process := 0x7000;
                 Grant_RequestId := 42;
                 Grant_RemoteDomain := 1;
                 Grant_NumberPages := 2;
                 Grant_Flags := XENIFACE_GNTTAB_USE_NOTIFY_PORT;
                 Grant_NotifyOffset := 0;
                 Grant_NotifyPort := 6;
                 Grant_GrantsVa := 0x2000;
                 Grant_Grants := [0x5000; 0x5001];
                 Grant_KernelVa := 0x100000;
                 Grant_Mdl := 0x3000;
                 Grant_UserVa := 0x20000 |}.
Proof.
  destruct (channel_owner_filter_and_teardown_notify example_layout
              example_ioctl_layout example_busy_Fdo 6 1)
    as (Hnotify & Hunmask & Hclose & Hgap).
  - discriminate.
  - repeat constructor; cbn; intros; discriminate.
  - split; [exact Hnotify|]. split; [exact Hunmask|]. split; [exact Hclose|].
    destruct Hgap as (c & Hc & Hport & Howner & Hgrant & _).
    { exists (example_channel 0x9400 2 6).
      split; [right; left | reflexivity]. }
    exists c. split; [exact Hc|]. split; [exact Hport|].
    split; [exact Howner|]. apply Hgrant; reflexivity.
Defined.

(** ** A grant or a map from the request that makes it to the request that
       ends it *)

Lemma completed_app (a b : list event) :
  completed (a ++ b) = completed a ++ completed b.
Proof. apply omap_app. Qed.

Lemma user_mapped_app (a b : list event) :
  user_mapped (a ++ b) = user_mapped a ++ user_mapped b.
Proof. apply omap_app. Qed.

Lemma user_unmapped_app (a b : list event) :
  user_unmapped (a ++ b) = user_unmapped a ++ user_unmapped b.
Proof. apply omap_app. Qed.

Ltac trace_norm2 :=
  rewrite ?acquired_app, ?revoked_app, ?allocated_app, ?released_app,
          ?mapped_app, ?unmapped_app, ?completed_app, ?user_mapped_app,
          ?user_unmapped_app.

Lemma RevokeForward_quiet (Grants : list Z) :
  forall count Page,
    released (RevokeForward Grants count Page) = []
    /\ completed (RevokeForward Grants count Page) = []
    /\ user_unmapped (RevokeForward Grants count Page) = [].
Proof.
  induction count as [|count IH]; intros Page; [repeat split|].
  destruct (IH (S Page)) as (H1 & H2 & H3). cbn [RevokeForward].
  repeat split; cbn; assumption.
Qed.

Lemma GnttabNotify_quiet (Fdo : XENIFACE_FDO)
    (Flags KernelVa Offset Port : Z) :
  released (GnttabNotify Fdo Flags KernelVa Offset Port) = []
  /\ completed (GnttabNotify Fdo Flags KernelVa Offset Port) = []
  /\ user_unmapped (GnttabNotify Fdo Flags KernelVa Offset Port) = [].
Proof.
  unfold GnttabNotify, EvtchnNotify.
  destruct (flag_set Flags XENIFACE_GNTTAB_USE_NOTIFY_OFFSET);
    destruct (flag_set Flags XENIFACE_GNTTAB_USE_NOTIFY_PORT);
    try destruct (EvtchnFindChannel _ _ _); repeat split.
Qed.

Lemma PermitLoop_quiet (env : KERNEL_ENV) (d : Z) (ro : bool) :
  forall (count Page : nat) (Grants : list Z) failed Page' Grants' tr,
    PermitLoop env d ro count Page Grants = (failed, Page', Grants', tr) ->
    completed tr = [] /\ user_mapped tr = [].
Proof.
  induction count as [|count IH]; intros Page Grants failed Page' Grants' tr H;
    cbn [PermitLoop] in H.
  - injection H as <- <- <- <-. split; reflexivity.
  - destruct (GnttabPermit env Page) as [status entry].
    destruct (NT_SUCCESS status).
    + destruct (PermitLoop env d ro count (S Page) _) as [[[r P1] G1] tr1] eqn:E.
      injection H as <- <- <- <-. destruct (IH _ _ _ _ _ _ E) as [H1 H2].
      split; cbn; assumption.
    + injection H as <- <- <- <-. split; reflexivity.
Qed.

(** The shape of a PermitForeignAccess that parks its request. *)
Lemma PermitForeignAccess_pending (L : Layout) (env : KERNEL_ENV)
    (Fdo Fdo1 : XENIFACE_FDO) (In : XENIFACE_GNTTAB_PERMIT_FOREIGN_ACCESS_IN)
    (InLen OutLen Irp : Z) (tr1 : list event) :
  MapLockedPages env <> MapRaised STATUS_PENDING ->
  IoctlGnttabPermitForeignAccess L env Fdo In InLen OutLen Irp
  = (STATUS_PENDING, Fdo1, tr1) ->
  exists g,
    Fdo1 = set_IrpQueue Fdo (Concurrent env (IrpQueue Fdo)
             ++ [{| Irp := Irp; DriverContext := GrantContext g |}])
    /\ CsqPeekNextIrp (Concurrent env (IrpQueue Fdo))
         (ContextId (GrantContext g)) = None
    /\ Grant_Process g = PsGetCurrentProcess env
    /\ Grant_RequestId g = Permit_RequestId In
    /\ Grant_NumberPages g = Permit_NumberPages In
    /\ Grant_Grants g = acquired tr1
    /\ length (acquired tr1) = Z.to_nat (Permit_NumberPages In)
    /\ allocated tr1 = [Grant_Self g; Grant_GrantsVa g; Grant_KernelVa g;
                        Grant_Mdl g]
    /\ released tr1 = []
    /\ completed tr1 = []
    /\ user_mapped tr1 = [(Grant_UserVa g, Grant_Mdl g)]
    /\ user_unmapped tr1 = []
    /\ mapped tr1 = [].
Proof.
  intros Hraise. unfold IoctlGnttabPermitForeignAccess.
  destruct (negb (InLen =? _) || negb (OutLen =? 0)); [discriminate|].
  destruct (GnttabBadPages _ _ _); [discriminate|].
  destruct (AllocContext env =? NULL) eqn:Hc; [discriminate|].
  destruct (FindGnttabIrp Fdo _); [discriminate|].
  destruct (AllocGrants env =? NULL) eqn:Hg; [discriminate|].
  destruct (AllocKernelVa env =? NULL) eqn:Hk; [discriminate|].
  destruct (AllocMdl env =? NULL) eqn:Hm; [discriminate|].
  destruct (PermitLoop _ _ _ _ _ _) as [[[failed Page] Grants] shared] eqn:Hloop.
  destruct (PermitLoop_only_permits _ _ _ _ _ _ _ _ _ _ Hloop) as [Hsa Hsr].
  destruct (PermitLoop_quiet _ _ _ _ _ _ _ _ _ _ Hloop) as [Hsc Hsm].
  assert (Hsf : mapped shared = []).
  { clear - Hloop. revert Hloop.
    generalize (replicate (Z.to_nat (Permit_NumberPages In)) NULL).
    generalize 0%nat. generalize (Z.to_nat (Permit_NumberPages In)).
    intros count. revert failed Page Grants shared.
    induction count as [|count IH]; intros failed Page Grants shared P0 G0 H;
      cbn [PermitLoop] in H.
    - injection H as <- <- <- <-. reflexivity.
    - destruct (GnttabPermit env P0) as [status entry].
      destruct (NT_SUCCESS status).
      + destruct (PermitLoop env _ _ count (S P0) _) as [[[r P1] G1] tr1] eqn:E.
        injection H as <- <- <- <-. cbn. eapply IH. exact E.
      + injection H as <- <- <- <-. reflexivity. }
  assert (Hsu : user_unmapped shared = []).
  { clear - Hloop. revert Hloop.
    generalize (replicate (Z.to_nat (Permit_NumberPages In)) NULL).
    generalize 0%nat. generalize (Z.to_nat (Permit_NumberPages In)).
    intros count. revert failed Page Grants shared.
    induction count as [|count IH]; intros failed Page Grants shared P0 G0 H;
      cbn [PermitLoop] in H.
    - injection H as <- <- <- <-. reflexivity.
    - destruct (GnttabPermit env P0) as [status entry].
      destruct (NT_SUCCESS status).
      + destruct (PermitLoop env _ _ count (S P0) _) as [[[r P1] G1] tr1] eqn:E.
        injection H as <- <- <- <-. cbn. eapply IH. exact E.
      + injection H as <- <- <- <-. reflexivity. }
  pose proof Hloop as Hinv.
  apply PermitLoop_inv in Hinv; [|rewrite length_replicate; lia].
  destruct Hinv as (Hlen & _ & Htake & _ & Hdone & Hfail).
  destruct failed as [status|].
  { intros [= Hst _ _]. destruct (Hfail _ eq_refl) as (_ & _ & Hbad).
    rewrite Hst in Hbad. discriminate. }
  assert (HG : Grants = acquired shared /\
               length (acquired shared) = Z.to_nat (Permit_NumberPages In)).
  { rewrite take_0 in Htake. cbn [app plus] in Htake, Hdone.
    rewrite (Hdone eq_refl) in Htake.
    rewrite take_ge in Htake by (rewrite Hlen, length_replicate; lia).
    rewrite <- Htake.
    split; [reflexivity|]. rewrite Hlen, length_replicate. reflexivity. }
  destruct HG as [HG HGlen].
  destruct (MapLockedPages env) as [UserVa|code] eqn:Hmap.
  2:{ intros [= Hst _ _]. subst code. contradiction. }
  destruct (UserVa =? NULL) eqn:Hu; [discriminate|].
  match goal with
  | |- context [CsqInsertIrpEx ?q ?p] =>
      destruct (CsqInsertIrpEx_cases q p) as [[-> Hpeek]|[-> Hpeek]]
  end;
    cbn [NT_SUCCESS STATUS_SUCCESS STATUS_INVALID_PARAMETER ntstatus
         Z.leb Z.ltb Z.compare Z.opp Z.sub Z.add Z.pos_sub]; [|discriminate].
  intros [= <- <-]. eexists. split; [reflexivity|]. split; [exact Hpeek|].
  cbn [Grant_Process Grant_RequestId Grant_Self Grant_GrantsVa Grant_KernelVa
       Grant_Mdl Grant_UserVa Grant_NumberPages Grant_Grants].
  match goal with
  | |- context [?a :: ?b :: ?c :: ?d :: (shared ++ ?m) ++ ?i] =>
      change (a :: b :: c :: d :: (shared ++ m) ++ i)
        with ([a; b; c; d] ++ (shared ++ m) ++ i)
  end.
  trace_norm2. rewrite Hsa, Hsr, Hsc, Hsm, Hsu, Hsf. cbn.
  rewrite Hc, Hg, Hk, Hm, Hu, !app_nil_r.
  repeat split; first [reflexivity | assumption].
Qed.

Lemma set_IrpQueue_twice (Fdo : XENIFACE_FDO) (q q' : list PENDING_IRP) :
  set_IrpQueue (set_IrpQueue Fdo q) q' = set_IrpQueue Fdo q'.
Proof. reflexivity. Qed.

(** X16. A grant from PermitForeignAccess to RevokeForeignAccess.  When
    PermitForeignAccess has parked its request, a RevokeForeignAccess with
    the same id from the same process succeeds and takes the request out of
    the queue; it gives back the four blocks the first request took, the
    last taken first; it undoes the user-space mapping; it revokes the
    entries acquired; and the parked request, which the first handler left
    uncompleted, is completed once, with STATUS_SUCCESS. *)
Theorem grant_lifecycle_returns_every_resource (L : Layout) (env : KERNEL_ENV)
    (Fdo Fdo1 : XENIFACE_FDO) (In : XENIFACE_GNTTAB_PERMIT_FOREIGN_ACCESS_IN)
    (InLen OutLen Irp : Z) (tr1 : list event) :
  MapLockedPages env <> MapRaised STATUS_PENDING ->
  IoctlGnttabPermitForeignAccess L env Fdo In InLen OutLen Irp
  = (STATUS_PENDING, Fdo1, tr1) ->
  exists tr2,
    (forall OutLen2,
        IoctlGnttabRevokeForeignAccess L env Fdo1 (Permit_RequestId In)
          (sizeof_REVOKE_FOREIGN_ACCESS_IN L) OutLen2
        = (STATUS_SUCCESS, set_IrpQueue Fdo (Concurrent env (IrpQueue Fdo)), tr2))
    /\ released tr2 = reverse (allocated tr1)
    /\ user_unmapped tr2 = user_mapped tr1
    /\ revoked tr2 = acquired tr1
    /\ completed tr1 = []
    /\ completed tr2 = [(Irp, STATUS_SUCCESS)].
Proof.
  intros Hraise Hrun.
  destruct (PermitForeignAccess_pending L env Fdo Fdo1 In InLen OutLen Irp tr1
              Hraise Hrun)
    as (g & -> & Hpeek & Hproc & Hid & Hn & Hgr & Hlen & Hal & Hrel & Hco
        & Hum & Huu & _).
  eexists. split.
  { intros OutLen2. rewrite <- Hid.
    rewrite (RevokeForeignAccess_parked L env
               (set_IrpQueue Fdo (Concurrent env (IrpQueue Fdo)
                  ++ [{| Irp := Irp; DriverContext := GrantContext g |}]))
               (Concurrent env (IrpQueue Fdo))
               Irp OutLen2 g eq_refl Hpeek Hproc).
    rewrite set_IrpQueue_twice. reflexivity. }
  set (Fdo1 := set_IrpQueue Fdo _).
  destruct (GnttabNotify_quiet Fdo1 (Grant_Flags g) (Grant_KernelVa g)
              (Grant_NotifyOffset g) (Grant_NotifyPort g)) as (N1 & N2 & N3).
  destruct (RevokeForward_quiet (Grant_Grants g)
              (Z.to_nat (Grant_NumberPages g)) 0) as (R1 & R2 & R3).
  destruct (GnttabNotify_silent Fdo1 (Grant_Flags g) (Grant_KernelVa g)
              (Grant_NotifyOffset g) (Grant_NotifyPort g))
    as (_ & N4 & _).
  assert (Hrev : revoked (GnttabFreeGrant Fdo1 g) = Grant_Grants g).
  { apply GnttabFreeGrant_revoked. rewrite Hgr, Hn. exact Hlen. }
  change (EvCsqRemove Irp :: GnttabFreeGrant Fdo1 g
          ++ [EvCompleteRequest Irp STATUS_SUCCESS])
    with ([EvCsqRemove Irp] ++ GnttabFreeGrant Fdo1 g
          ++ [EvCompleteRequest Irp STATUS_SUCCESS]).
  trace_norm2. rewrite Hrev. unfold GnttabFreeGrant. trace_norm2.
  rewrite N1, N2, N3, R1, R2, R3, Hal, Hum, Hgr. cbn. rewrite ?app_nil_r.
  repeat split; first [reflexivity | assumption].
Qed.

Lemma grant_lifecycle_returns_every_resource_witness :
  exists Fdo1 tr1 tr2,
    IoctlGnttabPermitForeignAccess example_layout (example_env None)
      example_Fdo (example_permit_in 2 0 0) 24 0 77
    = (STATUS_PENDING, Fdo1, tr1)
    /\ (forall OutLen2,
          IoctlGnttabRevokeForeignAccess example_layout (example_env None)
            Fdo1 42 4 OutLen2
          = (STATUS_SUCCESS, example_Fdo, tr2))
    /\ released tr2 = reverse (allocated tr1)
    /\ user_unmapped tr2 = user_mapped tr1
    /\ revoked tr2 = acquired tr1
    /\ completed tr1 = []
    /\ completed tr2 = [(77, STATUS_SUCCESS)].
Proof.
  eexists _, _.
  destruct (grant_lifecycle_returns_every_resource example_layout
              (example_env None) example_Fdo _ (example_permit_in 2 0 0)
              24 0 77 _ ltac:(discriminate) eq_refl) as (tr2 & H).
  exists tr2. split; [reflexivity | exact H].
Defined.

Lemma io_mapped_app (a b : list event) :
  io_mapped (a ++ b) = io_mapped a ++ io_mapped b.
Proof. apply omap_app. Qed.

Lemma io_unmapped_app (a b : list event) :
  io_unmapped (a ++ b) = io_unmapped a ++ io_unmapped b.
Proof. apply omap_app. Qed.

(** The shape of a MapForeignPages that parks its request. *)
Lemma MapForeignPages_pending (L : Layout) (env : KERNEL_ENV)
    (Fdo Fdo1 : XENIFACE_FDO) (In : XENIFACE_GNTTAB_MAP_FOREIGN_PAGES_IN)
    (InLen OutLen Irp : Z) (tr1 : list event) :
  MapLockedPages env <> MapRaised STATUS_PENDING ->
  IoctlGnttabMapForeignPages L env Fdo In InLen OutLen Irp
  = (STATUS_PENDING, Fdo1, tr1) ->
  exists m,
    Fdo1 = set_IrpQueue Fdo (Concurrent env (IrpQueue Fdo)
             ++ [{| Irp := Irp; DriverContext := MapContext m |}])
    /\ CsqPeekNextIrp (Concurrent env (IrpQueue Fdo))
         (ContextId (MapContext m)) = None
    /\ Map_Process m = PsGetCurrentProcess env
    /\ Map_RequestId m = MapIn_RequestId In
    /\ Map_UserVa m <> NULL
    /\ allocated tr1 = [Map_Self m; Map_Mdl m]
    /\ mapped tr1 = [Map_Address m]
    /\ io_mapped tr1
       = [(Map_KernelVa m, ULONG_mul (Map_NumberPages m) PAGE_SIZE)]
    /\ user_mapped tr1 = [(Map_UserVa m, Map_Mdl m)]
    /\ completed tr1 = []
    /\ acquired tr1 = [].
Proof.
  intros Hraise. unfold IoctlGnttabMapForeignPages.
  destruct (_ || _); [discriminate|].
  destruct (GnttabBadPages _ _ _); [discriminate|].
  destruct (negb (InLen =? _)); [discriminate|].
  destruct (AllocContext env =? NULL) eqn:Hc; [discriminate|].
  destruct (FindGnttabIrp Fdo _); [discriminate|].
  destruct (GnttabMap env) as [status Address].
  destruct (NT_SUCCESS status) eqn:Hok; cbn [negb].
  2:{ intros [= Hst _ _]. rewrite Hst in Hok. discriminate. }
  destruct (MapIoSpace env =? NULL) eqn:Hk; [discriminate|].
  destruct (AllocMdl env =? NULL) eqn:Hm; [discriminate|].
  destruct (MapLockedPages env) as [UserVa|code] eqn:Hmap.
  2:{ intros [= Hst _ _]. subst code. contradiction. }
  destruct (Z.eqb_spec UserVa NULL) as [|Hu]; [discriminate|].
  match goal with
  | |- context [CsqInsertIrpEx ?q ?p] =>
      destruct (CsqInsertIrpEx_cases q p) as [[-> Hpeek]|[-> Hpeek]]
  end;
    cbn [NT_SUCCESS STATUS_SUCCESS STATUS_INVALID_PARAMETER ntstatus
         Z.leb Z.ltb Z.compare Z.opp Z.sub Z.add Z.pos_sub]; [|discriminate].
  intros [= <- <-]. eexists. split; [reflexivity|]. split; [exact Hpeek|].
  assert (Hu' : (UserVa =? NULL) = false) by (apply Z.eqb_neq; exact Hu).
  cbn. rewrite Hc, Hk, Hm, Hok, Hu'.
  repeat split; first [reflexivity | assumption].
Qed.

(** X17. A foreign mapping from MapForeignPages to UnmapForeignPages.  When
    MapForeignPages has parked its request: GetMapResult with the same id
    from the same process gives the user address of the mapping; an
    UnmapForeignPages with that id succeeds and takes the request out of the
    queue; it undoes the user-space mapping and the I/O-space mapping, the
    latter with the byte count it was made with, unmaps the foreign pages
    and gives back the MDL and the context; the parked request is completed
    once, with STATUS_SUCCESS; and after that GetMapResult finds nothing
    under the id. *)
Theorem map_lifecycle_returns_every_resource (L : Layout) (env : KERNEL_ENV)
    (Fdo Fdo1 : XENIFACE_FDO) (In : XENIFACE_GNTTAB_MAP_FOREIGN_PAGES_IN)
    (InLen OutLen Irp : Z) (tr1 : list event) :
  MapLockedPages env <> MapRaised STATUS_PENDING ->
  IoctlGnttabMapForeignPages L env Fdo In InLen OutLen Irp
  = (STATUS_PENDING, Fdo1, tr1) ->
  exists UserVa Mdl Fdo2 tr2,
    user_mapped tr1 = [(UserVa, Mdl)]
    /\ IoctlGnttabGetMapResult L env Fdo1 (MapIn_RequestId In)
         (sizeof_GET_MAP_RESULT_IN L) (sizeof_GET_MAP_RESULT_OUT L)
       = (STATUS_SUCCESS, Some UserVa, Some (sizeof_GET_MAP_RESULT_OUT L))
    /\ IoctlGnttabUnmapForeignPages L env Fdo1 (MapIn_RequestId In)
         (sizeof_UNMAP_FOREIGN_PAGES_IN L) 0
       = Some (STATUS_SUCCESS, Fdo2, tr2)
    /\ Fdo2 = set_IrpQueue Fdo (Concurrent env (IrpQueue Fdo))
    /\ released tr2 = reverse (allocated tr1)
    /\ user_unmapped tr2 = user_mapped tr1
    /\ io_unmapped tr2 = io_mapped tr1
    /\ unmapped tr2 = mapped tr1
    /\ completed tr1 = []
    /\ completed tr2 = [(Irp, STATUS_SUCCESS)]
    /\ IoctlGnttabGetMapResult L env Fdo2 (MapIn_RequestId In)
         (sizeof_GET_MAP_RESULT_IN L) (sizeof_GET_MAP_RESULT_OUT L)
       = (STATUS_NOT_FOUND, None, None).
Proof.
  intros Hraise Hrun.
  destruct (MapForeignPages_pending L env Fdo Fdo1 In InLen OutLen Irp tr1
              Hraise Hrun)
    as (m & -> & Hpeek & Hproc & Hid & Hu & Hal & Hma & Hio & Hum & Hco & _).
  set (Q := Concurrent env (IrpQueue Fdo)) in *.
  set (P := {| Irp := Irp; DriverContext := MapContext m |}) in *.
  assert (HId : ContextId (DriverContext P)
                = {| Id_Type := XENIFACE_CONTEXT_MAP;
                     Id_Process := PsGetCurrentProcess env;
                     Id_RequestId := MapIn_RequestId In |})
    by (cbn; rewrite Hproc, Hid; reflexivity).
  exists (Map_UserVa m), (Map_Mdl m). eexists _, _.
  split; [exact Hum|]. split.
  { unfold IoctlGnttabGetMapResult. rewrite !Z.eqb_refl. cbn [negb orb].
    cbn [IrpQueue set_IrpQueue]. rewrite <- HId.
    rewrite (CsqPeekNextIrp_snoc Q P Hpeek). reflexivity. }
  split.
  { rewrite <- Hid.
    exact (UnmapForeignPages_parked L env (set_IrpQueue Fdo (Q ++ [P])) Q
             Irp 0 m eq_refl Hpeek Hproc). }
  split; [reflexivity|].
  set (Fdo1 := set_IrpQueue Fdo (Q ++ [P])).
  destruct (GnttabNotify_quiet Fdo1 (Map_Flags m) (Map_KernelVa m)
              (Map_NotifyOffset m) (Map_NotifyPort m)) as (N1 & N2 & N3).
  destruct (GnttabNotify_silent Fdo1 (Map_Flags m) (Map_KernelVa m)
              (Map_NotifyOffset m) (Map_NotifyPort m))
    as (_ & _ & _ & N4 & _).
  assert (N5 : io_unmapped (GnttabNotify Fdo1 (Map_Flags m) (Map_KernelVa m)
                              (Map_NotifyOffset m) (Map_NotifyPort m)) = []).
  { unfold GnttabNotify, EvtchnNotify.
    destruct (flag_set _ XENIFACE_GNTTAB_USE_NOTIFY_OFFSET);
      destruct (flag_set _ XENIFACE_GNTTAB_USE_NOTIFY_PORT);
      try destruct (EvtchnFindChannel _ _ _); reflexivity. }
  change (EvCsqRemove Irp :: GnttabFreeMap Fdo1 m
          ++ [EvCompleteRequest Irp STATUS_SUCCESS])
    with ([EvCsqRemove Irp] ++ GnttabFreeMap Fdo1 m
          ++ [EvCompleteRequest Irp STATUS_SUCCESS]).
  unfold GnttabFreeMap. trace_norm2. rewrite !io_unmapped_app.
  rewrite N1, N2, N3, N4, N5, Hal, Hum, Hio, Hma. cbn.
  repeat split; try reflexivity; try assumption.
  unfold IoctlGnttabGetMapResult. rewrite !Z.eqb_refl. cbn [negb orb].
  cbn [IrpQueue set_IrpQueue]. rewrite <- HId.
  change (ContextId (DriverContext P)) with (ContextId (MapContext m)).
  rewrite Hpeek. reflexivity.
Qed.

Lemma map_lifecycle_returns_every_resource_witness :
  exists Fdo1 tr1 UserVa Mdl Fdo2 tr2,
    IoctlGnttabMapForeignPages example_layout (example_env None) example_Fdo
      (example_map_in 2 0 0) 36 0 77
    = (STATUS_PENDING, Fdo1, tr1)
    /\ user_mapped tr1 = [(UserVa, Mdl)]
    /\ IoctlGnttabGetMapResult example_layout (example_env None) Fdo1 42 4 8
       = (STATUS_SUCCESS, Some UserVa, Some 8)
    /\ IoctlGnttabUnmapForeignPages example_layout (example_env None) Fdo1
         42 4 0
       = Some (STATUS_SUCCESS, Fdo2, tr2)
    /\ Fdo2 = example_Fdo
    /\ released tr2 = reverse (allocated tr1)
    /\ user_unmapped tr2 = user_mapped tr1
    /\ io_unmapped tr2 = io_mapped tr1
    /\ unmapped tr2 = mapped tr1
    /\ completed tr1 = []
    /\ completed tr2 = [(77, STATUS_SUCCESS)]
    /\ IoctlGnttabGetMapResult example_layout (example_env None) Fdo2 42 4 8
       = (STATUS_NOT_FOUND, None, None).
Proof.
  eexists _, _.
  destruct (map_lifecycle_returns_every_resource example_layout
              (example_env None) example_Fdo _ (example_map_in 2 0 0)
              36 0 77 _ ltac:(discriminate) eq_refl)
    as (UserVa & Mdl & Fdo2 & tr2 & H).
  exists UserVa, Mdl, Fdo2, tr2. split; [reflexivity | exact H].
Defined.

(** X18. A parked request belongs to the process that made it.  When no request
    in the queue was parked by the calling process, the four requests that
    look a parked request up by id find nothing, whatever the id: they
    answer STATUS_NOT_FOUND, leave the queue as it is, and revoke, unmap and
    complete nothing. *)
Theorem parked_requests_are_private_to_their_process (L : Layout)
    (env : KERNEL_ENV) (Fdo : XENIFACE_FDO) (RequestId OutLen : Z) :
  Forall (fun p => Id_Process (ContextId (DriverContext p))
                   <> PsGetCurrentProcess env) (IrpQueue Fdo) ->
  IoctlGnttabGetGrantResult L env Fdo RequestId
    (sizeof_GET_GRANT_RESULT_IN L) OutLen
  = (STATUS_NOT_FOUND, Fdo, None, 0)
  /\ IoctlGnttabGetMapResult L env Fdo RequestId
       (sizeof_GET_MAP_RESULT_IN L) (sizeof_GET_MAP_RESULT_OUT L)
     = (STATUS_NOT_FOUND, None, None)
  /\ IoctlGnttabRevokeForeignAccess L env Fdo RequestId
       (sizeof_REVOKE_FOREIGN_ACCESS_IN L) OutLen
     = (STATUS_NOT_FOUND, Fdo, [])
  /\ IoctlGnttabUnmapForeignPages L env Fdo RequestId
       (sizeof_UNMAP_FOREIGN_PAGES_IN L) OutLen
     = Some (STATUS_NOT_FOUND, Fdo, []).
Proof.
  intros Hall.
  assert (Hpeek : forall Type_,
             CsqPeekNextIrp (IrpQueue Fdo)
               {| Id_Type := Type_; Id_Process := PsGetCurrentProcess env;
                  Id_RequestId := RequestId |} = None).
  { intros Type_. apply CsqPeekNextIrp_None. intros p Hp E.
    rewrite Forall_forall in Hall. apply (Hall p Hp). rewrite E. reflexivity. }
  assert (Hrem : forall Type_,
             fst (IoCsqRemoveNextIrp (IrpQueue Fdo)
                    {| Id_Type := Type_; Id_Process := PsGetCurrentProcess env;
                       Id_RequestId := RequestId |}) = None).
  { intros Type_. rewrite IoCsqRemoveNextIrp_peek. apply Hpeek. }
  unfold IoctlGnttabGetGrantResult, IoctlGnttabGetMapResult,
    IoctlGnttabRevokeForeignAccess, IoctlGnttabUnmapForeignPages.
  rewrite !Z.eqb_refl. cbn [negb orb andb]. rewrite !Hpeek.
  rewrite (proj2 (Z.ltb_ge _ _)) by lia.
  pose proof (Hrem XENIFACE_CONTEXT_GRANT) as Hg.
  pose proof (Hrem XENIFACE_CONTEXT_MAP) as Hm.
  destruct (IoCsqRemoveNextIrp (IrpQueue Fdo)
              {| Id_Type := XENIFACE_CONTEXT_GRANT |}) as [r1 q1].
  destruct (IoCsqRemoveNextIrp (IrpQueue Fdo)
              {| Id_Type := XENIFACE_CONTEXT_MAP |}) as [r2 q2].
  cbn [fst] in Hg, Hm. subst r1 r2. repeat split; reflexivity.
Qed.

Lemma parked_requests_are_private_to_their_process_witness :
  IoctlGnttabGetGrantResult example_layout example_env_other_process
    example_parked_Fdo 42 4 24
  = (STATUS_NOT_FOUND, example_parked_Fdo, None, 0)
  /\ IoctlGnttabGetMapResult example_layout example_env_other_process
       example_parked_Fdo 42 4 8
     = (STATUS_NOT_FOUND, None, None)
  /\ IoctlGnttabRevokeForeignAccess example_layout example_env_other_process
       example_parked_Fdo 42 4 24
     = (STATUS_NOT_FOUND, example_parked_Fdo, [])
  /\ IoctlGnttabUnmapForeignPages example_layout example_env_other_process
       example_parked_Fdo 42 4 24
     = Some (STATUS_NOT_FOUND, example_parked_Fdo, []).
Proof.
  apply (parked_requests_are_private_to_their_process example_layout
           example_env_other_process example_parked_Fdo 42 24).
  repeat constructor. vm_compute. discriminate.
Defined.

(** ** The dispatcher *)

Lemma kernel_events_Kernel (tr : list event) : kernel_events (Kernel <$> tr) = tr.
Proof.
  induction tr as [|e tr IH]; [reflexivity|]. cbn. f_equal. exact IH.
Qed.

Lemma NT_SUCCESS_not_pending (status : NTSTATUS) :
  NT_SUCCESS status = false -> status <> STATUS_PENDING.
Proof. intros H ->. discriminate. Qed.

Lemma RevokeBackward_completed (Grants : list Z) (Page : nat) :
  completed (RevokeBackward Grants Page) = [].
Proof.
  induction Page as [|Page IH]; [reflexivity|]. cbn [RevokeBackward].
  rewrite completed_app, IH. reflexivity.
Qed.

(** PermitForeignAccess completes no request; it answers STATUS_PENDING
    exactly when it has parked the request it was given. *)
Lemma PermitForeignAccess_parks_or_fails (L : Layout) (env : KERNEL_ENV)
    (Fdo : XENIFACE_FDO) (In : XENIFACE_GNTTAB_PERMIT_FOREIGN_ACCESS_IN)
    (InLen OutLen CurrentIrp : Z) :
  MapLockedPages env <> MapRaised STATUS_PENDING ->
  let '(status, Fdo1, tr) :=
    IoctlGnttabPermitForeignAccess L env Fdo In InLen OutLen CurrentIrp in
  completed tr = []
  /\ ((status = STATUS_PENDING
       /\ exists c, Fdo1 = set_IrpQueue Fdo (Concurrent env (IrpQueue Fdo)
                             ++ [{| Irp := CurrentIrp; DriverContext := c |}]))
      \/ (status <> STATUS_PENDING
          /\ (Fdo1 = Fdo
              \/ Fdo1 = set_IrpQueue Fdo (Concurrent env (IrpQueue Fdo))))).
Proof.
  intros Hraise. unfold IoctlGnttabPermitForeignAccess.
  destruct (negb (InLen =? _) || negb (OutLen =? 0));
    [split; [reflexivity | right; split; [discriminate | left; reflexivity]]|].
  destruct (GnttabBadPages _ _ _);
    [split; [reflexivity | right; split; [discriminate | left; reflexivity]]|].
  destruct (AllocContext env =? NULL);
    [split; [reflexivity | right; split; [discriminate | left; reflexivity]]|].
  destruct (FindGnttabIrp Fdo _);
    [split; [reflexivity | right; split; [discriminate | left; reflexivity]]|].
  destruct (AllocGrants env =? NULL);
    [split; [reflexivity | right; split; [discriminate | left; reflexivity]]|].
  destruct (AllocKernelVa env =? NULL);
    [split; [reflexivity | right; split; [discriminate | left; reflexivity]]|].
  destruct (AllocMdl env =? NULL);
    [split; [reflexivity | right; split; [discriminate | left; reflexivity]]|].
  destruct (PermitLoop _ _ _ _ _ _) as [[[failed Page] Grants] shared] eqn:Hloop.
  destruct (PermitLoop_quiet _ _ _ _ _ _ _ _ _ _ Hloop) as [Hsc _].
  pose proof (RevokeBackward_completed Grants Page) as Hrb.
  apply PermitLoop_inv in Hloop; [|rewrite length_replicate; lia].
  destruct Hloop as (_ & _ & _ & _ & _ & Hfail).
  assert (Hunwind : forall pre,
             completed pre = [] ->
             completed (pre ++ Permit_fail8 (AllocContext env) (AllocGrants env)
                                  (AllocKernelVa env) (AllocMdl env) Grants Page)
             = []).
  { intros pre Hpre. unfold Permit_fail8. rewrite !completed_app, Hpre, Hrb.
    reflexivity. }
  assert (H8 : forall tail, completed tail = [] ->
             completed ((((([EvAllocatePool (AllocContext env)
                                (sizeof_GRANT_CONTEXT L)]
                  ++ [EvAllocatePool (AllocGrants env)
                        (SIZE_T L (Permit_NumberPages In * sizeof_PVOID L))])
                  ++ [EvAllocatePool (AllocKernelVa env)
                        (ULONG_mul (Permit_NumberPages In) PAGE_SIZE)])
                  ++ [EvAllocateMdl (AllocMdl env) (AllocKernelVa env)
                        (ULONG_mul (Permit_NumberPages In) PAGE_SIZE)])
                  ++ shared) ++ tail) = []).
  { intros tail Ht. rewrite !completed_app, Hsc, Ht. reflexivity. }
  destruct failed as [status|].
  { destruct (Hfail _ eq_refl) as (_ & _ & Hbad). split.
    - apply Hunwind. rewrite <- (app_nil_r (_ ++ shared)). apply H8. reflexivity.
    - right. split; [apply NT_SUCCESS_not_pending; exact Hbad | left; reflexivity]. }
  destruct (MapLockedPages env) as [UserVa|code] eqn:Hmap.
  2:{ split.
      - apply Hunwind. apply H8. reflexivity.
      - right. split; [intros ->; contradiction | left; reflexivity]. }
  destruct (UserVa =? NULL).
  { split.
    - apply Hunwind. apply H8. reflexivity.
    - right. split; [discriminate | left; reflexivity]. }
  match goal with
  | |- context [CsqInsertIrpEx ?q ?p] =>
      destruct (CsqInsertIrpEx_cases q p) as [[-> Hpeek]|[-> Hpeek]]
  end;
    cbn [NT_SUCCESS STATUS_SUCCESS STATUS_INVALID_PARAMETER ntstatus
         Z.leb Z.ltb Z.compare Z.opp Z.sub Z.add Z.pos_sub].
  - split.
    + rewrite completed_app. rewrite H8 by reflexivity. reflexivity.
    + left. split; [reflexivity|]. eexists. reflexivity.
  - split.
    + unfold Permit_fail11.
      rewrite (completed_app _ (_ :: _)).
      rewrite completed_app, H8 by reflexivity. cbn [app].
      change (completed (EvUnmapLockedPages ?u ?m :: ?t)) with (completed t).
      apply (Hunwind []). reflexivity.
    + right. split; [discriminate | right; reflexivity].
Qed.

Lemma MapForeignPages_parks_or_fails (L : Layout) (env : KERNEL_ENV)
    (Fdo : XENIFACE_FDO) (In : XENIFACE_GNTTAB_MAP_FOREIGN_PAGES_IN)
    (InLen OutLen CurrentIrp : Z) :
  MapLockedPages env <> MapRaised STATUS_PENDING ->
  let '(status, Fdo1, tr) :=
    IoctlGnttabMapForeignPages L env Fdo In InLen OutLen CurrentIrp in
  completed tr = []
  /\ ((status = STATUS_PENDING
       /\ exists c, Fdo1 = set_IrpQueue Fdo (Concurrent env (IrpQueue Fdo)
                             ++ [{| Irp := CurrentIrp; DriverContext := c |}]))
      \/ (status <> STATUS_PENDING
          /\ (Fdo1 = Fdo
              \/ Fdo1 = set_IrpQueue Fdo (Concurrent env (IrpQueue Fdo))))).
Proof.
  intros Hraise. unfold IoctlGnttabMapForeignPages.
  destruct (_ || _);
    [split; [reflexivity | right; split; [discriminate | left; reflexivity]]|].
  destruct (GnttabBadPages _ _ _);
    [split; [reflexivity | right; split; [discriminate | left; reflexivity]]|].
  destruct (negb (InLen =? _));
    [split; [reflexivity | right; split; [discriminate | left; reflexivity]]|].
  destruct (AllocContext env =? NULL);
    [split; [reflexivity | right; split; [discriminate | left; reflexivity]]|].
  destruct (FindGnttabIrp Fdo _);
    [split; [reflexivity | right; split; [discriminate | left; reflexivity]]|].
  destruct (GnttabMap env) as [status Address].
  destruct (NT_SUCCESS status) eqn:Hok; cbn [negb].
  2:{ split; [reflexivity|]. right.
      split; [apply NT_SUCCESS_not_pending; exact Hok | left; reflexivity]. }
  destruct (MapIoSpace env =? NULL);
    [split; [reflexivity | right; split; [discriminate | left; reflexivity]]|].
  destruct (AllocMdl env =? NULL);
    [split; [reflexivity | right; split; [discriminate | left; reflexivity]]|].
  destruct (MapLockedPages env) as [UserVa|code] eqn:Hmap.
  2:{ split; [reflexivity|]. right.
      split; [intros ->; contradiction | left; reflexivity]. }
  destruct (UserVa =? NULL);
    [split; [reflexivity | right; split; [discriminate | left; reflexivity]]|].
  match goal with
  | |- context [CsqInsertIrpEx ?q ?p] =>
      destruct (CsqInsertIrpEx_cases q p) as [[-> Hpeek]|[-> Hpeek]]
  end;
    cbn [NT_SUCCESS STATUS_SUCCESS STATUS_INVALID_PARAMETER ntstatus
         Z.leb Z.ltb Z.compare Z.opp Z.sub Z.add Z.pos_sub].
  - split; [reflexivity|]. left. split; [reflexivity|]. eexists. reflexivity.
  - split; [reflexivity|]. right. split; [discriminate | right; reflexivity].
Qed.

Lemma GnttabFreeGrant_completed (Fdo : XENIFACE_FDO)
    (g : XENIFACE_GRANT_CONTEXT) : completed (GnttabFreeGrant Fdo g) = [].
Proof.
  unfold GnttabFreeGrant. rewrite !completed_app.
  destruct (GnttabNotify_quiet Fdo (Grant_Flags g) (Grant_KernelVa g)
              (Grant_NotifyOffset g) (Grant_NotifyPort g)) as (_ & -> & _).
  destruct (RevokeForward_quiet (Grant_Grants g)
              (Z.to_nat (Grant_NumberPages g)) 0) as (_ & -> & _).
  reflexivity.
Qed.

Lemma GnttabFreeMap_completed (Fdo : XENIFACE_FDO)
    (m : XENIFACE_MAP_CONTEXT) : completed (GnttabFreeMap Fdo m) = [].
Proof.
  unfold GnttabFreeMap. rewrite !completed_app.
  destruct (GnttabNotify_quiet Fdo (Map_Flags m) (Map_KernelVa m)
              (Map_NotifyOffset m) (Map_NotifyPort m)) as (_ & -> & _).
  reflexivity.
Qed.

Lemma IoCsqRemoveNextIrp_cases (Queue : list PENDING_IRP)
    (Id : XENIFACE_CONTEXT_ID) :
  match IoCsqRemoveNextIrp Queue Id with
  | (None, _) => True
  | (Some p, rest) => p ∈ Queue /\ (forall q, q ∈ rest -> q ∈ Queue)
  end.
Proof.
  induction Queue as [|q Queue IH]; [exact I|]. cbn [IoCsqRemoveNextIrp].
  destruct (ContextIdEq _ _).
  - split; [left | intros q' Hq'; right; exact Hq'].
  - destruct (IoCsqRemoveNextIrp Queue Id) as [[p|] rest]; [|exact I].
    destruct IH as [Hp Hrest]. split; [right; exact Hp|].
    intros q' Hq'. apply elem_of_cons in Hq' as [->|Hq']; [left|].
    right. apply Hrest. exact Hq'.
Qed.

Lemma CaptureUserBuffer_status (io : IO_ENV) (Buffer Length : Z) :
  let '(status, CapturedBuffer, PathBytes, tr) :=
    __CaptureUserBuffer io Buffer Length in
  completed (kernel_events tr) = []
  /\ (NT_SUCCESS status = true ->
      status = STATUS_SUCCESS \/ CapturedBuffer = Some NULL).
Proof.
  unfold __CaptureUserBuffer. destruct (Length =? 0).
  { split; [reflexivity | left; reflexivity]. }
  destruct (AllocCapture io =? NULL).
  { split; [reflexivity | discriminate]. }
  destruct (ProbeAndCopy _ _ _).
  - split; [reflexivity | left; reflexivity].
  - split; [reflexivity | right; reflexivity].
Qed.

Lemma FreeCapturedBuffer_completed (Path : Z) :
  completed (kernel_events (__FreeCapturedBuffer Path)) = [].
Proof. unfold __FreeCapturedBuffer. destruct (negb _); reflexivity. Qed.

Lemma not_parked_after_removal (CurrentIrp : Z) (Queue rest : list PENDING_IRP) :
  CurrentIrp ∉ (Irp <$> Queue) ->
  (forall q, q ∈ rest -> q ∈ Queue) ->
  CurrentIrp ∉ (Irp <$> rest).
Proof.
  intros Hnew Hsub Hin. apply Hnew.
  apply list_elem_of_fmap in Hin as (q & -> & Hq).
  apply list_elem_of_fmap. exists q. split; [reflexivity | apply Hsub; exact Hq].
Qed.

Lemma parked_is_not_current (CurrentIrp : Z) (Queue : list PENDING_IRP)
    (p : PENDING_IRP) :
  CurrentIrp ∉ (Irp <$> Queue) -> p ∈ Queue -> Irp p <> CurrentIrp.
Proof.
  intros Hnew Hp E. apply Hnew. apply list_elem_of_fmap.
  exists p. split; [symmetry; exact E | exact Hp].
Qed.

(** What the [switch] leaves: a request is either parked, with
    STATUS_PENDING, or not parked, with another status; and the handlers
    complete only requests that were parked before. *)
Lemma XenIfaceIoctlSwitch_outcome (L : Layout) (L2 : IoctlLayout)
    (env : KERNEL_ENV) (io : IO_ENV) (Fdo Fdo' : XENIFACE_FDO)
    (Request : IOCTL_REQUEST) (InLen OutLen FileObject CurrentIrp : Z)
    (status : NTSTATUS) (Out : IOCTL_OUTPUT) (Info : option Z)
    (tr : list io_event) :
  CurrentIrp ∉ (Irp <$> IrpQueue Fdo) ->
  CurrentIrp ∉ (Irp <$> Concurrent env (IrpQueue Fdo)) ->
  never_pending env io ->
  XenIfaceIoctlSwitch L L2 env io Fdo Request InLen OutLen FileObject CurrentIrp
  = Some (status, Fdo', Out, Info, tr) ->
  Forall (fun c => c.1 <> CurrentIrp) (completed (kernel_events tr))
  /\ ((status = STATUS_PENDING /\ CurrentIrp ∈ (Irp <$> IrpQueue Fdo'))
      \/ (status <> STATUS_PENDING /\ CurrentIrp ∉ (Irp <$> IrpQueue Fdo'))).
Proof.
  intros Hnew Hnew' (Hprintf & Hremove & Hperm & Hwatch & Hraise).
  assert (Hleave : forall (st : NTSTATUS) (F : XENIFACE_FDO) (o : IOCTL_OUTPUT)
                          (i : option Z) (t : list io_event),
             st <> STATUS_PENDING -> IrpQueue F = IrpQueue Fdo ->
             completed (kernel_events t) = [] ->
             Some (st, F, o, i, t) = Some (status, Fdo', Out, Info, tr) ->
             Forall (fun c => c.1 <> CurrentIrp) (completed (kernel_events tr))
             /\ ((status = STATUS_PENDING
                  /\ CurrentIrp ∈ (Irp <$> IrpQueue Fdo'))
                 \/ (status <> STATUS_PENDING
                     /\ CurrentIrp ∉ (Irp <$> IrpQueue Fdo')))).
  { intros st F o i t Hst HF Ht [= <- <- <- <- <-]. rewrite Ht, HF.
    split; [constructor | right; split; assumption]. }
  destruct Request; cbn [XenIfaceIoctlSwitch].
  - (* store read *)
    unfold IoctlStoreRead. destruct (InLen =? 0);
      [apply Hleave; [discriminate | reflexivity | reflexivity]|].
    destruct (__IsValidStr _ _ _) as [[|]|]; cbn [mbind option_bind negb];
      [| apply Hleave; [discriminate | reflexivity | reflexivity]
       | discriminate].
    destruct (StoreRead io _) as [[st Value] ValueBytes].
    destruct (NT_SUCCESS st) eqn:Hok; cbn [negb];
      [| apply Hleave; [apply NT_SUCCESS_not_pending; assumption
                       | reflexivity | reflexivity]].
    destruct (strlen ValueBytes); cbn [mbind option_bind]; [|discriminate].
    destruct (OutLen =? 0);
      [apply Hleave; [discriminate | reflexivity | reflexivity]|].
    destruct (OutLen <? _);
      [apply Hleave; [discriminate | reflexivity | reflexivity]|].
    destruct (RtlCopyMemory _ _ _); cbn [mbind option_bind]; [|discriminate].
    destruct (poke _ _ _); cbn [mbind option_bind]; [|discriminate].
    apply Hleave; [discriminate | reflexivity | reflexivity].
  - (* store write *)
    unfold IoctlStoreWrite. destruct (_ || _);
      [apply Hleave; [discriminate | reflexivity | reflexivity]|].
    destruct (__IsValidStr _ _ _) as [[|]|]; cbn [mbind option_bind negb];
      [| apply Hleave; [discriminate | reflexivity | reflexivity]
       | discriminate].
    destruct (strlen Buffer); cbn [mbind option_bind]; [|discriminate].
    destruct (__IsValidStr _ _ _) as [[|]|]; cbn [mbind option_bind negb];
      [| apply Hleave; [discriminate | reflexivity | reflexivity]
       | discriminate].
    apply Hleave; [apply Hprintf | reflexivity | reflexivity].
  - (* store directory *)
    unfold IoctlStoreDirectory. destruct (InLen =? 0);
      [apply Hleave; [discriminate | reflexivity | reflexivity]|].
    destruct (__IsValidStr _ _ _) as [[|]|]; cbn [mbind option_bind negb];
      [| apply Hleave; [discriminate | reflexivity | reflexivity]
       | discriminate].
    destruct (StoreDirectory io _) as [[st Value] ValueBytes].
    destruct (NT_SUCCESS st) eqn:Hok; cbn [negb];
      [| apply Hleave; [apply NT_SUCCESS_not_pending; assumption
                       | reflexivity | reflexivity]].
    destruct (__MultiSzLen ValueBytes) as [[n Count]|];
      cbn [mbind option_bind]; [|discriminate].
    destruct (OutLen =? 0);
      [apply Hleave; [discriminate | reflexivity | reflexivity]|].
    destruct (OutLen <? _);
      [apply Hleave; [discriminate | reflexivity | reflexivity]|].
    destruct (RtlCopyMemory _ _ _); cbn [mbind option_bind]; [|discriminate].
    destruct (poke _ _ _); cbn [mbind option_bind]; [|discriminate].
    destruct (poke _ _ _); cbn [mbind option_bind]; [|discriminate].
    apply Hleave; [discriminate | reflexivity | reflexivity].
  - (* store remove *)
    unfold IoctlStoreRemove. destruct (_ || _);
      [apply Hleave; [discriminate | reflexivity | reflexivity]|].
    destruct (__IsValidStr _ _ _) as [[|]|]; cbn [mbind option_bind negb];
      [| apply Hleave; [discriminate | reflexivity | reflexivity]
       | discriminate].
    apply Hleave; [apply Hremove | reflexivity | reflexivity].
  - (* set permissions *)
    unfold IoctlStoreSetPermissions. destruct (_ || _);
      [apply Hleave; [discriminate | reflexivity | reflexivity]|].
    destruct (InLen <? _);
      [apply Hleave; [discriminate | reflexivity | reflexivity]|].
    destruct (_ || _);
      [apply Hleave; [discriminate | reflexivity | reflexivity]|].
    pose proof (CaptureUserBuffer_status io (SetPerm_Path In)
                  (SetPerm_PathLength In)) as Hcap.
    destruct (__CaptureUserBuffer io _ _) as [[[st Captured] PathBytes] tr4].
    destruct Hcap as [Hc4 Hst].
    destruct (NT_SUCCESS st) eqn:Hok; cbn [negb];
      [| apply Hleave; [apply NT_SUCCESS_not_pending; assumption
                       | reflexivity | assumption]].
    destruct Captured as [Path|]; cbn [mbind option_bind]; [|discriminate].
    destruct (Z.eqb_spec Path NULL) as [|HP]; [discriminate|].
    destruct (Hst eq_refl) as [->|[= ?]]; [|contradiction].
    destruct (poke _ _ _); cbn [mbind option_bind]; [|discriminate].
    destruct (PermissionsLoop _ _ _ _) as [[|]|]; cbn [mbind option_bind];
      [| |discriminate].
    + apply Hleave; [discriminate | reflexivity|].
      rewrite kernel_events_app, completed_app, Hc4,
        FreeCapturedBuffer_completed. reflexivity.
    + apply Hleave; [apply Hperm | reflexivity|].
      rewrite !kernel_events_app, !completed_app, Hc4,
        FreeCapturedBuffer_completed. reflexivity.
  - (* add watch *)
    unfold IoctlStoreAddWatch. destruct (_ || _);
      [apply Hleave; [discriminate | reflexivity | reflexivity]|].
    destruct (_ || _);
      [apply Hleave; [discriminate | reflexivity | reflexivity]|].
    pose proof (CaptureUserBuffer_status io (AddWatch_Path In)
                  (AddWatch_PathLength In)) as Hcap.
    destruct (__CaptureUserBuffer io _ _) as [[[st Captured] PathBytes] tr3].
    destruct Hcap as [Hc3 _].
    destruct (NT_SUCCESS st) eqn:Hok; cbn [negb];
      [| apply Hleave; [apply NT_SUCCESS_not_pending; assumption
                       | reflexivity | assumption]].
    destruct Captured as [Path|]; cbn [mbind option_bind]; [|discriminate].
    destruct (Path =? NULL); [discriminate|].
    destruct (poke _ _ _) as [PathBytes'|]; cbn [mbind option_bind];
      [|discriminate].
    unfold AddWatch_fail6, AddWatch_fail5, AddWatch_fail4.
    destruct (AllocStoreContext io =? NULL).
    { apply Hleave; [discriminate | reflexivity|].
      rewrite !kernel_events_app, !completed_app, Hc3,
        FreeCapturedBuffer_completed. reflexivity. }
    destruct (ObReferenceObjectByHandle io _) as [st2 Event].
    destruct (NT_SUCCESS st2) eqn:Hok2; cbn [negb].
    2:{ apply Hleave; [apply NT_SUCCESS_not_pending; assumption | reflexivity|].
        change (Kernel (EvFreePool (AllocStoreContext io))
                :: __FreeCapturedBuffer Path)
          with ([Kernel (EvFreePool (AllocStoreContext io))]
                ++ __FreeCapturedBuffer Path).
        rewrite !kernel_events_app, !completed_app, Hc3,
          FreeCapturedBuffer_completed. reflexivity. }
    pose proof (Hwatch (c_str PathBytes') Event) as Hw.
    destruct (StoreWatchAdd io _ _) as [st3 Watch]. cbn [fst] in Hw.
    destruct (NT_SUCCESS st3) eqn:Hok3; cbn [negb].
    2:{ apply Hleave; [apply NT_SUCCESS_not_pending; assumption | reflexivity|].
        change (Kernel (EvDereferenceObject Event)
                :: Kernel (EvFreePool (AllocStoreContext io))
                :: __FreeCapturedBuffer Path)
          with ([Kernel (EvDereferenceObject Event);
                 Kernel (EvFreePool (AllocStoreContext io))]
                ++ __FreeCapturedBuffer Path).
        rewrite !kernel_events_app, !completed_app, Hc3,
          FreeCapturedBuffer_completed. reflexivity. }
    apply Hleave; [exact Hw | reflexivity|].
    rewrite !kernel_events_app, !completed_app, Hc3,
      FreeCapturedBuffer_completed. reflexivity.
  - (* remove watch *)
    unfold IoctlStoreRemoveWatch. destruct (_ || _);
      [apply Hleave; [discriminate | reflexivity | reflexivity]|].
    destruct (RemoveWatchWalk _ _ _ _ _) as [[c|] List].
    + destruct (negb _);
        (apply Hleave; [discriminate | reflexivity
                       | rewrite kernel_events_Kernel; reflexivity]).
    + apply Hleave; [discriminate | reflexivity
                    | rewrite kernel_events_Kernel; reflexivity].
  - (* bind unbound *)
    unfold IoctlEvtchnBindUnbound, EvtchnBind. destruct (_ || _);
      [apply Hleave; [discriminate | reflexivity | reflexivity]|].
    destruct (AllocEvtchnContext io =? NULL);
      [apply Hleave; [discriminate | reflexivity | reflexivity]|].
    destruct (ObReferenceObjectByHandle io _) as [st2 Event].
    destruct (NT_SUCCESS st2) eqn:Hok2; cbn [negb];
      [| apply Hleave; [apply NT_SUCCESS_not_pending; assumption
                       | reflexivity | reflexivity]].
    destruct (EvtchnOpen io _ _ =? NULL);
      [apply Hleave; [discriminate | reflexivity | reflexivity]|].
    apply Hleave; [discriminate | reflexivity|].
    destruct (BindUnbound_Mask In =? 0); reflexivity.
  - (* bind interdomain *)
    unfold IoctlEvtchnBindInterdomain, EvtchnBind. destruct (_ || _);
      [apply Hleave; [discriminate | reflexivity | reflexivity]|].
    destruct (AllocEvtchnContext io =? NULL);
      [apply Hleave; [discriminate | reflexivity | reflexivity]|].
    destruct (ObReferenceObjectByHandle io _) as [st2 Event].
    destruct (NT_SUCCESS st2) eqn:Hok2; cbn [negb];
      [| apply Hleave; [apply NT_SUCCESS_not_pending; assumption
                       | reflexivity | reflexivity]].
    destruct (EvtchnOpen io _ _ =? NULL);
      [apply Hleave; [discriminate | reflexivity | reflexivity]|].
    apply Hleave; [discriminate | reflexivity|].
    destruct (BindInterdomain_Mask In =? 0); reflexivity.
  - (* close *)
    unfold IoctlEvtchnClose. destruct (_ || _);
      [apply Hleave; [discriminate | reflexivity | reflexivity]|].
    destruct (EvtchnFindChannel _ _ _);
      (apply Hleave; [discriminate | reflexivity
                     | rewrite kernel_events_Kernel; reflexivity]).
  - (* notify *)
    unfold IoctlEvtchnNotify, EvtchnNotify. destruct (_ || _);
      [apply Hleave; [discriminate | reflexivity | reflexivity]|].
    destruct (EvtchnFindChannel _ _ _);
      (apply Hleave; [discriminate | reflexivity
                     | rewrite kernel_events_Kernel; reflexivity]).
  - (* unmask *)
    unfold IoctlEvtchnUnmask. destruct (_ || _);
      [apply Hleave; [discriminate | reflexivity | reflexivity]|].
    destruct (EvtchnFindChannel _ _ _);
      (apply Hleave; [discriminate | reflexivity
                     | rewrite kernel_events_Kernel; reflexivity]).
  - (* permit foreign access *)
    pose proof (PermitForeignAccess_parks_or_fails L env Fdo In InLen OutLen
                  CurrentIrp Hraise) as H.
    destruct (IoctlGnttabPermitForeignAccess _ _ _ _ _ _ _) as [[st F] t].
    destruct H as [Hc [(-> & c & ->)|(Hst & [->| ->])]].
    + intros [= <- <- <- <- <-]. rewrite kernel_events_Kernel, Hc.
      split; [constructor|]. left. split; [reflexivity|].
      cbn [IrpQueue set_IrpQueue]. rewrite fmap_app. apply elem_of_app.
      right. left.
    + apply Hleave; [assumption | reflexivity
                    | rewrite kernel_events_Kernel; assumption].
    + intros [= <- <- <- <- <-]. rewrite kernel_events_Kernel, Hc.
      split; [constructor|]. right. split; [assumption|].
      cbn [IrpQueue set_IrpQueue]. exact Hnew'.
  - (* get grant result *)
    unfold IoctlGnttabGetGrantResult. destruct (negb _);
      [apply Hleave; [discriminate | reflexivity | reflexivity]|].
    destruct (CsqPeekNextIrp _ _) as [p|];
      [|apply Hleave; [discriminate | reflexivity | reflexivity]].
    destruct (DriverContext p);
      [|apply Hleave; [discriminate | reflexivity | reflexivity]].
    destruct (negb _);
      apply Hleave; first [discriminate | reflexivity].
  - (* revoke foreign access *)
    unfold IoctlGnttabRevokeForeignAccess. destruct (negb _);
      [apply Hleave; [discriminate | reflexivity | reflexivity]|].
    match goal with
    | |- context [IoCsqRemoveNextIrp ?q ?i] =>
        pose proof (IoCsqRemoveNextIrp_cases q i) as Hrem;
        destruct (IoCsqRemoveNextIrp q i) as [[p|] rest]
    end; [|apply Hleave; [discriminate | reflexivity | reflexivity]].
    destruct Hrem as [Hp Hrest].
    destruct (DriverContext p) as [g|m];
      [|apply Hleave; [discriminate | reflexivity | reflexivity]].
    intros [= <- <- <- <- <-].
    match goal with
    | |- context [kernel_events ?t] =>
        change (kernel_events t) with (kernel_events (Kernel <$> (EvCsqRemove (Irp p) :: GnttabFreeGrant Fdo g ++ [EvCompleteRequest (Irp p) STATUS_SUCCESS])));
        rewrite (kernel_events_Kernel (EvCsqRemove (Irp p) :: GnttabFreeGrant Fdo g ++ [EvCompleteRequest (Irp p) STATUS_SUCCESS]))
    end.
    change (EvCsqRemove (Irp p) :: GnttabFreeGrant Fdo g
            ++ [EvCompleteRequest (Irp p) STATUS_SUCCESS])
      with ([EvCsqRemove (Irp p)] ++ GnttabFreeGrant Fdo g
            ++ [EvCompleteRequest (Irp p) STATUS_SUCCESS]).
    rewrite !completed_app, GnttabFreeGrant_completed. cbn. split.
    + constructor; [|constructor]. cbn.
      exact (parked_is_not_current _ _ _ Hnew Hp).
    + right. split; [discriminate|].
      exact (not_parked_after_removal _ _ _ Hnew Hrest).
  - (* map foreign pages *)
    pose proof (MapForeignPages_parks_or_fails L env Fdo In InLen OutLen
                  CurrentIrp Hraise) as H.
    destruct (IoctlGnttabMapForeignPages _ _ _ _ _ _ _) as [[st F] t].
    destruct H as [Hc [(-> & c & ->)|(Hst & [->| ->])]].
    + intros [= <- <- <- <- <-]. rewrite kernel_events_Kernel, Hc.
      split; [constructor|]. left. split; [reflexivity|].
      cbn [IrpQueue set_IrpQueue]. rewrite fmap_app. apply elem_of_app.
      right. left.
    + apply Hleave; [assumption | reflexivity
                    | rewrite kernel_events_Kernel; assumption].
    + intros [= <- <- <- <- <-]. rewrite kernel_events_Kernel, Hc.
      split; [constructor|]. right. split; [assumption|].
      cbn [IrpQueue set_IrpQueue]. exact Hnew'.
  - (* get map result *)
    unfold IoctlGnttabGetMapResult. destruct (_ || _);
      [apply Hleave; [discriminate | reflexivity | reflexivity]|].
    destruct (CsqPeekNextIrp _ _) as [p|];
      [|apply Hleave; [discriminate | reflexivity | reflexivity]].
    destruct (DriverContext p);
      apply Hleave; first [discriminate | reflexivity].
  - (* unmap foreign pages *)
    unfold IoctlGnttabUnmapForeignPages. destruct (_ && _);
      [apply Hleave; [discriminate | reflexivity | reflexivity]|].
    destruct (_ <? _); [discriminate|].
    match goal with
    | |- context [IoCsqRemoveNextIrp ?q ?i] =>
        pose proof (IoCsqRemoveNextIrp_cases q i) as Hrem;
        destruct (IoCsqRemoveNextIrp q i) as [[p|] rest]
    end; [|apply Hleave; [discriminate | reflexivity | reflexivity]].
    destruct Hrem as [Hp Hrest].
    destruct (DriverContext p) as [g|m];
      [apply Hleave; [discriminate | reflexivity | reflexivity]|].
    intros [= <- <- <- <- <-].
    match goal with
    | |- context [kernel_events ?t] =>
        change (kernel_events t) with (kernel_events (Kernel <$> (EvCsqRemove (Irp p) :: GnttabFreeMap Fdo m ++ [EvCompleteRequest (Irp p) STATUS_SUCCESS])));
        rewrite (kernel_events_Kernel (EvCsqRemove (Irp p) :: GnttabFreeMap Fdo m ++ [EvCompleteRequest (Irp p) STATUS_SUCCESS]))
    end.
    change (EvCsqRemove (Irp p) :: GnttabFreeMap Fdo m
            ++ [EvCompleteRequest (Irp p) STATUS_SUCCESS])
      with ([EvCsqRemove (Irp p)] ++ GnttabFreeMap Fdo m
            ++ [EvCompleteRequest (Irp p) STATUS_SUCCESS]).
    rewrite !completed_app, GnttabFreeMap_completed. cbn. split.
    + constructor; [|constructor]. cbn.
      exact (parked_is_not_current _ _ _ Hnew Hp).
    + right. split; [discriminate|].
      exact (not_parked_after_removal _ _ _ Hnew Hrest).
  - (* any other code *)
    apply Hleave; [discriminate | reflexivity | reflexivity].
Qed.

(** *** Every request in the buffer gets a result *)

Lemma strlen_lt (Str : list Z) (n : Z) :
  strlen Str = Some n -> 0 <= n < Z.of_nat (length Str).
Proof.
  revert n. induction Str as [|c Str IH]; intros n H; [discriminate|].
  cbn [strlen] in H. destruct (c =? 0).
  - injection H as <-. cbn [length]. lia.
  - destruct (strlen Str) as [k|]; [|discriminate].
    cbn [mbind option_bind] in H. injection H as <-.
    specialize (IH k eq_refl). cbn [length]. lia.
Qed.

Lemma RtlCopyMemory_length (Destination Source Buffer : list Z) (Length : Z) :
  RtlCopyMemory Destination Source Length = Some Buffer ->
  length Buffer = length Destination.
Proof.
  unfold RtlCopyMemory.
  destruct (Z.leb_spec Length (Z.of_nat (length Source))); [|discriminate].
  destruct (Z.leb_spec Length (Z.of_nat (length Destination)));
    [|discriminate].
  cbn [andb]. intros [= <-].
  rewrite length_app, length_take, length_drop. lia.
Qed.

Lemma RtlCopyMemory_in_bounds (Destination Source : list Z) (Length : Z) :
  Length <= Z.of_nat (length Source) ->
  Length <= Z.of_nat (length Destination) ->
  is_Some (RtlCopyMemory Destination Source Length).
Proof.
  intros H1 H2. unfold RtlCopyMemory.
  destruct (Z.leb_spec Length (Z.of_nat (length Source))); [|lia].
  destruct (Z.leb_spec Length (Z.of_nat (length Destination))); [|lia].
  eexists. reflexivity.
Qed.

Lemma poke_in_bounds (Buffer : list Z) (i v : Z) :
  0 <= i < Z.of_nat (length Buffer) ->
  exists Buffer', poke Buffer i v = Some Buffer'
                  /\ length Buffer' = length Buffer.
Proof.
  intros H. unfold poke.
  destruct (Z.leb_spec 0 i); [|lia].
  destruct (Z.ltb_spec i (Z.of_nat (length Buffer))); [|lia].
  eexists. split; [reflexivity|]. apply length_insert.
Qed.

(** The walk of __MultiSzLen: it counts at least the first NUL and stops
    before the end of the bytes it is given. *)
Lemma MultiSzLenLoop_bounds (Str : list Z) :
  forall Length Count n c,
    MultiSzLenLoop Str Length Count = Some (n, c) ->
    0 <= Length ->
    Length + Z.of_nat (length Str) < ULONG_MODULUS ->
    Length + 1 <= n /\ n + 1 <= Length + Z.of_nat (length Str).
Proof.
  induction Str as [|b Str IH]; intros Length Count n c H H0 Hmax;
    [discriminate|].
  cbn [MultiSzLenLoop] in H. cbn [length] in *.
  rewrite (ULONG_small (Length + 1)) in H by lia.
  destruct (b =? 0); cbn [negb] in H.
  - destruct Str as [|d Str']; [discriminate|].
    destruct (d =? 0); cbn [negb] in H.
    + injection H as <- _. cbn [length]. lia.
    + apply IH in H; [|lia|cbn [length] in *; lia]. cbn [length] in *. lia.
  - apply IH in H; [|lia|lia]. lia.
Qed.

Lemma IoctlStoreRead_returns (io : IO_ENV) (Buffer : list Z)
    (InLen OutLen : Z) :
  Z.of_nat (length Buffer) = Z.max InLen OutLen ->
  answers_in_bounds io ->
  is_Some (IoctlStoreRead io Buffer InLen OutLen).
Proof.
  intros Hlen (Hread & _ & _). unfold IoctlStoreRead.
  destruct (InLen =? 0); [eexists; reflexivity|].
  destruct (IsValidStr_in_bounds (isprint io) Buffer (Z.to_nat InLen))
    as [valid ->]; [lia|].
  cbn [mbind option_bind]. destruct valid; cbn [negb];
    [|eexists; reflexivity].
  specialize (Hread (c_str Buffer)).
  destruct (StoreRead io (c_str Buffer)) as [[status Value] ValueBytes].
  cbn [fst snd] in Hread.
  destruct (NT_SUCCESS status); cbn [negb]; [|eexists; reflexivity].
  destruct (Hread eq_refl) as [[n Hn] Hmax]. rewrite Hn.
  cbn [mbind option_bind]. apply strlen_lt in Hn.
  rewrite (ULONG_small n), (ULONG_small (n + 1)) by lia.
  destruct (OutLen =? 0); [eexists; reflexivity|].
  destruct (Z.ltb_spec OutLen (n + 1)); [eexists; reflexivity|].
  destruct (RtlCopyMemory_in_bounds Buffer ValueBytes (n + 1))
    as [Buffer1 H1]; [lia | lia|].
  rewrite H1. cbn [mbind option_bind].
  apply RtlCopyMemory_length in H1.
  replace (n + 1 - 1) with n by lia. rewrite (ULONG_small n) by lia.
  destruct (poke_in_bounds Buffer1 n 0) as (Buffer2 & -> & _); [lia|].
  eexists. reflexivity.
Qed.

Lemma IoctlStoreWrite_returns (io : IO_ENV) (Buffer : list Z)
    (InLen OutLen : Z) :
  Z.of_nat (length Buffer) = Z.max InLen OutLen ->
  0 <= InLen < ULONG_MODULUS ->
  is_Some (IoctlStoreWrite io Buffer InLen OutLen).
Proof.
  intros Hlen HIn. unfold IoctlStoreWrite.
  destruct (_ || _); [eexists; reflexivity|].
  destruct (__IsValidStr (isprint io) Buffer (Z.to_nat InLen))
    as [valid|] eqn:Hv.
  2:{ destruct (IsValidStr_in_bounds (isprint io) Buffer (Z.to_nat InLen))
        as [v Hv']; [lia | congruence]. }
  cbn [mbind option_bind]. destruct valid; cbn [negb];
    [|eexists; reflexivity].
  destruct (IsValidStr_true _ _ _ Hv) as (key & tail & -> & Hkey & Hp).
  rewrite (strlen_app _ _ (printable_nonzero _ _ Hp)).
  cbn [mbind option_bind].
  rewrite length_app in Hlen. cbn [length] in Hlen.
  rewrite (ULONG_small (Z.of_nat (length key))),
    (ULONG_small (Z.of_nat (length key) + 1)) by lia.
  rewrite (ULONG_small (InLen - (Z.of_nat (length key) + 1))) by lia.
  destruct (IsValidStr_in_bounds (isprint io)
              (drop (Z.to_nat (Z.of_nat (length key) + 1)) (key ++ 0 :: tail))
              (Z.to_nat (InLen - (Z.of_nat (length key) + 1))))
    as [valid2 ->].
  { rewrite length_drop, length_app. cbn [length]. lia. }
  cbn [mbind option_bind]. destruct valid2; eexists; reflexivity.
Qed.

Lemma IoctlStoreDirectory_returns (io : IO_ENV) (Buffer : list Z)
    (InLen OutLen : Z) :
  Z.of_nat (length Buffer) = Z.max InLen OutLen ->
  answers_in_bounds io ->
  is_Some (IoctlStoreDirectory io Buffer InLen OutLen).
Proof.
  intros Hlen (_ & Hdir & _). unfold IoctlStoreDirectory.
  destruct (InLen =? 0); [eexists; reflexivity|].
  destruct (IsValidStr_in_bounds (isprint io) Buffer (Z.to_nat InLen))
    as [valid ->]; [lia|].
  cbn [mbind option_bind]. destruct valid; cbn [negb];
    [|eexists; reflexivity].
  specialize (Hdir (c_str Buffer)).
  destruct (StoreDirectory io (c_str Buffer)) as [[status Value] ValueBytes].
  cbn [fst snd] in Hdir.
  destruct (NT_SUCCESS status); cbn [negb]; [|eexists; reflexivity].
  destruct (Hdir eq_refl) as [[[n Count] Hn] Hmax]. rewrite Hn.
  cbn [mbind option_bind].
  apply MultiSzLenLoop_bounds in Hn; [|lia|lia].
  rewrite (ULONG_small (n + 1)) by lia.
  destruct (OutLen =? 0); [eexists; reflexivity|].
  destruct (Z.ltb_spec OutLen (n + 1)); [eexists; reflexivity|].
  destruct (RtlCopyMemory_in_bounds Buffer ValueBytes (n + 1))
    as [Buffer1 H1]; [lia | lia|].
  rewrite H1. cbn [mbind option_bind].
  apply RtlCopyMemory_length in H1.
  rewrite (ULONG_small (n + 1 - 2)), (ULONG_small (n + 1 - 1)) by lia.
  destruct (poke_in_bounds Buffer1 (n + 1 - 2) 0) as (Buffer2 & -> & H2);
    [lia|].
  cbn [mbind option_bind].
  destruct (poke_in_bounds Buffer2 (n + 1 - 1) 0) as (Buffer3 & -> & _);
    [lia|].
  eexists. reflexivity.
Qed.

Lemma IoctlStoreRemove_returns (io : IO_ENV) (Buffer : list Z)
    (InLen OutLen : Z) :
  Z.of_nat (length Buffer) = Z.max InLen OutLen ->
  is_Some (IoctlStoreRemove io Buffer InLen OutLen).
Proof.
  intros Hlen. unfold IoctlStoreRemove.
  destruct (_ || _); [eexists; reflexivity|].
  destruct (IsValidStr_in_bounds (isprint io) Buffer (Z.to_nat InLen))
    as [valid ->]; [lia|].
  cbn [mbind option_bind]. destruct valid; eexists; reflexivity.
Qed.

Lemma IoctlStoreAddWatch_returns (L2 : IoctlLayout) (io : IO_ENV)
    (Fdo : XENIFACE_FDO) (In : XENIFACE_STORE_ADD_WATCH_IN)
    (InLen OutLen FileObject : Z) :
  0 <= AddWatch_PathLength In ->
  NT_SUCCESS (ProbeException io) = false ->
  is_Some (IoctlStoreAddWatch L2 io Fdo In InLen OutLen FileObject).
Proof.
  intros Hnonneg Hfault. unfold IoctlStoreAddWatch.
  destruct (_ || _); [eexists; reflexivity|].
  destruct (Z.eqb_spec (AddWatch_PathLength In) 0) as [|Hnz];
    [eexists; reflexivity|].
  destruct (Z.gtb_spec (AddWatch_PathLength In) XENSTORE_ABS_PATH_MAX)
    as [|Hmax]; [eexists; reflexivity|].
  cbn [orb].
  assert (Hpos : 0 < AddWatch_PathLength In) by lia.
  pose proof (CaptureUserBuffer_cases io (AddWatch_Path In)
                (AddWatch_PathLength In) Hpos) as Hcap.
  destruct (__CaptureUserBuffer io _ _) as [[[status Captured] PathBytes] tr3].
  destruct Hcap as [(-> & -> & Hpath & Hlen & _ & ->)
                   |[(-> & -> & Halloc & ->)|(-> & -> & Halloc & _ & ->)]].
  - change (negb (NT_SUCCESS STATUS_SUCCESS)) with false.
    cbn [mbind option_bind].
    destruct (Z.eqb_spec (AllocCapture io) NULL); [contradiction|].
    rewrite ULONG_small
      by (unfold ULONG_MODULUS, XENSTORE_ABS_PATH_MAX in *; lia).
    destruct (poke_in_bounds PathBytes (AddWatch_PathLength In - 1) 0)
      as (PathBytes' & -> & _); [lia|].
    cbn [mbind option_bind].
    destruct (AllocStoreContext io =? NULL); [eexists; reflexivity|].
    destruct (ObReferenceObjectByHandle io _) as [status2 Event].
    destruct (NT_SUCCESS status2); cbn [negb]; [|eexists; reflexivity].
    destruct (StoreWatchAdd io _ _) as [status3 Watch].
    destruct (NT_SUCCESS status3); eexists; reflexivity.
  - eexists. reflexivity.
  - rewrite Hfault. eexists. reflexivity.
Qed.

Lemma IoctlGnttabUnmapForeignPages_returns (L : Layout) (env : KERNEL_ENV)
    (Fdo : XENIFACE_FDO) (RequestId InLen OutLen : Z) :
  sizeof_UNMAP_FOREIGN_PAGES_IN L <= Z.max InLen OutLen ->
  is_Some (IoctlGnttabUnmapForeignPages L env Fdo RequestId InLen OutLen).
Proof.
  intros Hin. unfold IoctlGnttabUnmapForeignPages.
  destruct (_ && _); [eexists; reflexivity|].
  rewrite (proj2 (Z.ltb_ge _ _)) by lia.
  destruct (IoCsqRemoveNextIrp _ _) as [[p|] rest]; [|eexists; reflexivity].
  destruct (DriverContext p); eexists; reflexivity.
Qed.

(** The [switch] has a result for every request that is in its buffer. *)
Lemma XenIfaceIoctlSwitch_returns (L : Layout) (L2 : IoctlLayout)
    (env : KERNEL_ENV) (io : IO_ENV) (Fdo : XENIFACE_FDO)
    (Request : IOCTL_REQUEST) (InLen OutLen FileObject CurrentIrp : Z) :
  0 <= InLen < ULONG_MODULUS ->
  request_in_buffer L Request InLen OutLen ->
  answers_in_bounds io ->
  is_Some (XenIfaceIoctlSwitch L L2 env io Fdo Request InLen OutLen
             FileObject CurrentIrp).
Proof.
  intros HIn Hreq Hio.
  destruct Request; cbn [XenIfaceIoctlSwitch request_in_buffer] in *.
  - destruct (IoctlStoreRead_returns io Buffer InLen OutLen Hreq Hio)
      as [[[[st B] I] t] ->]. eexists. reflexivity.
  - destruct (IoctlStoreWrite_returns io Buffer InLen OutLen Hreq HIn)
      as [[st t] ->]. eexists. reflexivity.
  - destruct (IoctlStoreDirectory_returns io Buffer InLen OutLen Hreq Hio)
      as [[[[st B] I] t] ->]. eexists. reflexivity.
  - destruct (IoctlStoreRemove_returns io Buffer InLen OutLen Hreq)
      as [[st t] ->]. eexists. reflexivity.
  - destruct Hreq as [Hin Hnonneg]. destruct Hio as (_ & _ & Hfault).
    destruct (IoctlStoreSetPermissions_cases L L2 io In InLen OutLen
                Hin Hnonneg Hfault) as (st & t & -> & _).
    eexists. reflexivity.
  - destruct Hio as (_ & _ & Hfault).
    destruct (IoctlStoreAddWatch_returns L2 io Fdo In InLen OutLen FileObject
                Hreq Hfault) as [[[[[st F] C] I] t] ->].
    eexists. reflexivity.
  - destruct (IoctlStoreRemoveWatch _ _ _ _ _ _) as [[st F] t].
    eexists. reflexivity.
  - destruct (IoctlEvtchnBindUnbound _ _ _ _ _ _ _) as [[[[st F] P] I] t].
    eexists. reflexivity.
  - destruct (IoctlEvtchnBindInterdomain _ _ _ _ _ _ _) as [[[[st F] P] I] t].
    eexists. reflexivity.
  - destruct (IoctlEvtchnClose _ _ _ _ _ _) as [[st F] t].
    eexists. reflexivity.
  - destruct (IoctlEvtchnNotify _ _ _ _ _ _) as [st t].
    eexists. reflexivity.
  - destruct (IoctlEvtchnUnmask _ _ _ _ _ _) as [st t].
    eexists. reflexivity.
  - destruct (IoctlGnttabPermitForeignAccess _ _ _ _ _ _ _) as [[st F] t].
    eexists. reflexivity.
  - destruct (IoctlGnttabGetGrantResult _ _ _ _ _ _) as [[[st F] O] I].
    eexists. reflexivity.
  - destruct (IoctlGnttabRevokeForeignAccess _ _ _ _ _ _) as [[st F] t].
    eexists. reflexivity.
  - destruct (IoctlGnttabMapForeignPages _ _ _ _ _ _ _) as [[st F] t].
    eexists. reflexivity.
  - destruct (IoctlGnttabGetMapResult _ _ _ _ _ _) as [[st A] I].
    eexists. reflexivity.
  - destruct (IoctlGnttabUnmapForeignPages_returns L env Fdo RequestId
                InLen OutLen Hreq) as [[[st F] t] ->].
    eexists. reflexivity.
  - eexists. reflexivity.
Qed.

(** X19. No request is lost and none is completed twice.  XenIfaceIoctl is
    given a request that is in its buffer and is not in the queue, neither
    before the call nor among what other requests park meanwhile; the store
    answers in bounds, and neither the store nor the locked-pages mapping
    answers STATUS_PENDING.  Then the dispatcher returns, and either the
    status is STATUS_PENDING, the request is in the queue and nothing has
    completed it; or the status is not STATUS_PENDING, the request is not
    in the queue and it has been completed exactly once, with that status.
    When the interfaces are not acquired the status is
    STATUS_DEVICE_NOT_READY, no handler runs and the FDO is as it was.
    (Nothing is stated of a request that is not in its buffer: an
    UnmapForeignPages with no output and an input shorter than its message,
    which passes the size test, or a SetPermissions whose entry count makes
    the size test wrap.) *)
Theorem XenIfaceIoctl_completes_or_parks (L : Layout) (L2 : IoctlLayout)
    (env : KERNEL_ENV) (io : IO_ENV) (InterfacesAcquired : bool)
    (Fdo : XENIFACE_FDO) (Request : IOCTL_REQUEST)
    (InLen OutLen FileObject CurrentIrp : Z) :
  0 <= InLen < ULONG_MODULUS ->
  request_in_buffer L Request InLen OutLen ->
  answers_in_bounds io ->
  never_pending env io ->
  CurrentIrp ∉ (Irp <$> IrpQueue Fdo) ->
  CurrentIrp ∉ (Irp <$> Concurrent env (IrpQueue Fdo)) ->
  exists status Fdo' Out Info tr,
    XenIfaceIoctl L L2 env io InterfacesAcquired Fdo Request InLen OutLen
      FileObject CurrentIrp
    = Some (status, Fdo', Out, Info, tr)
    /\ ((status = STATUS_PENDING
         /\ (CurrentIrp ∈ (Irp <$> IrpQueue Fdo'))
         /\ filter (fun c => c.1 = CurrentIrp) (completed (kernel_events tr))
            = [])
        \/ (status <> STATUS_PENDING
            /\ (CurrentIrp ∉ (Irp <$> IrpQueue Fdo'))
            /\ filter (fun c => c.1 = CurrentIrp)
                 (completed (kernel_events tr))
               = [(CurrentIrp, status)]))
    /\ (InterfacesAcquired = false ->
        status = STATUS_DEVICE_NOT_READY /\ Fdo' = Fdo
        /\ tr = [Kernel (EvCompleteRequest CurrentIrp
                           STATUS_DEVICE_NOT_READY)]).
Proof.
  intros HIn Hreq Hio Hbus Hnew Hnew'. unfold XenIfaceIoctl.
  destruct InterfacesAcquired; cbn [negb].
  - destruct (XenIfaceIoctlSwitch_returns L L2 env io Fdo Request InLen OutLen
                FileObject CurrentIrp HIn Hreq Hio)
      as [[[[[st F] o] i] t] Hsw].
    rewrite Hsw. cbn [mbind option_bind].
    eexists _, _, _, _, _. split; [reflexivity|]. split; [|discriminate].
    destruct (XenIfaceIoctlSwitch_outcome L L2 env io Fdo F Request InLen OutLen
                FileObject CurrentIrp st o i t Hnew Hnew' Hbus Hsw)
      as [Hall [[-> Hin]|[Hst Hout]]].
    + left. split; [reflexivity|]. split; [exact Hin|].
      cbn [Z.eqb negb]. rewrite app_nil_r. apply filter_drops_all.
      rewrite Forall_forall in Hall. exact Hall.
    + right. split; [exact Hst|]. split; [exact Hout|].
      destruct (Z.eqb_spec st STATUS_PENDING) as [|_]; [contradiction|].
      cbn [negb]. rewrite kernel_events_app, completed_app, filter_app.
      rewrite (filter_drops_all (fun c => c.1 = CurrentIrp))
        by (rewrite Forall_forall in Hall; exact Hall).
      match goal with
      | |- context [filter _ (completed ?t)] =>
          change (completed t) with [(CurrentIrp, st)]
      end.
      rewrite filter_cons_True by reflexivity. reflexivity.
  - cbn [mbind option_bind]. eexists _, _, _, _, _.
    split; [reflexivity|]. split.
    + right. split; [discriminate|]. split; [exact Hnew|].
      match goal with
      | |- context [filter _ (completed ?t)] =>
          change (completed t) with [(CurrentIrp, STATUS_DEVICE_NOT_READY)]
      end.
      rewrite filter_cons_True by reflexivity. reflexivity.
    + intros _. repeat split; reflexivity.
Qed.

Lemma XenIfaceIoctl_completes_or_parks_witness :
  exists Fdo' tr,
    XenIfaceIoctl example_layout example_ioctl_layout (example_env None)
      example_io true example_Fdo
      (IOCTL_XENIFACE_GNTTAB_PERMIT_FOREIGN_ACCESS (example_permit_in 2 0 0))
      24 0 1 77
    = Some (STATUS_PENDING, Fdo', OutputNone, None, tr)
    /\ (77 ∈ (Irp <$> IrpQueue Fdo'))
    /\ filter (fun c => c.1 = 77) (completed (kernel_events tr)) = [].
Proof.
  destruct (XenIfaceIoctl_completes_or_parks example_layout
              example_ioctl_layout (example_env None) example_io true
              example_Fdo
              (IOCTL_XENIFACE_GNTTAB_PERMIT_FOREIGN_ACCESS
                 (example_permit_in 2 0 0))
              24 0 1 77)
    as (status & Fdo' & Out & Info & tr & Hrun & Hcases & _).
  - vm_compute. split; [discriminate | reflexivity].
  - exact I.
  - split; [|split]; [intros path _ | intros path _ | reflexivity];
      (split; [eexists; reflexivity | vm_compute; reflexivity]).
  - repeat split; intros; discriminate.
  - cbn. apply not_elem_of_nil.
  - cbn. apply not_elem_of_nil.
  - pose proof Hrun as Hval. vm_compute in Hval.
    injection Hval as Hs _ HO HI _.
    assert (Hpending : status = STATUS_PENDING)
      by (rewrite <- Hs; reflexivity).
    subst status Out Info.
    destruct Hcases as [(_ & Hin & Hnone)|(Hst & _)]; [|contradiction].
    exists Fdo', tr. split; [exact Hrun|]. split; [exact Hin | exact Hnone].
Defined.

(** ** What reaches the store *)

Lemma IsValidStr_c_str (isprint : Z -> bool) (Str : list Z) (Len : nat) :
  __IsValidStr isprint Str Len = Some true -> printable isprint (c_str Str).
Proof.
  intros H. destruct (IsValidStr_true _ _ _ H) as (s & rest & -> & _ & Hs).
  rewrite (c_str_app _ _ (printable_nonzero _ _ Hs)). exact Hs.
Qed.

Ltac strings_done :=
  cbn [store_strings flat_map app];
  repeat first [apply Forall_nil_2 | apply Forall_cons_2; [assumption|]].

(** X20. Whatever the system buffer holds, every string that IoctlStoreRead,
    IoctlStoreWrite, IoctlStoreDirectory and IoctlStoreRemove give to the
    store, as a path or as a value, is a string of printable bytes. *)
Theorem store_is_given_printable_strings (io : IO_ENV) (Buffer : list Z)
    (InLen OutLen : Z) :
  match IoctlStoreRead io Buffer InLen OutLen with
  | Some (_, _, _, tr) => Forall (printable (isprint io)) (store_strings tr)
  | None => True
  end
  /\ match IoctlStoreWrite io Buffer InLen OutLen with
     | Some (_, tr) => Forall (printable (isprint io)) (store_strings tr)
     | None => True
     end
  /\ match IoctlStoreDirectory io Buffer InLen OutLen with
     | Some (_, _, _, tr) => Forall (printable (isprint io)) (store_strings tr)
     | None => True
     end
  /\ match IoctlStoreRemove io Buffer InLen OutLen with
     | Some (_, tr) => Forall (printable (isprint io)) (store_strings tr)
     | None => True
     end.
Proof.
  split; [|split; [|split]].
  - unfold IoctlStoreRead. destruct (InLen =? 0); [strings_done|].
    destruct (__IsValidStr _ _ _) as [[|]|] eqn:Hv;
      cbn [mbind option_bind negb]; [|strings_done|exact I].
    pose proof (IsValidStr_c_str _ _ _ Hv) as Hp.
    destruct (StoreRead io _) as [[status Value] ValueBytes].
    destruct (NT_SUCCESS status); cbn [negb];
      [|strings_done].
    destruct (strlen ValueBytes); cbn [mbind option_bind]; [|exact I].
    destruct (OutLen =? 0); [strings_done|].
    destruct (OutLen <? _); [strings_done|].
    destruct (RtlCopyMemory _ _ _); cbn [mbind option_bind]; [|exact I].
    destruct (poke _ _ _); cbn [mbind option_bind]; [|exact I].
    strings_done.
  - unfold IoctlStoreWrite. destruct (_ || _); [strings_done|].
    destruct (__IsValidStr (isprint io) Buffer (Z.to_nat InLen))
      as [[|]|] eqn:Hv;
      cbn [mbind option_bind negb]; [|strings_done|exact I].
    pose proof (IsValidStr_c_str _ _ _ Hv) as Hp.
    destruct (strlen Buffer); cbn [mbind option_bind]; [|exact I].
    destruct (__IsValidStr _ (drop _ _) _) as [[|]|] eqn:Hv2;
      cbn [mbind option_bind negb]; [|strings_done|exact I].
    pose proof (IsValidStr_c_str _ _ _ Hv2) as Hp2.
    strings_done.
  - unfold IoctlStoreDirectory. destruct (InLen =? 0); [strings_done|].
    destruct (__IsValidStr _ _ _) as [[|]|] eqn:Hv;
      cbn [mbind option_bind negb]; [|strings_done|exact I].
    pose proof (IsValidStr_c_str _ _ _ Hv) as Hp.
    destruct (StoreDirectory io _) as [[status Value] ValueBytes].
    destruct (NT_SUCCESS status); cbn [negb];
      [|strings_done].
    destruct (__MultiSzLen ValueBytes) as [[n Count]|];
      cbn [mbind option_bind]; [|exact I].
    destruct (OutLen =? 0); [strings_done|].
    destruct (OutLen <? _); [strings_done|].
    destruct (RtlCopyMemory _ _ _); cbn [mbind option_bind]; [|exact I].
    destruct (poke _ _ _); cbn [mbind option_bind]; [|exact I].
    destruct (poke _ _ _); cbn [mbind option_bind]; [|exact I].
    strings_done.
  - unfold IoctlStoreRemove. destruct (_ || _); [strings_done|].
    destruct (__IsValidStr _ _ _) as [[|]|] eqn:Hv;
      cbn [mbind option_bind negb]; [|strings_done|exact I].
    pose proof (IsValidStr_c_str _ _ _ Hv) as Hp.
    strings_done.
Qed.

Lemma ProbeAndCopy_lookup (mem : Z -> option Z) :
  forall (Length : nat) (Buffer : Z) (bytes : list Z),
    ProbeAndCopy mem Buffer Length = Some bytes ->
    forall i, (i < Length)%nat -> mem (Buffer + Z.of_nat i) = bytes !! i.
Proof.
  induction Length as [|n IH]; intros Buffer bytes Hcopy i Hi; [lia|].
  cbn [ProbeAndCopy] in Hcopy.
  destruct (mem Buffer) as [b|] eqn:Hb; [|discriminate].
  cbn [mbind option_bind] in Hcopy.
  destruct (ProbeAndCopy mem (Buffer + 1) n) as [rest|] eqn:Hrest;
    [|discriminate].
  cbn [mbind option_bind] in Hcopy. injection Hcopy as <-.
  destruct i as [|i].
  - cbn. rewrite Z.add_0_r. exact Hb.
  - cbn [lookup list_lookup].
    replace (Buffer + Z.of_nat (S i)) with (Buffer + 1 + Z.of_nat i) by lia.
    apply (IH _ _ Hrest). lia.
Qed.

(** The copy succeeds exactly when every byte of the range can be read. *)
Lemma ProbeAndCopy_readable (mem : Z -> option Z) :
  forall (Length : nat) (Buffer : Z),
    is_Some (ProbeAndCopy mem Buffer Length)
    <-> forall i, (i < Length)%nat -> is_Some (mem (Buffer + Z.of_nat i)).
Proof.
  induction Length as [|n IH]; intros Buffer.
  - split; [intros _ i Hi; lia | intros _; eexists; reflexivity].
  - cbn [ProbeAndCopy]. split.
    + intros [bytes Hcopy] i Hi.
      destruct (mem Buffer) as [b|] eqn:Hb; [|discriminate].
      cbn [mbind option_bind] in Hcopy.
      destruct (ProbeAndCopy mem (Buffer + 1) n) as [rest|] eqn:Hrest;
        [|discriminate].
      destruct i as [|i].
      * rewrite Z.add_0_r, Hb. eexists. reflexivity.
      * replace (Buffer + Z.of_nat (S i)) with (Buffer + 1 + Z.of_nat i)
          by lia.
        apply (proj1 (IH (Buffer + 1))); [eexists; exact Hrest | lia].
    + intros Hall.
      destruct (Hall 0%nat ltac:(lia)) as [b Hb].
      rewrite Z.add_0_r in Hb. rewrite Hb. cbn [mbind option_bind].
      destruct (proj2 (IH (Buffer + 1))) as [rest ->].
      * intros i Hi. specialize (Hall (S i) ltac:(lia)).
        replace (Buffer + Z.of_nat (S i)) with (Buffer + 1 + Z.of_nat i)
          in Hall by lia.
        exact Hall.
      * eexists. reflexivity.
Qed.

(** X21. __CaptureUserBuffer, for a length that is not 0, ends in one of
    three ways, each with its cause.  When the pool has no block, the
    status is STATUS_INSUFFICIENT_RESOURCES, the function returns without
    writing [*CapturedBuffer], and nothing is taken or freed.  When the
    pool gives a block and every byte of the user range can be read, the
    status is STATUS_SUCCESS and [*CapturedBuffer] is that block, which
    holds exactly [Length] bytes, those of user memory at the address
    given; it is the one block taken and it is not freed.  When the pool
    gives a block and some byte of the range cannot be read, the status is
    the exception code, [*CapturedBuffer] is NULL, and the block taken has
    been given back. *)
Theorem CaptureUserBuffer_copies_or_releases (io : IO_ENV)
    (Buffer Length : Z) :
  0 < Length ->
  let '(status, CapturedBuffer, PathBytes, tr) :=
    __CaptureUserBuffer io Buffer Length in
  let readable :=
    forall i, (i < Z.to_nat Length)%nat ->
              is_Some (UserMemory io (Buffer + Z.of_nat i)) in
  (AllocCapture io = NULL ->
   status = STATUS_INSUFFICIENT_RESOURCES /\ CapturedBuffer = None
   /\ allocated (kernel_events tr) = []
   /\ released (kernel_events tr) = [])
  /\ (AllocCapture io <> NULL -> readable ->
      status = STATUS_SUCCESS /\ CapturedBuffer = Some (AllocCapture io)
      /\ Z.of_nat (length PathBytes) = Length
      /\ (forall i, (i < Z.to_nat Length)%nat ->
                    UserMemory io (Buffer + Z.of_nat i) = PathBytes !! i)
      /\ allocated (kernel_events tr) = [AllocCapture io]
      /\ released (kernel_events tr) = [])
  /\ (AllocCapture io <> NULL -> ~ readable ->
      status = ProbeException io /\ CapturedBuffer = Some NULL
      /\ allocated (kernel_events tr) = [AllocCapture io]
      /\ released (kernel_events tr) = [AllocCapture io]).
Proof.
  intros Hpos.
  pose proof (CaptureUserBuffer_cases io Buffer Length Hpos) as Hcap.
  pose proof (ProbeAndCopy_readable (UserMemory io) (Z.to_nat Length) Buffer)
    as Hiff.
  destruct (__CaptureUserBuffer io Buffer Length)
    as [[[status Captured] PathBytes] tr].
  cbn zeta.
  destruct Hcap as [(-> & -> & Hpath & Hlen & Hcopy & ->)
                   |[(-> & -> & Halloc & ->)
                    |(-> & -> & Hpath & Hcopy & ->)]].
  - assert (Hn : (AllocCapture io =? NULL) = false)
      by (apply Z.eqb_neq; assumption).
    split; [intros E; contradiction|]. split.
    + intros _ _. split; [reflexivity|]. split; [reflexivity|].
      split; [exact Hlen|].
      split; [exact (ProbeAndCopy_lookup _ _ _ _ Hcopy)|].
      cbn. rewrite Hn. split; reflexivity.
    + intros _ Hnot. exfalso. apply Hnot, Hiff. eexists. exact Hcopy.
  - split; [|split; intros Hne; contradiction].
    intros _. repeat split.
  - assert (Hn : (AllocCapture io =? NULL) = false)
      by (apply Z.eqb_neq; assumption).
    split; [intros E; contradiction|]. split.
    + intros _ Hall. apply Hiff in Hall. destruct Hall as [bytes Hb].
      congruence.
    + intros _ _. cbn. rewrite Hn. repeat split.
Qed.

(** Four readable bytes are copied; a range that runs past the readable
    bytes faults and the block is given back. *)
Lemma CaptureUserBuffer_copies_or_releases_witness :
  __CaptureUserBuffer example_io 0x10000 4
  = (STATUS_SUCCESS, Some 0x4000, [112; 112; 112; 112],
     [Kernel (EvAllocatePool 0x4000 4); EvProbeForRead 0x10000 4 true])
  /\ (let '(status, CapturedBuffer, _, tr) :=
        __CaptureUserBuffer example_io 0x1000E 4 in
      status = ProbeException example_io /\ CapturedBuffer = Some NULL
      /\ allocated (kernel_events tr) = [0x4000]
      /\ released (kernel_events tr) = [0x4000]).
Proof.
  split; [reflexivity|].
  pose proof (CaptureUserBuffer_copies_or_releases example_io 0x1000E 4
                eq_refl) as H.
  destruct (__CaptureUserBuffer example_io 0x1000E 4)
    as [[[status Captured] PathBytes] tr].
  destruct H as (_ & _ & Hfault). apply Hfault.
  - discriminate.
  - intros Hall. destruct (Hall 2%nat ltac:(cbn; lia)) as [b Hb].
    vm_compute in Hb. discriminate.
Defined.

(** ** Cancellation *)

Lemma attached_app (a b : list event) :
  attached (a ++ b) = attached a ++ attached b.
Proof. apply omap_app. Qed.

Lemma detached_app (a b : list event) :
  detached (a ++ b) = detached a ++ detached b.
Proof. apply omap_app. Qed.

Lemma GnttabNotify_stays (Fdo : XENIFACE_FDO) (Flags KernelVa Offset Port : Z) :
  attached (GnttabNotify Fdo Flags KernelVa Offset Port) = []
  /\ detached (GnttabNotify Fdo Flags KernelVa Offset Port) = [].
Proof.
  unfold GnttabNotify, EvtchnNotify.
  destruct (flag_set Flags XENIFACE_GNTTAB_USE_NOTIFY_OFFSET);
    destruct (flag_set Flags XENIFACE_GNTTAB_USE_NOTIFY_PORT);
    try destruct (EvtchnFindChannel _ _ _); split; reflexivity.
Qed.

Lemma RevokeForward_stays (Grants : list Z) :
  forall count Page,
    attached (RevokeForward Grants count Page) = []
    /\ detached (RevokeForward Grants count Page) = []
    /\ unmapped (RevokeForward Grants count Page) = [].
Proof.
  induction count as [|count IH]; intros Page; [repeat split|].
  destruct (IH (S Page)) as (H1 & H2 & H3). cbn [RevokeForward].
  repeat split; cbn; assumption.
Qed.

(** What the free routines give back, and that they stay in the process
    they are called in. *)
Lemma GnttabFreeGrant_gives_back (Fdo : XENIFACE_FDO)
    (g : XENIFACE_GRANT_CONTEXT) :
  released (GnttabFreeGrant Fdo g)
  = [Grant_Mdl g; Grant_KernelVa g; Grant_GrantsVa g; Grant_Self g]
  /\ user_unmapped (GnttabFreeGrant Fdo g) = [(Grant_UserVa g, Grant_Mdl g)]
  /\ unmapped (GnttabFreeGrant Fdo g) = []
  /\ completed (GnttabFreeGrant Fdo g) = []
  /\ attached (GnttabFreeGrant Fdo g) = []
  /\ detached (GnttabFreeGrant Fdo g) = [].
Proof.
  destruct (GnttabNotify_quiet Fdo (Grant_Flags g) (Grant_KernelVa g)
              (Grant_NotifyOffset g) (Grant_NotifyPort g)) as (N1 & N2 & N3).
  destruct (GnttabNotify_stays Fdo (Grant_Flags g) (Grant_KernelVa g)
              (Grant_NotifyOffset g) (Grant_NotifyPort g)) as (N4 & N5).
  destruct (GnttabNotify_silent Fdo (Grant_Flags g) (Grant_KernelVa g)
              (Grant_NotifyOffset g) (Grant_NotifyPort g))
    as (_ & _ & _ & N6 & _).
  destruct (RevokeForward_quiet (Grant_Grants g)
              (Z.to_nat (Grant_NumberPages g)) 0) as (R1 & R2 & R3).
  destruct (RevokeForward_stays (Grant_Grants g)
              (Z.to_nat (Grant_NumberPages g)) 0) as (R4 & R5 & R6).
  unfold GnttabFreeGrant. trace_norm2. rewrite !attached_app, !detached_app.
  rewrite N1, N2, N3, N4, N5, N6, R1, R2, R3, R4, R5, R6.
  repeat split; reflexivity.
Qed.

Lemma GnttabFreeMap_gives_back (Fdo : XENIFACE_FDO)
    (m : XENIFACE_MAP_CONTEXT) :
  released (GnttabFreeMap Fdo m) = [Map_Mdl m; Map_Self m]
  /\ user_unmapped (GnttabFreeMap Fdo m) = [(Map_UserVa m, Map_Mdl m)]
  /\ unmapped (GnttabFreeMap Fdo m) = [Map_Address m]
  /\ revoked (GnttabFreeMap Fdo m) = []
  /\ completed (GnttabFreeMap Fdo m) = []
  /\ attached (GnttabFreeMap Fdo m) = []
  /\ detached (GnttabFreeMap Fdo m) = [].
Proof.
  destruct (GnttabNotify_quiet Fdo (Map_Flags m) (Map_KernelVa m)
              (Map_NotifyOffset m) (Map_NotifyPort m)) as (N1 & N2 & N3).
  destruct (GnttabNotify_stays Fdo (Map_Flags m) (Map_KernelVa m)
              (Map_NotifyOffset m) (Map_NotifyPort m)) as (N4 & N5).
  destruct (GnttabNotify_silent Fdo (Map_Flags m) (Map_KernelVa m)
              (Map_NotifyOffset m) (Map_NotifyPort m))
    as (_ & N7 & _ & N6 & _).
  unfold GnttabFreeMap. trace_norm2. rewrite !attached_app, !detached_app.
  rewrite N1, N2, N3, N4, N5, N6, N7. repeat split; reflexivity.
Qed.

(** X22. A parked request that is cancelled.  [tr1] is the trace of the
    PermitForeignAccess or MapForeignPages that parked the request, [Fdo1]
    the FDO it left.  Whatever process the work item runs in,
    CompleteGnttabIrp on the parked request gives back every block the
    request took, the last taken first; it undoes the user-space mapping,
    revokes the entries acquired and unmaps the pages mapped; it attaches to
    the process that made the request exactly when it runs in another one,
    and detaches as often as it attaches; and it completes the request once,
    with STATUS_CANCELLED. *)
Theorem cancelled_request_returns_every_resource (L : Layout)
    (env env' : KERNEL_ENV) (Fdo Fdo1 : XENIFACE_FDO)
    (InLen OutLen CurrentIrp : Z) (tr1 : list event) :
  MapLockedPages env <> MapRaised STATUS_PENDING ->
  (exists In,
      IoctlGnttabPermitForeignAccess L env Fdo In InLen OutLen CurrentIrp
      = (STATUS_PENDING, Fdo1, tr1))
  \/ (exists In,
        IoctlGnttabMapForeignPages L env Fdo In InLen OutLen CurrentIrp
        = (STATUS_PENDING, Fdo1, tr1)) ->
  exists Pending,
    last (IrpQueue Fdo1) = Some Pending
    /\ Irp Pending = CurrentIrp
    /\ let tr2 := CompleteGnttabIrp env' Fdo1 Pending in
       released tr2 = reverse (allocated tr1)
       /\ user_unmapped tr2 = user_mapped tr1
       /\ revoked tr2 = acquired tr1
       /\ unmapped tr2 = mapped tr1
       /\ attached tr2
          = (if PsGetCurrentProcess env' =? PsGetCurrentProcess env
             then [] else [PsGetCurrentProcess env])
       /\ length (detached tr2) = length (attached tr2)
       /\ completed tr2 = [(CurrentIrp, STATUS_CANCELLED)].
Proof.
  intros Hraise [[In Hrun]|[In Hrun]].
  - destruct (PermitForeignAccess_pending L env Fdo Fdo1 In InLen OutLen
                CurrentIrp tr1 Hraise Hrun)
      as (g & -> & _ & Hproc & _ & Hn & Hgr & Hlen & Hal & _ & _ & Hum & _
          & Hma).
    eexists. split; [cbn [IrpQueue set_IrpQueue]; apply last_snoc|].
    split; [reflexivity|]. cbn zeta.
    set (Fdo1 := set_IrpQueue Fdo _).
    destruct (GnttabFreeGrant_gives_back Fdo1 g)
      as (G1 & G2 & G3 & G4 & G5 & G6).
    assert (G7 : revoked (GnttabFreeGrant Fdo1 g) = Grant_Grants g).
    { apply GnttabFreeGrant_revoked. rewrite Hgr, Hn. exact Hlen. }
    unfold CompleteGnttabIrp. cbn [DriverContext ContextId Id_Process Irp].
    rewrite Hproc. trace_norm2. rewrite !attached_app, !detached_app.
    rewrite G1, G2, G3, G4, G5, G6, G7, Hal, Hum, Hgr, Hma.
    destruct (PsGetCurrentProcess env' =? PsGetCurrentProcess env);
      cbn; rewrite ?app_nil_r; repeat split; reflexivity.
  - destruct (MapForeignPages_pending L env Fdo Fdo1 In InLen OutLen
                CurrentIrp tr1 Hraise Hrun)
      as (m & -> & _ & Hproc & _ & _ & Hal & Hma & _ & Hum & _ & Hac).
    eexists. split; [cbn [IrpQueue set_IrpQueue]; apply last_snoc|].
    split; [reflexivity|]. cbn zeta.
    set (Fdo1 := set_IrpQueue Fdo _).
    destruct (GnttabFreeMap_gives_back Fdo1 m)
      as (G1 & G2 & G3 & G7 & G4 & G5 & G6).
    unfold CompleteGnttabIrp. cbn [DriverContext ContextId Id_Process Irp].
    rewrite Hproc. trace_norm2. rewrite !attached_app, !detached_app.
    rewrite G1, G2, G3, G4, G5, G6, G7, Hal, Hum, Hma, Hac.
    destruct (PsGetCurrentProcess env' =? PsGetCurrentProcess env);
      cbn; rewrite ?app_nil_r; repeat split; reflexivity.
Qed.

Lemma cancelled_request_returns_every_resource_witness :
  exists Fdo1 tr1 Pending,
    IoctlGnttabPermitForeignAccess example_layout (example_env None)
      example_Fdo (example_permit_in 2 0 0) 24 0 77
    = (STATUS_PENDING, Fdo1, tr1)
    /\ last (IrpQueue Fdo1) = Some Pending
    /\ Irp Pending = 77
    /\ let tr2 := CompleteGnttabIrp example_env_other_process Fdo1 Pending in
       released tr2 = reverse (allocated tr1)
       /\ user_unmapped tr2 = user_mapped tr1
       /\ revoked tr2 = acquired tr1
       /\ unmapped tr2 = mapped tr1
       /\ attached tr2 = [0x7000]
       /\ length (detached tr2) = length (attached tr2)
       /\ completed tr2 = [(77, STATUS_CANCELLED)].
Proof.
  eexists _, _.
  destruct (cancelled_request_returns_every_resource example_layout
              (example_env None) example_env_other_process example_Fdo _
              24 0 77 _ ltac:(discriminate)
              (or_introl (ex_intro _ (example_permit_in 2 0 0) eq_refl)))
    as (Pending & H).
  exists Pending. split; [reflexivity | exact H].
Defined.

(** ** The channel lookup on the links *)

(** X23. EvtchnFindChannel as the driver runs it, on LIST_ENTRY links that
    hold the channel list.  The loop, whose test compares [Node->Flink]
    with the head's Flink, ends within one step per entry and one more, and
    returns what the search of the list of entries returns: the address of
    the first entry that matches, the last entry of the list being looked
    at like the others, or NULL when none matches or the list is empty. *)
Theorem EvtchnFindChannel_walk_on_links
    (EvtchnAt : Z -> XENIFACE_EVTCHN_CONTEXT)
    (Head LocalPort FileObject : Z) (cs : list Z) (m : LINKS) (fuel : nat) :
  (forall a, Evtchn_Self (EvtchnAt a) = a) ->
  dll m Head cs ->
  (length cs < fuel)%nat ->
  EvtchnFindChannelLoop fuel EvtchnAt Head LocalPort FileObject
    (Flink m Head) m
  = Some (from_option Evtchn_Self NULL
            (EvtchnFindChannel (EvtchnAt <$> cs) LocalPort FileObject)).
Proof.
  intros Hself Hd Hfuel. rewrite (dll_flink_head _ _ _ Hd).
  exact (EvtchnFindChannelLoop_refines EvtchnAt Head FileObject Hself
           LocalPort cs [] m fuel Hd Hfuel).
Qed.

Lemma EvtchnFindChannel_walk_on_links_witness :
  EvtchnFindChannelLoop 3 example_EvtchnAt 0x200 6 2
    (Flink example_links 0x200) example_links
  = Some (from_option Evtchn_Self NULL
            (EvtchnFindChannel (example_EvtchnAt <$> [0x9000; 0x9400]) 6 2)).
Proof.
  apply (EvtchnFindChannel_walk_on_links example_EvtchnAt 0x200 6 2
           [0x9000; 0x9400] example_links 3).
  - reflexivity.
  - split; [apply (bool_decide_unpack _); vm_compute; reflexivity|].
    vm_compute. repeat split; reflexivity.
  - cbn. lia.
Defined.
